(** * Viona-Pro: role resolution, organization lifecycle and stock movements

    A shallow embedding of the server actions of the Viona inventory
    application ([lib/auth.ts], [app/organization/actions.ts] and
    [app/inventory/actions.ts]) and the properties that the design
    document states about them.

    The server actions are [async] functions that talk to a relational store
    through the Prisma client, to the Clerk identity provider and to a cache.
    They are embedded as computations in a state-and-exception monad over a
    [World] that holds the store, the request's session and an oracle that
    says which of the coming round-trips fail. *)

From Stdlib Require Import ZArith QArith_base String Ascii List Bool Lia DecimalString.
From Stdlib Require DecimalPos.
From stdpp Require Import base option list gmap strings fin_maps.

Local Open Scope string_scope.
Local Open Scope Z_scope.

(** ** JavaScript strings

    Strings are sequences of code units below 256. *)
Module Js.

(** [WhiteSpace] and [LineTerminator] code units, the ones [trim] removes. *)
Definition is_ws (c : ascii) : bool :=
  match nat_of_ascii c with
  | 9%nat | 10%nat | 11%nat | 12%nat | 13%nat | 32%nat | 160%nat => true
  | _ => false
  end.

Fixpoint trimStart (s : string) : string :=
  match s with
  | EmptyString => EmptyString
  | String c t => if is_ws c then trimStart t else s
  end.

Fixpoint trimEnd (s : string) : string :=
  match s with
  | EmptyString => EmptyString
  | String c t =>
      match trimEnd t with
      | EmptyString => if is_ws c then EmptyString else String c EmptyString
      | t' => String c t'
      end
  end.

Definition trim (s : string) : string := trimEnd (trimStart s).

(** Truthiness of a string: only the empty string is falsy. *)
Definition truthy (s : string) : bool :=
  match s with EmptyString => false | _ => true end.

(** Truthiness of [string | null | undefined]. *)
Definition truthy_opt (s : option string) : bool :=
  match s with Some s => truthy s | None => false end.

(** [s.includes(sub)]. *)
Fixpoint includes (s sub : string) : bool :=
  String.prefix sub s
  || match s with
     | EmptyString => false
     | String _ t => includes t sub
     end.

(** [requiredRoles.includes(role)] on an array of strings. *)
Definition array_includes (l : list string) (x : string) : bool :=
  existsb (String.eqb x) l.

(** Value of a code unit as a digit in the given radix. *)
Definition digit_val (radix : Z) (c : ascii) : option Z :=
  let n := Z.of_nat (nat_of_ascii c) in
  let v := if (48 <=? n) && (n <=? 57) then Some (n - 48)
           else if (97 <=? n) && (n <=? 102) then Some (n - 87)
           else if (65 <=? n) && (n <=? 70) then Some (n - 55)
           else None in
  match v with
  | Some d => if d <? radix then Some d else None
  | None => None
  end.

Fixpoint parse_digits (radix : Z) (s : string) (acc : Z) : option Z :=
  match s with
  | EmptyString => Some acc
  | String c t =>
      match digit_val radix c with
      | Some d => parse_digits radix t (acc * radix + d)
      | None => None
      end
  end.

Definition parse_nonempty (radix : Z) (s : string) : option Z :=
  match s with
  | EmptyString => None
  | _ => parse_digits radix s 0
  end.

(** [BigInt(s)] on a string, [None] when it throws a [SyntaxError]:
    [StringToBigInt] trims, reads the empty string as zero, a decimal literal
    with an optional sign, or an unsigned binary, octal or hexadecimal one. *)
Definition BigInt (s : string) : option Z :=
  match trim s with
  | EmptyString => Some 0
  | String "+" r => parse_nonempty 10 r
  | String "-" r => Z.opp <$> parse_nonempty 10 r
  | String "0" (String x r) as t =>
      if (Ascii.eqb x "b" || Ascii.eqb x "B")%bool then parse_nonempty 2 r
      else if (Ascii.eqb x "o" || Ascii.eqb x "O")%bool then parse_nonempty 8 r
      else if (Ascii.eqb x "x" || Ascii.eqb x "X")%bool then parse_nonempty 16 r
      else parse_nonempty 10 t
  | t => parse_nonempty 10 t
  end.

(** The message of the [SyntaxError] that [BigInt(s)] throws. *)
Definition BigInt_error (s : string) : string :=
  "Cannot convert " +:+ s +:+ " to a BigInt".

(** [/^\d+$/.test(s)]. *)
Definition is_digit (c : ascii) : bool :=
  let n := nat_of_ascii c in (48 <=? n)%nat && (n <=? 57)%nat.

Fixpoint all_digits (s : string) : bool :=
  match s with
  | EmptyString => true
  | String c t => is_digit c && all_digits t
  end.

Definition numeric (s : string) : bool := truthy s && all_digits s.

(** [`${n}`] for a count and for a [BigInt]. *)
Definition show_nat (n : nat) : string := NilZero.string_of_uint (Nat.to_uint n).
Definition show_Z (z : Z) : string := NilZero.string_of_int (Z.to_int z).

(** [Number(b)] on a [BigInt], and the rounding of an integer result of
    number arithmetic: the nearest double, ties to even.  Integers of at
    most 53 significant bits are exact. *)
Definition Number (z : Z) : Z :=
  let a := Z.abs z in
  let n := Z.log2 a + 1 in
  if n <=? 53 then z
  else
    let sh := n - 53 in
    let q := Z.shiftr a sh in
    let r := Z.land a (Z.ones sh) in
    let half := Z.shiftl 1 (sh - 1) in
    let up := if (half <? r) || ((r =? half) && Z.odd q) then 1 else 0 in
    Z.sgn z * Z.shiftl (q + up) sh.

End Js.

(** ** The store *)

Record User := mkUser { user_id : Z; email : string }.

Record Organization := mkOrg { org_name : string; created_by : Z }.

Record Invite := mkInvite {
  inv_org : Z; inv_email : string; inv_role : string;
  inv_status : string; expires_at : option Z }.

Record Warehouse := mkWarehouse {
  warehouse_id : Z; wh_org : Z; wh_name : string; wh_address : string }.

Record Product := mkProduct {
  product_id : Z; p_org : Z; p_name : string; p_sku : string;
  p_description : option string; p_image_url : option string;
  p_status : string; p_created_by : Z; p_modified_by : option Z }.

Record ProductStock := mkStock {
  stock_id : Z; ps_product : Z; ps_warehouse : Z; quantity : Z }.

Record ProductPrice := mkPrice {
  price_id : Z; pp_product : Z; retail_price : Q; actual_price : option Q;
  market_price : option Q; valid_from : Z; valid_to : option Z }.

Record StockMovement := mkMovement {
  sm_product : Z; sm_warehouse : Z; sm_type : string; sm_quantity : Z;
  sm_reason : string; sm_notes : option string; sm_created_by : Z }.

Record Order := mkOrder { order_id : Z; o_org : Z }.

Record OrderItem := mkOrderItem {
  order_item_id : Z; oi_order : Z; oi_product : Z }.

(** Tables with a unique key the code looks rows up by are finite maps on that
    key: users by [clerk_id], organizations by [org_id], members by the
    compound key [org_id_user_id] (the value is the role), invites by
    [token].  The others are lists of rows in the order the store returns
    them. *)
Record DB := mkDB {
  users : gmap string User;
  organizations : gmap Z Organization;
  members : gmap (Z * Z) string;
  invites : gmap string Invite;
  warehouses : list Warehouse;
  products : list Product;
  productStocks : list ProductStock;
  productPrices : list ProductPrice;
  stockMovements : list StockMovement;
  orders : list Order;
  orderItems : list OrderItem }.

Definition set_users (f : gmap string User → gmap string User) (d : DB) : DB :=
  mkDB (f (users d)) (organizations d) (members d) (invites d) (warehouses d)
    (products d) (productStocks d) (productPrices d) (stockMovements d)
    (orders d) (orderItems d).
Definition set_organizations (f : gmap Z Organization → gmap Z Organization) (d : DB) : DB :=
  mkDB (users d) (f (organizations d)) (members d) (invites d) (warehouses d)
    (products d) (productStocks d) (productPrices d) (stockMovements d)
    (orders d) (orderItems d).
Definition set_members (f : gmap (Z * Z) string → gmap (Z * Z) string) (d : DB) : DB :=
  mkDB (users d) (organizations d) (f (members d)) (invites d) (warehouses d)
    (products d) (productStocks d) (productPrices d) (stockMovements d)
    (orders d) (orderItems d).
Definition set_invites (f : gmap string Invite → gmap string Invite) (d : DB) : DB :=
  mkDB (users d) (organizations d) (members d) (f (invites d)) (warehouses d)
    (products d) (productStocks d) (productPrices d) (stockMovements d)
    (orders d) (orderItems d).
Definition set_warehouses (f : list Warehouse → list Warehouse) (d : DB) : DB :=
  mkDB (users d) (organizations d) (members d) (invites d) (f (warehouses d))
    (products d) (productStocks d) (productPrices d) (stockMovements d)
    (orders d) (orderItems d).
Definition set_products (f : list Product → list Product) (d : DB) : DB :=
  mkDB (users d) (organizations d) (members d) (invites d) (warehouses d)
    (f (products d)) (productStocks d) (productPrices d) (stockMovements d)
    (orders d) (orderItems d).
Definition set_productStocks (f : list ProductStock → list ProductStock) (d : DB) : DB :=
  mkDB (users d) (organizations d) (members d) (invites d) (warehouses d)
    (products d) (f (productStocks d)) (productPrices d) (stockMovements d)
    (orders d) (orderItems d).
Definition set_productPrices (f : list ProductPrice → list ProductPrice) (d : DB) : DB :=
  mkDB (users d) (organizations d) (members d) (invites d) (warehouses d)
    (products d) (productStocks d) (f (productPrices d)) (stockMovements d)
    (orders d) (orderItems d).
Definition set_stockMovements (f : list StockMovement → list StockMovement) (d : DB) : DB :=
  mkDB (users d) (organizations d) (members d) (invites d) (warehouses d)
    (products d) (productStocks d) (productPrices d) (f (stockMovements d))
    (orders d) (orderItems d).
Definition set_orders (f : list Order → list Order) (d : DB) : DB :=
  mkDB (users d) (organizations d) (members d) (invites d) (warehouses d)
    (products d) (productStocks d) (productPrices d) (stockMovements d)
    (f (orders d)) (orderItems d).
Definition set_orderItems (f : list OrderItem → list OrderItem) (d : DB) : DB :=
  mkDB (users d) (organizations d) (members d) (invites d) (warehouses d)
    (products d) (productStocks d) (productPrices d) (stockMovements d)
    (orders d) (f (orderItems d)).

(** [create] and [createMany] add rows at the end of a table. *)
Definition append {A} (rows : list A) (l : list A) : list A := (l ++ rows)%list.

(** ** The world of one request *)

Inductive Table :=
  | TUser | TOrganization | TMember | TInvite | TWarehouse | TProduct
  | TProductStock | TProductPrice | TStockMovement | TOrder | TOrderItem.

(** The write statements sent to the store, in the order they are sent. *)
Inductive Stmt :=
  | Create (t : Table)
  | Update (t : Table)
  | Upsert (t : Table)
  | Delete (t : Table).

(** [tx.*] calls run inside the open interactive transaction; [prisma.*]
    calls run on the client itself and are committed at once, also when made
    from inside a transaction callback. *)
Inductive Client := Prisma | Tx.

(** - [db]: the store as the running request sees it;
    - [base]: while an interactive transaction is open, the committed store
      it falls back to when the callback throws;
    - [nextId]: the sequence the store draws autoincremented keys from;
    - [session]: [auth().userId];
    - [clerkEmail]: [(await currentUser())?.emailAddresses[0]?.emailAddress];
    - [now]: the clock, in milliseconds;
    - [faults]: one entry per coming round-trip (store, identity provider,
      cache), [Some msg] when that round-trip throws [Error(msg)]; past the
      end of the list nothing fails;
    - [trace]: the write statements sent so far. *)
Record World := mkWorld {
  db : DB;
  base : option DB;
  nextId : Z;
  session : option string;
  clerkEmail : option string;
  now : Z;
  faults : list (option string);
  trace : list Stmt }.

Definition committed (w : World) : DB := default (db w) (base w).

(** ** Computations: state and exceptions

    A thrown value is always an [Error] object in the modelled code; it is
    represented by its message. *)
Inductive Result (A : Type) :=
  | Ok (a : A)
  | Err (msg : string).
Arguments Ok {A} a.
Arguments Err {A} msg.

Definition M (A : Type) : Type := World → Result A * World.

Definition ret {A} (a : A) : M A := λ w, (Ok a, w).

Definition bind {A B} (m : M A) (k : A → M B) : M B :=
  λ w, match m w with
       | (Ok a, w') => k a w'
       | (Err e, w') => (Err e, w')
       end.

Definition throw {A} (msg : string) : M A := λ w, (Err msg, w).

(** [try { m } catch (error) { h error }]. *)
Definition try_catch {A} (m : M A) (h : string → M A) : M A :=
  λ w, match m w with
       | (Ok a, w') => (Ok a, w')
       | (Err e, w') => h e w'
       end.

Declare Scope action_scope.
Delimit Scope action_scope with action.
Notation "'let*' x ':=' m 'in' k" := (bind m (λ x, k))
  (at level 10, x name, m at level 100, k at level 200) : action_scope.
Notation "m ;; k" := (bind m (λ _, k))
  (at level 100, right associativity) : action_scope.
Local Open Scope action_scope.

(** [Promise.all([a, b])] of two reads: both round-trips are made; of two
    failures the one of [a] is thrown. *)
Definition all2 {A B} (a : M A) (b : M B) : M (A * B) :=
  λ w, let (ra, w1) := a w in
       let (rb, w2) := b w1 in
       (match ra, rb with
        | Ok x, Ok y => Ok (x, y)
        | Err e, _ => Err e
        | Ok _, Err e => Err e
        end, w2).

(** [Promise.all([a, b, c])] of three reads: the three round-trips are made;
    the failure thrown is the first in that order. *)
Definition all3 {A B C} (a : M A) (b : M B) (c : M C) : M (A * B * C) :=
  λ w, let (ra, w1) := a w in
       let (rb, w2) := b w1 in
       let (rc, w3) := c w2 in
       (match ra, rb, rc with
        | Ok x, Ok y, Ok z => Ok (x, y, z)
        | Err e, _, _ => Err e
        | Ok _, Err e, _ => Err e
        | Ok _, Ok _, Err e => Err e
        end, w3).

(** [if (c) throw new Error(msg)]. *)
Definition throw_if (c : bool) (msg : string) : M unit :=
  if c then throw msg else ret tt.

(** One round-trip: consumes the next entry of the fault oracle. *)
Definition io : M unit :=
  λ w, match faults w with
       | [] => (Ok tt, w)
       | f :: fs =>
           let w' := mkWorld (db w) (base w) (nextId w) (session w)
                       (clerkEmail w) (now w) fs (trace w) in
           match f with
           | None => (Ok tt, w')
           | Some msg => (Err msg, w')
           end
       end.

Definition view (c : Client) (w : World) : DB :=
  match c with Tx => db w | Prisma => committed w end.

(** What a client reads, and the effect of a statement it sends, without the
    round-trip.  A [prisma.*] write made while a transaction is open also
    reaches the committed store. *)
Definition peek {A} (c : Client) (f : DB → A) : M A :=
  λ w, (Ok (f (view c w)), w).

Definition apply (c : Client) (s : Stmt) (f : DB → DB) : M unit :=
  λ w, (Ok tt,
        mkWorld (f (db w))
          (match c with Prisma => f <$> base w | Tx => base w end)
          (nextId w) (session w) (clerkEmail w) (now w) (faults w)
          (trace w ++ [s])).

(** A read. *)
Definition query {A} (c : Client) (f : DB → A) : M A :=
  io ;; peek c f.

(** A write. *)
Definition exec (c : Client) (s : Stmt) (f : DB → DB) : M unit :=
  io ;; apply c s f.

(** A write that the store refuses, with message [msg], unless [chk] holds:
    a unique constraint on a create, a missing record on an update or a
    delete. *)
Definition exec_checked (c : Client) (s : Stmt) (chk : DB → bool)
    (msg : string) (f : DB → DB) : M unit :=
  io ;;
  let* ok := peek c chk in
  if ok then apply c s f else throw msg.

(** The next autoincremented key. *)
Definition fresh : M Z :=
  λ w, (Ok (nextId w),
        mkWorld (db w) (base w) (nextId w + 1) (session w) (clerkEmail w)
          (now w) (faults w) (trace w)).

Definition close_tx (d : DB) (w : World) : World :=
  mkWorld d None (nextId w) (session w) (clerkEmail w) (now w) (faults w)
    (trace w).

(** [prisma.$transaction(async (tx) => body)]: opening and committing are
    round-trips; when the callback throws, or the commit fails, the store
    falls back to the committed one. *)
Definition open_tx (w : World) : World :=
  mkWorld (db w) (Some (db w)) (nextId w) (session w) (clerkEmail w) (now w)
    (faults w) (trace w).

Definition transaction {A} (body : M A) : M A :=
  io ;;
  λ w,
    match body (open_tx w) with
    | (Ok a, w1) =>
        match io w1 with
        | (Ok _, w2) => (Ok a, close_tx (db w2) w2)
        | (Err e, w2) => (Err e, close_tx (committed w2) w2)
        end
    | (Err e, w1) => (Err e, close_tx (committed w1) w1)
    end.

(** [auth().userId]. *)
Definition auth : M (option string) := λ w, (Ok (session w), w).

(** [(await currentUser())?.emailAddresses[0]?.emailAddress]. *)
Definition currentUserEmail : M (option string) :=
  io ;; λ w, (Ok (clerkEmail w), w).

(** [new Date()]. *)
Definition newDate : M Z := λ w, (Ok (now w), w).

(** ** lib/auth.ts *)

Definition getOrCreateUser (userId : string) : M User :=
  let* user := query Prisma (λ d, users d !! userId) in
  match user with
  | Some user => ret user
  | None =>
      let* e := currentUserEmail in
      if Js.truthy_opt e then
        let* id := fresh in
        let user := mkUser id (default "" e) in
        exec Prisma (Create TUser) (set_users (insert userId user)) ;;
        ret user
      else throw "Unable to get user email from Clerk"
  end.

(** [orgId] converted with [BigInt], throwing where the code calls it. *)
Definition toBigInt (s : string) : M Z :=
  match Js.BigInt s with
  | Some z => ret z
  | None => throw (Js.BigInt_error s)
  end.

Definition upsertAdmin (c : Client) (org user : Z) : M unit :=
  exec c (Upsert TMember) (set_members (insert (org, user) "admin")).

Definition getUserRole_try (orgId userId : string) : M (option string) :=
  let* bigOrgId := toBigInt orgId in
  let* user := getOrCreateUser userId in
  let* createdOrg := query Prisma (λ d,
    match organizations d !! bigOrgId with
    | Some o => if bool_decide (created_by o = user_id user) then Some o else None
    | None => None
    end) in
  match createdOrg with
  | Some _ =>
      upsertAdmin Prisma bigOrgId (user_id user) ;;
      ret (Some "admin")
  | None =>
      let* member := query Prisma (λ d, members d !! (bigOrgId, user_id user)) in
      ret (match member with
           | Some role => if Js.truthy role then Some role else None
           | None => None
           end)
  end.

Definition getUserRole (orgId : string) : M (option string) :=
  let* userId := auth in
  match userId with
  | Some userId =>
      if Js.truthy userId then
        try_catch (getUserRole_try orgId userId) (λ _, ret None)
      else ret None
  | None => ret None
  end.

Definition hasPermission (role : option string) (requiredRoles : list string) : bool :=
  match role with
  | None => false
  | Some role =>
      if negb (Js.truthy role) || String.eqb role "null"
         || String.eqb role "undefined" || String.eqb role ""
         || String.eqb role "NULL"
      then false
      else if String.eqb role "admin" then true
      else Js.array_includes requiredRoles role
  end.

Definition dquote : string := String (ascii_of_nat 34) EmptyString.
Definition quoted (s : string) : string := dquote +:+ s +:+ dquote.

(** Messages of the errors the Prisma client throws on a violated unique
    constraint and on a missing record; the client surrounds them with the
    text of the failing call. *)
Definition unique_violation : string := "Unique constraint failed on the fields".
Definition record_not_found : string :=
  "An operation failed because it depends on one or more records that were required but not found.".

(** The reads whose result is only logged. *)
Definition debug_read (c : Client) : M unit := query c (λ _, tt).

Definition ensureOrganizationMember_try (orgId userId : string) : M unit :=
  throw_if (negb (Js.truthy orgId) || String.eqb (Js.trim orgId) ""
            || String.eqb orgId "undefined" || String.eqb orgId "null")
    ("Invalid organization ID provided: " +:+ quoted orgId) ;;
  let* bigOrgId :=
    try_catch
      (let cleanOrgId := Js.trim orgId in
       throw_if (negb (Js.numeric cleanOrgId))
         ("Organization ID must be numeric. Received: " +:+ quoted cleanOrgId) ;;
       toBigInt cleanOrgId)
      (λ _, throw ("Invalid organization ID format: " +:+ quoted orgId)) in
  let* user := getOrCreateUser userId in
  let* orgCheck := query Prisma (λ d, organizations d !! bigOrgId) in
  match orgCheck with
  | None =>
      debug_read Prisma ;;
      throw ("Organization with ID " +:+ quoted orgId
             +:+ " not found. Please verify the organization ID.")
  | Some orgCheck =>
      let isCreator := bool_decide (created_by orgCheck = user_id user) in
      transaction
        (if isCreator then upsertAdmin Tx bigOrgId (user_id user)
         else
           let* existingMember :=
             query Tx (λ d, members d !! (bigOrgId, user_id user)) in
           match existingMember with
           | None =>
               debug_read Tx ;;
               throw ("Access denied. User is not a member of organization "
                      +:+ quoted (org_name orgCheck) +:+ " (ID: " +:+ orgId
                      +:+ "). Please contact an administrator to be added to this organization.")
           | Some _ => ret tt
           end)
  end.

Definition ensureOrganizationMember (orgId : string) : M unit :=
  let* userId := auth in
  throw_if (negb (Js.truthy_opt userId)) "Authentication required" ;;
  try_catch (ensureOrganizationMember_try orgId (default "" userId))
    (λ error, throw error).

(** The permission prelude shared by the server actions. *)
Definition requireRole (orgId : string) (permitted : option string → bool)
    (denied : option string → string) : M unit :=
  ensureOrganizationMember orgId ;;
  let* role := getUserRole orgId in
  throw_if (negb (permitted role)) (denied role).

Definition writerRoles : list string := ["writer"; "read-write"; "admin"].

(** [CacheService.invalidateProducts(orgId)]: a round-trip to the cache. *)
Definition invalidateProducts (orgId : string) : M unit := io.

(** ** app/organization/actions.ts *)

Definition count {A} (p : A → bool) (l : list A) : nat :=
  length (List.filter p l).

Definition in_org_product (d : DB) (org pid : Z) : bool :=
  existsb (λ p, (product_id p =? pid) && (p_org p =? org)) (products d).

Definition in_org_order (d : DB) (org oid : Z) : bool :=
  existsb (λ o, (order_id o =? oid) && (o_org o =? org)) (orders d).

Definition plural (n : nat) (noun : string) : string :=
  Js.show_nat n +:+ " " +:+ noun +:+ (if (n =? 1)%nat then "" else "s").

Fixpoint join (sep : string) (l : list string) : string :=
  match l with
  | [] => ""
  | [x] => x
  | x :: t => x +:+ sep +:+ join sep t
  end.

Definition dataDetails (nw np no : nat) : list string :=
  (if (0 <? nw)%nat then [plural nw "warehouse"] else [])
  ++ (if (0 <? np)%nat then [plural np "product"] else [])
  ++ (if (0 <? no)%nat then [plural no "order"] else []).

Definition cannot_delete (nw np no : nat) : string :=
  "Cannot delete organization. It contains: " +:+ join ", " (dataDetails nw np no)
  +:+ ". " +:+ "To delete this organization and all its data permanently, use the force delete option. "
  +:+ "This action cannot be undone.".

Definition is_BigInt_error (e : string) : bool :=
  Js.includes e "Cannot convert" && Js.includes e "BigInt".

Definition deleteOrganization_catch {A} (e : string) : M A :=
  if is_BigInt_error e then throw "Invalid organization ID format"
  else if Js.includes e "Foreign key constraint" then
    throw "Cannot delete organization due to data dependencies. Please use force delete."
  else throw e.

Definition deleteOrganization_tx (bigOrgId : Z) (force nonEmpty : bool) : M unit :=
  (if force && nonEmpty then
     exec Tx (Delete TOrderItem) (λ d,
       set_orderItems (List.filter (λ i, negb (in_org_order d bigOrgId (oi_order i)))) d) ;;
     exec Tx (Delete TOrder)
       (set_orders (List.filter (λ o, negb (o_org o =? bigOrgId)))) ;;
     exec Tx (Delete TProductPrice) (λ d,
       set_productPrices (List.filter (λ r, negb (in_org_product d bigOrgId (pp_product r)))) d) ;;
     exec Tx (Delete TProductStock) (λ d,
       set_productStocks (List.filter (λ r, negb (in_org_product d bigOrgId (ps_product r)))) d) ;;
     exec Tx (Delete TProduct)
       (set_products (List.filter (λ p, negb (p_org p =? bigOrgId)))) ;;
     exec Tx (Delete TWarehouse)
       (set_warehouses (List.filter (λ w, negb (wh_org w =? bigOrgId))))
   else ret tt) ;;
  exec Tx (Delete TInvite)
    (set_invites (filter (λ kv, inv_org kv.2 ≠ bigOrgId))) ;;
  exec Tx (Delete TMember)
    (set_members (filter (λ kv, kv.1.1 ≠ bigOrgId))) ;;
  exec_checked Tx (Delete TOrganization)
    (λ d, bool_decide (is_Some (organizations d !! bigOrgId))) record_not_found
    (set_organizations (delete bigOrgId)).

Definition deleteOrganization_try (orgId : string) (force : bool) : M string :=
  let* bigOrgId := toBigInt orgId in
  requireRole orgId (λ role, hasPermission role ["admin"]) (λ _, "Only admins can delete organizations") ;;
  let* counts := all3
    (query Prisma (λ d, count (λ w, wh_org w =? bigOrgId) (warehouses d)))
    (query Prisma (λ d, count (λ p, p_org p =? bigOrgId) (products d)))
    (query Prisma (λ d, count (λ o, o_org o =? bigOrgId) (orders d))) in
  let '(nw, np, no) := counts in
  let nonEmpty := ((0 <? nw) || (0 <? np) || (0 <? no))%nat in
  throw_if (nonEmpty && negb force) (cannot_delete nw np no) ;;
  transaction (deleteOrganization_tx bigOrgId force nonEmpty) ;;
  ret (if force then "Organization and all its data have been permanently deleted"
       else "Organization deleted successfully").

Definition deleteOrganization (orgId : string) (force : bool) : M string :=
  let* userId := auth in
  throw_if (negb (Js.truthy_opt userId)) "Unauthorized" ;;
  throw_if (negb (Js.truthy orgId)) "Organization ID is required" ;;
  try_catch (deleteOrganization_try orgId force) deleteOrganization_catch.

Definition createMember (c : Client) (org user : Z) (role : string) : M unit :=
  exec_checked c (Create TMember)
    (λ d, bool_decide (members d !! (org, user) = None)) unique_violation
    (set_members (insert (org, user) role)).

Definition set_status (s : string) (i : Invite) : Invite :=
  mkInvite (inv_org i) (inv_email i) (inv_role i) s (expires_at i).

Definition acceptInvite_try (token userId : string) : M string :=
  let* invite := query Prisma (λ d, invites d !! Js.trim token) in
  match invite with
  | None => throw "Invalid invitation"
  | Some invite =>
      throw_if (negb (String.eqb (inv_status invite) "pending")) "Invalid invitation" ;;
      let* today := newDate in
      throw_if (match expires_at invite with
                | None => true
                | Some e => e <? today
                end) "Invitation has expired" ;;
      let* user := getOrCreateUser userId in
      throw_if (negb (String.eqb (inv_email invite) (email user)))
        "Email mismatch - invitation not for this user" ;;
      let* existingMember :=
        query Prisma (λ d, members d !! (inv_org invite, user_id user)) in
      throw_if (bool_decide (is_Some existingMember))
        "User is already a member of this organization" ;;
      transaction
        (createMember Tx (inv_org invite) (user_id user) (inv_role invite) ;;
         exec_checked Tx (Update TInvite)
           (λ d, bool_decide (is_Some (invites d !! Js.trim token))) record_not_found
           (set_invites (alter (set_status "accepted") (Js.trim token))) ;;
         ret (Js.show_Z (inv_org invite)))
  end.

Definition acceptInvite (token : string) : M string :=
  let* userId := auth in
  throw_if (negb (Js.truthy_opt userId)) "Unauthorized" ;;
  throw_if (negb (Js.truthy (Js.trim token))) "Invalid invitation token" ;;
  try_catch (acceptInvite_try token (default "" userId)) (λ error, throw error).

(** ** app/inventory/actions.ts *)

(** The fields of [Omit<Product, 'id' | 'createdAt' | 'updatedAt'>] as they
    arrive at run time: [description] is optional, [image] may be [null],
    and the bulk update tests [stock] and [price] against [undefined]. *)
Record ProductInput := mkInput {
  in_name : string; in_sku : string; in_description : option string;
  in_stock : option Z; in_price : option Q; in_image : option string }.

Record ProductResult := mkResult {
  r_productId : string; r_name : string; r_sku : string; r_stock : Z;
  r_price : Q; r_warehouseId : string; r_warehouseName : string }.

(** [Math.max(0, x || 0)]. *)
Definition clampZ (x : option Z) : Z := Z.max 0 (default 0 x).
Definition Qmax0 (x : Q) : Q := if Qle_bool 0 x then x else 0%Q.
Definition clampQ (x : option Q) : Q := Qmax0 (default 0%Q x).

(** [image?.trim() || null]. *)
Definition trim_or_null (s : option string) : option string :=
  match s with
  | Some s => if Js.truthy (Js.trim s) then Some (Js.trim s) else None
  | None => None
  end.

Definition getOrCreateDefaultWarehouse (orgId : Z) : M Warehouse :=
  let* warehouse := query Prisma (λ d,
    List.find (λ w, wh_org w =? Js.Number orgId) (warehouses d)) in
  match warehouse with
  | Some warehouse => ret warehouse
  | None =>
      let* id := fresh in
      let warehouse :=
        mkWarehouse id (Js.Number orgId) "Default Warehouse" "Default Address" in
      exec Prisma (Create TWarehouse) (set_warehouses (append [warehouse])) ;;
      ret warehouse
  end.

Definition findStock (pid wid : Z) (d : DB) : option ProductStock :=
  List.find (λ s, (ps_product s =? pid) && (ps_warehouse s =? wid)) (productStocks d).

Definition set_quantity (q : Z) (s : ProductStock) : ProductStock :=
  mkStock (stock_id s) (ps_product s) (ps_warehouse s) q.

Definition setQty (sid q : Z) (s : ProductStock) : ProductStock :=
  if stock_id s =? sid then set_quantity q s else s.

(** [tx.productStock.update({ where: { stock_id }, data: { quantity } })]. *)
Definition updateStock (c : Client) (sid q : Z) : M unit :=
  exec_checked c (Update TProductStock)
    (λ d, existsb (λ s, stock_id s =? sid) (productStocks d)) record_not_found
    (set_productStocks (map (setQty sid q))).

Definition createStock (c : Client) (pid wid q : Z) : M ProductStock :=
  let* id := fresh in
  let row := mkStock id pid wid q in
  exec c (Create TProductStock) (set_productStocks (append [row])) ;;
  ret row.

(** [findFirst({ where: { product_id }, orderBy: { valid_from: 'desc' } })]. *)
Definition latestPrice (pid : Z) (d : DB) : option ProductPrice :=
  fold_left (λ best r,
      match best with
      | Some b => if valid_from b <? valid_from r then Some r else best
      | None => Some r
      end)
    (List.filter (λ r, pp_product r =? pid) (productPrices d)) None.

Definition set_retail (x : Q) (r : ProductPrice) : ProductPrice :=
  mkPrice (price_id r) (pp_product r) x (actual_price r) (market_price r)
    (valid_from r) (valid_to r).

Definition updatePrice (c : Client) (prid : Z) (x : Q) : M unit :=
  exec_checked c (Update TProductPrice)
    (λ d, existsb (λ r, price_id r =? prid) (productPrices d)) record_not_found
    (set_productPrices
       (map (λ r, if price_id r =? prid then set_retail x r else r))).

Definition createPrice (c : Client) (pid : Z) (retail : Q) (actual : option Q) : M ProductPrice :=
  let* id := fresh in
  let* today := newDate in
  let row := mkPrice id pid retail actual None today None in
  exec c (Create TProductPrice) (set_productPrices (append [row])) ;;
  ret row.

Definition product_catch {A} (bigint_msg : string) (e : string) : M A :=
  if is_BigInt_error e then throw bigint_msg
  else if Js.includes e "Unique constraint" then
    throw "A product with this SKU already exists in the organization"
  else if Js.includes e "Foreign key constraint" then
    throw "Invalid organization or user reference"
  else if Js.includes e "timeout" then
    throw "Operation timed out. Please try again."
  else throw e.

Definition show_role (role : option string) : string := default "null" role.

Definition addProduct_tx (bigOrgId : Z) (user : User) (newProduct : ProductInput)
    : M ProductResult :=
  let trimmedSku := Js.trim (in_sku newProduct) in
  let trimmedName := Js.trim (in_name newProduct) in
  let stockQuantity := clampZ (in_stock newProduct) in
  let retailPrice := clampQ (in_price newProduct) in
  let* pid := fresh in
  exec Tx (Create TProduct) (set_products (append
    [mkProduct pid bigOrgId trimmedName trimmedSku
       (Js.trim <$> in_description newProduct) (trim_or_null (in_image newProduct))
       "active" (user_id user) None])) ;;
  let* warehouse := getOrCreateDefaultWarehouse bigOrgId in
  let* stockRecord :=
    createStock Tx pid (warehouse_id warehouse) stockQuantity in
  let* priceRecord := createPrice Tx pid retailPrice (Some retailPrice) in
  ret (mkResult (Js.show_Z pid) trimmedName trimmedSku (quantity stockRecord)
         (retail_price priceRecord) (Js.show_Z (warehouse_id warehouse))
         (wh_name warehouse)).

Definition addProduct_try (orgId userId : string) (newProduct : ProductInput)
    : M ProductResult :=
  let* bigOrgId := toBigInt orgId in
  requireRole orgId
    (λ role, Js.truthy_opt role && hasPermission role writerRoles) (λ role,
    "Insufficient permissions to add products. Current role: "
    +:+ quoted (show_role role)) ;;
  let* user := getOrCreateUser userId in
  let trimmedSku := Js.trim (in_sku newProduct) in
  let* existingProduct := query Prisma (λ d,
    List.find (λ p, String.eqb (p_sku p) trimmedSku && (p_org p =? bigOrgId))
      (products d)) in
  throw_if (bool_decide (is_Some existingProduct))
    ("A product with SKU " +:+ quoted trimmedSku
     +:+ " already exists in this organization") ;;
  throw_if (clampZ (in_stock newProduct) <? 0) "Stock quantity cannot be negative" ;;
  throw_if (negb (Qle_bool 0 (clampQ (in_price newProduct))))
    "Product price cannot be negative" ;;
  let* result := transaction (addProduct_tx bigOrgId user newProduct) in
  invalidateProducts orgId ;;
  ret result.

Definition addProduct (orgId : string) (newProduct : ProductInput) : M ProductResult :=
  let* userId := auth in
  throw_if (negb (Js.truthy_opt userId)) "Unauthorized" ;;
  throw_if (negb (Js.truthy orgId)) "Organization ID is required" ;;
  throw_if (negb (Js.truthy (Js.trim (in_name newProduct)))) "Product name is required" ;;
  throw_if (negb (Js.truthy (Js.trim (in_sku newProduct)))) "Product SKU is required" ;;
  try_catch (addProduct_try orgId (default "" userId) newProduct)
    (product_catch "Invalid organization ID format").

(** The stock row of the default warehouse: updated when there is one,
    created otherwise. *)
Definition putDefaultStock (bigOrgId productId q : Z) : M Warehouse :=
  let* warehouse := getOrCreateDefaultWarehouse bigOrgId in
  let* existingStock := query Tx (findStock productId (warehouse_id warehouse)) in
  match existingStock with
  | Some existingStock => updateStock Tx (stock_id existingStock) q
  | None => createStock Tx productId (warehouse_id warehouse) q ;; ret tt
  end ;;
  ret warehouse.

Definition updateProduct_tx (bigOrgId productId : Z) (user : User)
    (updatedProduct : ProductInput) : M ProductResult :=
  let trimmedSku := Js.trim (in_sku updatedProduct) in
  let trimmedName := Js.trim (in_name updatedProduct) in
  let stockQuantity := clampZ (in_stock updatedProduct) in
  let retailPrice := clampQ (in_price updatedProduct) in
  exec_checked Tx (Update TProduct)
    (λ d, existsb (λ p, product_id p =? productId) (products d)) record_not_found
    (set_products (map (λ p,
       if product_id p =? productId then
         mkProduct (product_id p) (p_org p) trimmedName trimmedSku
           (Js.trim <$> in_description updatedProduct)
           (trim_or_null (in_image updatedProduct)) (p_status p)
           (p_created_by p) (Some (user_id user))
       else p))) ;;
  let* warehouse := putDefaultStock bigOrgId productId stockQuantity in
  let* latest := query Tx (latestPrice productId) in
  match latest with
  | Some latest =>
      if Qeq_bool (retail_price latest) retailPrice then ret tt
      else updatePrice Tx (price_id latest) retailPrice
  | None => createPrice Tx productId retailPrice None ;; ret tt
  end ;;
  ret (mkResult (Js.show_Z productId) trimmedName trimmedSku stockQuantity
         retailPrice (Js.show_Z (warehouse_id warehouse)) (wh_name warehouse)).

Definition updateProduct_try (orgId id userId : string)
    (updatedProduct : ProductInput) : M ProductResult :=
  let* bigOrgId := toBigInt orgId in
  requireRole orgId (λ role, hasPermission role writerRoles) (λ _, "Insufficient permissions to update products") ;;
  let* productId := toBigInt id in
  let* user := getOrCreateUser userId in
  let trimmedSku := Js.trim (in_sku updatedProduct) in
  let* existingProduct := query Prisma (λ d,
    List.find (λ p, (product_id p =? productId) && (p_org p =? bigOrgId))
      (products d)) in
  throw_if (negb (bool_decide (is_Some existingProduct)))
    "Product not found in this organization" ;;
  let* duplicateSku := query Prisma (λ d,
    List.find (λ p, String.eqb (p_sku p) trimmedSku && (p_org p =? bigOrgId)
                    && negb (product_id p =? productId))
      (products d)) in
  throw_if (bool_decide (is_Some duplicateSku))
    "A product with this SKU already exists in this organization" ;;
  throw_if (clampZ (in_stock updatedProduct) <? 0) "Stock quantity cannot be negative" ;;
  throw_if (negb (Qle_bool 0 (clampQ (in_price updatedProduct))))
    "Product price cannot be negative" ;;
  let* result := transaction (updateProduct_tx bigOrgId productId user updatedProduct) in
  invalidateProducts orgId ;;
  ret result.

Definition updateProduct (orgId id : string) (updatedProduct : ProductInput)
    : M ProductResult :=
  let* userId := auth in
  throw_if (negb (Js.truthy_opt userId)) "Unauthorized" ;;
  throw_if (negb (Js.truthy orgId)) "Organization ID is required" ;;
  throw_if (negb (Js.truthy id)) "Product ID is required" ;;
  throw_if (negb (Js.truthy (Js.trim (in_name updatedProduct)))) "Product name is required" ;;
  throw_if (negb (Js.truthy (Js.trim (in_sku updatedProduct)))) "Product SKU is required" ;;
  try_catch (updateProduct_try orgId id (default "" userId) updatedProduct)
    (product_catch "Invalid organization or product ID format").

(** One turn of the loop of [bulkUpdateProducts]. *)
Definition bulkUpdate_item (bigOrgId : Z) (user : User)
    (update : string * ProductInput) : M (string * string * string) :=
  let data := update.2 in
  let* productId := toBigInt update.1 in
  let name := Js.trim (in_name data) in
  let sku := Js.trim (in_sku data) in
  exec_checked Tx (Update TProduct)
    (λ d, existsb (λ p, (product_id p =? productId) && (p_org p =? bigOrgId))
            (products d)) record_not_found
    (set_products (map (λ p,
       if (product_id p =? productId) && (p_org p =? bigOrgId) then
         mkProduct (product_id p) (p_org p) name sku
           (Js.trim <$> in_description data) (Js.trim <$> in_image data)
           (p_status p) (p_created_by p) (Some (user_id user))
       else p))) ;;
  match in_stock data with
  | Some stock => putDefaultStock bigOrgId productId (Z.max 0 stock) ;; ret tt
  | None => ret tt
  end ;;
  match in_price data with
  | Some price =>
      let* existingPrice := query Tx (latestPrice productId) in
      match existingPrice with
      | Some existingPrice => updatePrice Tx (price_id existingPrice) (Qmax0 price)
      | None => createPrice Tx productId (Qmax0 price) None ;; ret tt
      end
  | None => ret tt
  end ;;
  ret (Js.show_Z productId, name, sku).

Fixpoint bulkUpdate_loop (bigOrgId : Z) (user : User)
    (updates : list (string * ProductInput)) : M (list (string * string * string)) :=
  match updates with
  | [] => ret []
  | update :: rest =>
      let* r := bulkUpdate_item bigOrgId user update in
      let* rs := bulkUpdate_loop bigOrgId user rest in
      ret (r :: rs)
  end.

Definition bulkUpdateProducts_try (orgId userId : string)
    (updates : list (string * ProductInput)) : M (list (string * string * string)) :=
  let* bigOrgId := toBigInt orgId in
  requireRole orgId (λ role, hasPermission role writerRoles) (λ _, "Insufficient permissions to update products") ;;
  let* user := getOrCreateUser userId in
  let* results := transaction (bulkUpdate_loop bigOrgId user updates) in
  invalidateProducts orgId ;;
  ret results.

Definition bulkUpdate_catch {A} (e : string) : M A :=
  if is_BigInt_error e then throw "Invalid organization or product ID format"
  else throw e.

Definition bulkUpdateProducts (orgId : string)
    (updates : list (string * ProductInput)) : M (list (string * string * string)) :=
  let* userId := auth in
  throw_if (negb (Js.truthy_opt userId)) "Unauthorized" ;;
  throw_if (negb (Js.truthy orgId)) "Organization ID is required" ;;
  throw_if (bool_decide (updates = [])) "No updates provided" ;;
  try_catch (bulkUpdateProducts_try orgId (default "" userId) updates)
    bulkUpdate_catch.

(** Quantities are JavaScript numbers: a sum or a difference of two of them
    is the exact one rounded to the nearest double, [Js.Number]. *)
Definition updateProductStock_tx (bigProductId bigWarehouseId adjustment : Z)
    (user : User) : M unit :=
  let* existingStock := query Tx (findStock bigProductId bigWarehouseId) in
  let newQuantity :=
    Js.Number
      (match existingStock with Some s => quantity s | None => 0 end + adjustment) in
  throw_if (newQuantity <? 0) "Insufficient stock for this adjustment" ;;
  match existingStock with
  | Some existingStock => updateStock Tx (stock_id existingStock) newQuantity
  | None =>
      createStock Tx bigProductId bigWarehouseId (Z.max 0 adjustment) ;; ret tt
  end ;;
  exec Tx (Create TStockMovement) (set_stockMovements (append
    [mkMovement bigProductId bigWarehouseId
       (if 0 <? adjustment then "in" else "out") (Z.abs adjustment)
       (if 0 <? adjustment then "Stock increase" else "Stock decrease")
       None (user_id user)])).

Definition updateProductStock_try (orgId productId warehouseId userId : string)
    (adjustment : Z) : M unit :=
  let* bigOrgId := toBigInt orgId in
  let* bigProductId := toBigInt productId in
  let* bigWarehouseId := toBigInt warehouseId in
  requireRole orgId (λ role, hasPermission role writerRoles)
    (λ _, "Insufficient permissions to update stock") ;;
  let* user := getOrCreateUser userId in
  transaction (updateProductStock_tx bigProductId bigWarehouseId adjustment user) ;;
  invalidateProducts orgId.

Definition updateProductStock (orgId productId warehouseId : string)
    (adjustment : Z) : M unit :=
  let* userId := auth in
  throw_if (negb (Js.truthy_opt userId)) "Unauthorized" ;;
  throw_if (negb (Js.truthy orgId)) "Organization ID is required" ;;
  throw_if (negb (Js.truthy productId)) "Product ID is required" ;;
  throw_if (negb (Js.truthy warehouseId)) "Warehouse ID is required" ;;
  try_catch
    (updateProductStock_try orgId productId warehouseId (default "" userId) adjustment)
    (λ error, throw error).

Definition transferStock_tx (bigProductId bigFromWarehouseId bigToWarehouseId qty : Z)
    (reason : string) (notes : option string) (user : User) : M unit :=
  let* sourceStock := query Tx (findStock bigProductId bigFromWarehouseId) in
  match sourceStock with
  | None => throw "Insufficient stock in source warehouse"
  | Some sourceStock =>
      throw_if (quantity sourceStock <? qty) "Insufficient stock in source warehouse" ;;
      updateStock Tx (stock_id sourceStock)
        (Js.Number (quantity sourceStock - qty)) ;;
      let* destStock := query Tx (findStock bigProductId bigToWarehouseId) in
      match destStock with
      | Some destStock =>
          updateStock Tx (stock_id destStock)
            (Js.Number (quantity destStock + qty))
      | None => createStock Tx bigProductId bigToWarehouseId qty ;; ret tt
      end ;;
      exec Tx (Create TStockMovement) (set_stockMovements (append
        [mkMovement bigProductId bigFromWarehouseId "out" qty
           ("Transfer to warehouse " +:+ Js.show_Z bigToWarehouseId +:+ ": " +:+ reason)
           notes (user_id user);
         mkMovement bigProductId bigToWarehouseId "in" qty
           ("Transfer from warehouse " +:+ Js.show_Z bigFromWarehouseId +:+ ": " +:+ reason)
           notes (user_id user)]))
  end.

Definition transferStock_try
    (orgId productId fromWarehouseId toWarehouseId userId : string) (qty : Z)
    (reason : string) (notes : option string) : M unit :=
  let* bigOrgId := toBigInt orgId in
  let* bigProductId := toBigInt productId in
  let* bigFromWarehouseId := toBigInt fromWarehouseId in
  let* bigToWarehouseId := toBigInt toWarehouseId in
  requireRole orgId (λ role, hasPermission role writerRoles)
    (λ _, "Insufficient permissions to transfer stock") ;;
  let* user := getOrCreateUser userId in
  transaction
    (transferStock_tx bigProductId bigFromWarehouseId bigToWarehouseId qty
       reason notes user) ;;
  invalidateProducts orgId.

Definition transferStock
    (orgId productId fromWarehouseId toWarehouseId : string) (qty : Z)
    (reason : string) (notes : option string) : M unit :=
  let* userId := auth in
  throw_if (negb (Js.truthy_opt userId)) "Unauthorized" ;;
  throw_if (negb (Js.truthy orgId)) "Organization ID is required" ;;
  throw_if (negb (Js.truthy productId)) "Product ID is required" ;;
  throw_if (negb (Js.truthy fromWarehouseId) || negb (Js.truthy toWarehouseId))
    "Both warehouses are required" ;;
  throw_if (qty <=? 0) "Quantity must be positive" ;;
  try_catch
    (transferStock_try orgId productId fromWarehouseId toWarehouseId
       (default "" userId) qty reason notes)
    (λ error, throw error).

(** Stock of a product: the sum that [getProductDetails] computes over the
    product's rows, and the same sum over the rows of one warehouse. *)
Definition sumStock (l : list ProductStock) : Z :=
  fold_left (λ acc s, acc + quantity s) l 0.

(** Sum of the quantities of the rows that [sel] selects by product and
    warehouse. *)
Definition sumBy (sel : Z → Z → bool) (l : list ProductStock) : Z :=
  sumStock (List.filter (λ s, sel (ps_product s) (ps_warehouse s)) l).

Definition totalStock (pid : Z) (d : DB) : Z :=
  sumBy (λ p _, p =? pid) (productStocks d).

Definition stockAt (pid wid : Z) (d : DB) : Z :=
  sumBy (λ p w, (p =? pid) && (w =? wid)) (productStocks d).

(** The two ledger entries of a transfer. *)
Definition transferEntries (pid from to qty : Z) (reason : string)
    (notes : option string) (u : User) : list StockMovement :=
  [mkMovement pid from "out" qty
     ("Transfer to warehouse " +:+ Js.show_Z to +:+ ": " +:+ reason)
     notes (user_id u);
   mkMovement pid to "in" qty
     ("Transfer from warehouse " +:+ Js.show_Z from +:+ ": " +:+ reason)
     notes (user_id u)].

(** ** Vocabulary of the statements

    [quiet w]: the request is not inside a transaction and none of its coming
    round-trips fails. *)
Definition quiet (w : World) : Prop := base w = None ∧ faults w = [].

(** The world after statements [stmts] with joint effect [f] on the store. *)
Definition with_db (f : DB → DB) (stmts : list Stmt) (w : World) : World :=
  mkWorld (f (db w)) (base w) (nextId w) (session w) (clerkEmail w) (now w)
    (faults w) (trace w ++ stmts).

(** The caller is signed in as [clerk], is known to the store as [u], and
    [orgId] is the well-formed identifier of the existing organization
    [org]. *)
Record Caller (w : World) (orgId clerk : string) (o : Z) (u : User)
    (org : Organization) : Prop := mkCaller {
  caller_session : session w = Some clerk;
  caller_clerk : Js.truthy clerk = true;
  caller_numeric : Js.numeric (Js.trim orgId) = true;
  caller_orgId : Js.BigInt orgId = Some o;
  caller_user : users (db w) !! clerk = Some u;
  caller_org : organizations (db w) !! o = Some org }.

(** The role of user [u] in organization [o] of creator [org]: what
    [getUserRole] resolves. *)
Definition roleOf (d : DB) (o : Z) (u : User) (org : Organization) : option string :=
  if bool_decide (created_by org = user_id u) then Some "admin"
  else match members d !! (o, user_id u) with
       | Some role => if Js.truthy role then Some role else None
       | None => None
       end.

(** The world after the permission prelude: the creator's member row has
    been upserted twice, by [ensureOrganizationMember] and by
    [getUserRole]. *)
Definition bootstrapped (o : Z) (u : User) (org : Organization) (w : World) : World :=
  if bool_decide (created_by org = user_id u) then
    with_db (set_members (insert (o, user_id u) "admin"))
      [Upsert TMember; Upsert TMember] w
  else w.

(** [still w w']: the request went on from [w] to [w'] without writing: only
    the fault oracle may have advanced. *)
Definition still (w w' : World) : Prop :=
  db w' = db w ∧ base w' = base w ∧ nextId w' = nextId w
  ∧ session w' = session w ∧ clerkEmail w' = clerkEmail w ∧ now w' = now w
  ∧ trace w' = trace w.

(** [has_char c s]: the code unit [c] occurs in [s]. *)
Fixpoint has_char (c : ascii) (s : string) : bool :=
  match s with
  | EmptyString => false
  | String x t => Ascii.eqb x c || has_char c t
  end.

(** The store without organization [o] and the rows that depend on it:
    the items of its orders, its orders, the prices and the stock of its
    products, its products, warehouses, invitations and members. *)
Definition purged (o : Z) (d : DB) : DB :=
  mkDB (users d)
    (delete o (organizations d))
    (filter (λ kv, kv.1.1 ≠ o) (members d))
    (filter (λ kv, inv_org kv.2 ≠ o) (invites d))
    (List.filter (λ w, negb (wh_org w =? o)) (warehouses d))
    (List.filter (λ p, negb (p_org p =? o)) (products d))
    (List.filter (λ r, negb (in_org_product d o (ps_product r))) (productStocks d))
    (List.filter (λ r, negb (in_org_product d o (pp_product r))) (productPrices d))
    (stockMovements d)
    (List.filter (λ x, negb (o_org x =? o)) (orders d))
    (List.filter (λ i, negb (in_org_order d o (oi_order i))) (orderItems d)).

(** A warehouse of organization [org]. *)
Definition in_org_warehouse (d : DB) (org wid : Z) : bool :=
  existsb (λ x, (warehouse_id x =? wid) && (wh_org x =? org)) (warehouses d).

(** The rows that refer to something of organization [o] are rows of the
    tables that a forced deletion clears: no stock-movement row refers to a
    product or a warehouse of [o], the stock rows in the warehouses of [o]
    are of products of [o], and the order items of products of [o] are in
    orders of [o]. *)
Definition self_contained (o : Z) (d : DB) : Prop :=
  Forall (λ m, in_org_product d o (sm_product m) = false
               ∧ in_org_warehouse d o (sm_warehouse m) = false)
    (stockMovements d)
  ∧ Forall (λ r, in_org_warehouse d o (ps_warehouse r) = true →
                 in_org_product d o (ps_product r) = true)
      (productStocks d)
  ∧ Forall (λ i, in_org_product d o (oi_product i) = true →
                 in_org_order d o (oi_order i) = true)
      (orderItems d).

(** The statements of a forced deletion, in the order they are sent. *)
Definition cascade : list Stmt :=
  [Delete TOrderItem; Delete TOrder; Delete TProductPrice; Delete TProductStock;
   Delete TProduct; Delete TWarehouse; Delete TInvite; Delete TMember;
   Delete TOrganization].

(** The dependents counted before a deletion. *)
Definition dependents (o : Z) (d : DB) : nat * nat * nat :=
  (count (λ w, wh_org w =? o) (warehouses d),
   count (λ p, p_org p =? o) (products d),
   count (λ x, o_org x =? o) (orders d)).

(** Two stores that differ in their user and member tables at most. *)
Definition same_inventory (d d' : DB) : Prop :=
  organizations d' = organizations d ∧ invites d' = invites d
  ∧ warehouses d' = warehouses d ∧ products d' = products d
  ∧ productStocks d' = productStocks d ∧ productPrices d' = productPrices d
  ∧ stockMovements d' = stockMovements d ∧ orders d' = orders d
  ∧ orderItems d' = orderItems d.

(** Callbacks that only talk to [tx] leave the committed store alone. *)
Definition tx_only {A} (body : M A) : Prop :=
  ∀ w r w', body w = (r, w') → base w' = base w.

(** [dbframe R m]: whatever [m] does and however it ends, the store it
    leaves is related by [R] to the store it found. *)
Definition dbframe {A} (R : DB → DB → Prop) (m : M A) : Prop :=
  ∀ w r w', m w = (r, w') → R (db w) (db w').

(** [errframe R m]: when [m] throws, the store it leaves is related by [R]
    to the store it found. *)
Definition errframe {A} (R : DB → DB → Prop) (m : M A) : Prop :=
  ∀ w e w', m w = (Err e, w') → R (db w) (db w').

(** Where a stock row is: its product and its warehouse. *)
Definition placement (s : ProductStock) : Z * Z := (ps_product s, ps_warehouse s).

(** [stocked_in wid d d']: from [d] to [d'] no warehouse was created and no
    stock row was moved or removed; the new stock rows, if any, are in
    warehouse [wid]. *)
Definition stocked_in (wid : Z) (d d' : DB) : Prop :=
  warehouses d' = warehouses d
  ∧ ∃ added,
      map placement (productStocks d')
      = (map placement (productStocks d) ++ added)%list
      ∧ Forall (λ k, k.2 = wid) added.

(** The keys and owners of the products. *)
Definition product_keys (d : DB) : list (Z * Z) :=
  map (λ p, (product_id p, p_org p)) (products d).

(** The caller's role is one of [roles], or [admin]. *)
Definition Permitted (w : World) (o : Z) (u : User) (org : Organization)
    (roles : list string) : Prop :=
  ∃ role, roleOf (db w) o u org = Some role
          ∧ hasPermission (Some role) roles = true.

(** [s] is a non-empty string that [BigInt] reads as [z]. *)
Definition reads (s : string) (z : Z) : Prop :=
  Js.truthy s = true ∧ Js.BigInt s = Some z.

(** [Number.isSafeInteger(z)]: an integer below [2 ^ 53] in absolute value,
    which number arithmetic represents exactly. *)
Definition safe (z : Z) : Prop := Z.abs z < 2 ^ 53.

(** ** A small store to run the actions on

    Ann created the organization Acme (1) and is its admin; Bob is a writer;
    Cat is known to the store but is not a member, and holds a pending
    invitation.  Acme has two warehouses, neither of them named "Default
    Warehouse", and one product with five units in the first warehouse. *)
Module Fixture.

Definition ann : User := mkUser 1 "ann@acme.test".
Definition bob : User := mkUser 2 "bob@acme.test".
Definition cat : User := mkUser 3 "cat@acme.test".
Definition acme : Organization := mkOrg "Acme" 1.

Definition store : DB :=
  mkDB
    (<["clerk_ann" := ann]> (<["clerk_bob" := bob]> (<["clerk_cat" := cat]> ∅)))
    (<[1 := acme]> ∅)
    (<[(1, 1) := "admin"]> (<[(1, 2) := "writer"]> ∅))
    (<["tok" := mkInvite 1 "cat@acme.test" "reader" "pending" (Some 5000)]> ∅)
    [mkWarehouse 5 1 "Main Depot" "1 Dock Rd"; mkWarehouse 6 1 "Annex" "2 Dock Rd"]
    [mkProduct 10 1 "Widget" "A-1" None None "active" 1 None]
    [mkStock 20 10 5 5]
    [mkPrice 30 10 (999 # 100) (Some (999 # 100)) None 500 None]
    [] [] [].

(** A quiet request of the principal [clerk] at time 1000. *)
Definition request (clerk : string) (d : DB) : World :=
  mkWorld d None 100 (Some clerk) None 1000 [] [].

(** The same request when its round-trips fail as [fs] says. *)
Definition failing (fs : list (option string)) (w : World) : World :=
  mkWorld (db w) (base w) (nextId w) (session w) (clerkEmail w) (now w) fs
    (trace w).

End Fixture.

(** ** The other server actions and their callers

    [app/organization/actions.ts] *)

(** [s.toLowerCase()] on code units below 256: the capital letters of ASCII
    and of Latin-1 (U+00C0 to U+00DE, without the multiplication sign). *)
Definition lower_unit (c : ascii) : ascii :=
  let n := nat_of_ascii c in
  if ((65 <=? n) && (n <=? 90)
      || (192 <=? n) && (n <=? 222) && negb (n =? 215))%nat
  then ascii_of_nat (n + 32) else c.

Fixpoint toLowerCase (s : string) : string :=
  match s with
  | EmptyString => EmptyString
  | String c t => String (lower_unit c) (toLowerCase t)
  end.

(** [{ equals: x, mode: 'insensitive' }]. *)
Definition equals_insensitive (x y : string) : bool :=
  String.eqb (toLowerCase x) (toLowerCase y).

Record SimpleOrg := mkSimpleOrg {
  so_id : string; so_name : string; so_role : string }.

(** [self.findIndex(p)], [None] for -1. *)
Fixpoint findIndex {A} (p : A → bool) (l : list A) : option nat :=
  match l with
  | [] => None
  | x :: t => if p x then Some 0%nat else S <$> findIndex p t
  end.

(** [orgs.filter((org, index, self) =>
       index === self.findIndex((o) => o.id === org.id))]. *)
Definition uniqueOrgs (orgs : list SimpleOrg) : list SimpleOrg :=
  map snd
    (List.filter
       (λ io, bool_decide
                (findIndex (λ o, String.eqb (so_id o) (so_id io.2)) orgs
                 = Some io.1))
       (imap pair orgs)).

(** The relation [createdOrganizations] of a user, as [SimpleOrg]s. *)
Definition createdOrganizations (d : DB) (u : User) : list SimpleOrg :=
  map (λ kv, mkSimpleOrg (Js.show_Z kv.1) (org_name kv.2) "admin")
    (List.filter (λ kv, created_by kv.2 =? user_id u)
       (map_to_list (organizations d))).

(** The relation [organizationMembers] of a user with the organization of
    each row; [None] when a row has no organization, which the client
    reports as an inconsistent result. *)
Definition organizationMembers (d : DB) (u : User) : option (list SimpleOrg) :=
  mapM (λ kv, (λ o, mkSimpleOrg (Js.show_Z kv.1.1) (org_name o) kv.2)
              <$> organizations d !! kv.1.1)
    (List.filter (λ kv, kv.1.2 =? user_id u) (map_to_list (members d))).

Definition inconsistent_result : string :=
  "Inconsistent query result: Field org is required to return data, got `null` instead.".

Definition getUserOrganizations : M (list SimpleOrg) :=
  let* userId := auth in
  throw_if (negb (Js.truthy_opt userId)) "Unauthorized" ;;
  let* user := query Prisma (λ d,
    match users d !! default "" userId with
    | Some u => Some (createdOrganizations d u, organizationMembers d u)
    | None => None
    end) in
  match user with
  | None => throw "User not found"
  | Some (created, Some memberOf) => ret (uniqueOrgs (created ++ memberOf))
  | Some (_, None) => throw inconsistent_result
  end.

Definition createOrganization_tx (trimmedName : string) (user : User)
    : M (string * string) :=
  let* id := fresh in
  exec_checked Tx (Create TOrganization)
    (λ d, bool_decide (organizations d !! id = None)) unique_violation
    (set_organizations (insert id (mkOrg trimmedName (user_id user)))) ;;
  createMember Tx id (user_id user) "admin" ;;
  let* verifyMember := query Tx (λ d, members d !! (id, user_id user)) in
  throw_if (negb match verifyMember with
                 | Some role => String.eqb role "admin"
                 | None => false
                 end)
    "Failed to create organization member record" ;;
  ret (Js.show_Z id, trimmedName).

Definition createOrganization (name : string) : M string :=
  let* userId := auth in
  throw_if (negb (Js.truthy_opt userId)) "Unauthorized" ;;
  throw_if (negb (Js.truthy (Js.trim name))) "Organization name is required" ;;
  let trimmedName := Js.trim name in
  let* user := getOrCreateUser (default "" userId) in
  let* existingOrg := query Prisma (λ d,
    bool_decide (map_Exists (λ _ o,
      (created_by o =? user_id user)
      && equals_insensitive (org_name o) trimmedName = true)
      (organizations d))) in
  throw_if existingOrg "You already have an organization with this name" ;;
  let* result := transaction (createOrganization_tx trimmedName user) in
  ret result.1.

Definition set_org_name (name : string) (o : Organization) : Organization :=
  mkOrg name (created_by o).

Definition updateOrganization_try (orgId name : string) : M unit :=
  let* bigOrgId := toBigInt orgId in
  requireRole orgId (λ role, hasPermission role ["admin"])
    (λ _, "Only admins can update organizations") ;;
  exec_checked Prisma (Update TOrganization)
    (λ d, bool_decide (is_Some (organizations d !! bigOrgId))) record_not_found
    (set_organizations (alter (set_org_name (Js.trim name)) bigOrgId)).

Definition id_catch {A} (e : string) : M A :=
  if is_BigInt_error e then throw "Invalid organization ID format" else throw e.

Definition updateOrganization (orgId name : string) : M unit :=
  let* userId := auth in
  throw_if (negb (Js.truthy_opt userId)) "Unauthorized" ;;
  throw_if (negb (Js.truthy orgId)) "Organization ID is required" ;;
  throw_if (negb (Js.truthy (Js.trim name))) "Organization name is required" ;;
  try_catch (updateOrganization_try orgId name) id_catch.

(** A member of [org] whose user has the address [mail]. *)
Definition member_with_email (d : DB) (org : Z) (mail : string) : bool :=
  bool_decide (map_Exists (λ _ u,
    String.eqb (email u) mail
    && bool_decide (is_Some (members d !! (org, user_id u))) = true)
    (users d)).

(** A pending invitation of [org] for [mail] that is valid at [today]. *)
Definition pending_invite (d : DB) (org : Z) (mail : string) (today : Z) : bool :=
  bool_decide (map_Exists (λ _ i,
    (inv_org i =? org) && String.eqb (inv_email i) mail
    && String.eqb (inv_status i) "pending"
    && match expires_at i with Some e => today <=? e | None => false end
    = true)
    (invites d)).

(** [inviteEmployee] draws its token from [crypto.randomBytes] and leaves
    the status of the new row to the default of the column: [token] is the
    64 hexadecimal digits drawn, [status] the default. *)
Definition inviteEmployee_try (status token orgId mail role : string) : M string :=
  let normalizedEmail := toLowerCase (Js.trim mail) in
  let* bigOrgId := toBigInt orgId in
  requireRole orgId (λ role, hasPermission role ["admin"])
    (λ _, "Only admins can invite employees") ;;
  let* today := newDate in
  let* found := all2
    (query Prisma (λ d, member_with_email d bigOrgId normalizedEmail))
    (query Prisma (λ d, pending_invite d bigOrgId normalizedEmail today)) in
  throw_if found.1 "User is already a member of this organization" ;;
  throw_if found.2 "A pending invitation already exists for this email" ;;
  let* today := newDate in
  let expiresAt := today + 24 * 60 * 60 * 1000 in
  exec_checked Prisma (Create TInvite)
    (λ d, bool_decide (invites d !! token = None)) unique_violation
    (set_invites (insert token
       (mkInvite bigOrgId normalizedEmail (Js.trim role) status (Some expiresAt)))) ;;
  ret token.

Definition inviteEmployee (status token orgId mail role : string) : M string :=
  throw_if (negb (Js.truthy orgId)) "Organization ID is required" ;;
  throw_if (negb (Js.truthy (Js.trim mail))) "Email is required" ;;
  throw_if (negb (Js.truthy (Js.trim role))) "Role is required" ;;
  try_catch (inviteEmployee_try status token orgId mail role) id_catch.

(** [app/inventory/actions.ts] *)

Definition readerRoles : list string := ["reader"; "writer"; "read-write"; "admin"].

(** The fields of [updatedData] that [updateProductDetails] reads; an
    absent field is [undefined]. *)
Record DetailsInput := mkDetails {
  dt_name : option string; dt_sku : option string;
  dt_description : option string; dt_image : option string;
  dt_status : option string;
  dt_price : option Q; dt_actualPrice : option Q; dt_marketPrice : option Q }.

(** The product row after [data]: a field that is [undefined] is left as it
    is. *)
Definition set_details (data : DetailsInput) (user : User) (p : Product) : Product :=
  mkProduct (product_id p) (p_org p)
    (default (p_name p) (Js.trim <$> dt_name data))
    (default (p_sku p) (Js.trim <$> dt_sku data))
    (match dt_description data with
     | Some s => Some (Js.trim s)
     | None => p_description p
     end)
    (match dt_image data with
     | Some s => Some (Js.trim s)
     | None => p_image_url p
     end)
    (default (p_status p) (Js.trim <$> dt_status data))
    (p_created_by p) (Some (user_id user)).

Definition set_valid_to (t : Z) (r : ProductPrice) : ProductPrice :=
  mkPrice (price_id r) (pp_product r) (retail_price r) (actual_price r)
    (market_price r) (valid_from r) (Some t).

(** [updateMany({ where: { product_id, valid_to: null },
                  data: { valid_to } })]. *)
Definition closePrices (pid t : Z) (r : ProductPrice) : ProductPrice :=
  if (pp_product r =? pid) && bool_decide (valid_to r = None)
  then set_valid_to t r else r.

Definition updateProductDetails_tx (bigOrgId bigProductId : Z) (user : User)
    (updatedData : DetailsInput) : M unit :=
  exec_checked Tx (Update TProduct)
    (λ d, existsb (λ p, (product_id p =? bigProductId) && (p_org p =? bigOrgId))
            (products d)) record_not_found
    (set_products (map (λ p,
       if (product_id p =? bigProductId) && (p_org p =? bigOrgId)
       then set_details updatedData user p else p))) ;;
  match dt_price updatedData with
  | Some price =>
      let* today := newDate in
      exec Tx (Update TProductPrice)
        (set_productPrices (map (closePrices bigProductId today))) ;;
      let* id := fresh in
      let* today := newDate in
      exec Tx (Create TProductPrice) (set_productPrices (append
        [mkPrice id bigProductId price (dt_actualPrice updatedData)
           (dt_marketPrice updatedData) today None]))
  | None => ret tt
  end.

Definition details_catch {A} (e : string) : M A :=
  if is_BigInt_error e then throw "Invalid product or organization ID format"
  else throw e.

Definition updateProductDetails_try (orgId productId userId : string)
    (updatedData : DetailsInput) : M unit :=
  let* bigOrgId := toBigInt orgId in
  let* bigProductId := toBigInt productId in
  requireRole orgId (λ role, hasPermission role writerRoles)
    (λ _, "Insufficient permissions to update products") ;;
  let* user := getOrCreateUser userId in
  transaction (updateProductDetails_tx bigOrgId bigProductId user updatedData) ;;
  invalidateProducts orgId.

Definition updateProductDetails (orgId productId : string)
    (updatedData : DetailsInput) : M unit :=
  let* userId := auth in
  throw_if (negb (Js.truthy_opt userId)) "Unauthorized" ;;
  throw_if (negb (Js.truthy orgId)) "Organization ID is required" ;;
  throw_if (negb (Js.truthy productId)) "Product ID is required" ;;
  try_catch (updateProductDetails_try orgId productId (default "" userId) updatedData)
    details_catch.

Definition deleteProductDetails_tx (bigOrgId bigProductId : Z) : M unit :=
  exec Tx (Delete TProductPrice)
    (set_productPrices (List.filter (λ r, negb (pp_product r =? bigProductId)))) ;;
  exec Tx (Delete TProductStock)
    (set_productStocks (List.filter (λ r, negb (ps_product r =? bigProductId)))) ;;
  exec_checked Tx (Delete TProduct)
    (λ d, existsb (λ p, (product_id p =? bigProductId) && (p_org p =? bigOrgId))
            (products d)) record_not_found
    (set_products (List.filter (λ p,
       negb ((product_id p =? bigProductId) && (p_org p =? bigOrgId))))).

Definition deleteProductDetails_try (orgId productId : string) : M unit :=
  let* bigOrgId := toBigInt orgId in
  let* bigProductId := toBigInt productId in
  requireRole orgId (λ role, hasPermission role writerRoles)
    (λ _, "Insufficient permissions to delete products") ;;
  let* orderCount := query Prisma (λ d,
    count (λ i, oi_product i =? bigProductId) (orderItems d)) in
  throw_if (0 <? orderCount)%nat
    "Cannot delete product that has been ordered. Archive it instead." ;;
  transaction (deleteProductDetails_tx bigOrgId bigProductId) ;;
  invalidateProducts orgId.

Definition deleteProductDetails (orgId productId : string) : M unit :=
  let* userId := auth in
  throw_if (negb (Js.truthy_opt userId)) "Unauthorized" ;;
  throw_if (negb (Js.truthy orgId)) "Organization ID is required" ;;
  throw_if (negb (Js.truthy productId)) "Product ID is required" ;;
  try_catch (deleteProductDetails_try orgId productId) details_catch.

(** [deleteProduct].  The rows that go with the product are left to the
    cascade rules of the schema, which is not part of this source:
    [onDelete pid] is what the store does on deleting product [pid]. *)
Definition deleteProduct_try (onDelete : Z → DB → DB) (orgId id : string)
    : M string :=
  let* bigOrgId := toBigInt orgId in
  requireRole orgId (λ role, hasPermission role writerRoles)
    (λ _, "Insufficient permissions to delete products") ;;
  let* productId := toBigInt id in
  let* existingProduct := query Prisma (λ d,
    List.find (λ p, (product_id p =? productId) && (p_org p =? bigOrgId))
      (products d)) in
  throw_if (negb (bool_decide (is_Some existingProduct)))
    "Product not found in this organization" ;;
  let* orderItems := query Prisma (λ d,
    List.find (λ i, oi_product i =? productId) (orderItems d)) in
  throw_if (bool_decide (is_Some orderItems))
    "Cannot delete product that has been ordered. Consider deactivating it instead." ;;
  exec_checked Prisma (Delete TProduct)
    (λ d, existsb (λ p, product_id p =? productId) (products d))
    record_not_found (onDelete productId) ;;
  invalidateProducts orgId ;;
  ret (Js.show_Z productId).

Definition deleteProduct_catch {A} (e : string) : M A :=
  if is_BigInt_error e then throw "Invalid organization or product ID format"
  else throw e.

Definition deleteProduct (onDelete : Z → DB → DB) (orgId id : string)
    : M string :=
  let* userId := auth in
  throw_if (negb (Js.truthy_opt userId)) "Unauthorized" ;;
  throw_if (negb (Js.truthy orgId)) "Organization ID is required" ;;
  throw_if (negb (Js.truthy id)) "Product ID is required" ;;
  try_catch (deleteProduct_try onDelete orgId id) deleteProduct_catch.

(** An entry of the list of [getWarehouseList], without its two dates, which
    the store of this development does not hold. *)
Record WarehouseItem := mkItem {
  wi_id : string; wi_name : string; wi_address : string }.

Definition getWarehouseList_try (orgId : string) : M (list WarehouseItem) :=
  let* bigOrgId := toBigInt orgId in
  requireRole orgId (λ role, hasPermission role readerRoles)
    (λ _, "Insufficient permissions to view warehouses") ;;
  let* found := query Prisma (λ d,
    List.filter (λ w, wh_org w =? bigOrgId) (warehouses d)) in
  ret (map (λ w, mkItem (Js.show_Z (warehouse_id w)) (wh_name w)
                   (if Js.truthy (wh_address w) then wh_address w else ""))
         found).

Definition getWarehouseList (orgId : string) : M (list WarehouseItem) :=
  let* userId := auth in
  throw_if (negb (Js.truthy_opt userId)) "Unauthorized" ;;
  throw_if (negb (Js.truthy orgId)) "Organization ID is required" ;;
  try_catch (getWarehouseList_try orgId) (λ error, throw error).

(** [app/inventory/components/StockTransferDialog.tsx] *)

Record WarehouseOption := mkOption {
  wo_id : string; wo_name : string; currentStock : option Z }.

(** The state of the form when [handleTransfer] runs. *)
Record TransferForm := mkForm {
  fromWarehouse : string; toWarehouse : string; form_quantity : Z;
  form_reason : string; form_notes : string }.

(** [handleTransfer]: the value of the [error] state it leaves, [None] when
    the transfer went through and the dialog closes. *)
Definition handleTransfer (orgId productId : string)
    (options : list WarehouseOption) (f : TransferForm) : M (option string) :=
  let submit : M (option string) :=
    if negb (Js.truthy orgId) || negb (Js.truthy productId) then
      ret (Some "Missing organization or product information")
    else
      try_catch
        (transferStock orgId productId (fromWarehouse f) (toWarehouse f)
           (form_quantity f) (form_reason f) (Some (form_notes f)) ;;
         ret None)
        (λ err, ret (Some err)) in
  if negb (Js.truthy (fromWarehouse f)) || negb (Js.truthy (toWarehouse f)) then
    ret (Some "Please select both source and destination warehouses")
  else if String.eqb (fromWarehouse f) (toWarehouse f) then
    ret (Some "Source and destination warehouses must be different")
  else if (form_quantity f =? 0) || (form_quantity f <=? 0) then
    ret (Some "Please enter a valid quantity")
  else if negb (Js.truthy (Js.trim (form_reason f))) then
    ret (Some "Please provide a reason for the transfer")
  else
    match List.find (λ w, String.eqb (wo_id w) (fromWarehouse f)) options
          ≫= currentStock with
    | Some stock =>
        if stock <? form_quantity f then
          ret (Some ("Insufficient stock. Available: " +:+ Js.show_Z stock
                     +:+ " units"))
        else submit
    | None => submit
    end.

(** ** Vocabulary of the further statements *)

(** A computation that, started outside a transaction, ends outside one. *)
Definition keeps_base {A} (m : M A) : Prop :=
  ∀ w r w', base w = None → m w = (r, w') → base w' = None.

(** A computation that leaves the session as it is. *)
Definition keeps_session {A} (m : M A) : Prop :=
  ∀ w r w', m w = (r, w') → session w' = session w.

(** The stock rows after the two writes of a transfer of [qty] from the row
    [s] to warehouse [to]: the row [s] is set to its quantity less [qty];
    then the row of [to], the first one the store finds after the source
    has been written, is set to its quantity plus [qty], or a row of [qty]
    with key [id] is created when there is none.  Differences and sums are
    those of number arithmetic.  When [to] is the warehouse of [s] the
    second write is made to the row of [s] again. *)
Definition movedRows (pid to qty : Z) (s : ProductStock) (id : Z)
    (rows : list ProductStock) : list ProductStock :=
  let rows1 :=
    map (setQty (stock_id s) (Js.Number (quantity s - qty))) rows in
  match List.find (λ r, (ps_product r =? pid) && (ps_warehouse r =? to)) rows1 with
  | Some t => map (setQty (stock_id t) (Js.Number (quantity t + qty))) rows1
  | None => append [mkStock id pid to qty] rows1
  end.

(** Two stores with the same stock rows and the same ledger. *)
Definition same_stock (d d' : DB) : Prop :=
  productStocks d' = productStocks d ∧ stockMovements d' = stockMovements d.

(** Two stores with the same organizations, invitations, warehouses,
    products, prices and orders. *)
Definition same_catalogue (d d' : DB) : Prop :=
  organizations d' = organizations d ∧ invites d' = invites d
  ∧ warehouses d' = warehouses d ∧ products d' = products d
  ∧ productPrices d' = productPrices d ∧ orders d' = orders d
  ∧ orderItems d' = orderItems d.

(** From [d] to [d'] the writes of the transfer have all been made: the
    stock rows are those that [movedRows] describes and the ledger has its
    two entries. *)
Definition transfer_written (productId fromId toId : string) (qty : Z)
    (reason : string) (notes : option string) (d d' : DB) : Prop :=
  ∃ pid from to u s id,
    Js.BigInt productId = Some pid ∧ Js.BigInt fromId = Some from
    ∧ Js.BigInt toId = Some to
    ∧ 0 < qty ∧ findStock pid from d = Some s ∧ qty ≤ quantity s
    ∧ productStocks d' = movedRows pid to qty s id (productStocks d)
    ∧ stockMovements d'
      = append (transferEntries pid from to qty reason notes u)
          (stockMovements d).

(** The ledger entry of an adjustment by [d]. *)
Definition adjustmentEntry (pid wid d : Z) (u : User) : StockMovement :=
  mkMovement pid wid (if 0 <? d then "in" else "out") (Z.abs d)
    (if 0 <? d then "Stock increase" else "Stock decrease") None (user_id u).

(** From [d0] to [d'] the adjustment by [d] has been carried out in full:
    the row of the pair has its new quantity, the sum as numbers add, or
    has been created, and the ledger has its entry. *)
Definition adjusted (productId warehouseId : string) (d : Z) (d0 d' : DB) : Prop :=
  ∃ pid wid u,
    Js.BigInt productId = Some pid ∧ Js.BigInt warehouseId = Some wid
    ∧ match findStock pid wid d0 with
      | Some s =>
          0 ≤ quantity s + d
          ∧ productStocks d'
            = map (setQty (stock_id s) (Js.Number (quantity s + d)))
                (productStocks d0)
      | None =>
          0 ≤ d
          ∧ ∃ id, productStocks d'
                  = append [mkStock id pid wid (Z.max 0 d)] (productStocks d0)
      end
    ∧ stockMovements d'
      = append [adjustmentEntry pid wid d u] (stockMovements d0).

(** ** A store with two organizations

    The store of [Fixture] with a second organization, Bolt (2), that Cat
    created: one warehouse, one product and four units of it. *)
Module Tenants.

Definition bolt : Organization := mkOrg "Bolt" 3.

Definition both : DB :=
  set_organizations (insert 2 bolt)
    (set_members (insert (2, 3) "admin")
       (set_warehouses (append [mkWarehouse 7 2 "Bolt Yard" "9 Mill Ln"])
          (set_products
             (append [mkProduct 11 2 "Gear" "G-7" None None "active" 3 None])
             (set_productStocks (append [mkStock 21 11 7 4])
                (set_productPrices
                   (append [mkPrice 31 11 (5 # 1) None None 600 None])
                   Fixture.store))))).

End Tenants.

(** An organization whose key is not a number that a double holds: Globex
    has the key 2^53 + 1 and one warehouse, the Quay; its neighbour Initech
    has the key 2^53 and no warehouse. *)
Module Large.

Definition key : Z := 2 ^ 53 + 1.
Definition globex : Organization := mkOrg "Globex" 1.
Definition initech : Organization := mkOrg "Initech" 3.
Definition quay : Warehouse := mkWarehouse 8 key "Quay" "3 Pier St".

Definition tenants : DB :=
  set_organizations (insert key globex)
    (set_organizations (insert (2 ^ 53) initech)
       (set_members (insert (key, 1) "admin")
          (set_members (insert (2 ^ 53, 3) "admin")
             (set_warehouses (append [quay]) Fixture.store)))).

End Large.

(** The product row that [addProduct] creates under the key [id]. *)
Definition newProductRow (id o : Z) (u : User) (newProduct : ProductInput) : Product :=
  mkProduct id o (Js.trim (in_name newProduct)) (Js.trim (in_sku newProduct))
    (Js.trim <$> in_description newProduct) (trim_or_null (in_image newProduct))
    "active" (user_id u) None.

(** The warehouse that [getOrCreateDefaultWarehouse] creates under the key
    [id]. *)
Definition defaultWarehouse (id o : Z) : Warehouse :=
  mkWarehouse id (Js.Number o) "Default Warehouse" "Default Address".

(** The SKUs of the products with their organizations. *)
Definition sku_keys (d : DB) : list (Z * string) :=
  map (λ p, (p_org p, p_sku p)) (products d).

(** From the world [w] to the store [d'] the product [id] has been deleted
    by [deleteProduct] for the caller signed in at [w]: the caller is known
    to the store, created the organization [orgId] or has a member row of
    it with one of the roles "writer", "read-write" and "admin", and [id]
    was a product of that organization that no order item referred to. *)
Definition deletedProduct (onDelete : Z → DB → DB) (w : World)
    (orgId id : string) (d' : DB) : Prop :=
  ∃ clerk u role o pid p d0,
    session w = Some clerk ∧ users d0 !! clerk = Some u
    ∧ Js.BigInt orgId = Some o ∧ Js.BigInt id = Some pid
    ∧ hasPermission (Some role) writerRoles = true
    ∧ ((∃ org, organizations (db w) !! o = Some org
               ∧ created_by org = user_id u ∧ role = "admin")
       ∨ members (db w) !! (o, user_id u) = Some role)
    ∧ p ∈ products (db w) ∧ product_id p = pid ∧ p_org p = o
    ∧ (∀ i, i ∈ orderItems (db w) → oi_product i ≠ pid)
    ∧ same_inventory (db w) d0 ∧ d' = onDelete pid d0.

(** The row that [updateProduct] leaves of a product row. *)
Definition updatedRow (pid : Z) (u : User) (input : ProductInput) (p : Product)
    : Product :=
  if product_id p =? pid then
    mkProduct (product_id p) (p_org p) (Js.trim (in_name input))
      (Js.trim (in_sku input)) (Js.trim <$> in_description input)
      (trim_or_null (in_image input)) (p_status p) (p_created_by p)
      (Some (user_id u))
  else p.

(** The world in which the coming round-trips behave as [fs] says. *)
Definition with_faults (fs : list (option string)) (w : World) : World :=
  mkWorld (db w) (base w) (nextId w) (session w) (clerkEmail w) (now w) fs
    (trace w).

(** The number that the decimal digits [d] continue [acc] to. *)
Fixpoint uint_value (d : Decimal.uint) (acc : Z) : Z :=
  match d with
  | Decimal.Nil => acc
  | Decimal.D0 l => uint_value l (acc * 10 + 0)
  | Decimal.D1 l => uint_value l (acc * 10 + 1)
  | Decimal.D2 l => uint_value l (acc * 10 + 2)
  | Decimal.D3 l => uint_value l (acc * 10 + 3)
  | Decimal.D4 l => uint_value l (acc * 10 + 4)
  | Decimal.D5 l => uint_value l (acc * 10 + 5)
  | Decimal.D6 l => uint_value l (acc * 10 + 6)
  | Decimal.D7 l => uint_value l (acc * 10 + 7)
  | Decimal.D8 l => uint_value l (acc * 10 + 8)
  | Decimal.D9 l => uint_value l (acc * 10 + 9)
  end.

(** * Properties *)

Arguments Js.BigInt : simpl never.
Arguments Js.trim : simpl never.
Arguments Js.includes : simpl never.
Arguments Js.show_Z : simpl never.
Arguments Js.show_nat : simpl never.
Arguments Js.Number : simpl never.
Arguments String.eqb : simpl nomatch.
Arguments Ascii.eqb : simpl never.

(** ** Strings *)

Lemma array_includes_In l x : Js.array_includes l x = true ↔ In x l.
Proof.
  unfold Js.array_includes. rewrite existsb_exists. split.
  - intros (y & Hy & E). apply String.eqb_eq in E. by subst.
  - intros H. exists x. split; [done | apply String.eqb_refl].
Qed.

(** C2: [hasPermission] is a total function of the role and the list.  It
    is false for no role, for the empty role and for the roles "null",
    "undefined" and "NULL", whatever the list; it is true for "admin",
    whatever the list, the empty one included; for every other role it is
    true exactly when the role is in the list. *)
Theorem hasPermission_spec :
  (∀ requiredRoles, hasPermission None requiredRoles = false)
  ∧ (∀ requiredRoles, hasPermission (Some "") requiredRoles = false)
  ∧ (∀ requiredRoles, hasPermission (Some "null") requiredRoles = false)
  ∧ (∀ requiredRoles, hasPermission (Some "undefined") requiredRoles = false)
  ∧ (∀ requiredRoles, hasPermission (Some "NULL") requiredRoles = false)
  ∧ (∀ requiredRoles, hasPermission (Some "admin") requiredRoles = true)
  ∧ (∀ role requiredRoles,
       role ≠ "" → role ≠ "null" → role ≠ "undefined" → role ≠ "NULL" →
       role ≠ "admin" →
       hasPermission (Some role) requiredRoles = true ↔ In role requiredRoles).
Proof.
  split_and!; try done.
  intros role requiredRoles H1 H2 H3 H4 H5.
  unfold hasPermission.
  assert (Js.truthy role = true) as -> by (by destruct role).
  apply String.eqb_neq in H1, H2, H3, H4, H5.
  rewrite H1, H2, H3, H4, H5. simpl. apply array_includes_In.
Qed.

Lemma hasPermission_spec_witness :
  hasPermission (Some "writer") ["writer"; "manager"] = true.
Proof.
  destruct hasPermission_spec as (_ & _ & _ & _ & _ & _ & Hother).
  apply (Hother "writer" ["writer"; "manager"]); [done | done | done | done | done |].
  left. reflexivity.
Defined.

(** ** Running computations in a quiet world *)

Lemma bind_ok {A B} (m : M A) (k : A → M B) w a w' :
  m w = (Ok a, w') → bind m k w = k a w'.
Proof. unfold bind. by intros ->. Qed.

Lemma bind_err {A B} (m : M A) (k : A → M B) w e w' :
  m w = (Err e, w') → bind m k w = (Err e, w').
Proof. unfold bind. by intros ->. Qed.

Lemma io_ok w : faults w = [] → io w = (Ok tt, w).
Proof. unfold io. by intros ->. Qed.

Lemma query_ok {A} c (f : DB → A) w :
  faults w = [] → query c f w = (Ok (f (view c w)), w).
Proof. intros H. unfold query. by rewrite (bind_ok _ _ _ _ _ (io_ok w H)). Qed.

Lemma view_quiet c w : base w = None → view c w = db w.
Proof. destruct c; [|done]. unfold view, committed. by intros ->. Qed.

Lemma exec_ok c s f w :
  faults w = [] → base w = None → exec c s f w = (Ok tt, with_db f [s] w).
Proof.
  intros H Hb. unfold exec. rewrite (bind_ok _ _ _ _ _ (io_ok w H)).
  unfold apply, with_db. rewrite Hb. by destruct c.
Qed.

Lemma exec_tx_ok s f w :
  faults w = [] → exec Tx s f w = (Ok tt, with_db f [s] w).
Proof.
  intros H. unfold exec. by rewrite (bind_ok _ _ _ _ _ (io_ok w H)).
Qed.

Lemma exec_checked_tx_ok s chk msg f w :
  faults w = [] → chk (db w) = true →
  exec_checked Tx s chk msg f w = (Ok tt, with_db f [s] w).
Proof.
  intros H Hc. unfold exec_checked. rewrite (bind_ok _ _ _ _ _ (io_ok w H)).
  unfold bind, peek. simpl. by rewrite Hc.
Qed.

Lemma transaction_ok {A} (body : M A) w a w1 :
  faults w = [] → body (open_tx w) = (Ok a, w1) → faults w1 = [] →
  transaction body w = (Ok a, close_tx (db w1) w1).
Proof.
  intros H Hbody H1. unfold transaction.
  rewrite (bind_ok _ _ _ _ _ (io_ok w H)). rewrite Hbody.
  by rewrite (io_ok w1 H1).
Qed.

Lemma transaction_err {A} (body : M A) w e w1 :
  faults w = [] → body (open_tx w) = (Err e, w1) →
  transaction body w = (Err e, close_tx (committed w1) w1).
Proof.
  intros H Hbody. unfold transaction.
  rewrite (bind_ok _ _ _ _ _ (io_ok w H)). by rewrite Hbody.
Qed.

Lemma getOrCreateUser_known clerk u w :
  faults w = [] → users (committed w) !! clerk = Some u →
  getOrCreateUser clerk w = (Ok u, w).
Proof.
  intros H Hu. unfold getOrCreateUser.
  rewrite (bind_ok _ _ _ _ _ (query_ok Prisma _ w H)). simpl. by rewrite Hu.
Qed.

Lemma toBigInt_ok s z w : Js.BigInt s = Some z → toBigInt s w = (Ok z, w).
Proof. unfold toBigInt. by intros ->. Qed.

Lemma toBigInt_err s w :
  Js.BigInt s = None → toBigInt s w = (Err (Js.BigInt_error s), w).
Proof. unfold toBigInt. by intros ->. Qed.

(** ** Role resolution *)

Lemma getUserRole_try_creator orgId clerk o u org w :
  quiet w → Js.BigInt orgId = Some o →
  users (db w) !! clerk = Some u →
  organizations (db w) !! o = Some org →
  created_by org = user_id u →
  getUserRole_try orgId clerk w
  = (Ok (Some "admin"),
     with_db (set_members (insert (o, user_id u) "admin")) [Upsert TMember] w).
Proof.
  intros [Hb Hf] Ho Hu Horg Hc. unfold getUserRole_try.
  rewrite (bind_ok _ _ _ _ _ (toBigInt_ok _ _ w Ho)).
  erewrite bind_ok; last by (apply getOrCreateUser_known; [|unfold committed; rewrite Hb]).
  rewrite (bind_ok _ _ _ _ _ (query_ok Prisma _ w Hf)).
  rewrite view_quiet by done. rewrite Horg, bool_decide_eq_true_2 by done.
  unfold upsertAdmin. by rewrite (bind_ok _ _ _ _ _ (exec_ok _ _ _ w Hf Hb)).
Qed.

Lemma getUserRole_try_member orgId clerk o u w :
  quiet w → Js.BigInt orgId = Some o →
  users (db w) !! clerk = Some u →
  (∀ org, organizations (db w) !! o = Some org → created_by org ≠ user_id u) →
  getUserRole_try orgId clerk w
  = (Ok (match members (db w) !! (o, user_id u) with
         | Some role => if Js.truthy role then Some role else None
         | None => None
         end), w).
Proof.
  intros [Hb Hf] Ho Hu Hc. unfold getUserRole_try.
  rewrite (bind_ok _ _ _ _ _ (toBigInt_ok _ _ w Ho)).
  erewrite bind_ok; last by (apply getOrCreateUser_known; [|unfold committed; rewrite Hb]).
  rewrite (bind_ok _ _ _ _ _ (query_ok Prisma _ w Hf)).
  rewrite view_quiet by done.
  destruct (organizations (db w) !! o) as [org|] eqn:Horg.
  - rewrite bool_decide_eq_false_2 by (by apply Hc).
    rewrite (bind_ok _ _ _ _ _ (query_ok Prisma _ w Hf)).
    by rewrite view_quiet.
  - rewrite (bind_ok _ _ _ _ _ (query_ok Prisma _ w Hf)).
    by rewrite view_quiet.
Qed.

Lemma getUserRole_signed_in orgId clerk w :
  session w = Some clerk → Js.truthy clerk = true →
  getUserRole orgId w
  = try_catch (getUserRole_try orgId clerk) (λ _, ret None) w.
Proof.
  intros Hs Ht. unfold getUserRole, bind, auth. by rewrite Hs, Ht.
Qed.

(** C1: when the principal created the organization and the store
    answers, [getUserRole] returns "admin" whatever the member table held,
    and leaves the table with the row (org, creator) at role "admin": the
    row is overwritten when it was there, added when it was not, and no
    other row changes. *)
Theorem getUserRole_creator_admin w orgId clerk o u org :
  quiet w →
  session w = Some clerk → Js.truthy clerk = true →
  Js.BigInt orgId = Some o →
  users (db w) !! clerk = Some u →
  organizations (db w) !! o = Some org →
  created_by org = user_id u →
  ∃ w', getUserRole orgId w = (Ok (Some "admin"), w')
    ∧ db w' = set_members (insert (o, user_id u) "admin") (db w)
    ∧ members (db w') !! (o, user_id u) = Some "admin"
    ∧ (∀ k, k ≠ (o, user_id u) → members (db w') !! k = members (db w) !! k)
    ∧ (members (db w) !! (o, user_id u) = None →
       dom (members (db w')) = {[ (o, user_id u) ]} ∪ dom (members (db w)))
    ∧ (is_Some (members (db w) !! (o, user_id u)) →
       dom (members (db w')) = dom (members (db w))).
Proof.
  intros Hq Hs Ht Ho Hu Horg Hc.
  eexists. split.
  - rewrite (getUserRole_signed_in _ _ _ Hs Ht). unfold try_catch.
    by rewrite (getUserRole_try_creator _ _ _ _ _ _ Hq Ho Hu Horg Hc).
  - simpl. split_and!; [done | apply lookup_insert_eq | | |].
    + intros k Hk. by rewrite lookup_insert_ne.
    + intros _. by rewrite dom_insert_L.
    + intros Hsome%elem_of_dom. rewrite dom_insert_L.
      apply subseteq_union_1_L. by apply singleton_subseteq_l.
Qed.

Lemma getUserRole_creator_admin_witness :
  ∃ w', getUserRole "1" (Fixture.request "clerk_ann" Fixture.store)
        = (Ok (Some "admin"), w')
    ∧ members (db w') !! (1, 1) = Some "admin".
Proof.
  destruct (getUserRole_creator_admin
              (Fixture.request "clerk_ann" Fixture.store) "1" "clerk_ann" 1
              Fixture.ann Fixture.acme) as (w' & H & _ & Hm & _);
    [by split | reflexivity | reflexivity | reflexivity | reflexivity
    | reflexivity | reflexivity |].
  exists w'. by split.
Defined.

Lemma try_catch_null_total {A} (m : M (option A)) w :
  ∃ r w', try_catch m (λ _, ret None) w = (Ok r, w').
Proof.
  unfold try_catch. destruct (m w) as [[a|e] w']; by eauto.
Qed.

(** C9: [getUserRole] never throws.  In every world, whatever round-trips
    fail, it returns a role or null; whenever the body of its [try] throws,
    be it from the user lookup, the user creation, the organization lookup
    or the member upsert, it returns null; and an organization id that
    [BigInt] does not read gives null with the store untouched, the answer
    a stranger to the organization gets. *)
Theorem getUserRole_never_throws orgId w :
  (∃ role w', getUserRole orgId w = (Ok role, w'))
  ∧ (∀ clerk e w',
       session w = Some clerk → Js.truthy clerk = true →
       getUserRole_try orgId clerk w = (Err e, w') →
       getUserRole orgId w = (Ok None, w'))
  ∧ (Js.BigInt orgId = None → getUserRole orgId w = (Ok None, w)).
Proof.
  split_and!.
  - unfold getUserRole, bind, auth.
    destruct (session w) as [clerk|]; [|by eauto].
    destruct (Js.truthy clerk); [|by eauto].
    apply try_catch_null_total.
  - intros clerk e w' Hs Ht He.
    rewrite (getUserRole_signed_in _ _ _ Hs Ht). unfold try_catch.
    by rewrite He.
  - intros Hbad. unfold getUserRole, bind, auth.
    destruct (session w) as [clerk|]; [|done].
    destruct (Js.truthy clerk); [|done].
    unfold try_catch, getUserRole_try.
    by rewrite (bind_err _ _ _ _ _ (toBigInt_err _ w Hbad)).
Qed.

(** A stranger to the organization and its creator, when the store is down,
    get the same answer. *)
Lemma getUserRole_never_throws_witness :
  let down := Fixture.failing [Some "Can't reach database server"]
                (Fixture.request "clerk_ann" Fixture.store) in
  getUserRole "1" down = (Ok None, Fixture.failing [] down)
  ∧ getUserRole "abc" down = (Ok None, down)
  ∧ (getUserRole "1" (Fixture.request "clerk_cat" Fixture.store)).1 = Ok None.
Proof.
  intros down. split_and!.
  - apply (proj1 (proj2 (getUserRole_never_throws "1" down)) "clerk_ann"
             "Can't reach database server"); reflexivity.
  - apply (proj2 (proj2 (getUserRole_never_throws "abc" down))). reflexivity.
  - vm_compute. reflexivity.
Defined.

(** ** Identifiers *)

Lemma trimEnd_idem s : Js.trimEnd (Js.trimEnd s) = Js.trimEnd s.
Proof.
  induction s as [|c t IH]; [done |]. simpl.
  destruct (Js.trimEnd t) as [|c' t'] eqn:E.
  - destruct (Js.is_ws c) eqn:Hc; [done |]. simpl. by rewrite Hc.
  - change (Js.trimEnd (String c (String c' t'))) with
      (match Js.trimEnd (String c' t') with
       | EmptyString => if Js.is_ws c then EmptyString else String c EmptyString
       | u => String c u
       end).
    by rewrite IH.
Qed.

Lemma trimStart_head s :
  Js.trimStart s = EmptyString
  ∨ ∃ c t, Js.trimStart s = String c t ∧ Js.is_ws c = false.
Proof.
  induction s as [|c t IH]; [by left |]. simpl.
  destruct (Js.is_ws c) eqn:Hc; [done |]. right. by exists c, t.
Qed.

Lemma trim_idem s : Js.trim (Js.trim s) = Js.trim s.
Proof.
  unfold Js.trim. destruct (trimStart_head s) as [E | (c & t & E & Hc)];
    rewrite E; [done |].
  assert (Js.trimStart (Js.trimEnd (String c t)) = Js.trimEnd (String c t)) as ->.
  { simpl. destruct (Js.trimEnd t); rewrite ?Hc; simpl; by rewrite Hc. }
  apply trimEnd_idem.
Qed.

Lemma BigInt_trim s : Js.BigInt (Js.trim s) = Js.BigInt s.
Proof. unfold Js.BigInt. by rewrite trim_idem. Qed.

Lemma numeric_trim_valid orgId :
  Js.numeric (Js.trim orgId) = true →
  negb (Js.truthy orgId) || String.eqb (Js.trim orgId) ""
  || String.eqb orgId "undefined" || String.eqb orgId "null" = false.
Proof.
  intros H.
  destruct orgId as [|c t]; [done |]. simpl.
  destruct (String.eqb (Js.trim (String c t)) "") eqn:E1.
  { apply String.eqb_eq in E1. by rewrite E1 in H. }
  destruct (String.eqb (String c t) "undefined") eqn:E2.
  { apply String.eqb_eq in E2. by rewrite E2 in H. }
  destruct (String.eqb (String c t) "null") eqn:E3.
  { apply String.eqb_eq in E3. by rewrite E3 in H. }
  done.
Qed.

(** ** The permission prelude *)

Lemma close_open w : base w = None → close_tx (db w) (open_tx w) = w.
Proof. destruct w. simpl. by intros ->. Qed.

Lemma ensureOrganizationMember_ok w orgId clerk o u org :
  quiet w → Caller w orgId clerk o u org →
  (created_by org = user_id u ∨ is_Some (members (db w) !! (o, user_id u))) →
  ensureOrganizationMember orgId w
  = (Ok tt,
     if bool_decide (created_by org = user_id u) then
       with_db (set_members (insert (o, user_id u) "admin")) [Upsert TMember] w
     else w).
Proof.
  intros [Hb Hf] [Hs Ht Hn Ho Hu Horg] Hrole.
  unfold ensureOrganizationMember, bind, auth. rewrite Hs. simpl. rewrite Ht.
  simpl. unfold try_catch, ensureOrganizationMember_try.
  rewrite (numeric_trim_valid _ Hn). simpl.
  unfold bind at 1. simpl. unfold bind at 1.
  unfold try_catch. rewrite Hn. simpl. unfold bind at 1. simpl.
  rewrite (toBigInt_ok _ o) by (by rewrite BigInt_trim).
  erewrite bind_ok;
    last (apply getOrCreateUser_known; [done | unfold committed; by rewrite Hb]).
  rewrite (bind_ok _ _ _ _ _ (query_ok Prisma _ w Hf)).
  rewrite view_quiet by done. rewrite Horg.
  case_bool_decide as Hc.
  - erewrite transaction_ok; [| done | by apply exec_tx_ok | done].
    simpl. destruct w; simpl in *. by subst.
  - destruct Hrole as [? | [r Hr]]; [done |].
    erewrite transaction_ok; [| done | |].
    2: { rewrite (bind_ok _ _ _ _ _ (query_ok Tx _ (open_tx w) Hf)). simpl.
         by rewrite Hr. }
    2: done.
    destruct w; simpl in *. by subst.
Qed.

Lemma requireRole_ok w orgId clerk o u org role permitted denied :
  quiet w → Caller w orgId clerk o u org →
  roleOf (db w) o u org = Some role →
  permitted (Some role) = true →
  requireRole orgId permitted denied w = (Ok tt, bootstrapped o u org w).
Proof.
  intros Hq Hcaller Hrole Hperm. pose proof Hq as [Hb Hf].
  pose proof Hcaller as [Hs Ht Hn Ho Hu Horg].
  assert (created_by org = user_id u
          ∨ is_Some (members (db w) !! (o, user_id u))) as Hmem.
  { unfold roleOf in Hrole. case_bool_decide; [by left | right].
    destruct (members (db w) !! (o, user_id u)); by eauto. }
  unfold requireRole.
  rewrite (bind_ok _ _ _ _ _
             (ensureOrganizationMember_ok _ _ _ _ _ _ Hq Hcaller Hmem)).
  unfold roleOf, bootstrapped in *. case_bool_decide as Hc.
  - set (w1 := with_db _ _ w).
    rewrite (bind_ok _ _ w1 (Some "admin")
               (with_db (set_members (insert (o, user_id u) "admin"))
                  [Upsert TMember] w1)).
    + injection Hrole as <-. rewrite Hperm.
      unfold ret, with_db, w1, with_db, set_members. simpl.
      rewrite insert_insert_eq. by rewrite <- (assoc_L (++)).
    + rewrite (getUserRole_signed_in _ clerk) by done. unfold try_catch.
      by rewrite (getUserRole_try_creator orgId clerk o u org w1).
  - rewrite (bind_ok _ _ w (Some role) w).
    + by rewrite Hperm.
    + rewrite (getUserRole_signed_in _ clerk) by done. unfold try_catch.
      rewrite (getUserRole_try_member orgId clerk o u w);
        [by rewrite Hrole | done | done | done |].
      intros org' Horg'. congruence.
Qed.

(** ** Stock rows *)

Section StockRows.

Implicit Types (l : list ProductStock) (s r : ProductStock).

Lemma fold_sum_shift l a :
  fold_left (λ acc s, acc + quantity s) l a = a + sumStock l.
Proof.
  unfold sumStock. revert a.
  induction l as [|x l IH]; intros a; simpl; [lia |].
  rewrite (IH (a + quantity x)), (IH (0 + quantity x)). lia.
Qed.

Lemma sumStock_cons s l : sumStock (s :: l) = quantity s + sumStock l.
Proof. unfold sumStock at 1. simpl. by rewrite fold_sum_shift. Qed.

Lemma sumStock_app l1 l2 : sumStock (l1 ++ l2) = sumStock l1 + sumStock l2.
Proof.
  induction l1 as [|x l1 IH]; simpl; [done |].
  rewrite !sumStock_cons, IH. lia.
Qed.

Lemma sumBy_cons sel s l :
  sumBy sel (s :: l)
  = (if sel (ps_product s) (ps_warehouse s) then quantity s else 0) + sumBy sel l.
Proof.
  unfold sumBy. simpl. destruct (sel _ _); [apply sumStock_cons | done].
Qed.

Lemma sumBy_app sel l1 l2 : sumBy sel (l1 ++ l2) = sumBy sel l1 + sumBy sel l2.
Proof. unfold sumBy. by rewrite List.filter_app, sumStock_app. Qed.

Lemma setQty_fresh sid q l :
  sid ∉ map stock_id l → map (setQty sid q) l = l.
Proof.
  induction l as [|x l IH]; simpl; [done |].
  intros Hnot. apply not_elem_of_cons in Hnot as [Hx Hl].
  rewrite IH by done. unfold setQty.
  destruct (Z.eqb_spec (stock_id x) sid); [congruence | done].
Qed.

(** Updating the row of key [sid] changes a selected sum by the change of
    that row, when the row is selected. *)
Lemma sumBy_setQty sel q l r :
  NoDup (map stock_id l) → r ∈ l →
  sumBy sel (map (setQty (stock_id r) q) l)
  = sumBy sel l
    + (if sel (ps_product r) (ps_warehouse r) then q - quantity r else 0).
Proof.
  induction l as [|x l IH]; simpl; intros Hnd Hin.
  - by apply elem_of_nil in Hin.
  - apply NoDup_cons in Hnd as [Hx Hnd].
    rewrite !sumBy_cons. apply elem_of_cons in Hin as [<- | Hin].
    + rewrite setQty_fresh by done. unfold setQty.
      rewrite Z.eqb_refl. simpl. destruct (sel _ _); lia.
    + rewrite IH by done. unfold setQty at 1 2 3.
      destruct (Z.eqb_spec (stock_id x) (stock_id r)) as [E | _]; [| lia].
      exfalso. apply Hx. rewrite E. by apply list_elem_of_fmap_2.
Qed.

Lemma find_setQty (P : ProductStock → bool) sid q l :
  (∀ s, P (setQty sid q s) = P s) →
  List.find P (map (setQty sid q) l) = setQty sid q <$> List.find P l.
Proof.
  intros HP. induction l as [|x l IH]; simpl; [done |].
  rewrite HP. by destruct (P x).
Qed.

Lemma find_app_None {A} (P : A → bool) (l1 l2 : list A) :
  List.find P l1 = None → List.find P (l1 ++ l2) = List.find P l2.
Proof.
  induction l1 as [|x l1 IH]; simpl; [done |]. by destruct (P x).
Qed.

Lemma find_app_Some {A} (P : A → bool) (l1 l2 : list A) x :
  List.find P l1 = Some x → List.find P (l1 ++ l2) = Some x.
Proof.
  induction l1 as [|y l1 IH]; simpl; [done |]. by destruct (P y).
Qed.

Lemma find_elem {A} (P : A → bool) (l : list A) x :
  List.find P l = Some x → x ∈ l ∧ P x = true.
Proof.
  intros H. apply find_some in H as [Hin HP]. split; [|done].
  by apply list_elem_of_In.
Qed.

Lemma existsb_elem {A} (P : A → bool) (l : list A) x :
  x ∈ l → P x = true → existsb P l = true.
Proof.
  intros Hin HP. apply existsb_exists. exists x. split; [|done].
  by apply list_elem_of_In.
Qed.

End StockRows.

Lemma setQty_keys sid q s :
  stock_id (setQty sid q s) = stock_id s
  ∧ ps_product (setQty sid q s) = ps_product s
  ∧ ps_warehouse (setQty sid q s) = ps_warehouse s.
Proof. unfold setQty. by destruct (stock_id s =? sid). Qed.

Lemma setQty_ids sid q l : map stock_id (map (setQty sid q) l) = map stock_id l.
Proof.
  rewrite map_map. apply map_ext. intros s. apply setQty_keys.
Qed.

Lemma setQty_other sid q s : stock_id s ≠ sid → setQty sid q s = s.
Proof. unfold setQty. intros H. by destruct (Z.eqb_spec (stock_id s) sid). Qed.

Lemma setQty_same q s : setQty (stock_id s) q s = set_quantity q s.
Proof. unfold setQty. by rewrite Z.eqb_refl. Qed.

Lemma findStock_setQty pid wid sid q l :
  List.find (λ s, (ps_product s =? pid) && (ps_warehouse s =? wid))
    (map (setQty sid q) l)
  = setQty sid q
    <$> List.find (λ s, (ps_product s =? pid) && (ps_warehouse s =? wid)) l.
Proof.
  apply find_setQty. intros s.
  destruct (setQty_keys sid q s) as (_ & -> & ->). done.
Qed.

Lemma findStock_spec pid wid d s :
  findStock pid wid d = Some s →
  s ∈ productStocks d ∧ ps_product s = pid ∧ ps_warehouse s = wid.
Proof.
  intros H. apply find_elem in H as [Hin HP]. split; [done |].
  apply andb_true_iff in HP as [?%Z.eqb_eq ?%Z.eqb_eq]. done.
Qed.

Lemma stock_id_inj l r1 r2 :
  NoDup (map stock_id l) → r1 ∈ l → r2 ∈ l → stock_id r1 = stock_id r2 → r1 = r2.
Proof.
  induction l as [|x l IH]; simpl; intros Hnd H1 H2 E.
  - by apply elem_of_nil in H1.
  - apply NoDup_cons in Hnd as [Hx Hnd].
    apply elem_of_cons in H1 as [-> | H1]; apply elem_of_cons in H2 as [-> | H2].
    + done.
    + exfalso. apply Hx. rewrite E. by apply list_elem_of_fmap_2.
    + exfalso. apply Hx. rewrite <- E. by apply list_elem_of_fmap_2.
    + by apply IH.
Qed.

(** The rows after a transfer between two different rows. *)
Lemma sumBy_transfer sel l s t qty :
  NoDup (map stock_id l) → s ∈ l → t ∈ l → stock_id s ≠ stock_id t →
  sumBy sel (map (setQty (stock_id t) (quantity t + qty))
               (map (setQty (stock_id s) (quantity s - qty)) l))
  = sumBy sel l
    - (if sel (ps_product s) (ps_warehouse s) then qty else 0)
    + (if sel (ps_product t) (ps_warehouse t) then qty else 0).
Proof.
  intros Hnd Hs Ht Hne.
  set (l1 := map (setQty (stock_id s) (quantity s - qty)) l).
  assert (t ∈ l1) as Ht1.
  { rewrite <- (setQty_other (stock_id s) (quantity s - qty) t) by done.
    by apply list_elem_of_fmap_2. }
  rewrite (sumBy_setQty sel _ l1 t); [| by unfold l1; rewrite setQty_ids | done].
  unfold l1. rewrite (sumBy_setQty sel _ l s) by done.
  destruct (sel (ps_product s) _), (sel (ps_product t) _); lia.
Qed.

(** ** The shell of the stock actions *)

Lemma bootstrapped_quiet o u org w : quiet w → quiet (bootstrapped o u org w).
Proof. unfold bootstrapped. by case_bool_decide. Qed.

Lemma bootstrapped_nextId o u org w : nextId (bootstrapped o u org w) = nextId w.
Proof. unfold bootstrapped. by case_bool_decide. Qed.

Lemma bootstrapped_db o u org w :
  ∃ m, db (bootstrapped o u org w) = set_members (λ _, m) (db w).
Proof.
  unfold bootstrapped. case_bool_decide.
  - by eexists.
  - exists (members (db w)). by destruct (db w).
Qed.

Lemma guarded_transaction_ok w orgId clerk o u org role permitted denied
    (body : User → M unit) w2 :
  quiet w → Caller w orgId clerk o u org →
  roleOf (db w) o u org = Some role → permitted (Some role) = true →
  body u (open_tx (bootstrapped o u org w)) = (Ok tt, w2) → faults w2 = [] →
  (requireRole orgId permitted denied ;;
   let* user := getOrCreateUser clerk in
   transaction (body user) ;;
   invalidateProducts orgId) w
  = (Ok tt, close_tx (db w2) w2).
Proof.
  intros Hq Hcaller Hrole Hperm Hbody Hf2.
  rewrite (bind_ok _ _ _ _ _ (requireRole_ok _ _ _ _ _ _ _ _ denied Hq Hcaller Hrole Hperm)).
  destruct (bootstrapped_quiet o u org w Hq) as [Hb1 Hf1].
  destruct (bootstrapped_db o u org w) as [m Hdb].
  rewrite (bind_ok _ _ _ u (bootstrapped o u org w)).
  - rewrite (bind_ok _ _ _ _ _ (transaction_ok _ _ _ _ Hf1 Hbody Hf2)).
    unfold invalidateProducts. by apply io_ok.
  - apply getOrCreateUser_known; [done |].
    unfold committed. rewrite Hb1. simpl. rewrite Hdb. simpl.
    by destruct Hcaller.
Qed.

Lemma guarded_transaction_err w orgId clerk o u org role permitted denied
    (body : User → M unit) e w2 :
  quiet w → Caller w orgId clerk o u org →
  roleOf (db w) o u org = Some role → permitted (Some role) = true →
  body u (open_tx (bootstrapped o u org w)) = (Err e, w2) →
  (requireRole orgId permitted denied ;;
   let* user := getOrCreateUser clerk in
   transaction (body user) ;;
   invalidateProducts orgId) w
  = (Err e, close_tx (committed w2) w2).
Proof.
  intros Hq Hcaller Hrole Hperm Hbody.
  rewrite (bind_ok _ _ _ _ _ (requireRole_ok _ _ _ _ _ _ _ _ denied Hq Hcaller Hrole Hperm)).
  destruct (bootstrapped_quiet o u org w Hq) as [Hb1 Hf1].
  destruct (bootstrapped_db o u org w) as [m Hdb].
  rewrite (bind_ok _ _ _ u (bootstrapped o u org w)).
  - by rewrite (bind_err _ _ _ _ _ (transaction_err _ _ _ _ Hf1 Hbody)).
  - apply getOrCreateUser_known; [done |].
    unfold committed. rewrite Hb1. simpl. rewrite Hdb. simpl.
    by destruct Hcaller.
Qed.

Lemma throw_if_false {B} c msg (k : unit → M B) w :
  c = false → bind (throw_if c msg) k w = k tt w.
Proof. by intros ->. Qed.

Lemma throw_if_true {B} c msg (k : unit → M B) w :
  c = true → bind (throw_if c msg) k w = (Err msg, w).
Proof. by intros ->. Qed.

(** ** Number arithmetic *)

Lemma Number_exact z : Z.abs z < 2 ^ 53 → Js.Number z = z.
Proof.
  intros H. unfold Js.Number.
  destruct (Z.leb_spec (Z.log2 (Z.abs z) + 1) 53) as [_ | Hbig]; [done |].
  exfalso. destruct (Z.eq_dec (Z.abs z) 0) as [E | Hne].
  - rewrite E in Hbig. simpl in Hbig. lia.
  - assert (Z.log2 (Z.abs z) < 53); [| lia].
    apply Z.log2_lt_pow2; lia.
Qed.

Lemma Number_sign z :
  (0 ≤ z → 0 ≤ Js.Number z) ∧ (z < 0 → Js.Number z < 0).
Proof.
  unfold Js.Number.
  destruct (Z.leb_spec (Z.log2 (Z.abs z) + 1) 53) as [_ | Hbig]; [lia |].
  set (a := Z.abs z) in *. set (sh := Z.log2 a + 1 - 53).
  set (up := if _ : bool then 1 else 0).
  assert (0 ≤ up) as Hup by (subst up; by destruct (_ || _)).
  assert (0 < a) as Ha.
  { destruct (Z.eq_dec a 0) as [E | ?]; [| lia].
    rewrite E in Hbig. simpl in Hbig. lia. }
  assert (0 < Z.shiftr a sh) as Hq.
  { rewrite Z.shiftr_div_pow2 by lia.
    apply Z.div_str_pos. split; [apply Z.pow_pos_nonneg; lia |].
    etrans; [| apply (Z.log2_spec a Ha)].
    apply Z.pow_le_mono_r; lia. }
  assert (0 < Z.shiftl (Z.shiftr a sh + up) sh) as Hpos.
  { rewrite Z.shiftl_mul_pow2 by lia. apply Z.mul_pos_pos; [lia |].
    apply Z.pow_pos_nonneg; lia. }
  split; intros Hz.
  - assert (Z.sgn z = 1) as -> by (apply Z.sgn_pos; lia). lia.
  - assert (Z.sgn z = -1) as -> by (by apply Z.sgn_neg). lia.
Qed.

Lemma Number_safe z : safe z → Js.Number z = z.
Proof. apply Number_exact. Qed.

Lemma Number_ltb_0 z : (Js.Number z <? 0) = (z <? 0).
Proof.
  destruct (Z.ltb_spec z 0); [apply Z.ltb_lt | apply Z.ltb_ge];
    by apply Number_sign.
Qed.

Lemma updateStock_ok w s q :
  faults w = [] → s ∈ productStocks (db w) →
  updateStock Tx (stock_id s) q w
  = (Ok tt,
     with_db (set_productStocks (map (setQty (stock_id s) q)))
       [Update TProductStock] w).
Proof.
  intros Hf Hin. unfold updateStock. apply exec_checked_tx_ok; [done |].
  apply (existsb_elem _ _ s); [done | apply Z.eqb_refl].
Qed.

Lemma createStock_ok w pid wid q :
  faults w = [] →
  createStock Tx pid wid q w
  = (Ok (mkStock (nextId w) pid wid q),
     mkWorld
       (set_productStocks (append [mkStock (nextId w) pid wid q]) (db w))
       (base w) (nextId w + 1) (session w) (clerkEmail w) (now w) (faults w)
       (trace w ++ [Create TProductStock])).
Proof.
  intros Hf. unfold createStock, bind, fresh. simpl.
  unfold exec, bind, io. simpl. by rewrite Hf.
Qed.

Lemma transferStock_tx_ok w pid from to qty reason notes u s :
  faults w = [] → NoDup (map stock_id (productStocks (db w))) → from ≠ to →
  findStock pid from (db w) = Some s → qty ≤ quantity s →
  safe (quantity s - qty) →
  (∀ t, findStock pid to (db w) = Some t → safe (quantity t + qty)) →
  ∃ w2 rows,
    transferStock_tx pid from to qty reason notes u w = (Ok tt, w2)
    ∧ faults w2 = []
    ∧ db w2
      = set_stockMovements (append (transferEntries pid from to qty reason notes u))
          (set_productStocks (λ _, rows) (db w))
    ∧ (∀ sel, sumBy sel rows
              = sumBy sel (productStocks (db w))
                - (if sel pid from then qty else 0)
                + (if sel pid to then qty else 0))
    ∧ (findStock pid to (db w) = None →
       rows = append [mkStock (nextId w) pid to qty]
                (map (setQty (stock_id s) (quantity s - qty)) (productStocks (db w)))).
Proof.
  intros Hf Hnd Hne Hsrc Hqty Hsafe1 Hsafe2.
  destruct (findStock_spec _ _ _ _ Hsrc) as (Hs & Hsp & Hsw).
  unfold transferStock_tx.
  rewrite (bind_ok _ _ _ _ _ (query_ok Tx _ w Hf)). simpl. rewrite Hsrc.
  rewrite throw_if_false by lia.
  rewrite (Number_safe _ Hsafe1).
  rewrite (bind_ok _ _ _ _ _ (updateStock_ok w s _ Hf Hs)).
  set (w1 := with_db _ _ w).
  rewrite (bind_ok _ _ _ _ _ (query_ok Tx _ w1 Hf)). simpl.
  unfold findStock at 1. simpl. rewrite findStock_setQty.
  fold (findStock pid to (db w)).
  destruct (findStock pid to (db w)) as [t|] eqn:Hdst; simpl.
  - destruct (findStock_spec _ _ _ _ Hdst) as (Ht & Htp & Htw).
    assert (stock_id s ≠ stock_id t) as Hid.
    { intros E. apply (stock_id_inj _ _ _ Hnd Hs Ht) in E. congruence. }
    rewrite (setQty_other _ _ t) by done.
    rewrite (Number_safe _ (Hsafe2 t eq_refl)).
    assert (t ∈ productStocks (db w1)) as Ht1.
    { simpl. rewrite <- (setQty_other (stock_id s) (quantity s - qty) t) by done.
      by apply list_elem_of_fmap_2. }
    rewrite (bind_ok _ _ _ _ _ (updateStock_ok w1 t _ Hf Ht1)).
    rewrite exec_tx_ok by done.
    eexists _, _. split_and!; [done | done | done | | done].
    intros sel. subst w1. simpl. rewrite (sumBy_transfer sel _ s t qty) by done.
    by rewrite Hsp, Hsw, Htp, Htw.
  - unfold bind at 1. rewrite (bind_ok _ _ _ _ _ (createStock_ok w1 _ _ _ Hf)).
    unfold ret at 1. rewrite exec_tx_ok by done.
    eexists _, _. split_and!; [done | done | done | | done].
    intros sel. subst w1. simpl. unfold append.
    rewrite sumBy_app, (sumBy_setQty sel _ _ s) by done.
    rewrite sumBy_cons, Hsp, Hsw. unfold sumBy at 2. simpl.
    assert (sel pid to = true ∨ sel pid to = false) as [-> | ->]
      by (destruct (sel pid to); auto);
      destruct (sel pid from); unfold sumStock; simpl; lia.
Qed.

Lemma transferStock_tx_short w pid from to qty reason notes u :
  faults w = [] →
  match findStock pid from (db w) with
  | Some s => quantity s < qty
  | None => True
  end →
  transferStock_tx pid from to qty reason notes u w
  = (Err "Insufficient stock in source warehouse", w).
Proof.
  intros Hf Hshort. unfold transferStock_tx.
  rewrite (bind_ok _ _ _ _ _ (query_ok Tx _ w Hf)). simpl.
  destruct (findStock pid from (db w)) as [s|]; [|done].
  by rewrite throw_if_true by lia.
Qed.

Lemma numeric_trim_truthy orgId :
  Js.numeric (Js.trim orgId) = true → Js.truthy orgId = true.
Proof. intros H. by destruct orgId. Qed.

Lemma auth_ok {B} (k : option string → M B) w :
  bind auth k w = k (session w) w.
Proof. done. Qed.

(** ** Stock transfer *)

(** C3, for two different warehouses and quantities that number arithmetic
    keeps exact: a permitted caller who transfers a positive [qty] of a
    product between warehouses [from] and [to], [from] holding at least
    [qty], the quantity at [from] and the new quantity at [to] being below
    [2 ^ 53], succeeds; the stock at [from] goes down by
    [qty], the stock at [to] goes up by [qty] (in a new row of quantity
    [qty] when [to] had none), the ledger gains an "out" entry at [from]
    and an "in" entry at [to], of quantity [qty], and the product's total
    stock is what it was. *)
Theorem transferStock_moves w orgId productId fromId toId clerk o u org
    pid from to qty reason notes s :
  quiet w → Caller w orgId clerk o u org → Permitted w o u org writerRoles →
  reads productId pid → reads fromId from → reads toId to →
  NoDup (map stock_id (productStocks (db w))) →
  0 < qty → from ≠ to →
  findStock pid from (db w) = Some s → qty ≤ quantity s →
  safe (quantity s) →
  (∀ t, findStock pid to (db w) = Some t → safe (quantity t + qty)) →
  ∃ w',
    transferStock orgId productId fromId toId qty reason notes w = (Ok tt, w')
    ∧ stockAt pid from (db w') = stockAt pid from (db w) - qty
    ∧ stockAt pid to (db w') = stockAt pid to (db w) + qty
    ∧ (findStock pid to (db w) = None →
       findStock pid to (db w') = Some (mkStock (nextId w) pid to qty))
    ∧ stockMovements (db w')
      = (stockMovements (db w)
         ++ [mkMovement pid from "out" qty
               ("Transfer to warehouse " +:+ Js.show_Z to +:+ ": " +:+ reason)
               notes (user_id u);
             mkMovement pid to "in" qty
               ("Transfer from warehouse " +:+ Js.show_Z from +:+ ": " +:+ reason)
               notes (user_id u)])%list
    ∧ totalStock pid (db w') = totalStock pid (db w).
Proof.
  intros Hq Hcaller (role & Hrole & Hperm) [Hp1 Hp2] [Hf1 Hf2] [Ht1 Ht2]
    Hnd Hqty Hne Hsrc Hle Hsafe1 Hsafe2.
  pose proof Hcaller as [Hs Hc Hn Ho Hu Horg].
  destruct (bootstrapped_quiet o u org w Hq) as [Hb1 Hfl1].
  destruct (bootstrapped_db o u org w) as [m Hdb].
  destruct (transferStock_tx_ok (open_tx (bootstrapped o u org w))
              pid from to qty reason notes u s)
    as (w2 & rows & Hrun & Hfl2 & Hdb2 & Hsum & Hnew);
    [done | simpl; by rewrite Hdb | done | unfold findStock; simpl; by rewrite Hdb
    | done | unfold safe in *; lia
    | intros t Ht; apply Hsafe2; unfold findStock in *; simpl in Ht;
      by rewrite Hdb in Ht |].
  simpl in Hdb2, Hsum, Hnew. rewrite Hdb in Hdb2, Hsum, Hnew.
  simpl in Hdb2, Hsum, Hnew.
  exists (close_tx (db w2) w2). split.
  - unfold transferStock. rewrite auth_ok, Hs.
    rewrite throw_if_false by (simpl; by rewrite Hc).
    rewrite throw_if_false by (by rewrite (numeric_trim_truthy _ Hn)).
    rewrite throw_if_false by (by rewrite Hp1).
    rewrite throw_if_false by (by rewrite Hf1, Ht1).
    rewrite throw_if_false by lia.
    unfold try_catch, transferStock_try.
    rewrite (bind_ok _ _ _ _ _ (toBigInt_ok _ _ w Ho)).
    rewrite (bind_ok _ _ _ _ _ (toBigInt_ok _ _ w Hp2)).
    rewrite (bind_ok _ _ _ _ _ (toBigInt_ok _ _ w Hf2)).
    rewrite (bind_ok _ _ _ _ _ (toBigInt_ok _ _ w Ht2)).
    by rewrite (guarded_transaction_ok w orgId clerk o u org role _ _ _ w2).
  - simpl. rewrite Hdb2. simpl. unfold stockAt, totalStock. simpl.
    rewrite !Hsum. rewrite !Z.eqb_refl. simpl.
    assert ((to =? from) = false) as -> by lia.
    assert ((from =? to) = false) as -> by lia.
    split_and!.
    + lia.
    + lia.
    + intros Hnone. specialize (Hnew Hnone). rewrite Hnew.
      rewrite bootstrapped_nextId.
      unfold findStock, append. simpl. rewrite find_app_None.
      * simpl. by rewrite !Z.eqb_refl.
      * rewrite findStock_setQty. unfold findStock in Hnone. by rewrite Hnone.
    + reflexivity.
    + lia.
Qed.

Lemma transferStock_moves_witness :
  ∃ w',
    transferStock "1" "10" "5" "6" 3 "rebalance" None
      (Fixture.request "clerk_bob" Fixture.store) = (Ok tt, w')
    ∧ stockAt 10 5 (db w') = 2 ∧ stockAt 10 6 (db w') = 3
    ∧ totalStock 10 (db w') = 5.
Proof.
  destruct (transferStock_moves (Fixture.request "clerk_bob" Fixture.store)
              "1" "10" "5" "6" "clerk_bob" 1 Fixture.bob Fixture.acme
              10 5 6 3 "rebalance" None (mkStock 20 10 5 5))
    as (w' & Hrun & Hfrom & Hto & _ & _ & Htotal).
  - by split.
  - by split.
  - by exists "writer".
  - by split.
  - by split.
  - by split.
  - simpl. apply NoDup_cons. split; [apply not_elem_of_nil | apply NoDup_nil_2].
  - lia.
  - lia.
  - reflexivity.
  - simpl. lia.
  - unfold safe. simpl. lia.
  - intros t Ht. discriminate Ht.
  - exists w'. by split_and!.
Defined.

(** With the same warehouse on both sides the transfer succeeds and the
    stock of the source is what it was.  And a destination that holds
    [2 ^ 53] units gains nothing from a transfer of one unit, which leaves
    the source all the same: the sum is rounded to the nearest double. *)
Lemma transferStock_same_warehouse_keeps_stock :
  let w := Fixture.request "clerk_bob" Fixture.store in
  let r := transferStock "1" "10" "5" "5" 3 "rebalance" None w in
  let big :=
    Fixture.request "clerk_bob"
      (set_productStocks (append [mkStock 21 10 6 (2 ^ 53)]) Fixture.store) in
  let r' := transferStock "1" "10" "5" "6" 1 "rebalance" None big in
  (r.1 = Ok tt
   ∧ findStock 10 5 (db w) = Some (mkStock 20 10 5 5)
   ∧ stockAt 10 5 (db r.2) ≠ stockAt 10 5 (db w) - 3)
  ∧ (r'.1 = Ok tt
     ∧ stockAt 10 5 (db r'.2) = stockAt 10 5 (db big) - 1
     ∧ stockAt 10 6 (db r'.2) ≠ stockAt 10 6 (db big) + 1
     ∧ totalStock 10 (db r'.2) ≠ totalStock 10 (db big)).
Proof.
  vm_compute.
  split_and!; try reflexivity; discriminate.
Qed.

(** C4: a permitted caller who transfers a positive [qty] from a warehouse
    that has no stock row for the product, or one of less than [qty], gets
    the insufficient-stock error; the stock rows, in particular those of
    the source and of the destination, and the ledger are what they were. *)
Theorem transferStock_insufficient w orgId productId fromId toId clerk o u org
    pid from to qty reason notes :
  quiet w → Caller w orgId clerk o u org → Permitted w o u org writerRoles →
  reads productId pid → reads fromId from → reads toId to →
  0 < qty →
  match findStock pid from (db w) with
  | Some s => quantity s < qty
  | None => True
  end →
  ∃ w',
    transferStock orgId productId fromId toId qty reason notes w
    = (Err "Insufficient stock in source warehouse", w')
    ∧ productStocks (db w') = productStocks (db w)
    ∧ stockAt pid from (db w') = stockAt pid from (db w)
    ∧ stockAt pid to (db w') = stockAt pid to (db w)
    ∧ stockMovements (db w') = stockMovements (db w).
Proof.
  intros Hq Hcaller (role & Hrole & Hperm) [Hp1 Hp2] [Hf1 Hf2] [Ht1 Ht2]
    Hqty Hshort.
  pose proof Hcaller as [Hs Hc Hn Ho Hu Horg].
  destruct (bootstrapped_quiet o u org w Hq) as [Hb1 Hfl1].
  destruct (bootstrapped_db o u org w) as [m Hdb].
  set (w1 := open_tx (bootstrapped o u org w)).
  assert (transferStock_tx pid from to qty reason notes u w1
          = (Err "Insufficient stock in source warehouse", w1)) as Hrun.
  { apply transferStock_tx_short; [done |].
    unfold findStock in *. simpl. by rewrite Hdb. }
  exists (close_tx (committed w1) w1). split.
  - unfold transferStock. rewrite auth_ok, Hs.
    rewrite throw_if_false by (simpl; by rewrite Hc).
    rewrite throw_if_false by (by rewrite (numeric_trim_truthy _ Hn)).
    rewrite throw_if_false by (by rewrite Hp1).
    rewrite throw_if_false by (by rewrite Hf1, Ht1).
    rewrite throw_if_false by lia.
    unfold try_catch, transferStock_try.
    rewrite (bind_ok _ _ _ _ _ (toBigInt_ok _ _ w Ho)).
    rewrite (bind_ok _ _ _ _ _ (toBigInt_ok _ _ w Hp2)).
    rewrite (bind_ok _ _ _ _ _ (toBigInt_ok _ _ w Hf2)).
    rewrite (bind_ok _ _ _ _ _ (toBigInt_ok _ _ w Ht2)).
    by rewrite (guarded_transaction_err w orgId clerk o u org role _ _ _
                  "Insufficient stock in source warehouse" w1).
  - subst w1. unfold stockAt, committed. simpl. by rewrite Hdb.
Qed.

Lemma transferStock_insufficient_witness :
  ∃ w',
    transferStock "1" "10" "5" "6" 8 "rebalance" None
      (Fixture.request "clerk_bob" Fixture.store)
    = (Err "Insufficient stock in source warehouse", w')
    ∧ productStocks (db w') = [mkStock 20 10 5 5]
    ∧ stockMovements (db w') = [].
Proof.
  destruct (transferStock_insufficient
              (Fixture.request "clerk_bob" Fixture.store)
              "1" "10" "5" "6" "clerk_bob" 1 Fixture.bob Fixture.acme
              10 5 6 8 "rebalance" None)
    as (w' & Hrun & Hrows & _ & _ & Hledger).
  - by split.
  - by split.
  - by exists "writer".
  - by split.
  - by split.
  - by split.
  - lia.
  - simpl. lia.
  - exists w'. by split_and!.
Defined.

(** C5: what [transferStock] does when the source is the destination.  An
    admin transfers the five units of product 10 from warehouse 5 to
    warehouse 5: the call succeeds, the stock row is written twice and is
    back at five units, and the ledger gains an "out" and an "in" entry. *)
Theorem transferStock_same_warehouse_succeeds :
  let w := Fixture.request "clerk_ann" Fixture.store in
  let r := transferStock "1" "10" "5" "5" 5 "recount" None w in
  r.1 = Ok tt
  ∧ productStocks (db r.2) = productStocks (db w)
  ∧ stockMovements (db r.2)
    = [mkMovement 10 5 "out" 5 "Transfer to warehouse 5: recount" None 1;
       mkMovement 10 5 "in" 5 "Transfer from warehouse 5: recount" None 1]
  ∧ trace r.2
    = [Upsert TMember; Upsert TMember; Update TProductStock;
       Update TProductStock; Create TStockMovement].
Proof. vm_compute. by split_and!. Qed.

(** ** Stock adjustment *)

Lemma updateProductStock_tx_short w pid wid d u :
  faults w = [] →
  match findStock pid wid (db w) with Some s => quantity s | None => 0 end + d < 0 →
  updateProductStock_tx pid wid d u w
  = (Err "Insufficient stock for this adjustment", w).
Proof.
  intros Hf Hneg. unfold updateProductStock_tx.
  rewrite (bind_ok _ _ _ _ _ (query_ok Tx _ w Hf)). simpl.
  by rewrite throw_if_true by (apply Z.ltb_lt; by apply Number_sign).
Qed.

Lemma updateProductStock_tx_ok w pid wid d u :
  faults w = [] →
  0 ≤ match findStock pid wid (db w) with Some s => quantity s | None => 0 end + d →
  ∃ w2 rows,
    updateProductStock_tx pid wid d u w = (Ok tt, w2)
    ∧ faults w2 = []
    ∧ db w2
      = set_stockMovements
          (append [mkMovement pid wid (if 0 <? d then "in" else "out") (Z.abs d)
                     (if 0 <? d then "Stock increase" else "Stock decrease")
                     None (user_id u)])
          (set_productStocks (λ _, rows) (db w))
    ∧ match findStock pid wid (db w) with
      | Some s =>
          rows = map (setQty (stock_id s) (Js.Number (quantity s + d)))
                   (productStocks (db w))
      | None => rows = append [mkStock (nextId w) pid wid d] (productStocks (db w))
      end.
Proof.
  intros Hf Hpos. unfold updateProductStock_tx.
  rewrite (bind_ok _ _ _ _ _ (query_ok Tx _ w Hf)). simpl.
  rewrite throw_if_false by (apply Z.ltb_ge; by apply Number_sign).
  destruct (findStock pid wid (db w)) as [s|] eqn:Hfind.
  - destruct (findStock_spec _ _ _ _ Hfind) as (Hs & _).
    rewrite (bind_ok _ _ _ _ _ (updateStock_ok w s _ Hf Hs)).
    rewrite exec_tx_ok by done. by eexists _, _.
  - unfold bind at 1. rewrite (bind_ok _ _ _ _ _ (createStock_ok w _ _ _ Hf)).
    unfold ret at 1. rewrite exec_tx_ok by done.
    eexists _, _. split_and!; [done | done | done |].
    simpl. by rewrite Z.max_r by lia.
Qed.

(** C6, for sums that number arithmetic keeps exact: a permitted caller
    adjusts the stock of a product in a warehouse by [d], the quantity
    there being [q] (0 without a stock row).  When [q + d < 0] the call
    throws the insufficient-stock error and the stock rows and the ledger
    are what they were.  Otherwise, [q + d] being below [2 ^ 53], it
    succeeds, the row of the pair has quantity [q + d] (the old row
    updated, or a new one), and the ledger gains one entry of quantity
    [|d|], of type "in" for [d > 0] and "out" for [d < 0]. *)
Theorem updateProductStock_adjusts w orgId productId warehouseId clerk o u org
    pid wid d :
  quiet w → Caller w orgId clerk o u org → Permitted w o u org writerRoles →
  reads productId pid → reads warehouseId wid →
  let q := match findStock pid wid (db w) with
           | Some s => quantity s
           | None => 0
           end in
  (q + d < 0 →
   ∃ w',
     updateProductStock orgId productId warehouseId d w
     = (Err "Insufficient stock for this adjustment", w')
     ∧ productStocks (db w') = productStocks (db w)
     ∧ findStock pid wid (db w') = findStock pid wid (db w)
     ∧ stockMovements (db w') = stockMovements (db w))
  ∧ (0 ≤ q + d → safe (q + d) →
     ∃ w' row entry,
       updateProductStock orgId productId warehouseId d w = (Ok tt, w')
       ∧ findStock pid wid (db w') = Some row
       ∧ quantity row = q + d
       ∧ match findStock pid wid (db w) with
         | Some s => row = set_quantity (q + d) s
         | None => row = mkStock (nextId w) pid wid (q + d)
         end
       ∧ stockMovements (db w') = (stockMovements (db w) ++ [entry])%list
       ∧ sm_product entry = pid ∧ sm_warehouse entry = wid
       ∧ sm_quantity entry = Z.abs d
       ∧ (0 < d → sm_type entry = "in")
       ∧ (d < 0 → sm_type entry = "out")).
Proof.
  intros Hq Hcaller (role & Hrole & Hperm) [Hp1 Hp2] [Hw1 Hw2] q.
  pose proof Hcaller as [Hs Hc Hn Ho Hu Horg].
  destruct (bootstrapped_quiet o u org w Hq) as [Hb1 Hfl1].
  destruct (bootstrapped_db o u org w) as [m Hdb].
  set (w1 := open_tx (bootstrapped o u org w)).
  assert (findStock pid wid (db w1) = findStock pid wid (db w)) as Hsame.
  { subst w1. unfold findStock. simpl. by rewrite Hdb. }
  assert (∀ r w',
    (requireRole orgId (λ role, hasPermission role writerRoles)
       (λ _, "Insufficient permissions to update stock") ;;
     let* user := getOrCreateUser clerk in
     transaction (updateProductStock_tx pid wid d user) ;;
     invalidateProducts orgId) w = (r, w') →
    updateProductStock orgId productId warehouseId d w = (r, w')) as Hshell.
  { intros r w' Hrun. unfold updateProductStock. rewrite auth_ok, Hs.
    rewrite throw_if_false by (simpl; by rewrite Hc).
    rewrite throw_if_false by (by rewrite (numeric_trim_truthy _ Hn)).
    rewrite throw_if_false by (by rewrite Hp1).
    rewrite throw_if_false by (by rewrite Hw1).
    unfold try_catch, updateProductStock_try.
    rewrite (bind_ok _ _ _ _ _ (toBigInt_ok _ _ w Ho)).
    rewrite (bind_ok _ _ _ _ _ (toBigInt_ok _ _ w Hp2)).
    rewrite (bind_ok _ _ _ _ _ (toBigInt_ok _ _ w Hw2)).
    simpl. rewrite Hrun. by destruct r. }
  split.
  - intros Hneg.
    exists (close_tx (committed w1) w1). split.
    + apply Hshell.
      apply (guarded_transaction_err w orgId clerk o u org role); [done.. |].
      apply updateProductStock_tx_short; [done |]. by rewrite Hsame.
    + subst w1. unfold findStock, committed. simpl. by rewrite Hdb.
  - intros Hpos Hsafe.
    destruct (updateProductStock_tx_ok w1 pid wid d u)
      as (w2 & rows & Hrun & Hfl2 & Hdb2 & Hrows); [done | by rewrite Hsame |].
    rewrite Hsame in Hrows. subst w1. simpl in Hdb2. rewrite Hdb in Hdb2.
    simpl in Hdb2, Hrows. rewrite Hdb in Hrows. simpl in Hrows.
    rewrite bootstrapped_nextId in Hrows.
    exists (close_tx (db w2) w2).
    subst q. destruct (findStock pid wid (db w)) as [s|] eqn:Hfind.
    + rewrite (Number_safe _ Hsafe) in Hrows.
      exists (set_quantity (quantity s + d) s). eexists. split_and!.
      * apply Hshell.
        by apply (guarded_transaction_ok w orgId clerk o u org role).
      * simpl. rewrite Hdb2, Hrows. unfold findStock in *. simpl.
        rewrite findStock_setQty, Hfind. simpl. by rewrite setQty_same.
      * done.
      * done.
      * simpl. by rewrite Hdb2.
      * done.
      * done.
      * done.
      * simpl. intros Hd. by rewrite (proj2 (Z.ltb_lt 0 d)).
      * simpl. intros Hd. by rewrite (proj2 (Z.ltb_ge 0 d)) by lia.
    + exists (mkStock (nextId w) pid wid (0 + d)). eexists. split_and!.
      * apply Hshell.
        by apply (guarded_transaction_ok w orgId clerk o u org role).
      * simpl. rewrite Hdb2, Hrows. unfold findStock, append in *. simpl.
        rewrite find_app_None by done. simpl. by rewrite !Z.eqb_refl.
      * done.
      * done.
      * simpl. by rewrite Hdb2.
      * done.
      * done.
      * done.
      * simpl. intros Hd. by rewrite (proj2 (Z.ltb_lt 0 d)).
      * simpl. intros Hd. by rewrite (proj2 (Z.ltb_ge 0 d)) by lia.
Qed.

(** Three units leave a stock of five; ten more cannot leave the two that
    remain. *)
Lemma updateProductStock_adjusts_witness :
  let w := Fixture.request "clerk_bob" Fixture.store in
  let w1 := (updateProductStock "1" "10" "5" (-3) w).2 in
  (∃ w' row entry,
     updateProductStock "1" "10" "5" (-3) w = (Ok tt, w')
     ∧ findStock 10 5 (db w') = Some row ∧ quantity row = 2
     ∧ stockMovements (db w') = [entry]
     ∧ sm_type entry = "out" ∧ sm_quantity entry = 3)
  ∧ (∃ w',
       updateProductStock "1" "10" "5" (-10) w1
       = (Err "Insufficient stock for this adjustment", w')
       ∧ findStock 10 5 (db w') = Some (mkStock 20 10 5 2)).
Proof.
  intros w w1. split.
  - destruct (proj2 (updateProductStock_adjusts w "1" "10" "5" "clerk_bob" 1
                       Fixture.bob Fixture.acme 10 5 (-3)
                       ltac:(by split) ltac:(by split)
                       ltac:(by exists "writer") ltac:(by split)
                       ltac:(by split)))
      as (w' & row & entry & Hrun & Hfind & Hq & _ & Hledger & _ & _ & Habs & _ & Hout);
      [simpl; lia | unfold safe; simpl; lia |].
    exists w', row, entry. split_and!; try done. by apply Hout.
  - destruct (proj1 (updateProductStock_adjusts w1 "1" "10" "5" "clerk_bob" 1
                       Fixture.bob Fixture.acme 10 5 (-10)
                       ltac:(by split) ltac:(by split)
                       ltac:(by exists "writer") ltac:(by split)
                       ltac:(by split)))
      as (w' & Hrun & _ & Hfind & _); [vm_compute; reflexivity |].
    exists w'. split; [done |]. rewrite Hfind. reflexivity.
Defined.

(** A row of [2 ^ 53] units is what it was after one more unit has been
    added: the sum is rounded to the nearest double.  The ledger records
    the unit. *)
Lemma updateProductStock_rounds :
  let w := Fixture.request "clerk_bob"
             (set_productStocks (λ _, [mkStock 20 10 5 (2 ^ 53)])
                Fixture.store) in
  let r := updateProductStock "1" "10" "5" 1 w in
  r.1 = Ok tt
  ∧ quantity <$> findStock 10 5 (db w) = Some (2 ^ 53)
  ∧ quantity <$> findStock 10 5 (db r.2) = Some (2 ^ 53)
  ∧ quantity <$> findStock 10 5 (db r.2) ≠ Some (2 ^ 53 + 1)
  ∧ stockMovements (db r.2)
    = [mkMovement 10 5 "in" 1 "Stock increase" None 2].
Proof.
  vm_compute. split_and!; try reflexivity; discriminate.
Qed.

(** ** Runs that may meet failing round-trips *)

Lemma still_refl w : still w w.
Proof. by repeat split. Qed.

Lemma still_trans w1 w2 w3 : still w1 w2 → still w2 w3 → still w1 w3.
Proof.
  intros (?&?&?&?&?&?&?) (?&?&?&?&?&?&?). repeat split; congruence.
Qed.

Lemma bind_Ok_inv {A B} (m : M A) (k : A → M B) w b w' :
  bind m k w = (Ok b, w') → ∃ a w1, m w = (Ok a, w1) ∧ k a w1 = (Ok b, w').
Proof.
  unfold bind. destruct (m w) as [[a|e] w1]; [by eauto | done].
Qed.

Lemma bind_Err_inv {A B} (m : M A) (k : A → M B) w e w' :
  bind m k w = (Err e, w') →
  m w = (Err e, w') ∨ ∃ a w1, m w = (Ok a, w1) ∧ k a w1 = (Err e, w').
Proof.
  unfold bind. destruct (m w) as [[a|e1] w1]; [by eauto |].
  intros [= -> ->]. by left.
Qed.

Lemma io_still w r w' : io w = (r, w') → still w w'.
Proof.
  unfold io. destruct (faults w) as [|[msg|] fs]; intros [= <- <-];
    by repeat split.
Qed.

Lemma view_still c w w' : still w w' → view c w' = view c w.
Proof.
  intros (Hd & Hb & _). destruct c; unfold view, committed; by rewrite ?Hd, ?Hb.
Qed.

Lemma query_still {A} c (f : DB → A) w r w' :
  query c f w = (r, w') → still w w'.
Proof.
  unfold query, bind, peek.
  destruct (io w) as [[[]|e] w1] eqn:Hio; intros [= <- <-];
    by apply io_still in Hio.
Qed.

Lemma query_Ok_inv {A} c (f : DB → A) w a w' :
  query c f w = (Ok a, w') → a = f (view c w) ∧ still w w'.
Proof.
  intros H. pose proof (query_still _ _ _ _ _ H) as Hst. split; [|done].
  unfold query, bind, peek in H.
  destruct (io w) as [[[]|e] w1] eqn:Hio; [|done].
  injection H as <- <-. by rewrite (view_still c w w1).
Qed.

Lemma throw_if_Ok_inv c msg w r w' :
  throw_if c msg w = (Ok r, w') → c = false ∧ w' = w.
Proof. destruct c; [done |]. by intros [= _ <-]. Qed.

Lemma throw_if_Err_inv c msg w e w' :
  throw_if c msg w = (Err e, w') → c = true ∧ e = msg ∧ w' = w.
Proof. destruct c; [|done]. by intros [= <- <-]. Qed.

Lemma bind_inv {A B} (m : M A) (k : A → M B) w r w' :
  bind m k w = (r, w') →
  (∃ e, m w = (Err e, w') ∧ r = Err e)
  ∨ (∃ a w1, m w = (Ok a, w1) ∧ k a w1 = (r, w')).
Proof.
  unfold bind. destruct (m w) as [[a|e] w1]; [by eauto |].
  intros [= <- <-]. by eauto.
Qed.

Lemma exec_tx_inv s f w r w' :
  exec Tx s f w = (r, w') →
  base w' = base w
  ∧ match r with
    | Ok _ => db w' = f (db w)
    | Err _ => db w' = db w
    end.
Proof.
  unfold exec, bind, apply.
  destruct (io w) as [[[]|e] w1] eqn:Hio; intros [= <- <-];
    apply io_still in Hio as (Hd & Hb & _); simpl; by rewrite ?Hd.
Qed.

Lemma exec_checked_tx_inv s chk msg f w r w' :
  exec_checked Tx s chk msg f w = (r, w') →
  base w' = base w
  ∧ match r with
    | Ok _ => chk (db w) = true ∧ db w' = f (db w)
    | Err _ => db w' = db w
    end.
Proof.
  unfold exec_checked, bind, peek, apply, throw.
  destruct (io w) as [[[]|e] w1] eqn:Hio;
    apply io_still in Hio as (Hd & Hb & _); simpl.
  - rewrite Hd. destruct (chk (db w)); intros [= <- <-]; simpl; by rewrite ?Hd.
  - by intros [= <- <-].
Qed.

Lemma tx_only_ret {A} (a : A) : tx_only (ret a).
Proof. by intros w r w' [= <- <-]. Qed.

Lemma tx_only_throw {A} msg : tx_only (@throw A msg).
Proof. by intros w r w' [= <- <-]. Qed.

Lemma tx_only_throw_if c msg : tx_only (throw_if c msg).
Proof. destruct c; [apply tx_only_throw | apply tx_only_ret]. Qed.

Lemma tx_only_bind {A B} (m : M A) (k : A → M B) :
  tx_only m → (∀ a, tx_only (k a)) → tx_only (bind m k).
Proof.
  intros Hm Hk w r w' H.
  apply bind_inv in H as [(e & H & _) | (a & w1 & H1 & H2)].
  - by apply Hm in H.
  - apply Hm in H1. apply Hk in H2. congruence.
Qed.

Lemma tx_only_query {A} c (f : DB → A) : tx_only (query c f).
Proof. intros w r w' H. by apply query_still in H as (_ & ? & _). Qed.

Lemma tx_only_exec s f : tx_only (exec Tx s f).
Proof. intros w r w' H. by apply exec_tx_inv in H as [? _]. Qed.

Lemma tx_only_exec_checked s chk msg f : tx_only (exec_checked Tx s chk msg f).
Proof. intros w r w' H. by apply exec_checked_tx_inv in H as [? _]. Qed.

Lemma tx_only_fresh : tx_only fresh.
Proof. by intros w r w' [= <- <-]. Qed.

Create HintDb tx_only.
#[export] Hint Resolve tx_only_ret tx_only_throw tx_only_throw_if tx_only_query
  tx_only_exec tx_only_exec_checked tx_only_fresh : tx_only.
#[export] Hint Extern 2 (tx_only (bind _ _)) =>
  apply tx_only_bind; [| intros ?] : tx_only.
#[export] Hint Extern 3 (tx_only (match ?x with _ => _ end)) =>
  destruct x : tx_only.

(** What a transaction leaves when its callback only talks to [tx]: the
    callback's store when it returns and the commit succeeds, the store it
    started from otherwise. *)
Lemma transaction_inv {A} (body : M A) w r w' :
  tx_only body → base w = None → transaction body w = (r, w') →
  base w' = None
  ∧ match r with
    | Ok a =>
        ∃ w0 w1, still w w0 ∧ body (open_tx w0) = (Ok a, w1) ∧ db w' = db w1
    | Err _ => db w' = db w
    end.
Proof.
  intros Htx Hb. unfold transaction, bind.
  destruct (io w) as [[[]|e] w0] eqn:Hio;
    pose proof (io_still _ _ _ Hio) as Hst;
    pose proof Hst as (Hd & Hb0 & _);
    [| intros [= <- <-]; split; congruence].
  destruct (body (open_tx w0)) as [[a|e] w1] eqn:Hbody;
    pose proof (Htx _ _ _ Hbody) as Hb1; simpl in Hb1.
  - destruct (io w1) as [[[]|e] w2] eqn:Hio2;
      pose proof (io_still _ _ _ Hio2) as (Hd2 & Hb2 & _);
      intros [= <- <-]; simpl.
    + split; [done |]. by exists w0, w1.
    + split; [done |]. unfold committed. by rewrite Hb2, Hb1.
  - intros [= <- <-]. simpl. split; [done |]. unfold committed. by rewrite Hb1.
Qed.

Lemma exec_prisma_inv s f w r w' :
  base w = None → exec Prisma s f w = (r, w') →
  base w' = None
  ∧ match r with
    | Ok _ => db w' = f (db w)
    | Err _ => db w' = db w
    end.
Proof.
  intros Hb0. unfold exec, bind, apply.
  destruct (io w) as [[[]|e] w1] eqn:Hio; intros [= <- <-];
    apply io_still in Hio as (Hd & Hb & _); simpl; rewrite ?Hb, ?Hb0, ?Hd; done.
Qed.

Lemma currentUserEmail_still w r w' :
  currentUserEmail w = (r, w') → still w w'.
Proof.
  unfold currentUserEmail, bind.
  destruct (io w) as [[[]|e] w1] eqn:Hio; intros [= <- <-];
    by apply io_still in Hio.
Qed.

(** Lazy provisioning touches the user table only. *)
Lemma getOrCreateUser_inv clerk w r w' :
  base w = None → getOrCreateUser clerk w = (r, w') →
  base w' = None
  ∧ (∃ us, db w' = set_users (λ _, us) (db w))
  ∧ match r with
    | Ok u => users (db w') !! clerk = Some u
    | Err _ => True
    end.
Proof.
  intros Hb H. unfold getOrCreateUser in H.
  assert (∃ us, db w = set_users (λ _, us) (db w)) as Hsame.
  { exists (users (db w)). by destruct (db w). }
  apply bind_inv in H as [(e & H & ->) | (ou & w1 & H1 & H)].
  { apply query_still in H as (Hd & Hb' & _). rewrite Hd, Hb'. by split_and!. }
  apply query_Ok_inv in H1 as [-> (Hd1 & Hb1 & _)].
  rewrite view_quiet in H by done.
  destruct (users (db w) !! clerk) as [u|] eqn:Hu.
  { injection H as <- <-. rewrite Hd1, Hb1. by split_and!. }
  apply bind_inv in H as [(e & H & ->) | (oe & w2 & H2 & H)].
  { apply currentUserEmail_still in H as (Hd & Hb' & _).
    rewrite Hd, Hb', Hd1, Hb1. by split_and!. }
  apply currentUserEmail_still in H2 as (Hd2 & Hb2 & _).
  destruct (Js.truthy_opt oe).
  2: { injection H as <- <-. rewrite Hd2, Hb2, Hd1, Hb1. by split_and!. }
  unfold bind at 1, fresh at 1 in H.
  apply bind_inv in H as [(e & H & ->) | ([] & w3 & H3 & H)].
  - apply exec_prisma_inv in H as [Hb3 Hd3]; [| simpl; congruence].
    simpl in Hd3. rewrite Hd3, Hd2, Hd1. by split_and!.
  - apply exec_prisma_inv in H3 as [Hb3 Hd3]; [| simpl; congruence].
    simpl in Hd3. injection H as <- <-.
    split_and!; [done | |].
    + rewrite Hd3, Hd2, Hd1. by eexists.
    + rewrite Hd3. simpl. apply lookup_insert_eq.
Qed.

(** ** Invitations *)

Lemma acceptInvite_tx_only org user role token (a : string) :
  tx_only
    (createMember Tx org user role ;;
     exec_checked Tx (Update TInvite)
       (λ d, bool_decide (is_Some (invites d !! token))) record_not_found
       (set_invites (alter (set_status "accepted") token)) ;;
     ret a).
Proof. unfold createMember. auto with tx_only. Qed.

Lemma acceptInvite_try_inv token clerk w r w' :
  base w = None → acceptInvite_try token clerk w = (r, w') →
  match r with
  | Ok orgId =>
      ∃ inv u,
        invites (db w) !! Js.trim token = Some inv
        ∧ inv_status inv = "pending"
        ∧ inv_email inv = email u
        ∧ users (db w') !! clerk = Some u
        ∧ members (db w) !! (inv_org inv, user_id u) = None
        ∧ members (db w')
          = <[(inv_org inv, user_id u) := inv_role inv]> (members (db w))
        ∧ invites (db w')
          = alter (set_status "accepted") (Js.trim token) (invites (db w))
        ∧ orgId = Js.show_Z (inv_org inv)
  | Err _ =>
      members (db w') = members (db w) ∧ invites (db w') = invites (db w)
  end.
Proof.
  intros Hb H. unfold acceptInvite_try in H.
  apply bind_inv in H as [(e & H & ->) | (oinv & w1 & H1 & H)].
  { apply query_still in H as (Hd & _). by rewrite Hd. }
  apply query_Ok_inv in H1 as [-> (Hd1 & Hb1 & _)].
  rewrite view_quiet in H by done.
  destruct (invites (db w) !! Js.trim token) as [inv|] eqn:Hinv.
  2: { injection H as <- <-. by rewrite Hd1. }
  apply bind_inv in H as [(e & H & ->) | ([] & w2 & H2 & H)].
  { apply throw_if_Err_inv in H as (_ & _ & ->). by rewrite Hd1. }
  apply throw_if_Ok_inv in H2 as [Hstatus ->].
  apply negb_false_iff, String.eqb_eq in Hstatus.
  unfold bind at 1, newDate at 1 in H.
  apply bind_inv in H as [(e & H & ->) | ([] & w2 & H2 & H)].
  { apply throw_if_Err_inv in H as (_ & _ & ->). by rewrite Hd1. }
  apply throw_if_Ok_inv in H2 as [_ ->].
  apply bind_inv in H as [(e & H & ->) | (u & w2 & H2 & H)].
  { apply getOrCreateUser_inv in H as (_ & [us Hd] & _); [| congruence].
    by rewrite Hd, Hd1. }
  apply getOrCreateUser_inv in H2 as (Hb2 & [us Hd2] & Hu); [| congruence].
  apply bind_inv in H as [(e & H & ->) | ([] & w3 & H3 & H)].
  { apply throw_if_Err_inv in H as (_ & _ & ->). by rewrite Hd2, Hd1. }
  apply throw_if_Ok_inv in H3 as [Hemail ->].
  apply negb_false_iff, String.eqb_eq in Hemail.
  apply bind_inv in H as [(e & H & ->) | (om & w3 & H3 & H)].
  { apply query_still in H as (Hd & _). by rewrite Hd, Hd2, Hd1. }
  apply query_Ok_inv in H3 as [-> (Hd3 & Hb3 & _)].
  rewrite view_quiet in H by done.
  apply bind_inv in H as [(e & H & ->) | ([] & w4 & H4 & H)].
  { apply throw_if_Err_inv in H as (_ & _ & ->). by rewrite Hd3, Hd2, Hd1. }
  apply throw_if_Ok_inv in H4 as [Hnew ->].
  apply bool_decide_eq_false in Hnew. rewrite <- eq_None_not_Some in Hnew.
  apply transaction_inv in H as [_ H];
    [| apply acceptInvite_tx_only | congruence].
  destruct r as [orgId|e]; [| by rewrite H, Hd3, Hd2, Hd1].
  destruct H as (w0 & w5 & (Hd0 & _) & Hbody & ->).
  apply bind_Ok_inv in Hbody as ([] & w6 & Hc & Hbody).
  apply exec_checked_tx_inv in Hc as [_ [_ Hd6]].
  apply bind_Ok_inv in Hbody as ([] & w7 & Hupd & Hbody).
  apply exec_checked_tx_inv in Hupd as [_ [_ Hd7]].
  injection Hbody as <- <-.
  simpl in Hd6. rewrite Hd0, Hd3 in Hd6.
  exists inv, u. rewrite Hd7, Hd6, Hd2, Hd1 in *. simpl in *.
  by split_and!.
Qed.

Lemma acceptInvite_inv token w r w' :
  acceptInvite token w = (r, w') →
  (w' = w ∧ (r = Err "Unauthorized" ∨ r = Err "Invalid invitation token"))
  ∨ (∃ clerk,
       session w = Some clerk ∧ Js.truthy clerk = true
       ∧ Js.truthy (Js.trim token) = true
       ∧ acceptInvite_try token clerk w = (r, w')).
Proof.
  unfold acceptInvite. rewrite auth_ok. intros H.
  apply bind_inv in H as [(e & H & ->) | ([] & w1 & H1 & H)].
  { apply throw_if_Err_inv in H as (_ & -> & ->). left. by eauto. }
  apply throw_if_Ok_inv in H1 as [Hauth ->].
  apply bind_inv in H as [(e & H & ->) | ([] & w1 & H1 & H)].
  { apply throw_if_Err_inv in H as (_ & -> & ->). left. by eauto. }
  apply throw_if_Ok_inv in H1 as [Htok ->].
  apply negb_false_iff in Hauth, Htok.
  destruct (session w) as [clerk|]; [| done]. simpl in Hauth.
  right. exists clerk. split_and!; [done | done | done |].
  unfold try_catch, throw in H. simpl in H.
  by destruct (acceptInvite_try token clerk w) as [[a|e] w2].
Qed.

(** A token whose invitation is not pending admits nobody. *)
Lemma acceptInvite_spent token w inv :
  base w = None →
  invites (db w) !! Js.trim token = Some inv → inv_status inv ≠ "pending" →
  ∃ e w',
    acceptInvite token w = (Err e, w')
    ∧ db w' = db w
    ∧ (Js.truthy_opt (session w) = true → faults w = [] →
       Js.truthy (Js.trim token) = true →
       e = "Invalid invitation" ∧ w' = w).
Proof.
  intros Hb Hinv Hst. unfold acceptInvite. rewrite auth_ok.
  destruct (Js.truthy_opt (session w)) eqn:Hs.
  2: { rewrite throw_if_true by done. by eexists _, _. }
  rewrite throw_if_false by done.
  destruct (Js.truthy (Js.trim token)) eqn:Htok.
  2: { rewrite throw_if_true by done. by eexists _, _. }
  rewrite throw_if_false by done.
  unfold try_catch, acceptInvite_try, bind at 1.
  destruct (query Prisma _ w) as [[a|e] w1] eqn:Hq.
  - apply query_Ok_inv in Hq as Hq'. destruct Hq' as [-> (Hd & _)].
    rewrite view_quiet, Hinv by done.
    rewrite throw_if_true
      by (apply negb_true_iff; by apply String.eqb_neq).
    eexists _, _. split_and!; [done | done |].
    intros _ Hf _. rewrite query_ok in Hq by done. split; [done | congruence].
  - apply query_still in Hq as Hq'. destruct Hq' as (Hd & _).
    eexists _, _. split_and!; [done | done |].
    intros _ Hf _. by rewrite query_ok in Hq.
Qed.

(** C8: invitation tokens are single-use, whatever round-trips fail.  An
    [acceptInvite] that returns found the invitation pending and addressed
    to the signed-in caller, has created the caller's member row in the
    invitation's organization with the invitation's role and set the
    invitation's status to "accepted", both or neither, and returns the
    organization's key; every later call on the same token throws and
    changes nothing, with the invalid-invitation error when the store
    answers.  A call that throws leaves members and invitations as they
    were, and a token whose invitation is not pending gets the
    invalid-invitation error. *)
Theorem acceptInvite_single_use token w :
  base w = None →
  (∀ orgId w',
     acceptInvite token w = (Ok orgId, w') →
     ∃ clerk inv u,
       session w = Some clerk
       ∧ users (db w') !! clerk = Some u
       ∧ invites (db w) !! Js.trim token = Some inv
       ∧ inv_status inv = "pending"
       ∧ inv_email inv = email u
       ∧ orgId = Js.show_Z (inv_org inv)
       ∧ members (db w) !! (inv_org inv, user_id u) = None
       ∧ members (db w')
         = <[(inv_org inv, user_id u) := inv_role inv]> (members (db w))
       ∧ invites (db w')
         = alter (set_status "accepted") (Js.trim token) (invites (db w))
       ∧ (∀ w2,
            db w2 = db w' → base w2 = None →
            ∃ e w3,
              acceptInvite token w2 = (Err e, w3)
              ∧ db w3 = db w2
              ∧ (Js.truthy_opt (session w2) = true → faults w2 = [] →
                 e = "Invalid invitation")))
  ∧ (∀ e w',
       acceptInvite token w = (Err e, w') →
       members (db w') = members (db w) ∧ invites (db w') = invites (db w))
  ∧ (∀ inv,
       Js.truthy_opt (session w) = true → faults w = [] →
       Js.truthy (Js.trim token) = true →
       invites (db w) !! Js.trim token = Some inv →
       inv_status inv ≠ "pending" →
       acceptInvite token w = (Err "Invalid invitation", w)).
Proof.
  intros Hb. split_and!.
  - intros orgId w' H.
    apply acceptInvite_inv in H as [[_ [? | ?]] | (clerk & Hs & Hc & Htok & H)];
      [done | done |].
    apply acceptInvite_try_inv in H
      as (inv & u & Hinv & Hst & Hmail & Hu & Hnew & Hm & Hi & Hkey);
      [| done].
    exists clerk, inv, u. split_and!; [done.. |].
    intros w2 Hd2 Hb2.
    destruct (acceptInvite_spent token w2 (set_status "accepted" inv))
      as (e & w3 & Hrun & Hd3 & He); [done | | done |].
    { by rewrite Hd2, Hi, lookup_alter_eq, Hinv. }
    exists e, w3. split_and!; [done | done |].
    intros Hs2 Hf2. by apply He.
  - intros e w' H.
    apply acceptInvite_inv in H as [[-> _] | (clerk & _ & _ & _ & H)]; [done |].
    by apply acceptInvite_try_inv in H.
  - intros inv Hs Hf Htok Hinv Hst.
    destruct (acceptInvite_spent token w inv Hb Hinv Hst)
      as (e & w' & Hrun & _ & He).
    destruct (He Hs Hf Htok) as [-> ->]. done.
Qed.

(** Cat accepts her invitation; the same token then admits nobody. *)
Lemma acceptInvite_single_use_witness :
  let w := Fixture.request "clerk_cat" Fixture.store in
  let w1 := Fixture.request "clerk_cat" (db (acceptInvite "tok" w).2) in
  (acceptInvite "tok" w).1 = Ok "1"
  ∧ members (db w1) !! (1, 3) = Some "reader"
  ∧ acceptInvite "tok" w1 = (Err "Invalid invitation", w1).
Proof.
  intros w w1. split_and!; [reflexivity | reflexivity |].
  apply (proj2 (proj2 (acceptInvite_single_use "tok" w1 eq_refl))
           (mkInvite 1 "cat@acme.test" "reader" "accepted" (Some 5000)));
    [reflexivity | reflexivity | reflexivity | reflexivity | discriminate].
Defined.

(** ** Deleting an organization *)

Lemma includes_no_char c t s :
  has_char c s = false → Js.includes s (String c t) = false.
Proof.
  induction s as [|x s IH]; simpl; [done |].
  intros H. apply orb_false_iff in H as [Hx Hs].
  unfold Js.includes. fold Js.includes. simpl.
  destruct (ascii_dec c x) as [-> | _].
  - by rewrite Ascii.eqb_refl in Hx.
  - by apply IH.
Qed.

Lemma has_char_app c s1 s2 :
  has_char c (s1 +:+ s2) = has_char c s1 || has_char c s2.
Proof.
  induction s1 as [|x s1 IH]; simpl; [done |]. by rewrite IH, orb_assoc.
Qed.

Lemma has_char_digits c d :
  Js.is_digit c = false → has_char c (NilEmpty.string_of_uint d) = false.
Proof.
  intros Hc. induction d; simpl; [done | ..]; rewrite IHd, orb_false_r;
    apply Ascii.eqb_neq; intros <-; discriminate Hc.
Qed.

Lemma has_char_show_nat c n :
  Js.is_digit c = false → has_char c (Js.show_nat n) = false.
Proof.
  intros Hc. unfold Js.show_nat, NilZero.string_of_uint.
  destruct (Nat.to_uint n) eqn:E; try (rewrite <- E; by apply has_char_digits).
  simpl. rewrite orb_false_r. apply Ascii.eqb_neq. intros <-. discriminate Hc.
Qed.

Lemma has_char_plural c n noun :
  Js.is_digit c = false → has_char c (" " +:+ noun +:+ "s") = false →
  has_char c (plural n noun) = false.
Proof.
  intros Hc Hnoun. unfold plural.
  rewrite !has_char_app, has_char_show_nat by done.
  rewrite !has_char_app in Hnoun.
  apply orb_false_iff in Hnoun as [-> [-> Hs]%orb_false_iff].
  by destruct (n =? 1)%nat.
Qed.

Lemma has_char_cannot_delete c nw np no :
  c = "B"%char ∨ c = "F"%char → has_char c (cannot_delete nw np no) = false.
Proof.
  intros Hc.
  assert (Js.is_digit c = false) as Hd by (by destruct Hc as [-> | ->]).
  assert (∀ n noun, noun = "warehouse" ∨ noun = "product" ∨ noun = "order" →
                    has_char c (plural n noun) = false) as Hp.
  { intros n noun Hn. apply has_char_plural; [done |].
    destruct Hc as [-> | ->]; destruct Hn as [-> | [-> | ->]]; done. }
  unfold cannot_delete, dataDetails.
  rewrite !has_char_app.
  assert (has_char c "Cannot delete organization. It contains: " = false) as ->
    by (by destruct Hc as [-> | ->]).
  assert (has_char c ". " = false) as -> by (by destruct Hc as [-> | ->]).
  assert (has_char c ", " = false) as Hsep by (by destruct Hc as [-> | ->]).
  assert (has_char c "To delete this organization and all its data permanently, use the force delete option. " = false) as ->
    by (by destruct Hc as [-> | ->]).
  assert (has_char c "This action cannot be undone." = false) as ->
    by (by destruct Hc as [-> | ->]).
  rewrite !orb_false_r. simpl.
  destruct (0 <? nw)%nat, (0 <? np)%nat, (0 <? no)%nat; simpl;
    rewrite ?has_char_app, ?Hsep, ?Hp; auto.
Qed.

Lemma deleteOrganization_catch_conflict {A} nw np no w :
  @deleteOrganization_catch A (cannot_delete nw np no) w
  = (Err (cannot_delete nw np no), w).
Proof.
  unfold deleteOrganization_catch, is_BigInt_error.
  rewrite (includes_no_char "B" "igInt") by (apply has_char_cannot_delete; auto).
  rewrite andb_false_r.
  by rewrite (includes_no_char "F" "oreign key constraint")
    by (apply has_char_cannot_delete; auto).
Qed.

Section Frames.

Context (R : DB → DB → Prop) `{!PreOrder R}.

Local Lemma R_refl d : R d d.
Proof. reflexivity. Qed.

Local Lemma R_trans d1 d2 d3 : R d1 d2 → R d2 d3 → R d1 d3.
Proof. intros ? ?. by etrans. Qed.

Lemma dbframe_ret {A} (a : A) : dbframe R (ret a).
Proof. intros w r w' [= <- <-]. apply R_refl. Qed.

Lemma dbframe_throw {A} msg : dbframe R (@throw A msg).
Proof. intros w r w' [= <- <-]. apply R_refl. Qed.

Lemma dbframe_throw_if c msg : dbframe R (throw_if c msg).
Proof. destruct c; [apply dbframe_throw | apply dbframe_ret]. Qed.

Lemma dbframe_still {A} (m : M A) :
  (∀ w r w', m w = (r, w') → still w w') → dbframe R m.
Proof. intros H w r w' Hrun. apply H in Hrun as [-> _]. apply R_refl. Qed.

Lemma dbframe_io : dbframe R io.
Proof. apply dbframe_still, io_still. Qed.

Lemma dbframe_query {A} c (f : DB → A) : dbframe R (query c f).
Proof. apply dbframe_still, query_still. Qed.

Lemma dbframe_currentUserEmail : dbframe R currentUserEmail.
Proof. apply dbframe_still, currentUserEmail_still. Qed.

Lemma dbframe_auth : dbframe R auth.
Proof. intros w r w' [= <- <-]. apply R_refl. Qed.

Lemma dbframe_newDate : dbframe R newDate.
Proof. intros w r w' [= <- <-]. apply R_refl. Qed.

Lemma dbframe_fresh : dbframe R fresh.
Proof. intros w r w' [= <- <-]. apply R_refl. Qed.

Lemma dbframe_toBigInt s : dbframe R (toBigInt s).
Proof.
  unfold toBigInt. destruct (Js.BigInt s);
    [apply dbframe_ret | apply dbframe_throw].
Qed.

Lemma dbframe_bind {A B} (m : M A) (k : A → M B) :
  dbframe R m → (∀ a, dbframe R (k a)) → dbframe R (bind m k).
Proof.
  intros Hm Hk w r w' H.
  apply bind_inv in H as [(e & H & _) | (a & w1 & H1 & H2)].
  - by apply Hm in H.
  - apply Hm in H1. apply Hk in H2. by eapply R_trans.
Qed.

Lemma dbframe_try_catch {A} (m : M A) (h : string → M A) :
  dbframe R m → (∀ e, dbframe R (h e)) → dbframe R (try_catch m h).
Proof.
  intros Hm Hh w r w'. unfold try_catch.
  destruct (m w) as [[a|e] w1] eqn:Hrun; apply Hm in Hrun.
  - by intros [= <- <-].
  - intros H. apply Hh in H. by eapply R_trans.
Qed.

Lemma dbframe_all3 {A B C} (a : M A) (b : M B) (c : M C) :
  dbframe R a → dbframe R b → dbframe R c → dbframe R (all3 a b c).
Proof.
  intros Ha Hb Hc w r w'. unfold all3.
  destruct (a w) as [ra w1] eqn:E1. destruct (b w1) as [rb w2] eqn:E2.
  destruct (c w2) as [rc w3] eqn:E3. intros [= _ <-].
  apply Ha in E1. apply Hb in E2. apply Hc in E3.
  eapply R_trans; [| exact E3]. by eapply R_trans.
Qed.

Lemma dbframe_exec c s f : (∀ d, R d (f d)) → dbframe R (exec c s f).
Proof.
  intros Hf w r w'. unfold exec, bind, apply.
  destruct (io w) as [[[]|e] w1] eqn:Hio; intros [= <- <-];
    apply io_still in Hio as (-> & _); simpl;
    first [apply Hf | apply R_refl].
Qed.

Lemma dbframe_exec_checked c s chk msg f :
  (∀ d, R d (f d)) → dbframe R (exec_checked c s chk msg f).
Proof.
  intros Hf w r w'. unfold exec_checked, bind, peek, apply, throw.
  destruct (io w) as [[[]|e] w1] eqn:Hio;
    apply io_still in Hio as (Hd & _).
  - destruct (chk _); intros [= <- <-]; simpl; rewrite ?Hd;
      first [apply Hf | apply R_refl].
  - intros [= <- <-]. rewrite Hd. apply R_refl.
Qed.

Lemma dbframe_transaction {A} (body : M A) :
  tx_only body → dbframe R body → dbframe R (transaction body).
Proof.
  intros Htx Hbody w r w'. unfold transaction, bind.
  destruct (io w) as [[[]|e] w0] eqn:Hio;
    apply io_still in Hio as (Hd & _);
    [| intros [= <- <-]; by rewrite Hd].
  destruct (body (open_tx w0)) as [[a|e] w1] eqn:Hrun;
    pose proof (Htx _ _ _ Hrun) as Hb1; simpl in Hb1;
    apply Hbody in Hrun; simpl in Hrun; rewrite Hd in Hrun.
  - destruct (io w1) as [[[]|e] w2] eqn:Hio2;
      apply io_still in Hio2 as (Hd2 & Hb2 & _); intros [= <- <-]; simpl.
    + by rewrite Hd2.
    + unfold committed. rewrite Hb2, Hb1. simpl. by rewrite Hd.
  - intros [= <- <-]. simpl. unfold committed. rewrite Hb1. simpl.
    by rewrite Hd.
Qed.

End Frames.

Ltac frame_rule lem := apply lem; try solve [apply _].

(** One step of a frame proof, chosen by the head of the computation. *)
Ltac frame_step :=
  lazymatch goal with
  | |- dbframe _ (ret _) => frame_rule dbframe_ret
  | |- dbframe _ (throw _) => frame_rule dbframe_throw
  | |- dbframe _ (throw_if _ _) => frame_rule dbframe_throw_if
  | |- dbframe _ io => frame_rule dbframe_io
  | |- dbframe _ (query _ _) => frame_rule dbframe_query
  | |- dbframe _ currentUserEmail => frame_rule dbframe_currentUserEmail
  | |- dbframe _ auth => frame_rule dbframe_auth
  | |- dbframe _ newDate => frame_rule dbframe_newDate
  | |- dbframe _ fresh => frame_rule dbframe_fresh
  | |- dbframe _ (toBigInt _) => frame_rule dbframe_toBigInt
  | |- dbframe _ (exec _ _ _) => frame_rule dbframe_exec
  | |- dbframe _ (exec_checked _ _ _ _ _) => frame_rule dbframe_exec_checked
  | |- dbframe _ (transaction _) =>
      frame_rule dbframe_transaction; [solve [auto 20 with tx_only] |]
  | |- dbframe _ (try_catch _ _) => frame_rule dbframe_try_catch
  | |- dbframe _ (bind _ _) => frame_rule dbframe_bind
  | |- dbframe _ (match ?x with _ => _ end) => destruct x
  | |- dbframe _ _ =>
      match goal with H : ∀ _, dbframe _ _ |- _ => apply H end
  | |- ∀ _, dbframe _ _ => intro
  end.

#[export] Instance same_inventory_preorder : PreOrder same_inventory.
Proof.
  split.
  - intros d. by repeat split.
  - intros d1 d2 d3 (?&?&?&?&?&?&?&?&?) (?&?&?&?&?&?&?&?&?).
    repeat split; congruence.
Qed.

(** Steps that write the user and member tables only. *)
Ltac people_frame :=
  repeat first
    [ frame_step
    | lazymatch goal with
      | |- ∀ _, same_inventory _ _ => intros ?; by repeat split
      end ].

Lemma getOrCreateUser_people clerk : dbframe same_inventory (getOrCreateUser clerk).
Proof. unfold getOrCreateUser. people_frame. Qed.

Lemma getUserRole_people orgId : dbframe same_inventory (getUserRole orgId).
Proof.
  unfold getUserRole, getUserRole_try, upsertAdmin.
  pose proof getOrCreateUser_people. people_frame.
Qed.

Lemma ensureOrganizationMember_people orgId :
  dbframe same_inventory (ensureOrganizationMember orgId).
Proof.
  unfold ensureOrganizationMember, ensureOrganizationMember_try, upsertAdmin,
    debug_read.
  pose proof getOrCreateUser_people. people_frame.
Qed.

Lemma requireRole_people orgId permitted denied :
  dbframe same_inventory (requireRole orgId permitted denied).
Proof.
  unfold requireRole.
  pose proof getUserRole_people. pose proof ensureOrganizationMember_people.
  people_frame.
Qed.

Section ErrorFrames.

Context (R : DB → DB → Prop) `{!PreOrder R}.

Lemma errframe_dbframe {A} (m : M A) : dbframe R m → errframe R m.
Proof. intros H w e w' Hrun. by apply H in Hrun. Qed.

Lemma errframe_bind {A B} (m : M A) (k : A → M B) :
  dbframe R m → (∀ a, errframe R (k a)) → errframe R (bind m k).
Proof.
  intros Hm Hk w e w' H.
  apply bind_inv in H as [(e' & H & _) | (a & w1 & H1 & H2)].
  - by apply Hm in H.
  - apply Hm in H1. apply Hk in H2. by etrans.
Qed.

Lemma errframe_bind_ret {A B} (m : M A) (b : B) :
  errframe R m → errframe R (bind m (λ _, ret b)).
Proof.
  intros Hm w e w' H.
  apply bind_inv in H as [(e' & H & _) | (a & w1 & H1 & H2)]; [| done].
  by apply Hm in H.
Qed.

(** A handler that throws again, whatever the message. *)
Lemma errframe_rethrow {A} (m : M A) (h : string → M A) :
  errframe R m → (∀ e w, ∃ e', h e w = (Err e', w)) →
  errframe R (try_catch m h).
Proof.
  intros Hm Hh w e w'. unfold try_catch.
  destruct (m w) as [[a|e1] w1] eqn:Hrun; [done |].
  destruct (Hh e1 w1) as [e' ->]. intros [= _ <-]. by apply Hm in Hrun.
Qed.

(** A transaction that throws has written nothing. *)
Lemma errframe_transaction {A} (body : M A) :
  tx_only body → errframe R (transaction body).
Proof.
  intros Htx w e w'. unfold transaction, bind.
  destruct (io w) as [[[]|e0] w0] eqn:Hio;
    apply io_still in Hio as (Hd & _);
    [| intros [= _ <-]; by rewrite Hd].
  destruct (body (open_tx w0)) as [[a|e1] w1] eqn:Hrun;
    pose proof (Htx _ _ _ Hrun) as Hb1; simpl in Hb1.
  - destruct (io w1) as [[[]|e2] w2] eqn:Hio2;
      apply io_still in Hio2 as (Hd2 & Hb2 & _); [done |].
    intros [= _ <-]. simpl. unfold committed. rewrite Hb2, Hb1. simpl.
    by rewrite Hd.
  - intros [= _ <-]. simpl. unfold committed. rewrite Hb1. simpl.
    by rewrite Hd.
Qed.

End ErrorFrames.

Lemma deleteOrganization_tx_only o force nonEmpty :
  tx_only (deleteOrganization_tx o force nonEmpty).
Proof. unfold deleteOrganization_tx. auto 20 with tx_only. Qed.

Lemma deleteOrganization_catch_throws {A} e w :
  ∃ e', @deleteOrganization_catch A e w = (Err e', w).
Proof.
  unfold deleteOrganization_catch.
  destruct (is_BigInt_error e); [by eexists |].
  destruct (Js.includes e _); by eexists.
Qed.

(** A deletion that throws leaves every table but the user and member
    tables as it found them. *)
Lemma deleteOrganization_errframe orgId force :
  errframe same_inventory (deleteOrganization orgId force).
Proof.
  unfold deleteOrganization.
  apply errframe_bind; [apply _ | people_frame | intros userId].
  apply errframe_bind; [apply _ | people_frame | intros _].
  apply errframe_bind; [apply _ | people_frame | intros _].
  apply errframe_rethrow; [| apply @deleteOrganization_catch_throws].
  unfold deleteOrganization_try.
  apply errframe_bind; [apply _ | people_frame | intros o].
  apply errframe_bind; [apply _ | apply requireRole_people | intros _].
  apply errframe_bind;
    [apply _ | apply dbframe_all3; [apply _ | people_frame..]
    | intros [[nw np] no]].
  apply errframe_bind; [apply _ | people_frame | intros _].
  apply errframe_bind_ret.
  apply errframe_transaction; [apply _ | apply deleteOrganization_tx_only].
Qed.

Lemma with_db_with_db f g s t w :
  with_db g t (with_db f s w) = with_db (g ∘ f) (s ++ t) w.
Proof. unfold with_db. simpl. by rewrite <- app_assoc. Qed.

Lemma deleteOrganization_tx_ok w o :
  faults w = [] → is_Some (organizations (db w) !! o) →
  deleteOrganization_tx o true true w
  = (Ok tt,
     mkWorld (purged o (db w)) (base w) (nextId w) (session w) (clerkEmail w)
       (now w) (faults w) (trace w ++ cascade)).
Proof.
  intros Hf Horg. unfold deleteOrganization_tx. cbn [andb].
  unfold bind at 1.
  do 5 (erewrite bind_ok by (apply exec_tx_ok; exact Hf)).
  rewrite exec_tx_ok by exact Hf.
  do 2 (erewrite bind_ok by (apply exec_tx_ok; exact Hf)).
  rewrite exec_checked_tx_ok;
    [| exact Hf | by apply bool_decide_eq_true_2].
  rewrite !with_db_with_db. reflexivity.
Qed.

Lemma Forall_filter_negb {A} (f : A → bool) (l : list A) :
  Forall (λ x, f x = false) (List.filter (λ x, negb (f x)) l).
Proof.
  apply Forall_forall. intros x Hx%list_elem_of_In%filter_In.
  destruct Hx as [_ Hx]. by apply negb_true_iff.
Qed.

(** Nothing of organization [o] is left in [purged o d]. *)
Lemma purged_clean o d :
  organizations (purged o d) !! o = None
  ∧ (∀ k role, members (purged o d) !! k = Some role → k.1 ≠ o)
  ∧ (∀ token i, invites (purged o d) !! token = Some i → inv_org i ≠ o)
  ∧ Forall (λ x, wh_org x ≠ o) (warehouses (purged o d))
  ∧ Forall (λ x, p_org x ≠ o) (products (purged o d))
  ∧ Forall (λ x, o_org x ≠ o) (orders (purged o d))
  ∧ Forall (λ r, in_org_product d o (ps_product r) = false)
      (productStocks (purged o d))
  ∧ Forall (λ r, in_org_product d o (pp_product r) = false)
      (productPrices (purged o d))
  ∧ Forall (λ i, in_org_order d o (oi_order i) = false)
      (orderItems (purged o d)).
Proof.
  unfold purged. simpl. split_and!.
  - apply lookup_delete_eq.
  - intros k role H. by apply map_lookup_filter_Some in H as [_ H].
  - intros token i H. by apply map_lookup_filter_Some in H as [_ H].
  - eapply Forall_impl; [apply (Forall_filter_negb (λ x, wh_org x =? o)) |].
    intros x. apply Z.eqb_neq.
  - eapply Forall_impl; [apply (Forall_filter_negb (λ x, p_org x =? o)) |].
    intros x. apply Z.eqb_neq.
  - eapply Forall_impl; [apply (Forall_filter_negb (λ x, o_org x =? o)) |].
    intros x. apply Z.eqb_neq.
  - apply (Forall_filter_negb (λ r, in_org_product d o (ps_product r))).
  - apply (Forall_filter_negb (λ r, in_org_product d o (pp_product r))).
  - apply (Forall_filter_negb (λ i, in_org_order d o (oi_order i))).
Qed.

Lemma all3_ok {A B C} (a : M A) (b : M B) (c : M C) w x w1 y w2 z w3 :
  a w = (Ok x, w1) → b w1 = (Ok y, w2) → c w2 = (Ok z, w3) →
  all3 a b c w = (Ok (x, y, z), w3).
Proof. unfold all3. by intros -> -> ->. Qed.

Lemma deleteOrganization_try_counted w orgId clerk o u org force nw np no :
  quiet w → Caller w orgId clerk o u org → Permitted w o u org ["admin"] →
  dependents o (db w) = (nw, np, no) →
  deleteOrganization_try orgId force w
  = (let nonEmpty := ((0 <? nw) || (0 <? np) || (0 <? no))%nat in
     throw_if (nonEmpty && negb force) (cannot_delete nw np no) ;;
     transaction (deleteOrganization_tx o force nonEmpty) ;;
     ret (if force
          then "Organization and all its data have been permanently deleted"
          else "Organization deleted successfully"))
      (bootstrapped o u org w).
Proof.
  intros Hq Hcaller (role & Hrole & Hperm) Hdep.
  pose proof Hcaller as [Hs Hc Hn Ho Hu Horg].
  destruct (bootstrapped_quiet o u org w Hq) as [Hb1 Hf1].
  destruct (bootstrapped_db o u org w) as [m Hdb].
  unfold deleteOrganization_try.
  rewrite (bind_ok _ _ _ _ _ (toBigInt_ok _ _ w Ho)).
  rewrite (bind_ok _ _ _ _ _
             (requireRole_ok _ _ _ _ _ _ _ _ _ Hq Hcaller Hrole Hperm)).
  set (w1 := bootstrapped o u org w) in *.
  erewrite bind_ok
    by (eapply (all3_ok _ _ _ w1 _ w1 _ w1 _ w1); apply query_ok; exact Hf1).
  rewrite view_quiet by exact Hb1.
  rewrite Hdb. unfold dependents in Hdep. simpl. by injection Hdep as -> -> ->.
Qed.

(** A refusal: the message counts the dependents, and the store is the one
    the permission prelude left. *)
Lemma deleteOrganization_refused w orgId clerk o u org nw np no :
  quiet w → Caller w orgId clerk o u org → Permitted w o u org ["admin"] →
  dependents o (db w) = (nw, np, no) → (0 < nw ∨ 0 < np ∨ 0 < no)%nat →
  deleteOrganization orgId false w
  = (Err (cannot_delete nw np no), bootstrapped o u org w).
Proof.
  intros Hq Hcaller Hperm Hdep Hsome.
  pose proof Hcaller as [Hs Hc Hn Ho Hu Horg].
  unfold deleteOrganization. rewrite auth_ok, Hs.
  rewrite throw_if_false by (simpl; by rewrite Hc).
  rewrite throw_if_false by (by rewrite (numeric_trim_truthy _ Hn)).
  unfold try_catch.
  rewrite (deleteOrganization_try_counted w orgId clerk o u org false nw np no)
    by done.
  cbv zeta. rewrite throw_if_true.
  - apply deleteOrganization_catch_conflict.
  - rewrite andb_true_r.
    destruct Hsome as [H | [H | H]]; apply Nat.ltb_lt in H; rewrite H;
      by rewrite ?orb_true_r.
Qed.

(** A forced deletion: the statements of [cascade], in that order, inside the
    transaction, leave the purged store. *)
Lemma deleteOrganization_forced w orgId clerk o u org nw np no :
  quiet w → Caller w orgId clerk o u org → Permitted w o u org ["admin"] →
  dependents o (db w) = (nw, np, no) → (0 < nw ∨ 0 < np ∨ 0 < no)%nat →
  ∃ w',
    deleteOrganization orgId true w
    = (Ok "Organization and all its data have been permanently deleted", w')
    ∧ db w' = purged o (db (bootstrapped o u org w))
    ∧ trace w' = (trace (bootstrapped o u org w) ++ cascade)%list.
Proof.
  intros Hq Hcaller Hperm Hdep Hsome.
  pose proof Hcaller as [Hs Hc Hn Ho Hu Horg].
  destruct (bootstrapped_quiet o u org w Hq) as [Hb1 Hf1].
  destruct (bootstrapped_db o u org w) as [m Hdb].
  set (w1 := bootstrapped o u org w) in *.
  exists (mkWorld (purged o (db w1)) None (nextId w1) (session w1)
            (clerkEmail w1) (now w1) (faults w1) (trace w1 ++ cascade)).
  split.
  - unfold deleteOrganization. rewrite auth_ok, Hs.
    rewrite throw_if_false by (simpl; by rewrite Hc).
    rewrite throw_if_false by (by rewrite (numeric_trim_truthy _ Hn)).
    unfold try_catch.
    rewrite (deleteOrganization_try_counted w orgId clerk o u org true nw np no)
      by done.
    cbv zeta. rewrite throw_if_false by apply andb_false_r.
    assert (((0 <? nw) || (0 <? np) || (0 <? no))%nat = true) as ->.
    { destruct Hsome as [H | [H | H]]; apply Nat.ltb_lt in H; rewrite H;
        by rewrite ?orb_true_r. }
    fold w1. erewrite bind_ok; [reflexivity |].
    apply (transaction_ok _ w1 tt
             (mkWorld (purged o (db w1)) (Some (db w1)) (nextId w1) (session w1)
                (clerkEmail w1) (now w1) (faults w1) (trace w1 ++ cascade)));
      [exact Hf1 | | exact Hf1].
    apply deleteOrganization_tx_ok; [exact Hf1 |].
    simpl. rewrite Hdb. simpl. by rewrite Horg.
  - done.
Qed.




(** ** The default warehouse *)

(** What [getOrCreateDefaultWarehouse] returns and writes, whatever the
    round-trips do: with a warehouse of the organization in the committed
    store it returns the first one and creates none; without, it creates
    "Default Warehouse". *)
Lemma getOrCreateDefaultWarehouse_inv o w r w' :
  getOrCreateDefaultWarehouse o w = (r, w') →
  match List.find (λ x, wh_org x =? Js.Number o) (warehouses (committed w)) with
  | Some wh =>
      warehouses (db w') = warehouses (db w)
      ∧ trace w' = trace w
      ∧ ∀ x, r = Ok x → x = wh
  | None =>
      ∀ x, r = Ok x →
           x = mkWarehouse (nextId w) (Js.Number o) "Default Warehouse"
                 "Default Address"
           ∧ warehouses (db w') = append [x] (warehouses (db w))
  end.
Proof.
  unfold getOrCreateDefaultWarehouse. intros H.
  apply bind_inv in H as [(e & H & ->) | (found & w1 & H1 & H)].
  { apply query_still in H as (Hd & _ & _ & _ & _ & _ & Ht).
    destruct (List.find _ _); [by rewrite Hd, Ht | done]. }
  apply query_Ok_inv in H1 as [-> (Hd & Hb & Hn & _ & _ & _ & Ht)].
  simpl in H. simpl. destruct (List.find _ _) as [wh|].
  { injection H as <- <-. rewrite Hd, Ht. split_and!; [done | done |].
    by intros x [= <-]. }
  unfold bind at 1, fresh at 1 in H.
  apply bind_inv in H as [(e & H & ->) | ([] & w2 & H2 & H)]; [done |].
  injection H as <- <-. intros x [= <-]. rewrite Hn. split; [done |].
  unfold exec, bind, apply in H2. simpl in H2.
  destruct (io _) as [[[]|e] w3] eqn:Hio; [| done].
  apply io_still in Hio as (Hd3 & _). simpl in Hd3.
  injection H2 as <-. simpl. by rewrite Hd3, Hd, Hn.
Qed.

Lemma getOrCreateDefaultWarehouse_found o w wh :
  faults w = [] →
  List.find (λ x, wh_org x =? Js.Number o) (warehouses (committed w)) = Some wh →
  getOrCreateDefaultWarehouse o w = (Ok wh, w).
Proof.
  intros Hf Hfind. unfold getOrCreateDefaultWarehouse.
  rewrite (bind_ok _ _ _ _ _ (query_ok Prisma _ w Hf)). simpl. by rewrite Hfind.
Qed.

Lemma clampZ_nonneg x : (clampZ x <? 0) = false.
Proof. unfold clampZ. lia. Qed.

Lemma Qmax0_nonneg x : Qle_bool 0 (Qmax0 x) = true.
Proof. unfold Qmax0. by destruct (Qle_bool 0 x) eqn:E. Qed.

Lemma try_catch_ok {A} (m : M A) h w a w' :
  m w = (Ok a, w') → try_catch m h w = (Ok a, w').
Proof. unfold try_catch. by intros ->. Qed.

Lemma hasPermission_truthy role roles :
  hasPermission (Some role) roles = true → Js.truthy role = true.
Proof. unfold hasPermission. by destruct (Js.truthy role). Qed.

Lemma query_prisma_in_tx {A} (f : DB → A) w b :
  faults w = [] → base w = Some b → query Prisma f w = (Ok (f b), w).
Proof.
  intros Hf Hb. rewrite query_ok by done. unfold view, committed.
  by rewrite Hb.
Qed.

Lemma createPrice_ok w pid retail actual :
  faults w = [] →
  createPrice Tx pid retail actual w
  = (Ok (mkPrice (nextId w) pid retail actual None (now w) None),
     mkWorld
       (set_productPrices
          (append [mkPrice (nextId w) pid retail actual None (now w) None])
          (db w))
       (base w) (nextId w + 1) (session w) (clerkEmail w) (now w) (faults w)
       (trace w ++ [Create TProductPrice])).
Proof.
  intros Hf. unfold createPrice, bind, fresh, newDate. simpl.
  unfold exec, bind, io. simpl. by rewrite Hf.
Qed.

Lemma addProduct_tx_first w o u newProduct wh b :
  faults w = [] → base w = Some b →
  List.find (λ x, wh_org x =? Js.Number o) (warehouses b) = Some wh →
  ∃ res w2,
    addProduct_tx o u newProduct w = (Ok res, w2)
    ∧ faults w2 = []
    ∧ r_warehouseId res = Js.show_Z (warehouse_id wh)
    ∧ r_warehouseName res = wh_name wh
    ∧ warehouses (db w2) = warehouses (db w)
    ∧ productStocks (db w2)
      = append [mkStock (nextId w + 1) (nextId w) (warehouse_id wh)
                  (clampZ (in_stock newProduct))]
          (productStocks (db w)).
Proof.
  intros Hf Hb Hfind. unfold addProduct_tx.
  unfold bind at 1, fresh at 1.
  erewrite bind_ok by (apply exec_tx_ok; exact Hf).
  erewrite bind_ok;
    last (apply getOrCreateDefaultWarehouse_found;
          [exact Hf | unfold committed; simpl; by rewrite Hb]).
  erewrite bind_ok by (apply createStock_ok; exact Hf).
  erewrite bind_ok by (apply createPrice_ok; exact Hf).
  by eexists _, _.
Qed.

Lemma addProduct_first_warehouse w orgId clerk o u org newProduct wh :
  quiet w → Caller w orgId clerk o u org → Permitted w o u org writerRoles →
  Z.abs o < 2 ^ 53 →
  Js.truthy (Js.trim (in_name newProduct)) = true →
  Js.truthy (Js.trim (in_sku newProduct)) = true →
  List.find (λ p, String.eqb (p_sku p) (Js.trim (in_sku newProduct))
                  && (p_org p =? o)) (products (db w)) = None →
  List.find (λ x, wh_org x =? o) (warehouses (db w)) = Some wh →
  ∃ res w',
    addProduct orgId newProduct w = (Ok res, w')
    ∧ r_warehouseId res = Js.show_Z (warehouse_id wh)
    ∧ r_warehouseName res = wh_name wh
    ∧ warehouses (db w') = warehouses (db w)
    ∧ productStocks (db w')
      = append [mkStock (nextId w + 1) (nextId w) (warehouse_id wh)
                  (clampZ (in_stock newProduct))]
          (productStocks (db w)).
Proof.
  intros Hq Hcaller (role & Hrole & Hperm) Ho53 Hname Hsku Hfree Hfind.
  pose proof Hcaller as [Hs Hc Hn Ho Hu Horg].
  destruct (bootstrapped_quiet o u org w Hq) as [Hb1 Hf1].
  destruct (bootstrapped_db o u org w) as [m Hdb].
  set (w1 := bootstrapped o u org w) in *.
  destruct (addProduct_tx_first (open_tx w1) o u newProduct wh (db w1))
    as (res & w2 & Hrun & Hf2 & Hid & Hnm & Hwh & Hst);
    [exact Hf1 | done | by rewrite Number_exact, Hdb |].
  simpl in Hwh, Hst. rewrite Hdb in Hwh, Hst. simpl in Hwh, Hst.
  unfold w1 in Hst. rewrite bootstrapped_nextId in Hst. fold w1 in Hst.
  exists res, (close_tx (db w2) w2). split; [| done].
  unfold addProduct. rewrite auth_ok, Hs.
  rewrite throw_if_false by (simpl; by rewrite Hc).
  rewrite throw_if_false by (by rewrite (numeric_trim_truthy _ Hn)).
  rewrite throw_if_false by (by rewrite Hname).
  rewrite throw_if_false by (by rewrite Hsku).
  apply try_catch_ok. unfold addProduct_try.
  rewrite (bind_ok _ _ _ _ _ (toBigInt_ok _ _ w Ho)).
  assert ((λ r, Js.truthy_opt r && hasPermission r writerRoles) (Some role)
          = true) as Hperm'.
  { cbv beta. cbn [Js.truthy_opt].
    by rewrite Hperm, (hasPermission_truthy _ _ Hperm). }
  rewrite (bind_ok _ _ _ _ _
             (requireRole_ok w orgId clerk o u org role _ _ Hq Hcaller Hrole Hperm')).
  fold w1.
  erewrite bind_ok;
    last (apply getOrCreateUser_known;
          [exact Hf1 | unfold committed; rewrite Hb1; simpl; by rewrite Hdb]).
  erewrite bind_ok by (apply query_ok; exact Hf1).
  rewrite view_quiet by exact Hb1. rewrite Hdb. simpl. rewrite Hfree.
  rewrite throw_if_false by done.
  rewrite throw_if_false by apply clampZ_nonneg.
  rewrite throw_if_false by (unfold clampQ; by rewrite Qmax0_nonneg).
  erewrite bind_ok by (eapply transaction_ok; [exact Hf1 | exact Hrun | exact Hf2]).
  unfold invalidateProducts.
  by rewrite (bind_ok _ _ _ _ _ (io_ok (close_tx (db w2) w2) Hf2)).
Qed.

#[export] Instance stocked_in_preorder wid : PreOrder (stocked_in wid).
Proof.
  split.
  - intros d. split; [done |]. exists []. by rewrite app_nil_r.
  - intros d1 d2 d3 [Hw1 (a1 & H1 & Ha1)] [Hw2 (a2 & H2 & Ha2)].
    split; [congruence |]. exists (a1 ++ a2)%list. split.
    + by rewrite H2, H1, app_assoc.
    + by apply Forall_app.
Qed.

Lemma placement_setQty sid q l :
  map placement (map (setQty sid q) l) = map placement l.
Proof.
  rewrite map_map. apply map_ext. intros s. unfold placement.
  by destruct (setQty_keys sid q s) as (_ & -> & ->).
Qed.

(** The stock row of the first warehouse gets the quantity; no other row
    moves and no warehouse is created. *)
Lemma putDefaultStock_first w o pid q wh b :
  faults w = [] → base w = Some b →
  List.find (λ x, wh_org x =? Js.Number o) (warehouses b) = Some wh →
  ∃ w2 rows row,
    putDefaultStock o pid q w = (Ok wh, w2)
    ∧ faults w2 = [] ∧ base w2 = base w
    ∧ db w2 = set_productStocks (λ _, rows) (db w)
    ∧ stocked_in (warehouse_id wh) (db w) (db w2)
    ∧ List.find (λ s, (ps_product s =? pid) && (ps_warehouse s =? warehouse_id wh))
        rows = Some row
    ∧ quantity row = q.
Proof.
  intros Hf Hb Hfind. unfold putDefaultStock.
  erewrite bind_ok;
    last (apply getOrCreateDefaultWarehouse_found;
          [exact Hf | unfold committed; by rewrite Hb]).
  erewrite bind_ok by (apply query_ok; exact Hf). simpl.
  destruct (findStock pid (warehouse_id wh) (db w)) as [s|] eqn:Hs.
  - destruct (findStock_spec _ _ _ _ Hs) as (Hin & Hp & Hw).
    erewrite bind_ok by (apply updateStock_ok; [exact Hf | exact Hin]).
    eexists _, _, (set_quantity q s). split_and!; [done | done | done | done | | |].
    + split; [done |]. exists []. simpl. by rewrite placement_setQty, app_nil_r.
    + rewrite findStock_setQty. unfold findStock in Hs. rewrite Hs. simpl.
      by rewrite setQty_same.
    + done.
  - unfold bind at 1. erewrite bind_ok by (apply createStock_ok; exact Hf).
    unfold ret.
    eexists _, _, (mkStock (nextId w) pid (warehouse_id wh) q).
    split_and!; [done | done | done | done | | |].
    + split; [done |]. exists [(pid, warehouse_id wh)]. simpl. unfold append.
      rewrite map_app. split; [done |]. by apply Forall_singleton.
    + unfold append. rewrite find_app_None by exact Hs. simpl.
      by rewrite !Z.eqb_refl.
    + done.
Qed.

Lemma fold_pick {A} (step : option A → A → option A) (l : list A) acc r :
  (∀ best x, step best x = best ∨ step best x = Some x) →
  fold_left step l acc = Some r → acc = Some r ∨ r ∈ l.
Proof.
  intros Hstep. revert acc. induction l as [|x l IH]; simpl; intros acc H.
  - by left.
  - apply IH in H as [H | H]; [| right; by right].
    destruct (Hstep acc x) as [E | E]; rewrite E in H.
    + by left.
    + injection H as <-. right. by left.
Qed.

Lemma latestPrice_elem pid d r :
  latestPrice pid d = Some r → r ∈ productPrices d.
Proof.
  unfold latestPrice. intros H. apply fold_pick in H as [? | H]; [done | |].
  - by apply list_elem_of_In, filter_In in H as [H%list_elem_of_In _].
  - intros [b|] x; [| by right]. destruct (valid_from b <? valid_from x); auto.
Qed.

(** The price steps of the product updates write the price table only. *)
Lemma putPrice_ok w pid (skip : ProductPrice → bool) x :
  faults w = [] →
  ∃ w2 prices,
    match latestPrice pid (db w) with
    | Some latest =>
        if skip latest then ret tt else updatePrice Tx (price_id latest) x
    | None => createPrice Tx pid x None ;; ret tt
    end w = (Ok tt, w2)
    ∧ faults w2 = [] ∧ base w2 = base w
    ∧ db w2 = set_productPrices (λ _, prices) (db w).
Proof.
  intros Hf. destruct (latestPrice pid (db w)) as [l|] eqn:Hl.
  - destruct (skip l).
    + exists w, (productPrices (db w)).
      split_and!; [done | done | done |]. by destruct (db w).
    + eexists _, _. split.
      { unfold updatePrice. apply exec_checked_tx_ok; [done |].
        apply latestPrice_elem in Hl.
        apply (existsb_elem _ _ l); [done | apply Z.eqb_refl]. }
      done.
  - eexists _, _. split.
    { erewrite bind_ok by (apply createPrice_ok; exact Hf). reflexivity. }
    done.
Qed.

Lemma product_keys_update (upd : Product → Product) (sel : Product → bool) l :
  (∀ p, product_id (upd p) = product_id p ∧ p_org (upd p) = p_org p) →
  map (λ p, (product_id p, p_org p)) (map (λ p, if sel p then upd p else p) l)
  = map (λ p, (product_id p, p_org p)) l.
Proof.
  intros Hupd. rewrite map_map. apply map_ext. intros p.
  destruct (sel p); [| done]. by destruct (Hupd p) as [-> ->].
Qed.

Lemma updateProduct_tx_first w o pid u input wh b :
  faults w = [] → base w = Some b →
  List.find (λ x, wh_org x =? Js.Number o) (warehouses b) = Some wh →
  existsb (λ p, product_id p =? pid) (products (db w)) = true →
  ∃ res w2 row,
    updateProduct_tx o pid u input w = (Ok res, w2)
    ∧ faults w2 = []
    ∧ r_warehouseId res = Js.show_Z (warehouse_id wh)
    ∧ r_warehouseName res = wh_name wh
    ∧ stocked_in (warehouse_id wh) (db w) (db w2)
    ∧ findStock pid (warehouse_id wh) (db w2) = Some row
    ∧ quantity row = clampZ (in_stock input).
Proof.
  intros Hf Hb Hfind Hex. unfold updateProduct_tx.
  erewrite bind_ok by (apply exec_checked_tx_ok; [exact Hf | exact Hex]).
  set (w1 := with_db _ _ w).
  destruct (putDefaultStock_first w1 o pid (clampZ (in_stock input)) wh b)
    as (w2 & rows & row & Hput & Hf2 & Hb2 & Hd2 & Hin2 & Hrow & Hq);
    [exact Hf | exact Hb | exact Hfind |].
  rewrite (bind_ok _ _ _ _ _ Hput).
  erewrite bind_ok by (apply query_ok; exact Hf2). simpl.
  destruct (putPrice_ok w2 pid
              (λ latest, Qeq_bool (retail_price latest) (clampQ (in_price input)))
              (clampQ (in_price input)) Hf2)
    as (w3 & prices & Hprice & Hf3 & Hb3 & Hd3).
  rewrite (bind_ok _ _ _ _ _ Hprice).
  eexists _, w3, row. split_and!; [done | done | done | done | | |].
  - rewrite Hd3. destruct Hin2 as [Hw (added & Ha & Hall)].
    split; [done |]. by exists added.
  - rewrite Hd3, Hd2. exact Hrow.
  - done.
Qed.

Lemma updateProduct_first_warehouse w orgId id clerk o u org input wh pid :
  quiet w → Caller w orgId clerk o u org → Permitted w o u org writerRoles →
  Z.abs o < 2 ^ 53 → reads id pid →
  Js.truthy (Js.trim (in_name input)) = true →
  Js.truthy (Js.trim (in_sku input)) = true →
  is_Some (List.find (λ p, (product_id p =? pid) && (p_org p =? o))
             (products (db w))) →
  List.find (λ p, String.eqb (p_sku p) (Js.trim (in_sku input))
                  && (p_org p =? o) && negb (product_id p =? pid))
    (products (db w)) = None →
  List.find (λ x, wh_org x =? o) (warehouses (db w)) = Some wh →
  ∃ res w' row,
    updateProduct orgId id input w = (Ok res, w')
    ∧ r_warehouseId res = Js.show_Z (warehouse_id wh)
    ∧ r_warehouseName res = wh_name wh
    ∧ stocked_in (warehouse_id wh) (db w) (db w')
    ∧ findStock pid (warehouse_id wh) (db w') = Some row
    ∧ quantity row = clampZ (in_stock input).
Proof.
  intros Hq Hcaller (role & Hrole & Hperm) Ho53 [Hid1 Hid2] Hname Hsku
    [p Hp] Hdup Hfind.
  pose proof Hcaller as [Hs Hc Hn Ho Hu Horg].
  destruct (bootstrapped_quiet o u org w Hq) as [Hb1 Hf1].
  destruct (bootstrapped_db o u org w) as [m Hdb].
  set (w1 := bootstrapped o u org w) in *.
  destruct (updateProduct_tx_first (open_tx w1) o pid u input wh (db w1))
    as (res & w2 & row & Hrun & Hf2 & Hrid & Hrnm & Hin & Hrow & Hqty);
    [exact Hf1 | done | by rewrite Number_exact, Hdb | |].
  { simpl. rewrite Hdb. simpl.
    destruct (find_elem _ _ _ Hp) as [Hpin [Hpid _]%andb_true_iff].
    by apply (existsb_elem _ _ p). }
  exists res, (close_tx (db w2) w2), row. split.
  - unfold updateProduct. rewrite auth_ok, Hs.
    rewrite throw_if_false by (simpl; by rewrite Hc).
    rewrite throw_if_false by (by rewrite (numeric_trim_truthy _ Hn)).
    rewrite throw_if_false by (by rewrite Hid1).
    rewrite throw_if_false by (by rewrite Hname).
    rewrite throw_if_false by (by rewrite Hsku).
    apply try_catch_ok. unfold updateProduct_try.
    rewrite (bind_ok _ _ _ _ _ (toBigInt_ok _ _ w Ho)).
    rewrite (bind_ok _ _ _ _ _
               (requireRole_ok w orgId clerk o u org role _ _ Hq Hcaller Hrole Hperm)).
    fold w1.
    rewrite (bind_ok _ _ _ _ _ (toBigInt_ok _ _ w1 Hid2)).
    erewrite bind_ok;
      last (apply getOrCreateUser_known;
            [exact Hf1 | unfold committed; rewrite Hb1; simpl; by rewrite Hdb]).
    erewrite bind_ok by (apply query_ok; exact Hf1).
    rewrite view_quiet by exact Hb1. rewrite Hdb. simpl. rewrite Hp.
    rewrite throw_if_false by done.
    erewrite bind_ok by (apply query_ok; exact Hf1).
    rewrite view_quiet by exact Hb1. rewrite Hdb. simpl. rewrite Hdup.
    rewrite throw_if_false by done.
    rewrite throw_if_false by apply clampZ_nonneg.
    rewrite throw_if_false by (unfold clampQ; by rewrite Qmax0_nonneg).
    erewrite bind_ok
      by (eapply transaction_ok; [exact Hf1 | exact Hrun | exact Hf2]).
    unfold invalidateProducts.
    by rewrite (bind_ok _ _ _ _ _ (io_ok (close_tx (db w2) w2) Hf2)).
  - simpl. split_and!; [done | done | | done | done].
    destruct Hin as [Hw (added & Ha & Hall)]. simpl in Hw, Ha.
    rewrite Hdb in Hw, Ha. simpl in Hw, Ha. split; [done |]. by exists added.
Qed.

Lemma product_keys_exists d pid o :
  (pid, o) ∈ product_keys d →
  existsb (λ p, (product_id p =? pid) && (p_org p =? o)) (products d) = true.
Proof.
  unfold product_keys. intros H. apply list_elem_of_fmap in H as (p & [= -> ->] & Hp).
  apply (existsb_elem _ _ p); [done |]. by rewrite !Z.eqb_refl.
Qed.

Lemma findStock_placement pid wid d row :
  findStock pid wid d = Some row → (pid, wid) ∈ map placement (productStocks d).
Proof.
  intros H. apply findStock_spec in H as (Hin & <- & <-).
  by apply (list_elem_of_fmap_2 placement).
Qed.

Lemma stocked_in_placement wid d d' k :
  stocked_in wid d d' →
  k ∈ map placement (productStocks d) → k ∈ map placement (productStocks d').
Proof.
  intros [_ (added & -> & _)] H. apply elem_of_app. by left.
Qed.

(** One item of a bulk update, inside the transaction. *)
Lemma bulkUpdate_item_first w o u update wh b pid :
  faults w = [] → base w = Some b →
  List.find (λ x, wh_org x =? Js.Number o) (warehouses b) = Some wh →
  Js.BigInt update.1 = Some pid → (pid, o) ∈ product_keys (db w) →
  ∃ r w2,
    bulkUpdate_item o u update w = (Ok r, w2)
    ∧ faults w2 = [] ∧ base w2 = base w
    ∧ stocked_in (warehouse_id wh) (db w) (db w2)
    ∧ product_keys (db w2) = product_keys (db w)
    ∧ (is_Some (in_stock update.2) →
       (pid, warehouse_id wh) ∈ map placement (productStocks (db w2))).
Proof.
  intros Hf Hb Hfind Hpid Hkey. unfold bulkUpdate_item.
  rewrite (bind_ok _ _ _ _ _ (toBigInt_ok _ _ w Hpid)).
  erewrite bind_ok
    by (apply exec_checked_tx_ok; [exact Hf | by apply product_keys_exists]).
  set (w1 := with_db _ _ w).
  assert (product_keys (db w1) = product_keys (db w)) as Hk1.
  { unfold product_keys. simpl. by apply product_keys_update. }
  assert (∃ w2,
    match in_stock update.2 with
    | Some stock => putDefaultStock o pid (Z.max 0 stock) ;; ret tt
    | None => ret tt
    end w1 = (Ok tt, w2)
    ∧ faults w2 = [] ∧ base w2 = base w
    ∧ stocked_in (warehouse_id wh) (db w) (db w2)
    ∧ product_keys (db w2) = product_keys (db w)
    ∧ (is_Some (in_stock update.2) →
       (pid, warehouse_id wh) ∈ map placement (productStocks (db w2))))
    as (w2 & Hstock & Hf2 & Hb2 & Hin2 & Hk2 & Hrow2).
  { destruct (in_stock update.2) as [stock|].
    - destruct (putDefaultStock_first w1 o pid (Z.max 0 stock) wh b)
        as (w2 & rows & row & Hput & Hf2 & Hb2 & Hd2 & Hin2 & Hrow & _);
        [exact Hf | exact Hb | exact Hfind |].
      exists w2. rewrite (bind_ok _ _ _ _ _ Hput).
      split_and!; [done | done | done | | |].
      + destruct Hin2 as [Hw Ha]. by split.
      + by rewrite Hd2.
      + intros _. apply (findStock_placement _ _ _ row).
        unfold findStock. by rewrite Hd2.
    - exists w1. split_and!; [done | done | done | | done |].
      + split; [done |]. exists []. by rewrite app_nil_r.
      + by intros [? ?]. }
  rewrite (bind_ok _ _ _ _ _ Hstock).
  assert (∃ w3 prices,
    match in_price update.2 with
    | Some price =>
        let* existingPrice := query Tx (latestPrice pid) in
        match existingPrice with
        | Some existingPrice =>
            updatePrice Tx (price_id existingPrice) (Qmax0 price)
        | None => createPrice Tx pid (Qmax0 price) None ;; ret tt
        end
    | None => ret tt
    end w2 = (Ok tt, w3)
    ∧ faults w3 = [] ∧ base w3 = base w2
    ∧ db w3 = set_productPrices (λ _, prices) (db w2))
    as (w3 & prices & Hprice & Hf3 & Hb3 & Hd3).
  { destruct (in_price update.2) as [price|].
    - destruct (putPrice_ok w2 pid (λ _, false) (Qmax0 price) Hf2)
        as (w3 & prices & Hrun & ?). exists w3, prices. split; [| done].
      unfold bind at 1. by rewrite (query_ok Tx _ w2 Hf2).
    - exists w2, (productPrices (db w2)). split_and!; [done | done | done |].
      by destruct (db w2). }
  rewrite (bind_ok _ _ _ _ _ Hprice).
  eexists _, w3. split_and!; [done | done | congruence | | |].
  - rewrite Hd3. destruct Hin2 as [Hw Ha]. by split.
  - by rewrite Hd3.
  - rewrite Hd3. exact Hrow2.
Qed.

(** The updates of a bulk request that the loop can carry out: each id is
    read by [BigInt] and names a product of the organization. *)
Lemma bulkUpdate_loop_first o u wh b updates : ∀ w,
  faults w = [] → base w = Some b →
  List.find (λ x, wh_org x =? Js.Number o) (warehouses b) = Some wh →
  Forall (λ update, ∃ pid, Js.BigInt update.1 = Some pid
                           ∧ (pid, o) ∈ product_keys (db w)) updates →
  ∃ rs w2,
    bulkUpdate_loop o u updates w = (Ok rs, w2)
    ∧ faults w2 = [] ∧ base w2 = base w
    ∧ stocked_in (warehouse_id wh) (db w) (db w2)
    ∧ product_keys (db w2) = product_keys (db w)
    ∧ Forall (λ update, ∀ pid,
        Js.BigInt update.1 = Some pid → is_Some (in_stock update.2) →
        (pid, warehouse_id wh) ∈ map placement (productStocks (db w2))) updates.
Proof.
  induction updates as [|update rest IH]; intros w Hf Hb Hfind Hall.
  - exists [], w. split_and!; [done | done | done | reflexivity | done | done].
  - apply Forall_cons in Hall as [(pid & Hpid & Hkey) Hrest].
    destruct (bulkUpdate_item_first w o u update wh b pid Hf Hb Hfind Hpid Hkey)
      as (r & w1 & Hrun1 & Hf1 & Hb1 & Hin1 & Hk1 & Hrow1).
    destruct (IH w1) as (rs & w2 & Hrun2 & Hf2 & Hb2 & Hin2 & Hk2 & Hrows2);
      [exact Hf1 | congruence | exact Hfind | by rewrite Hk1 |].
    exists (r :: rs), w2. split_and!.
    + cbn [bulkUpdate_loop]. rewrite (bind_ok _ _ _ _ _ Hrun1).
      by rewrite (bind_ok _ _ _ _ _ Hrun2).
    + done.
    + congruence.
    + by etransitivity.
    + congruence.
    + apply Forall_cons. split; [| done].
      intros pid' Hpid' Hstock. assert (pid' = pid) as -> by congruence.
      eapply stocked_in_placement; [exact Hin2 | by apply Hrow1].
Qed.

Lemma bulkUpdateProducts_first_warehouse w orgId clerk o u org updates wh :
  quiet w → Caller w orgId clerk o u org → Permitted w o u org writerRoles →
  Z.abs o < 2 ^ 53 → updates ≠ [] →
  Forall (λ update, ∃ pid, Js.BigInt update.1 = Some pid
                           ∧ (pid, o) ∈ product_keys (db w)) updates →
  List.find (λ x, wh_org x =? o) (warehouses (db w)) = Some wh →
  ∃ rs w',
    bulkUpdateProducts orgId updates w = (Ok rs, w')
    ∧ stocked_in (warehouse_id wh) (db w) (db w')
    ∧ Forall (λ update, ∀ pid,
        Js.BigInt update.1 = Some pid → is_Some (in_stock update.2) →
        (pid, warehouse_id wh) ∈ map placement (productStocks (db w'))) updates.
Proof.
  intros Hq Hcaller (role & Hrole & Hperm) Ho53 Hne Hall Hfind.
  pose proof Hcaller as [Hs Hc Hn Ho Hu Horg].
  destruct (bootstrapped_quiet o u org w Hq) as [Hb1 Hf1].
  destruct (bootstrapped_db o u org w) as [m Hdb].
  set (w1 := bootstrapped o u org w) in *.
  destruct (bulkUpdate_loop_first o u wh (db w1) updates (open_tx w1))
    as (rs & w2 & Hrun & Hf2 & _ & Hin & _ & Hrows);
    [exact Hf1 | done | by rewrite Number_exact, Hdb | |].
  { simpl. unfold product_keys. rewrite Hdb. exact Hall. }
  exists rs, (close_tx (db w2) w2). split.
  - unfold bulkUpdateProducts. rewrite auth_ok, Hs.
    rewrite throw_if_false by (simpl; by rewrite Hc).
    rewrite throw_if_false by (by rewrite (numeric_trim_truthy _ Hn)).
    rewrite throw_if_false by (by apply bool_decide_eq_false).
    apply try_catch_ok. unfold bulkUpdateProducts_try.
    rewrite (bind_ok _ _ _ _ _ (toBigInt_ok _ _ w Ho)).
    rewrite (bind_ok _ _ _ _ _
               (requireRole_ok w orgId clerk o u org role _ _ Hq Hcaller Hrole Hperm)).
    fold w1.
    erewrite bind_ok;
      last (apply getOrCreateUser_known;
            [exact Hf1 | unfold committed; rewrite Hb1; simpl; by rewrite Hdb]).
    erewrite bind_ok
      by (eapply transaction_ok; [exact Hf1 | exact Hrun | exact Hf2]).
    unfold invalidateProducts.
    by rewrite (bind_ok _ _ _ _ _ (io_ok (close_tx (db w2) w2) Hf2)).
  - simpl. split; [| done].
    destruct Hin as [Hw (added & Ha & Hadd)]. simpl in Hw, Ha.
    rewrite Hdb in Hw, Ha. simpl in Hw, Ha. split; [done |]. by exists added.
Qed.

Lemma getOrCreateDefaultWarehouse_created o w :
  faults w = [] →
  List.find (λ x, wh_org x =? Js.Number o) (warehouses (committed w)) = None →
  ∃ w',
    getOrCreateDefaultWarehouse o w
    = (Ok (mkWarehouse (nextId w) (Js.Number o) "Default Warehouse"
             "Default Address"), w')
    ∧ trace w' = (trace w ++ [Create TWarehouse])%list.
Proof.
  intros Hf Hfind. unfold getOrCreateDefaultWarehouse.
  rewrite (bind_ok _ _ _ _ _ (query_ok Prisma _ w Hf)). simpl. rewrite Hfind.
  unfold bind at 1, fresh at 1.
  set (w1 := mkWorld _ _ _ _ _ _ _ _).
  unfold exec, bind. rewrite (io_ok w1 Hf).
  eexists. split; reflexivity.
Qed.

(** C10: the "default warehouse" of an organization whose key no number
    holds.  Globex has the key 2^53 + 1 and the warehouse "Quay".
    [getOrCreateDefaultWarehouse] looks the warehouse up under the number
    made of the key, 2^53, finds none, and creates a warehouse named
    "Default Warehouse" of organization 2^53, although Globex has a
    warehouse; [addProduct], called by Globex's admin, reports that
    warehouse and puts the stock row of Globex's new product in it, a
    warehouse of another organization.  [getWarehouseList] looks the
    warehouses up under the key itself and lists the Quay alone. *)
Theorem default_warehouse_rounds_key :
  let w := Fixture.request "clerk_ann" Large.tenants in
  let made := mkWarehouse 101 (2 ^ 53) "Default Warehouse" "Default Address" in
  let r := addProduct "9007199254740993"
             (mkInput "Gadget" "G-1" None (Some 4) None None) w in
  Js.BigInt "9007199254740993" = Some Large.key
  ∧ List.find (λ x, wh_org x =? Large.key) (warehouses (db w))
    = Some Large.quay
  ∧ (getOrCreateDefaultWarehouse Large.key w).1
    = Ok (mkWarehouse 100 (2 ^ 53) "Default Warehouse" "Default Address")
  ∧ (∃ res, r.1 = Ok res
            ∧ r_warehouseName res = "Default Warehouse"
            ∧ r_warehouseId res = "101")
  ∧ warehouses (db r.2) = append [made] (warehouses (db w))
  ∧ wh_org made ≠ Large.key
  ∧ p_org <$> List.find (λ p, product_id p =? 100) (products (db r.2))
    = Some Large.key
  ∧ productStocks (db r.2)
    = append [mkStock 102 100 101 4] (productStocks (db w))
  ∧ (∃ l, (getWarehouseList "9007199254740993" w).1 = Ok l
          ∧ map wi_name l = ["Quay"]).
Proof.
  intros w made r.
  split_and!; try (vm_compute; reflexivity); try (vm_compute; discriminate).
  - eexists. split_and!; vm_compute; reflexivity.
  - eexists. split; vm_compute; reflexivity.
Qed.



(** ** Further properties of the code

    *** Users and membership *)

Lemma exec_checked_ok c s chk msg f w :
  faults w = [] → base w = None → chk (db w) = true →
  exec_checked c s chk msg f w = (Ok tt, with_db f [s] w).
Proof.
  intros Hf Hb Hchk. unfold exec_checked.
  rewrite (bind_ok _ _ _ _ _ (io_ok w Hf)). unfold bind, peek.
  rewrite view_quiet by done. rewrite Hchk. unfold apply, with_db.
  rewrite Hb. by destruct c.
Qed.

Lemma exec_checked_refused c s chk msg f w :
  faults w = [] → chk (view c w) = false →
  exec_checked c s chk msg f w = (Err msg, w).
Proof.
  intros Hf Hchk. unfold exec_checked.
  rewrite (bind_ok _ _ _ _ _ (io_ok w Hf)). unfold bind, peek.
  by rewrite Hchk.
Qed.

Lemma currentUserEmail_ok w :
  faults w = [] → currentUserEmail w = (Ok (clerkEmail w), w).
Proof.
  intros Hf. unfold currentUserEmail.
  by rewrite (bind_ok _ _ _ _ _ (io_ok w Hf)).
Qed.

(** X1: [getOrCreateUser] on a principal the store does not know, when the
    store and the identity provider answer: with an e-mail address it
    creates the user under the next key and returns it, touching no other
    table, and a second call returns the same user and writes nothing;
    without an address it throws and writes nothing. *)
Theorem getOrCreateUser_first_sight w clerk :
  quiet w → users (db w) !! clerk = None →
  (∀ mail,
     clerkEmail w = Some mail → Js.truthy mail = true →
     let u := mkUser (nextId w) mail in
     ∃ w1,
       getOrCreateUser clerk w = (Ok u, w1)
       ∧ db w1 = set_users (insert clerk u) (db w)
       ∧ trace w1 = (trace w ++ [Create TUser])%list
       ∧ quiet w1
       ∧ getOrCreateUser clerk w1 = (Ok u, w1))
  ∧ (Js.truthy_opt (clerkEmail w) = false →
     getOrCreateUser clerk w
     = (Err "Unable to get user email from Clerk", w)).
Proof.
  intros [Hb Hf] Hnone. split.
  - intros mail Hmail Htruthy u.
    set (w0 := mkWorld (db w) (base w) (nextId w + 1) (session w)
                 (clerkEmail w) (now w) (faults w) (trace w)).
    exists (with_db (set_users (insert clerk u)) [Create TUser] w0).
    assert (getOrCreateUser clerk w
            = (Ok u, with_db (set_users (insert clerk u)) [Create TUser] w0))
      as Hrun.
    { unfold getOrCreateUser.
      rewrite (bind_ok _ _ _ _ _ (query_ok Prisma _ w Hf)).
      rewrite view_quiet by done. rewrite Hnone.
      rewrite (bind_ok _ _ _ _ _ (currentUserEmail_ok w Hf)).
      rewrite Hmail. cbn [Js.truthy_opt]. rewrite Htruthy.
      unfold bind at 1, fresh at 1. fold w0.
      by rewrite (bind_ok _ _ _ _ _ (exec_ok Prisma _ _ w0 Hf Hb)). }
    split_and!; [done | done | done | done |].
    apply getOrCreateUser_known; [done |].
    unfold committed. simpl. rewrite Hb. simpl. apply lookup_insert_eq.
  - intros Hno. unfold getOrCreateUser.
    rewrite (bind_ok _ _ _ _ _ (query_ok Prisma _ w Hf)).
    rewrite view_quiet by done. rewrite Hnone.
    rewrite (bind_ok _ _ _ _ _ (currentUserEmail_ok w Hf)). by rewrite Hno.
Qed.

Lemma getOrCreateUser_first_sight_witness :
  let w := mkWorld Fixture.store None 100 (Some "clerk_dan")
             (Some "dan@acme.test") 1000 [] [] in
  ∃ w1,
    getOrCreateUser "clerk_dan" w = (Ok (mkUser 100 "dan@acme.test"), w1)
    ∧ users (db w1) !! "clerk_dan" = Some (mkUser 100 "dan@acme.test")
    ∧ getOrCreateUser "clerk_dan" w1 = (Ok (mkUser 100 "dan@acme.test"), w1).
Proof.
  intros w.
  destruct (proj1 (getOrCreateUser_first_sight w "clerk_dan"
                     ltac:(by split) ltac:(reflexivity))
              "dan@acme.test" ltac:(reflexivity) ltac:(reflexivity))
    as (w1 & Hrun & Hdb & _ & _ & Hagain).
  exists w1. split_and!; [done | | done].
  rewrite Hdb. reflexivity.
Defined.

Lemma truthy_false s : Js.truthy s = false → s = "".
Proof. by destruct s. Qed.

Lemma trim_truthy s : Js.truthy (Js.trim s) = true → Js.truthy s = true.
Proof. by destruct s. Qed.

(** X2: [ensureOrganizationMember] on a malformed organization id, for a
    signed-in caller and whatever the store does.  An id that is empty or
    blank, or the text "undefined" or "null", is reported as not provided;
    any other id that is not a run of decimal digits once trimmed, a
    signed or hexadecimal literal that [BigInt] would read included, is
    reported as badly formatted.  Neither case reaches the store. *)
Theorem ensureOrganizationMember_malformed_id w orgId clerk :
  session w = Some clerk → Js.truthy clerk = true →
  (Js.truthy (Js.trim orgId) = false ∨ orgId = "undefined" ∨ orgId = "null" →
   ensureOrganizationMember orgId w
   = (Err ("Invalid organization ID provided: " +:+ quoted orgId), w))
  ∧ (Js.truthy (Js.trim orgId) = true →
     orgId ≠ "undefined" → orgId ≠ "null" →
     Js.numeric (Js.trim orgId) = false →
     ensureOrganizationMember orgId w
     = (Err ("Invalid organization ID format: " +:+ quoted orgId), w)).
Proof.
  intros Hs Ht.
  assert (∀ k : option string → M unit, bind auth k w = k (Some clerk) w)
    as Hauth by (intros k; by rewrite auth_ok, Hs).
  split.
  - intros Hbad. unfold ensureOrganizationMember. rewrite Hauth.
    rewrite throw_if_false by (simpl; by rewrite Ht).
    unfold try_catch, ensureOrganizationMember_try.
    rewrite throw_if_true; [done |].
    destruct Hbad as [Hblank | [-> | ->]]; [| done | done].
    apply truthy_false in Hblank. rewrite Hblank.
    by rewrite orb_true_r.
  - intros Htrim Hu Hn Hnum. unfold ensureOrganizationMember. rewrite Hauth.
    rewrite throw_if_false by (simpl; by rewrite Ht).
    unfold try_catch at 1, ensureOrganizationMember_try.
    rewrite throw_if_false.
    2: { rewrite (trim_truthy _ Htrim).
         apply String.eqb_neq in Hu, Hn. rewrite Hu, Hn.
         destruct (String.eqb_spec (Js.trim orgId) "") as [E|]; [| done].
         by rewrite E in Htrim. }
    unfold bind at 1, try_catch at 1.
    rewrite throw_if_true by (by rewrite Hnum). done.
Qed.

Lemma ensureOrganizationMember_malformed_id_witness :
  let w := Fixture.request "clerk_ann" Fixture.store in
  ensureOrganizationMember "  " w
  = (Err ("Invalid organization ID provided: " +:+ quoted "  "), w)
  ∧ ensureOrganizationMember "0x1" w
    = (Err ("Invalid organization ID format: " +:+ quoted "0x1"), w)
  ∧ Js.BigInt "0x1" = Some 1.
Proof.
  intros w.
  destruct (ensureOrganizationMember_malformed_id w "  " "clerk_ann"
              ltac:(reflexivity) ltac:(reflexivity)) as [Hblank _].
  destruct (ensureOrganizationMember_malformed_id w "0x1" "clerk_ann"
              ltac:(reflexivity) ltac:(reflexivity)) as [_ Hhex].
  split_and!.
  - apply Hblank. left. reflexivity.
  - apply Hhex; [reflexivity | done | done | reflexivity].
  - reflexivity.
Defined.

(** X3: what [ensureOrganizationMember] answers a known user when the store
    answers.  An organization that does not exist is reported as not found;
    a user who neither created the organization nor has a member row is
    denied access, by name of the organization; a member passes.  In the
    three cases nothing is written: only the creator's call writes, the
    creator's own member row. *)
Theorem ensureOrganizationMember_outcomes w orgId clerk o u :
  quiet w → session w = Some clerk → Js.truthy clerk = true →
  Js.numeric (Js.trim orgId) = true → Js.BigInt orgId = Some o →
  users (db w) !! clerk = Some u →
  (organizations (db w) !! o = None →
   ensureOrganizationMember orgId w
   = (Err ("Organization with ID " +:+ quoted orgId
           +:+ " not found. Please verify the organization ID."), w))
  ∧ (∀ org,
       organizations (db w) !! o = Some org → created_by org ≠ user_id u →
       (members (db w) !! (o, user_id u) = None →
        ensureOrganizationMember orgId w
        = (Err ("Access denied. User is not a member of organization "
                +:+ quoted (org_name org) +:+ " (ID: " +:+ orgId
                +:+ "). Please contact an administrator to be added to this organization."),
           w))
       ∧ (is_Some (members (db w) !! (o, user_id u)) →
          ensureOrganizationMember orgId w = (Ok tt, w)))
  ∧ (∀ org,
       organizations (db w) !! o = Some org → created_by org = user_id u →
       ensureOrganizationMember orgId w
       = (Ok tt,
          with_db (set_members (insert (o, user_id u) "admin"))
            [Upsert TMember] w)).
Proof.
  intros [Hb Hf] Hs Ht Hn Ho Hu.
  assert (ensureOrganizationMember orgId w
          = match organizations (db w) !! o with
            | None =>
                (Err ("Organization with ID " +:+ quoted orgId
                      +:+ " not found. Please verify the organization ID."), w)
            | Some orgCheck =>
                transaction
                  (if bool_decide (created_by orgCheck = user_id u)
                   then upsertAdmin Tx o (user_id u)
                   else
                     let* existingMember :=
                       query Tx (λ d, members d !! (o, user_id u)) in
                     match existingMember with
                     | None =>
                         debug_read Tx ;;
                         throw ("Access denied. User is not a member of organization "
                                +:+ quoted (org_name orgCheck) +:+ " (ID: " +:+ orgId
                                +:+ "). Please contact an administrator to be added to this organization.")
                     | Some _ => ret tt
                     end) w
            end) as Hstep.
  { unfold ensureOrganizationMember. rewrite auth_ok, Hs.
    rewrite throw_if_false by (simpl; by rewrite Ht).
    unfold try_catch at 1, ensureOrganizationMember_try.
    rewrite throw_if_false by (by apply numeric_trim_valid).
    unfold bind at 1, try_catch at 1.
    rewrite throw_if_false by (by rewrite Hn).
    rewrite (toBigInt_ok _ o) by (by rewrite BigInt_trim).
    erewrite bind_ok;
      last (apply getOrCreateUser_known; [done | unfold committed; by rewrite Hb]).
    rewrite (bind_ok _ _ _ _ _ (query_ok Prisma _ w Hf)).
    rewrite view_quiet by done.
    destruct (organizations (db w) !! o) as [org|].
    - by destruct (transaction _ w) as [[[]|e] w'].
    - unfold debug_read.
      by rewrite (bind_ok _ _ _ _ _ (query_ok Prisma _ w Hf)). }
  split_and!.
  - intros Hnone. by rewrite Hstep, Hnone.
  - intros org Horg Hc. split.
    + intros Hnone. rewrite Hstep, Horg. rewrite bool_decide_eq_false_2 by done.
      erewrite transaction_err; [| done |].
      2: { rewrite (bind_ok _ _ _ _ _ (query_ok Tx _ (open_tx w) Hf)). simpl.
           rewrite Hnone. unfold debug_read.
           by rewrite (bind_ok _ _ _ _ _ (query_ok Tx _ (open_tx w) Hf)). }
      f_equal. unfold committed. simpl. by apply close_open.
    + intros Hsome.
      rewrite (ensureOrganizationMember_ok w orgId clerk o u org);
        [| done | done | by right].
      by rewrite bool_decide_eq_false_2.
  - intros org Horg Hc.
    rewrite (ensureOrganizationMember_ok w orgId clerk o u org);
      [| done | done | by left].
    by rewrite bool_decide_eq_true_2.
Qed.

Lemma ensureOrganizationMember_outcomes_witness :
  let w := Fixture.request "clerk_cat" Fixture.store in
  ensureOrganizationMember "7" w
  = (Err ("Organization with ID " +:+ quoted "7"
          +:+ " not found. Please verify the organization ID."), w)
  ∧ (ensureOrganizationMember "1" w).2 = w
  ∧ ensureOrganizationMember "1" (Fixture.request "clerk_bob" Fixture.store)
    = (Ok tt, Fixture.request "clerk_bob" Fixture.store).
Proof.
  intros w.
  destruct (ensureOrganizationMember_outcomes w "7" "clerk_cat" 7 Fixture.cat
              ltac:(by split) ltac:(reflexivity) ltac:(reflexivity)
              ltac:(reflexivity) ltac:(reflexivity) ltac:(reflexivity))
    as (Hmissing & _).
  destruct (ensureOrganizationMember_outcomes w "1" "clerk_cat" 1 Fixture.cat
              ltac:(by split) ltac:(reflexivity) ltac:(reflexivity)
              ltac:(reflexivity) ltac:(reflexivity) ltac:(reflexivity))
    as (_ & Hcat & _).
  destruct (ensureOrganizationMember_outcomes
              (Fixture.request "clerk_bob" Fixture.store) "1" "clerk_bob" 1
              Fixture.bob
              ltac:(by split) ltac:(reflexivity) ltac:(reflexivity)
              ltac:(reflexivity) ltac:(reflexivity) ltac:(reflexivity))
    as (_ & Hbob & _).
  split_and!.
  - by apply Hmissing.
  - destruct (Hcat Fixture.acme ltac:(reflexivity) ltac:(done)) as [Hdenied _].
    by rewrite Hdenied.
  - destruct (Hbob Fixture.acme ltac:(reflexivity) ltac:(done)) as [_ Hpass].
    apply Hpass. by eexists.
Defined.

Lemma toBigInt_inv s w r w' :
  toBigInt s w = (r, w') →
  w' = w ∧ match r with
           | Ok z => Js.BigInt s = Some z
           | Err e => Js.BigInt s = None ∧ e = Js.BigInt_error s
           end.
Proof.
  unfold toBigInt. destruct (Js.BigInt s) as [z|]; intros [= <- <-]; by split.
Qed.

Lemma getUserRole_try_sound orgId clerk w role w' :
  base w = None →
  getUserRole_try orgId clerk w = (Ok (Some role), w') →
  ∃ o u,
    Js.BigInt orgId = Some o
    ∧ users (db w') !! clerk = Some u
    ∧ ((∃ org, organizations (db w) !! o = Some org
               ∧ created_by org = user_id u ∧ role = "admin"
               ∧ members (db w') = <[(o, user_id u) := "admin"]> (members (db w)))
       ∨ (members (db w) !! (o, user_id u) = Some role
          ∧ Js.truthy role = true
          ∧ members (db w') = members (db w))).
Proof.
  intros Hb H. unfold getUserRole_try in H.
  apply bind_Ok_inv in H as (o & w0 & H0 & H).
  apply toBigInt_inv in H0 as [-> Ho].
  apply bind_Ok_inv in H as (u & w1 & H1 & H).
  apply getOrCreateUser_inv in H1 as (Hb1 & [us Hd1] & Hu1); [| done].
  apply bind_Ok_inv in H as (created & w2 & H2 & H).
  apply query_Ok_inv in H2 as [-> Hstill].
  pose proof Hstill as (Hd2 & Hb2 & _).
  unfold view, committed in H. rewrite Hb1 in H. simpl in H.
  exists o, u. split; [done |].
  rewrite Hd1 in H, Hu1. simpl in H, Hu1.
  destruct (organizations (db w) !! o) as [org|] eqn:Horg.
  - case_bool_decide as Hc.
    + apply bind_Ok_inv in H as ([] & w3 & H3 & H). injection H as <- <-.
      unfold upsertAdmin in H3.
      apply exec_prisma_inv in H3 as [_ Hd3]; [| congruence].
      rewrite Hd3, Hd2, Hd1. simpl. split; [done |].
      left. by exists org.
    + apply bind_Ok_inv in H as (m & w3 & H3 & H).
      apply query_Ok_inv in H3 as [-> (Hd3 & _)].
      injection H as Hrole <-. unfold view, committed in Hrole.
      rewrite Hb2, Hb1 in Hrole. simpl in Hrole.
      rewrite Hd2, Hd1 in Hrole. simpl in Hrole.
      rewrite Hd3, Hd2, Hd1. simpl. split; [done |]. right.
      destruct (members (db w) !! (o, user_id u)) as [r|]; [| done].
      destruct (Js.truthy r) eqn:Hr; [| done].
      by injection Hrole as <-.
  - apply bind_Ok_inv in H as (m & w3 & H3 & H).
    apply query_Ok_inv in H3 as [-> (Hd3 & _)].
    injection H as Hrole <-. unfold view, committed in Hrole.
    rewrite Hb2, Hb1 in Hrole. simpl in Hrole.
    rewrite Hd2, Hd1 in Hrole. simpl in Hrole.
    rewrite Hd3, Hd2, Hd1. simpl. split; [done |]. right.
    destruct (members (db w) !! (o, user_id u)) as [r|]; [| done].
    destruct (Js.truthy r) eqn:Hr; [| done].
    by injection Hrole as <-.
Qed.

(** X4: [getUserRole] never invents a role, whatever round-trips fail.  When
    it returns a role, the caller is signed in and known to the store, and
    either the caller created the organization, the role is "admin" and the
    creator's member row now says so, or the role is the one of the
    caller's member row, and the member table is as it was. *)
Theorem getUserRole_sound orgId w role w' :
  base w = None →
  getUserRole orgId w = (Ok (Some role), w') →
  ∃ clerk o u,
    session w = Some clerk
    ∧ Js.BigInt orgId = Some o
    ∧ users (db w') !! clerk = Some u
    ∧ ((∃ org, organizations (db w) !! o = Some org
               ∧ created_by org = user_id u ∧ role = "admin"
               ∧ members (db w') = <[(o, user_id u) := "admin"]> (members (db w)))
       ∨ (members (db w) !! (o, user_id u) = Some role
          ∧ members (db w') = members (db w))).
Proof.
  intros Hb H. unfold getUserRole in H. rewrite auth_ok in H.
  destruct (session w) as [clerk|] eqn:Hs; [| done].
  destruct (Js.truthy clerk); [| done].
  unfold try_catch in H.
  destruct (getUserRole_try orgId clerk w) as [[r|e] w1] eqn:Htry; [| done].
  injection H as -> ->.
  destruct (getUserRole_try_sound _ _ _ _ _ Hb Htry)
    as (o & u & Ho & Hu & Hrole).
  exists clerk, o, u. split_and!; [done | done | done |].
  destruct Hrole as [? | (? & _ & ?)]; [by left | by right].
Qed.

Lemma getUserRole_sound_witness :
  let w := Fixture.request "clerk_bob" Fixture.store in
  getUserRole "1" w = (Ok (Some "writer"), w)
  ∧ members (db w) !! (1, 2) = Some "writer".
Proof.
  intros w. assert (getUserRole "1" w = (Ok (Some "writer"), w)) as Hrun
    by reflexivity.
  split; [done |].
  destruct (getUserRole_sound "1" w "writer" w ltac:(reflexivity) Hrun)
    as (clerk & o & u & Hs & Ho & Hu & [(org & Horg & Hc & Hadmin & _) | [Hm _]]).
  - done.
  - injection Hs as <-. injection Ho as <-. injection Hu as <-. exact Hm.
Defined.

(** *** Roles *)

Lemma roleOf_member d o u org role :
  created_by org ≠ user_id u → roleOf d o u org = Some role →
  members d !! (o, user_id u) = Some role ∧ Js.truthy role = true.
Proof.
  intros Hc. unfold roleOf. rewrite bool_decide_eq_false_2 by done.
  destruct (members d !! (o, user_id u)) as [r|]; [| done].
  destruct (Js.truthy r) eqn:Hr; [| done]. by intros [= ->].
Qed.

Lemma getUserRole_member w orgId clerk o u org role :
  quiet w → Caller w orgId clerk o u org → created_by org ≠ user_id u →
  roleOf (db w) o u org = Some role →
  getUserRole orgId w = (Ok (Some role), w).
Proof.
  intros Hq [Hs Ht Hn Ho Hu Horg] Hc Hrole.
  destruct (roleOf_member _ _ _ _ _ Hc Hrole) as [Hm Hr].
  rewrite (getUserRole_signed_in _ _ _ Hs Ht). unfold try_catch.
  rewrite (getUserRole_try_member orgId clerk o u w Hq Ho Hu).
  - by rewrite Hm, Hr.
  - intros org' Horg'. congruence.
Qed.

(** The permission prelude refuses a member whose role is not permitted, and
    writes nothing. *)
Lemma requireRole_denied w orgId clerk o u org role permitted denied :
  quiet w → Caller w orgId clerk o u org → created_by org ≠ user_id u →
  roleOf (db w) o u org = Some role → permitted (Some role) = false →
  requireRole orgId permitted denied w = (Err (denied (Some role)), w).
Proof.
  intros Hq Hcaller Hc Hrole Hperm.
  destruct (roleOf_member _ _ _ _ _ Hc Hrole) as [Hm Hr].
  unfold requireRole.
  rewrite (bind_ok _ _ _ _ _
             (ensureOrganizationMember_ok w orgId clerk o u org Hq Hcaller
                ltac:(right; by eexists))).
  rewrite bool_decide_eq_false_2 by done.
  rewrite (bind_ok _ _ _ _ _
             (getUserRole_member w orgId clerk o u org role Hq Hcaller Hc Hrole)).
  unfold throw_if. by rewrite Hperm.
Qed.

Lemma bootstrapped_member o u org w :
  created_by org ≠ user_id u → bootstrapped o u org w = w.
Proof. intros Hc. unfold bootstrapped. by rewrite bool_decide_eq_false_2. Qed.

(** X5: a member whose role is not one of "writer", "read-write" and
    "admin" cannot write the inventory.  When the store answers, each of
    [addProduct], [updateProduct], [bulkUpdateProducts],
    [updateProductStock], [transferStock], [updateProductDetails] and
    [deleteProductDetails] throws on well-formed arguments, with its
    permission message where the message does not quote the role, and
    leaves the store as it found it.  With the role "reader" the same
    member does get the list of the organization's warehouses, and no
    other organization's, from [getWarehouseList]. *)
Theorem readers_cannot_write w orgId clerk o u org role :
  quiet w → Caller w orgId clerk o u org → created_by org ≠ user_id u →
  roleOf (db w) o u org = Some role →
  hasPermission (Some role) writerRoles = false →
  (∀ newProduct,
     Js.truthy (Js.trim (in_name newProduct)) = true →
     Js.truthy (Js.trim (in_sku newProduct)) = true →
     ∃ e, addProduct orgId newProduct w = (Err e, w))
  ∧ (∀ id input,
       Js.truthy id = true →
       Js.truthy (Js.trim (in_name input)) = true →
       Js.truthy (Js.trim (in_sku input)) = true →
       updateProduct orgId id input w
       = (Err "Insufficient permissions to update products", w))
  ∧ (∀ updates,
       updates ≠ [] →
       bulkUpdateProducts orgId updates w
       = (Err "Insufficient permissions to update products", w))
  ∧ (∀ productId warehouseId pid wid d,
       reads productId pid → reads warehouseId wid →
       updateProductStock orgId productId warehouseId d w
       = (Err "Insufficient permissions to update stock", w))
  ∧ (∀ productId fromId toId pid from to qty reason notes,
       reads productId pid → reads fromId from → reads toId to → 0 < qty →
       transferStock orgId productId fromId toId qty reason notes w
       = (Err "Insufficient permissions to transfer stock", w))
  ∧ (∀ productId pid data,
       reads productId pid →
       updateProductDetails orgId productId data w
       = (Err "Insufficient permissions to update products", w))
  ∧ (∀ productId pid,
       reads productId pid →
       deleteProductDetails orgId productId w
       = (Err "Insufficient permissions to delete products", w))
  ∧ (role = "reader" →
     getWarehouseList orgId w
     = (Ok (map (λ x, mkItem (Js.show_Z (warehouse_id x)) (wh_name x)
                        (if Js.truthy (wh_address x) then wh_address x else ""))
              (List.filter (λ x, wh_org x =? o) (warehouses (db w)))), w)).
Proof.
  intros Hq Hcaller Hc Hrole Hperm.
  pose proof Hcaller as [Hs Ht Hn Ho Hu Horg].
  pose proof (numeric_trim_truthy _ Hn) as Horgid.
  assert (∀ denied,
    requireRole orgId (λ r, hasPermission r writerRoles) denied w
    = (Err (denied (Some role)), w)) as Hdenied.
  { intros denied. by apply (requireRole_denied w orgId clerk o u org). }
  split_and!.
  - intros newProduct Hname Hsku. unfold addProduct. rewrite auth_ok, Hs.
    rewrite throw_if_false by (simpl; by rewrite Ht).
    rewrite throw_if_false by (by rewrite Horgid).
    rewrite throw_if_false by (by rewrite Hname).
    rewrite throw_if_false by (by rewrite Hsku).
    unfold try_catch, addProduct_try.
    rewrite (bind_ok _ _ _ _ _ (toBigInt_ok _ _ w Ho)).
    erewrite bind_err.
    2: { apply (requireRole_denied w orgId clerk o u org role); try done.
         by rewrite Hperm, andb_false_r. }
    unfold product_catch.
    repeat (match goal with |- context [if ?c then _ else _] => destruct c end);
      by eexists.
  - intros id input Hid Hname Hsku. unfold updateProduct. rewrite auth_ok, Hs.
    rewrite throw_if_false by (simpl; by rewrite Ht).
    rewrite throw_if_false by (by rewrite Horgid).
    rewrite throw_if_false by (by rewrite Hid).
    rewrite throw_if_false by (by rewrite Hname).
    rewrite throw_if_false by (by rewrite Hsku).
    unfold try_catch, updateProduct_try.
    rewrite (bind_ok _ _ _ _ _ (toBigInt_ok _ _ w Ho)).
    by rewrite (bind_err _ _ _ _ _ (Hdenied _)).
  - intros updates Hne. unfold bulkUpdateProducts. rewrite auth_ok, Hs.
    rewrite throw_if_false by (simpl; by rewrite Ht).
    rewrite throw_if_false by (by rewrite Horgid).
    rewrite throw_if_false by (by apply bool_decide_eq_false).
    unfold try_catch, bulkUpdateProducts_try.
    rewrite (bind_ok _ _ _ _ _ (toBigInt_ok _ _ w Ho)).
    by rewrite (bind_err _ _ _ _ _ (Hdenied _)).
  - intros productId warehouseId pid wid d [Hp1 Hp2] [Hw1 Hw2].
    unfold updateProductStock. rewrite auth_ok, Hs.
    rewrite throw_if_false by (simpl; by rewrite Ht).
    rewrite throw_if_false by (by rewrite Horgid).
    rewrite throw_if_false by (by rewrite Hp1).
    rewrite throw_if_false by (by rewrite Hw1).
    unfold try_catch, updateProductStock_try.
    rewrite (bind_ok _ _ _ _ _ (toBigInt_ok _ _ w Ho)).
    rewrite (bind_ok _ _ _ _ _ (toBigInt_ok _ _ w Hp2)).
    rewrite (bind_ok _ _ _ _ _ (toBigInt_ok _ _ w Hw2)).
    by rewrite (bind_err _ _ _ _ _ (Hdenied _)).
  - intros productId fromId toId pid from to qty reason notes
      [Hp1 Hp2] [Hf1 Hf2] [Ht1 Ht2] Hqty.
    unfold transferStock. rewrite auth_ok, Hs.
    rewrite throw_if_false by (simpl; by rewrite Ht).
    rewrite throw_if_false by (by rewrite Horgid).
    rewrite throw_if_false by (by rewrite Hp1).
    rewrite throw_if_false by (by rewrite Hf1, Ht1).
    rewrite throw_if_false by lia.
    unfold try_catch, transferStock_try.
    rewrite (bind_ok _ _ _ _ _ (toBigInt_ok _ _ w Ho)).
    rewrite (bind_ok _ _ _ _ _ (toBigInt_ok _ _ w Hp2)).
    rewrite (bind_ok _ _ _ _ _ (toBigInt_ok _ _ w Hf2)).
    rewrite (bind_ok _ _ _ _ _ (toBigInt_ok _ _ w Ht2)).
    by rewrite (bind_err _ _ _ _ _ (Hdenied _)).
  - intros productId pid data [Hp1 Hp2].
    unfold updateProductDetails. rewrite auth_ok, Hs.
    rewrite throw_if_false by (simpl; by rewrite Ht).
    rewrite throw_if_false by (by rewrite Horgid).
    rewrite throw_if_false by (by rewrite Hp1).
    unfold try_catch, updateProductDetails_try.
    rewrite (bind_ok _ _ _ _ _ (toBigInt_ok _ _ w Ho)).
    rewrite (bind_ok _ _ _ _ _ (toBigInt_ok _ _ w Hp2)).
    by rewrite (bind_err _ _ _ _ _ (Hdenied _)).
  - intros productId pid [Hp1 Hp2].
    unfold deleteProductDetails. rewrite auth_ok, Hs.
    rewrite throw_if_false by (simpl; by rewrite Ht).
    rewrite throw_if_false by (by rewrite Horgid).
    rewrite throw_if_false by (by rewrite Hp1).
    unfold try_catch, deleteProductDetails_try.
    rewrite (bind_ok _ _ _ _ _ (toBigInt_ok _ _ w Ho)).
    rewrite (bind_ok _ _ _ _ _ (toBigInt_ok _ _ w Hp2)).
    by rewrite (bind_err _ _ _ _ _ (Hdenied _)).
  - intros ->. destruct Hq as [Hb Hf].
    unfold getWarehouseList. rewrite auth_ok, Hs.
    rewrite throw_if_false by (simpl; by rewrite Ht).
    rewrite throw_if_false by (by rewrite Horgid).
    apply try_catch_ok. unfold getWarehouseList_try.
    rewrite (bind_ok _ _ _ _ _ (toBigInt_ok _ _ w Ho)).
    rewrite (bind_ok _ _ _ _ _
               (requireRole_ok w orgId clerk o u org "reader"
                  (λ role, hasPermission role readerRoles) _
                  ltac:(by split) Hcaller Hrole ltac:(reflexivity))).
    rewrite bootstrapped_member by done.
    rewrite (bind_ok _ _ _ _ _ (query_ok Prisma _ w Hf)).
    by rewrite view_quiet.
Qed.

Lemma readers_cannot_write_witness :
  let d := set_members (insert (1, 3) "reader") Fixture.store in
  let w := Fixture.request "clerk_cat" d in
  transferStock "1" "10" "5" "6" 2 "rebalance" None w
  = (Err "Insufficient permissions to transfer stock", w)
  ∧ updateProductStock "1" "10" "5" 4 w
    = (Err "Insufficient permissions to update stock", w)
  ∧ getWarehouseList "1" w
    = (Ok [mkItem "5" "Main Depot" "1 Dock Rd"; mkItem "6" "Annex" "2 Dock Rd"], w).
Proof.
  intros d w.
  destruct (readers_cannot_write w "1" "clerk_cat" 1 Fixture.cat Fixture.acme
              "reader" ltac:(by split) ltac:(by split) ltac:(done)
              ltac:(reflexivity) ltac:(reflexivity))
    as (_ & _ & _ & Hstock & Hmove & _ & _ & Hlist).
  split_and!.
  - by apply (Hmove "10" "5" "6" 10 5 6).
  - by apply (Hstock "10" "5" 10 5).
  - by rewrite Hlist.
Defined.

(** *** Stock movements, whatever round-trips fail *)

Lemma keeps_base_ret {A} (a : A) : keeps_base (ret a).
Proof. by intros w r w' Hb [= _ <-]. Qed.

Lemma keeps_base_throw {A} msg : keeps_base (@throw A msg).
Proof. by intros w r w' Hb [= _ <-]. Qed.

Lemma keeps_base_throw_if c msg : keeps_base (throw_if c msg).
Proof. destruct c; [apply keeps_base_throw | apply keeps_base_ret]. Qed.

Lemma keeps_base_still {A} (m : M A) :
  (∀ w r w', m w = (r, w') → still w w') → keeps_base m.
Proof. intros H w r w' Hb Hrun. apply H in Hrun as (_ & -> & _). done. Qed.

Lemma keeps_base_io : keeps_base io.
Proof. apply keeps_base_still, io_still. Qed.

Lemma keeps_base_query {A} c (f : DB → A) : keeps_base (query c f).
Proof. apply keeps_base_still, query_still. Qed.

Lemma keeps_base_currentUserEmail : keeps_base currentUserEmail.
Proof. apply keeps_base_still, currentUserEmail_still. Qed.

Lemma keeps_base_auth : keeps_base auth.
Proof. by intros w r w' Hb [= _ <-]. Qed.

Lemma keeps_base_newDate : keeps_base newDate.
Proof. by intros w r w' Hb [= _ <-]. Qed.

Lemma keeps_base_fresh : keeps_base fresh.
Proof. by intros w r w' Hb [= _ <-]. Qed.

Lemma keeps_base_toBigInt s : keeps_base (toBigInt s).
Proof. intros w r w' Hb H. by apply toBigInt_inv in H as [-> _]. Qed.

Lemma keeps_base_bind {A B} (m : M A) (k : A → M B) :
  keeps_base m → (∀ a, keeps_base (k a)) → keeps_base (bind m k).
Proof.
  intros Hm Hk w r w' Hb H.
  apply bind_inv in H as [(e & H & _) | (a & w1 & H1 & H2)].
  - by apply Hm in H.
  - apply Hm in H1; [| done]. by apply Hk in H2.
Qed.

Lemma keeps_base_try_catch {A} (m : M A) (h : string → M A) :
  keeps_base m → (∀ e, keeps_base (h e)) → keeps_base (try_catch m h).
Proof.
  intros Hm Hh w r w' Hb. unfold try_catch.
  destruct (m w) as [[a|e] w1] eqn:Hrun; apply Hm in Hrun; try done.
  - by intros [= _ <-].
  - by apply Hh.
Qed.

Lemma keeps_base_exec s f : keeps_base (exec Prisma s f).
Proof. intros w r w' Hb H. by apply exec_prisma_inv in H as [? _]. Qed.

Lemma exec_checked_prisma_inv s chk msg f w r w' :
  base w = None → exec_checked Prisma s chk msg f w = (r, w') →
  base w' = None
  ∧ match r with
    | Ok _ => chk (db w) = true ∧ db w' = f (db w)
    | Err _ => db w' = db w
    end.
Proof.
  intros Hb. unfold exec_checked, bind.
  destruct (io w) as [[[]|e] w1] eqn:Hio;
    apply io_still in Hio as (Hd & Hb1 & _).
  - unfold peek, view, committed. rewrite Hb1, Hb. simpl.
    destruct (chk (db w1)) eqn:Hchk.
    + unfold apply. intros [= <- <-]. simpl. rewrite Hb1, Hb.
      by rewrite <- Hd.
    + intros [= <- <-]. by rewrite Hb1.
  - intros [= <- <-]. by rewrite Hb1.
Qed.

Lemma keeps_base_exec_checked s chk msg f :
  keeps_base (exec_checked Prisma s chk msg f).
Proof. intros w r w' Hb H. by apply exec_checked_prisma_inv in H as [? _]. Qed.

Lemma keeps_base_transaction {A} (body : M A) :
  tx_only body → keeps_base (transaction body).
Proof. intros Htx w r w' Hb H. by apply transaction_inv in H as [? _]. Qed.

Ltac base_step :=
  lazymatch goal with
  | |- keeps_base (ret _) => apply keeps_base_ret
  | |- keeps_base (throw _) => apply keeps_base_throw
  | |- keeps_base (throw_if _ _) => apply keeps_base_throw_if
  | |- keeps_base io => apply keeps_base_io
  | |- keeps_base (query _ _) => apply keeps_base_query
  | |- keeps_base currentUserEmail => apply keeps_base_currentUserEmail
  | |- keeps_base auth => apply keeps_base_auth
  | |- keeps_base newDate => apply keeps_base_newDate
  | |- keeps_base fresh => apply keeps_base_fresh
  | |- keeps_base (toBigInt _) => apply keeps_base_toBigInt
  | |- keeps_base (exec Prisma _ _) => apply keeps_base_exec
  | |- keeps_base (exec_checked Prisma _ _ _ _) => apply keeps_base_exec_checked
  | |- keeps_base (transaction _) =>
      apply keeps_base_transaction; solve [auto 20 with tx_only]
  | |- keeps_base (try_catch _ _) => apply keeps_base_try_catch
  | |- keeps_base (bind _ _) => apply keeps_base_bind
  | |- keeps_base (match ?x with _ => _ end) => destruct x
  | |- keeps_base _ =>
      match goal with H : ∀ _, keeps_base _ |- _ => apply H end
  | |- ∀ _, keeps_base _ => intro
  end.

Lemma getOrCreateUser_keeps_base clerk : keeps_base (getOrCreateUser clerk).
Proof. unfold getOrCreateUser. repeat base_step. Qed.

Lemma getUserRole_keeps_base orgId : keeps_base (getUserRole orgId).
Proof.
  unfold getUserRole, getUserRole_try, upsertAdmin.
  pose proof getOrCreateUser_keeps_base. repeat base_step.
Qed.

Lemma ensureOrganizationMember_keeps_base orgId :
  keeps_base (ensureOrganizationMember orgId).
Proof.
  unfold ensureOrganizationMember, ensureOrganizationMember_try, upsertAdmin,
    debug_read.
  pose proof getOrCreateUser_keeps_base. repeat base_step.
Qed.

Lemma requireRole_keeps_base orgId permitted denied :
  keeps_base (requireRole orgId permitted denied).
Proof.
  unfold requireRole.
  pose proof getUserRole_keeps_base.
  pose proof ensureOrganizationMember_keeps_base. repeat base_step.
Qed.

Lemma createStock_tx_inv pid wid q w r w' :
  createStock Tx pid wid q w = (r, w') →
  match r with
  | Ok row =>
      row = mkStock (nextId w) pid wid q
      ∧ db w' = set_productStocks (append [row]) (db w)
  | Err _ => db w' = db w
  end.
Proof.
  unfold createStock. unfold bind at 1, fresh at 1. intros H.
  apply bind_inv in H as [(e & H & ->) | ([] & w1 & H1 & H)].
  - by apply exec_tx_inv in H as [_ H].
  - injection H as <- <-. by apply exec_tx_inv in H1 as [_ H1].
Qed.

(** A transfer callback that returns has done all of its writes. *)
Lemma transferStock_tx_Ok_inv pid from to qty reason notes u w w' :
  transferStock_tx pid from to qty reason notes u w = (Ok tt, w') →
  ∃ s id,
    findStock pid from (db w) = Some s ∧ qty ≤ quantity s
    ∧ productStocks (db w')
      = movedRows pid to qty s id (productStocks (db w))
    ∧ stockMovements (db w')
      = append (transferEntries pid from to qty reason notes u)
          (stockMovements (db w))
    ∧ same_catalogue (db w) (db w').
Proof.
  unfold transferStock_tx. intros H.
  apply bind_Ok_inv in H as (src & w1 & H1 & H).
  apply query_Ok_inv in H1 as [-> (Hd1 & _)]. simpl in H.
  destruct (findStock pid from (db w)) as [s|] eqn:Hsrc; [| done].
  apply bind_Ok_inv in H as ([] & w2 & H2 & H).
  apply throw_if_Ok_inv in H2 as [Hq ->].
  apply bind_Ok_inv in H as ([] & w3 & H3 & H).
  apply exec_checked_tx_inv in H3 as (_ & _ & Hd3).
  apply bind_Ok_inv in H as (dst & w4 & H4 & H).
  apply query_Ok_inv in H4 as [-> (Hd4 & _)]. simpl in H.
  apply bind_Ok_inv in H as ([] & w5 & H5 & H).
  apply exec_tx_inv in H as [_ Hd6].
  assert (∃ id, productStocks (db w5)
                = movedRows pid to qty s id (productStocks (db w))
                ∧ same_catalogue (db w) (db w5)
                ∧ stockMovements (db w5) = stockMovements (db w))
    as (id & Hrows & Hsame & Hledger).
  { unfold movedRows.
    assert (productStocks (db w3)
            = map (setQty (stock_id s) (Js.Number (quantity s - qty)))
                (productStocks (db w)))
      as Hrows3 by (by rewrite Hd3, Hd1).
    unfold findStock in H5. rewrite Hrows3 in H5.
    destruct (List.find _ _) as [t|].
    - apply exec_checked_tx_inv in H5 as (_ & _ & Hd5).
      exists 0. rewrite Hd5, Hd4. simpl. rewrite Hrows3.
      split; [done |]. rewrite Hd3, Hd1. by destruct (db w).
    - apply bind_Ok_inv in H5 as (row & w6 & H6 & H5).
      injection H5 as <-. apply createStock_tx_inv in H6 as [-> Hd5].
      exists (nextId w4). rewrite Hd5, Hd4. simpl. rewrite Hrows3.
      split; [done |]. rewrite Hd3, Hd1. by destruct (db w). }
  exists s, id. split_and!; [done | lia | | |].
  - by rewrite Hd6.
  - rewrite Hd6. simpl. by rewrite Hledger.
  - rewrite Hd6. exact Hsame.
Qed.

Lemma transferStock_tx_only pid from to qty reason notes u :
  tx_only (transferStock_tx pid from to qty reason notes u).
Proof.
  unfold transferStock_tx, updateStock, createStock. auto 20 with tx_only.
Qed.

Lemma same_inventory_split d d' :
  same_inventory d d' ↔ same_catalogue d d' ∧ same_stock d d'.
Proof. unfold same_inventory, same_catalogue, same_stock. tauto. Qed.

Lemma same_catalogue_trans d1 d2 d3 :
  same_catalogue d1 d2 → same_catalogue d2 d3 → same_catalogue d1 d3.
Proof.
  intros (? & ? & ? & ? & ? & ? & ?) (? & ? & ? & ? & ? & ? & ?).
  unfold same_catalogue. split_and!; congruence.
Qed.

(** What a guarded transaction leaves, whatever fails: either nothing of the
    inventory has changed and the action throws, or the callback has
    returned and its store is the store of the request, also when the
    action throws after the commit. *)
Lemma guarded_transaction_inv orgId clerk permitted denied
    (body : User → M unit) w r w' :
  base w = None → (∀ u, tx_only (body u)) →
  (requireRole orgId permitted denied ;;
   let* user := getOrCreateUser clerk in
   transaction (body user) ;;
   invalidateProducts orgId) w = (r, w') →
  (same_inventory (db w) (db w') ∧ ∃ e, r = Err e)
  ∨ ∃ u w0 w1,
      same_inventory (db w) (db w0)
      ∧ body u w0 = (Ok tt, w1) ∧ db w' = db w1.
Proof.
  intros Hb Htx H.
  apply bind_inv in H as [(e & H & ->) | ([] & w1 & H1 & H)].
  { left. split; [by apply requireRole_people in H | by eexists]. }
  pose proof (requireRole_keeps_base _ _ _ _ _ _ Hb H1) as Hb1.
  apply requireRole_people in H1.
  apply bind_inv in H as [(e & H & ->) | (u & w2 & H2 & H)].
  { left. apply getOrCreateUser_people in H. split; [by etrans | by eexists]. }
  pose proof (getOrCreateUser_keeps_base _ _ _ _ Hb1 H2) as Hb2.
  apply getOrCreateUser_people in H2.
  assert (same_inventory (db w) (db w2)) as H12 by (by etrans).
  apply bind_inv in H as [(e & H & ->) | ([] & w3 & H3 & H)].
  { left. apply transaction_inv in H as [_ Hd]; [| done | done].
    split; [by rewrite Hd | by eexists]. }
  apply transaction_inv in H3 as [_ (w0 & w4 & (Hd0 & _) & Hrun & Hd3)];
    [| done | done].
  apply io_still in H as (Hd & _).
  right. exists u, (open_tx w0), w4. split_and!; [| done | congruence].
  simpl. by rewrite Hd0.
Qed.

Lemma findStock_same d d' pid wid :
  productStocks d' = productStocks d → findStock pid wid d' = findStock pid wid d.
Proof. unfold findStock. by intros ->. Qed.

Lemma transferStock_try_outcomes
    orgId productId fromId toId clerk qty reason notes w r1 w' :
  base w = None → 0 < qty →
  transferStock_try orgId productId fromId toId clerk qty reason notes w
  = (r1, w') →
  same_catalogue (db w) (db w')
  ∧ ((same_stock (db w) (db w') ∧ ∃ e, r1 = Err e)
     ∨ transfer_written productId fromId toId qty reason notes (db w) (db w')).
Proof.
  intros Hb Hqty H.
  assert (same_catalogue (db w) (db w) ∧ same_stock (db w) (db w)) as Hrefl
    by (by apply same_inventory_split).
  unfold transferStock_try in H.
  apply bind_inv in H as [(e & H & ->) | (o & w0 & H0 & H)];
    [apply toBigInt_inv in H as [-> _]; split; [apply Hrefl | left; split; [apply Hrefl | by eexists]] |
     apply toBigInt_inv in H0 as [-> Ho]].
  apply bind_inv in H as [(e & H & ->) | (pid & w0 & H0 & H)];
    [apply toBigInt_inv in H as [-> _]; split; [apply Hrefl | left; split; [apply Hrefl | by eexists]] |
     apply toBigInt_inv in H0 as [-> Hpid]].
  apply bind_inv in H as [(e & H & ->) | (from & w0 & H0 & H)];
    [apply toBigInt_inv in H as [-> _]; split; [apply Hrefl | left; split; [apply Hrefl | by eexists]] |
     apply toBigInt_inv in H0 as [-> Hfrom]].
  apply bind_inv in H as [(e & H & ->) | (to & w0 & H0 & H)];
    [apply toBigInt_inv in H as [-> _]; split; [apply Hrefl | left; split; [apply Hrefl | by eexists]] |
     apply toBigInt_inv in H0 as [-> Hto]].
  apply guarded_transaction_inv in H as [[Hsame He] | (u & w0 & w1 & Hsame & Hrun & Hd)];
    [| | done | intros u; apply transferStock_tx_only].
  - apply same_inventory_split in Hsame as [? ?]. split; [done | by left].
  - apply same_inventory_split in Hsame as [Hcat [Hst Hl]].
    apply transferStock_tx_Ok_inv in Hrun
      as (s & id & Hsrc & Hle & Hrows & Hledger & Hcat1).
    rewrite Hd. split; [by eapply same_catalogue_trans |]. right.
    exists pid, from, to, u, s, id.
    rewrite (findStock_same _ _ _ _ Hst) in Hsrc.
    rewrite Hst in Hrows. rewrite Hl in Hledger. by split_and!.
Qed.

(** X6: [transferStock] writes all or nothing, whatever round-trips fail.
    Stock rows and ledger are either both as they were, or all the writes
    have been made: the source row has been set to its quantity less
    [qty], then the row found for the destination to its quantity plus
    [qty] (or a row of [qty] created), in number arithmetic, and the ledger
    has gained the "out" and the "in" entry; nothing else of the inventory
    changes.  A call that returns has made these writes; with one and the
    same warehouse on both sides the second write undoes the first and no
    stock has moved.  A call that throws may have made them too, when the
    cache fails after the commit. *)
Theorem transferStock_all_or_nothing
    orgId productId fromId toId qty reason notes w r w' :
  base w = None →
  transferStock orgId productId fromId toId qty reason notes w = (r, w') →
  same_catalogue (db w) (db w')
  ∧ match r with
    | Ok _ => transfer_written productId fromId toId qty reason notes (db w) (db w')
    | Err _ =>
        same_stock (db w) (db w')
        ∨ transfer_written productId fromId toId qty reason notes (db w) (db w')
    end.
Proof.
  intros Hb H.
  assert (same_catalogue (db w) (db w) ∧ same_stock (db w) (db w)) as Hrefl
    by (by apply same_inventory_split).
  unfold transferStock in H. rewrite auth_ok in H.
  repeat (apply bind_inv in H as [(e & H & ->) | ([] & w0 & H0 & H)];
          [apply throw_if_Err_inv in H as (_ & _ & ->); split; [apply Hrefl | left; apply Hrefl] |
           let Hc := fresh "Hc" in apply throw_if_Ok_inv in H0 as [Hc ->]]).
  assert (0 < qty) as Hqty by lia.
  unfold try_catch in H.
  destruct (transferStock_try _ _ _ _ _ _ _ _ w) as [[[]|e] w1] eqn:Hrun;
    injection H as <- <-;
    destruct (transferStock_try_outcomes _ _ _ _ _ _ _ _ _ _ _ Hb Hqty Hrun)
      as [Hcat [[Hst [e' He']] | Hmoved]].
  - discriminate He'.
  - by split.
  - split; [done | by left].
  - split; [done | by right].
Qed.

(** The cache fails after the commit: the action throws and the stock has
    moved. *)
Lemma transferStock_all_or_nothing_witness :
  let w := Fixture.failing (replicate 16 None ++ [Some "Connection is closed."])
             (Fixture.request "clerk_bob" Fixture.store) in
  let r := transferStock "1" "10" "5" "6" 3 "rebalance" None w in
  r.1 = Err "Connection is closed."
  ∧ transfer_written "10" "5" "6" 3 "rebalance" None (db w) (db r.2)
  ∧ productStocks (db r.2) = [mkStock 20 10 5 2; mkStock 100 10 6 3].
Proof.
  intros w r.
  assert (r.1 = Err "Connection is closed.") as Herr by reflexivity.
  assert (productStocks (db r.2) = [mkStock 20 10 5 2; mkStock 100 10 6 3])
    as Hrows by reflexivity.
  split_and!; [done | | done].
  destruct (transferStock_all_or_nothing "1" "10" "5" "6" 3 "rebalance" None
              w r.1 r.2 ltac:(reflexivity) ltac:(apply surjective_pairing))
    as [_ Hcases].
  rewrite Herr in Hcases. destruct Hcases as [[Hsame _] | Hmoved]; [| done].
  rewrite Hrows in Hsame. discriminate Hsame.
Defined.

Lemma updateProductStock_tx_only pid wid d u :
  tx_only (updateProductStock_tx pid wid d u).
Proof.
  unfold updateProductStock_tx, updateStock, createStock.
  auto 20 with tx_only.
Qed.

Lemma updateProductStock_tx_Ok_inv pid wid d u w w' :
  updateProductStock_tx pid wid d u w = (Ok tt, w') →
  match findStock pid wid (db w) with
  | Some s =>
      0 ≤ quantity s + d
      ∧ productStocks (db w')
        = map (setQty (stock_id s) (Js.Number (quantity s + d)))
            (productStocks (db w))
  | None =>
      0 ≤ d
      ∧ ∃ id, productStocks (db w')
              = append [mkStock id pid wid (Z.max 0 d)] (productStocks (db w))
  end
  ∧ stockMovements (db w')
    = append [adjustmentEntry pid wid d u] (stockMovements (db w))
  ∧ same_catalogue (db w) (db w').
Proof.
  unfold updateProductStock_tx. intros H.
  apply bind_Ok_inv in H as (found & w1 & H1 & H).
  apply query_Ok_inv in H1 as [-> (Hd1 & _)]. simpl in H.
  apply bind_Ok_inv in H as ([] & w2 & H2 & H).
  apply throw_if_Ok_inv in H2 as [Hq ->]. rewrite Number_ltb_0 in Hq.
  apply bind_Ok_inv in H as ([] & w3 & H3 & H).
  apply exec_tx_inv in H as [_ Hd4]. rewrite Hd4. simpl.
  destruct (findStock pid wid (db w)) as [s|].
  - apply exec_checked_tx_inv in H3 as (_ & _ & Hd3).
    rewrite Hd3, Hd1. simpl. split_and!; [lia | done | done |].
    by destruct (db w).
  - apply bind_Ok_inv in H3 as (row & w4 & H4 & H3). injection H3 as <-.
    apply createStock_tx_inv in H4 as [-> Hd3].
    rewrite Hd3, Hd1. simpl. split_and!; [lia | by eexists | done |].
    by destruct (db w).
Qed.

(** X7: [updateProductStock] is all or nothing, whatever round-trips fail.
    Stock rows and ledger are either both as they were, or the row of the
    pair has its new quantity, the sum of the old one and the adjustment
    as numbers add, the exact sum not being negative (the row is created
    when there was none), and the ledger has gained the one entry of the
    adjustment; nothing else of the inventory changes.  A call that
    returns has done the adjustment; an adjustment by zero is one, and
    leaves an "out" entry of quantity zero. *)
Theorem updateProductStock_all_or_nothing orgId productId warehouseId d w r w' :
  base w = None →
  updateProductStock orgId productId warehouseId d w = (r, w') →
  same_catalogue (db w) (db w')
  ∧ match r with
    | Ok _ => adjusted productId warehouseId d (db w) (db w')
    | Err _ =>
        same_stock (db w) (db w')
        ∨ adjusted productId warehouseId d (db w) (db w')
    end.
Proof.
  intros Hb H.
  assert (same_catalogue (db w) (db w) ∧ same_stock (db w) (db w)) as Hrefl
    by (by apply same_inventory_split).
  unfold updateProductStock in H. rewrite auth_ok in H.
  repeat (apply bind_inv in H as [(e & H & ->) | ([] & w0 & H0 & H)];
          [apply throw_if_Err_inv in H as (_ & _ & ->); split; [apply Hrefl | left; apply Hrefl] |
           let Hc := fresh "Hc" in apply throw_if_Ok_inv in H0 as [Hc ->]]).
  assert (∀ r1, updateProductStock_try orgId productId warehouseId
                  (default "" (session w)) d w = (r1, w') →
          same_catalogue (db w) (db w')
          ∧ ((same_stock (db w) (db w') ∧ ∃ e, r1 = Err e)
             ∨ adjusted productId warehouseId d (db w) (db w')))
    as Htry.
  { clear H. intros r1 H. unfold updateProductStock_try in H.
    apply bind_inv in H as [(e & H & ->) | (o & w0 & H0 & H)];
      [apply toBigInt_inv in H as [-> _]; split; [apply Hrefl | left; split; [apply Hrefl | by eexists]] |
       apply toBigInt_inv in H0 as [-> Ho]].
    apply bind_inv in H as [(e & H & ->) | (pid & w0 & H0 & H)];
      [apply toBigInt_inv in H as [-> _]; split; [apply Hrefl | left; split; [apply Hrefl | by eexists]] |
       apply toBigInt_inv in H0 as [-> Hpid]].
    apply bind_inv in H as [(e & H & ->) | (wid & w0 & H0 & H)];
      [apply toBigInt_inv in H as [-> _]; split; [apply Hrefl | left; split; [apply Hrefl | by eexists]] |
       apply toBigInt_inv in H0 as [-> Hwid]].
    apply guarded_transaction_inv in H as [[Hsame He] | (u & w0 & w1 & Hsame & Hrun & Hd)];
      [| | done | intros u; apply updateProductStock_tx_only].
    - apply same_inventory_split in Hsame as [? ?]. split; [done | by left].
    - apply same_inventory_split in Hsame as [Hcat [Hst Hl]].
      apply updateProductStock_tx_Ok_inv in Hrun as (Hrows & Hledger & Hcat1).
      rewrite Hd. split; [by eapply same_catalogue_trans |]. right.
      exists pid, wid, u.
      rewrite (findStock_same _ _ _ _ Hst) in Hrows.
      rewrite Hst in Hrows. rewrite Hl in Hledger. by split_and!. }
  unfold try_catch in H.
  destruct (updateProductStock_try _ _ _ _ _ w) as [[[]|e] w1] eqn:Hrun.
  - injection H as <- <-. destruct (Htry _ eq_refl) as [Hcat [[_ [e He]] | Hdone]];
      [done | by split].
  - injection H as <- <-. destruct (Htry _ eq_refl) as [Hcat [[Hst _] | Hdone]];
      split; try done; [by left | by right].
Qed.

Lemma updateProductStock_all_or_nothing_witness :
  let w := Fixture.request "clerk_bob" Fixture.store in
  let r := updateProductStock "1" "10" "5" 0 w in
  r.1 = Ok tt
  ∧ adjusted "10" "5" 0 (db w) (db r.2)
  ∧ productStocks (db r.2) = [mkStock 20 10 5 5]
  ∧ stockMovements (db r.2) = [mkMovement 10 5 "out" 0 "Stock decrease" None 2].
Proof.
  intros w r.
  assert (r.1 = Ok tt) as Hok by reflexivity.
  split_and!; [done | | reflexivity | reflexivity].
  destruct (updateProductStock_all_or_nothing "1" "10" "5" 0
              w r.1 r.2 ltac:(reflexivity) ltac:(apply surjective_pairing))
    as [_ Hcases].
  by rewrite Hok in Hcases.
Defined.

(** *** Whose product it is *)

Lemma find_none_existsb {A} (P : A → bool) (l : list A) :
  List.find P l = None → existsb P l = false.
Proof.
  induction l as [|x l IH]; [done |]. simpl.
  destruct (P x); [done |]. exact IH.
Qed.

Lemma close_committed_open w :
  base w = None → close_tx (committed (open_tx w)) (open_tx w) = w.
Proof. intros Hb. unfold committed. simpl. by apply close_open. Qed.

(** X8: the product actions check whose product it is, the stock action
    does not.  For a permitted caller of organization [o] and a product key
    that no product of [o] has, be it the key of another organization's
    product, when the store answers: [updateProduct] reports the product as
    not found, [updateProductDetails] and [deleteProductDetails] fail on
    the missing record, the deletion after it has deleted the prices and
    the stock rows of that key inside the transaction, which is rolled
    back; the three leave the inventory as it was.  [updateProductStock]
    with the same key goes through and sets the quantity of the stock row
    it finds to the sum of the two numbers, which is the exact sum rounded
    to the nearest double. *)
Theorem ownership_of_products w orgId productId clerk o u org pid :
  quiet w → Caller w orgId clerk o u org → Permitted w o u org writerRoles →
  reads productId pid →
  List.find (λ p, (product_id p =? pid) && (p_org p =? o)) (products (db w))
  = None →
  (∀ input,
     Js.truthy (Js.trim (in_name input)) = true →
     Js.truthy (Js.trim (in_sku input)) = true →
     updateProduct orgId productId input w
     = (Err "Product not found in this organization", bootstrapped o u org w))
  ∧ (∀ data,
       updateProductDetails orgId productId data w
       = (Err record_not_found, bootstrapped o u org w))
  ∧ (count (λ i, oi_product i =? pid) (orderItems (db w)) = 0%nat →
     ∃ w',
       deleteProductDetails orgId productId w = (Err record_not_found, w')
       ∧ db w' = db (bootstrapped o u org w)
       ∧ trace w'
         = (trace (bootstrapped o u org w)
            ++ [Delete TProductPrice; Delete TProductStock])%list)
  ∧ same_inventory (db w) (db (bootstrapped o u org w))
  ∧ (∀ warehouseId wid d s,
       reads warehouseId wid →
       findStock pid wid (db w) = Some s → 0 ≤ quantity s + d →
       ∃ w',
         updateProductStock orgId productId warehouseId d w = (Ok tt, w')
         ∧ findStock pid wid (db w')
           = Some (set_quantity (Js.Number (quantity s + d)) s)).
Proof.
  intros Hq Hcaller (role & Hrole & Hperm) [Hp1 Hp2] Hnone.
  pose proof Hcaller as [Hs Hc Hn Ho Hu Horg].
  pose proof (numeric_trim_truthy _ Hn) as Horgid.
  destruct (bootstrapped_quiet o u org w Hq) as [Hb1 Hf1].
  destruct (bootstrapped_db o u org w) as [m Hdb].
  set (w1 := bootstrapped o u org w) in *.
  assert (∀ denied,
    requireRole orgId (λ r, hasPermission r writerRoles) denied w = (Ok tt, w1))
    as Hrole_ok.
  { intros denied. by apply (requireRole_ok w orgId clerk o u org role). }
  assert (getOrCreateUser clerk w1 = (Ok u, w1)) as Huser.
  { apply getOrCreateUser_known; [done |].
    unfold committed. rewrite Hb1. simpl. by rewrite Hdb. }
  assert (existsb (λ p, (product_id p =? pid) && (p_org p =? o))
            (products (db w1)) = false) as Habsent.
  { rewrite Hdb. simpl. by apply find_none_existsb. }
  split_and!.
  - intros input Hname Hsku. unfold updateProduct. rewrite auth_ok, Hs.
    rewrite throw_if_false by (simpl; by rewrite Hc).
    rewrite throw_if_false by (by rewrite Horgid).
    rewrite throw_if_false by (by rewrite Hp1).
    rewrite throw_if_false by (by rewrite Hname).
    rewrite throw_if_false by (by rewrite Hsku).
    unfold try_catch, updateProduct_try.
    rewrite (bind_ok _ _ _ _ _ (toBigInt_ok _ _ w Ho)).
    rewrite (bind_ok _ _ _ _ _ (Hrole_ok _)).
    rewrite (bind_ok _ _ _ _ _ (toBigInt_ok _ _ w1 Hp2)).
    rewrite (bind_ok _ _ _ _ _ Huser).
    rewrite (bind_ok _ _ _ _ _ (query_ok Prisma _ w1 Hf1)).
    rewrite view_quiet by done. rewrite Hdb. simpl. rewrite Hnone.
    by rewrite throw_if_true.
  - intros data. unfold updateProductDetails. rewrite auth_ok, Hs.
    rewrite throw_if_false by (simpl; by rewrite Hc).
    rewrite throw_if_false by (by rewrite Horgid).
    rewrite throw_if_false by (by rewrite Hp1).
    unfold try_catch, updateProductDetails_try.
    rewrite (bind_ok _ _ _ _ _ (toBigInt_ok _ _ w Ho)).
    rewrite (bind_ok _ _ _ _ _ (toBigInt_ok _ _ w Hp2)).
    erewrite (guarded_transaction_err w orgId clerk o u org role); [| done.. |].
    2: { unfold updateProductDetails_tx. fold w1.
         erewrite bind_err; [done |].
         by apply exec_checked_refused. }
    fold w1. by rewrite close_committed_open.
  - intros Hcount. eexists. split.
    unfold deleteProductDetails. rewrite auth_ok, Hs.
    rewrite throw_if_false by (simpl; by rewrite Hc).
    rewrite throw_if_false by (by rewrite Horgid).
    rewrite throw_if_false by (by rewrite Hp1).
    unfold try_catch, deleteProductDetails_try.
    rewrite (bind_ok _ _ _ _ _ (toBigInt_ok _ _ w Ho)).
    rewrite (bind_ok _ _ _ _ _ (toBigInt_ok _ _ w Hp2)).
    rewrite (bind_ok _ _ _ _ _ (Hrole_ok _)).
    rewrite (bind_ok _ _ _ _ _ (query_ok Prisma _ w1 Hf1)).
    rewrite view_quiet by done.
    rewrite throw_if_false by (rewrite Hdb; simpl; by rewrite Hcount).
    erewrite bind_err.
    2: { apply transaction_err; [done |]. unfold deleteProductDetails_tx.
         rewrite (bind_ok _ _ _ _ _ (exec_tx_ok _ _ (open_tx w1) Hf1)).
         erewrite bind_ok by (by apply exec_tx_ok).
         by apply exec_checked_refused. }
    reflexivity.
    simpl. unfold committed. simpl. split; [done |].
    by rewrite <- app_assoc.
  - subst w1. rewrite Hdb. by destruct (db w).
  - intros warehouseId wid d s [Hw1 Hw2] Hfind Hpos.
    assert (findStock pid wid (db (open_tx w1)) = Some s) as Hfind1.
    { unfold findStock. simpl. by rewrite Hdb. }
    destruct (updateProductStock_tx_ok (open_tx w1) pid wid d u)
      as (w2 & rows & Hrun & Hf2 & Hdb2 & Hrows);
      [done | by rewrite Hfind1 |].
    rewrite Hfind1 in Hrows.
    exists (close_tx (db w2) w2). split.
    + unfold updateProductStock. rewrite auth_ok, Hs.
      rewrite throw_if_false by (simpl; by rewrite Hc).
      rewrite throw_if_false by (by rewrite Horgid).
      rewrite throw_if_false by (by rewrite Hp1).
      rewrite throw_if_false by (by rewrite Hw1).
      apply try_catch_ok. unfold updateProductStock_try.
      rewrite (bind_ok _ _ _ _ _ (toBigInt_ok _ _ w Ho)).
      rewrite (bind_ok _ _ _ _ _ (toBigInt_ok _ _ w Hp2)).
      rewrite (bind_ok _ _ _ _ _ (toBigInt_ok _ _ w Hw2)).
      by apply (guarded_transaction_ok w orgId clerk o u org role).
    + simpl. rewrite Hdb2, Hrows. unfold findStock in *. simpl.
      simpl in Hfind1. rewrite findStock_setQty, Hfind1. simpl.
      by rewrite setQty_same.
Qed.

(** Bob, a writer of Acme, on the product of Bolt. *)
Lemma ownership_of_products_witness :
  let w := Fixture.request "clerk_bob" Tenants.both in
  updateProduct "1" "11" (mkInput "Gear" "G-7" None (Some 0) None None) w
  = (Err "Product not found in this organization", w)
  ∧ (∃ w', deleteProductDetails "1" "11" w = (Err record_not_found, w')
           ∧ db w' = db w)
  ∧ (∃ w', updateProductStock "1" "11" "7" (-4) w = (Ok tt, w')
           ∧ findStock 11 7 (db w') = Some (mkStock 21 11 7 0)).
Proof.
  intros w.
  destruct (ownership_of_products w "1" "11" "clerk_bob" 1 Fixture.bob
              Fixture.acme 11
              ltac:(by split) ltac:(by split) ltac:(by exists "writer")
              ltac:(by split) ltac:(reflexivity))
    as (Hupdate & _ & Hdelete & _ & Hstock).
  split_and!.
  - by apply Hupdate.
  - destruct (Hdelete ltac:(reflexivity)) as (w' & Hrun & Hdb & _).
    by exists w'.
  - destruct (Hstock "7" 7 (-4) (mkStock 21 11 7 4)
                ltac:(by split) ltac:(reflexivity) ltac:(simpl; lia))
      as (w' & Hrun & Hrow).
    by exists w'.
Defined.

(** *** New products *)

Lemma getOrCreateDefaultWarehouse_create_run o w :
  faults w = [] →
  List.find (λ x, wh_org x =? Js.Number o) (warehouses (committed w)) = None →
  getOrCreateDefaultWarehouse o w
  = (Ok (defaultWarehouse (nextId w) o),
     mkWorld
       (set_warehouses (append [defaultWarehouse (nextId w) o]) (db w))
       (set_warehouses (append [defaultWarehouse (nextId w) o]) <$> base w)
       (nextId w + 1) (session w) (clerkEmail w) (now w) (faults w)
       (trace w ++ [Create TWarehouse])).
Proof.
  intros Hf Hfind. unfold getOrCreateDefaultWarehouse.
  rewrite (bind_ok _ _ _ _ _ (query_ok Prisma _ w Hf)). simpl. rewrite Hfind.
  unfold bind at 1, fresh at 1.
  set (w1 := mkWorld _ _ _ _ _ _ _ _).
  unfold exec, bind. by rewrite (io_ok w1 Hf).
Qed.

(** The callback of [addProduct] when the store answers. *)
Lemma addProduct_tx_run w o u newProduct b :
  faults w = [] → base w = Some b →
  let found := List.find (λ x, wh_org x =? Js.Number o) (warehouses b) in
  let wh := default (defaultWarehouse (nextId w + 1) o) found in
  let n := match found with Some _ => 1 | None => 2 end in
  ∃ res w2,
    addProduct_tx o u newProduct w = (Ok res, w2)
    ∧ faults w2 = []
    ∧ r_warehouseId res = Js.show_Z (warehouse_id wh)
    ∧ r_warehouseName res = wh_name wh
    ∧ db w2
      = set_productPrices
          (append [mkPrice (nextId w + n + 1) (nextId w)
                     (clampQ (in_price newProduct))
                     (Some (clampQ (in_price newProduct))) None (now w) None])
          (set_productStocks
             (append [mkStock (nextId w + n) (nextId w) (warehouse_id wh)
                        (clampZ (in_stock newProduct))])
             (set_warehouses
                (match found with Some _ => id | None => append [wh] end)
                (set_products (append [newProductRow (nextId w) o u newProduct])
                   (db w)))).
Proof.
  intros Hf Hb found wh n. unfold addProduct_tx.
  unfold bind at 1, fresh at 1.
  erewrite bind_ok by (apply exec_tx_ok; exact Hf).
  subst wh n. destruct found as [x|] eqn:Hfound; subst found.
  - erewrite bind_ok;
      last (apply getOrCreateDefaultWarehouse_found;
            [exact Hf | unfold committed; simpl; by rewrite Hb]).
    erewrite bind_ok by (apply createStock_ok; exact Hf).
    erewrite bind_ok by (apply createPrice_ok; exact Hf).
    eexists _, _. split_and!; [done | done | done | done |].
    simpl. by destruct (db w).
  - erewrite bind_ok;
      last (apply getOrCreateDefaultWarehouse_create_run;
            [exact Hf | unfold committed; simpl; by rewrite Hb]).
    erewrite bind_ok by (apply createStock_ok; exact Hf).
    erewrite bind_ok by (apply createPrice_ok; exact Hf).
    eexists _, _. split_and!; [done | done | done | done |].
    simpl. rewrite <- !Z.add_assoc. simpl. by destruct (db w).
Qed.

Lemma sku_free d o sku :
  (o, sku) ∉ sku_keys d →
  List.find (λ p, String.eqb (p_sku p) sku && (p_org p =? o)) (products d) = None.
Proof.
  unfold sku_keys. induction (products d) as [|p l IH]; [done |].
  simpl. intros Hnot. apply not_elem_of_cons in Hnot as [Hne Hl].
  destruct (String.eqb_spec (p_sku p) sku) as [E1|]; [| by apply IH].
  destruct (Z.eqb_spec (p_org p) o) as [E2|]; [| by apply IH].
  by subst.
Qed.

Lemma sku_taken d o sku :
  (o, sku) ∈ sku_keys d →
  is_Some (List.find (λ p, String.eqb (p_sku p) sku && (p_org p =? o))
             (products d)).
Proof.
  unfold sku_keys. induction (products d) as [|p l IH]; simpl.
  - by intros ?%elem_of_nil.
  - intros [E | Hl]%elem_of_cons.
    + injection E as -> ->. by rewrite String.eqb_refl, Z.eqb_refl.
    + destruct (_ && _); [done | by apply IH].
Qed.

Lemma bootstrapped_now o u org w : now (bootstrapped o u org w) = now w.
Proof. unfold bootstrapped. by case_bool_decide. Qed.

(** [addProduct] by a permitted caller when the store answers and the SKU
    is free. *)
Lemma addProduct_run w orgId clerk o u org newProduct :
  quiet w → Caller w orgId clerk o u org → Permitted w o u org writerRoles →
  Js.truthy (Js.trim (in_name newProduct)) = true →
  Js.truthy (Js.trim (in_sku newProduct)) = true →
  (o, Js.trim (in_sku newProduct)) ∉ sku_keys (db w) →
  let found := List.find (λ x, wh_org x =? Js.Number o) (warehouses (db w)) in
  let wh := default (defaultWarehouse (nextId w + 1) o) found in
  let n := match found with Some _ => 1 | None => 2 end in
  ∃ res w',
    addProduct orgId newProduct w = (Ok res, w')
    ∧ quiet w'
    ∧ r_warehouseName res = wh_name wh
    ∧ db w'
      = set_productPrices
          (append [mkPrice (nextId w + n + 1) (nextId w)
                     (clampQ (in_price newProduct))
                     (Some (clampQ (in_price newProduct))) None (now w) None])
          (set_productStocks
             (append [mkStock (nextId w + n) (nextId w) (warehouse_id wh)
                        (clampZ (in_stock newProduct))])
             (set_warehouses
                (match found with Some _ => id | None => append [wh] end)
                (set_products (append [newProductRow (nextId w) o u newProduct])
                   (db (bootstrapped o u org w))))).
Proof.
  intros Hq Hcaller (role & Hrole & Hperm) Hname Hsku Hfree found wh n.
  pose proof Hcaller as [Hs Hc Hn Ho Hu Horg].
  destruct (bootstrapped_quiet o u org w Hq) as [Hb1 Hf1].
  destruct (bootstrapped_db o u org w) as [m Hdb].
  set (w1 := bootstrapped o u org w) in *.
  destruct (addProduct_tx_run (open_tx w1) o u newProduct (db w1))
    as (res & w2 & Hrun & Hf2 & _ & Hnm & Hdb2); [exact Hf1 | done |].
  simpl in Hnm, Hdb2. rewrite Hdb in Hnm, Hdb2. simpl in Hnm, Hdb2.
  unfold w1 in Hnm, Hdb2. rewrite bootstrapped_nextId in Hnm, Hdb2.
  fold w1 in Hdb2.
  exists res, (close_tx (db w2) w2). split_and!.
  - unfold addProduct. rewrite auth_ok, Hs.
    rewrite throw_if_false by (simpl; by rewrite Hc).
    rewrite throw_if_false by (by rewrite (numeric_trim_truthy _ Hn)).
    rewrite throw_if_false by (by rewrite Hname).
    rewrite throw_if_false by (by rewrite Hsku).
    apply try_catch_ok. unfold addProduct_try.
    rewrite (bind_ok _ _ _ _ _ (toBigInt_ok _ _ w Ho)).
    assert ((λ r, Js.truthy_opt r && hasPermission r writerRoles) (Some role)
            = true) as Hperm'.
    { cbv beta. cbn [Js.truthy_opt].
      by rewrite Hperm, (hasPermission_truthy _ _ Hperm). }
    rewrite (bind_ok _ _ _ _ _
               (requireRole_ok w orgId clerk o u org role _ _ Hq Hcaller Hrole Hperm')).
    fold w1.
    erewrite bind_ok;
      last (apply getOrCreateUser_known;
            [exact Hf1 | unfold committed; rewrite Hb1; simpl; by rewrite Hdb]).
    erewrite bind_ok by (apply query_ok; exact Hf1).
    rewrite view_quiet by exact Hb1. rewrite Hdb. simpl.
    rewrite (sku_free _ _ _ Hfree).
    rewrite throw_if_false by done.
    rewrite throw_if_false by apply clampZ_nonneg.
    rewrite throw_if_false by (unfold clampQ; by rewrite Qmax0_nonneg).
    erewrite bind_ok by (eapply transaction_ok; [exact Hf1 | exact Hrun | exact Hf2]).
    unfold invalidateProducts.
    by rewrite (bind_ok _ _ _ _ _ (io_ok (close_tx (db w2) w2) Hf2)).
  - by split.
  - exact Hnm.
  - simpl. rewrite Hdb2, Hdb. unfold w1. by rewrite bootstrapped_now.
Qed.

(** X9: SKUs stay unique within an organization under [addProduct].  For a
    permitted caller, when the store answers: a SKU (trimmed, case
    respected) that a product of the organization has already is refused
    and nothing of the inventory is written; a free SKU is accepted, the
    new product is the last one of the table, and a table without
    duplicate SKUs has none afterwards. *)
Theorem addProduct_keeps_skus_unique w orgId clerk o u org newProduct :
  quiet w → Caller w orgId clerk o u org → Permitted w o u org writerRoles →
  Js.truthy (Js.trim (in_name newProduct)) = true →
  Js.truthy (Js.trim (in_sku newProduct)) = true →
  ((o, Js.trim (in_sku newProduct)) ∈ sku_keys (db w) →
   ∃ e w',
     addProduct orgId newProduct w = (Err e, w')
     ∧ same_inventory (db w) (db w'))
  ∧ ((o, Js.trim (in_sku newProduct)) ∉ sku_keys (db w) →
     ∃ res w',
       addProduct orgId newProduct w = (Ok res, w')
       ∧ products (db w')
         = (products (db w) ++ [newProductRow (nextId w) o u newProduct])%list
       ∧ (NoDup (sku_keys (db w)) → NoDup (sku_keys (db w')))).
Proof.
  intros Hq Hcaller Hperm Hname Hsku. split.
  - intros Htaken. destruct Hperm as (role & Hrole & Hperm).
    pose proof Hcaller as [Hs Hc Hn Ho Hu Horg].
    destruct (bootstrapped_quiet o u org w Hq) as [Hb1 Hf1].
    destruct (bootstrapped_db o u org w) as [m Hdb].
    set (w1 := bootstrapped o u org w) in *.
    assert (∃ e, addProduct orgId newProduct w = (Err e, w1)) as [e He].
    { unfold addProduct. rewrite auth_ok, Hs.
      rewrite throw_if_false by (simpl; by rewrite Hc).
      rewrite throw_if_false by (by rewrite (numeric_trim_truthy _ Hn)).
      rewrite throw_if_false by (by rewrite Hname).
      rewrite throw_if_false by (by rewrite Hsku).
      unfold try_catch, addProduct_try.
      rewrite (bind_ok _ _ _ _ _ (toBigInt_ok _ _ w Ho)).
      assert ((λ r, Js.truthy_opt r && hasPermission r writerRoles) (Some role)
              = true) as Hperm'.
      { cbv beta. cbn [Js.truthy_opt].
        by rewrite Hperm, (hasPermission_truthy _ _ Hperm). }
      rewrite (bind_ok _ _ _ _ _
                 (requireRole_ok w orgId clerk o u org role _ _ Hq Hcaller Hrole Hperm')).
      fold w1.
      erewrite bind_ok;
        last (apply getOrCreateUser_known;
              [exact Hf1 | unfold committed; rewrite Hb1; simpl; by rewrite Hdb]).
      erewrite bind_ok by (apply query_ok; exact Hf1).
      rewrite view_quiet by exact Hb1. rewrite Hdb. simpl.
      destruct (sku_taken _ _ _ Htaken) as [p ->].
      rewrite throw_if_true by done.
      unfold product_catch.
      repeat (match goal with |- context [if ?c then _ else _] => destruct c end);
        by eexists. }
    exists e, w1. split; [done |]. rewrite Hdb. by destruct (db w).
  - intros Hfree.
    destruct (addProduct_run w orgId clerk o u org newProduct)
      as (res & w' & Hrun & _ & _ & Hdb'); try done.
    destruct (bootstrapped_db o u org w) as [m Hdb].
    assert (products (db w')
            = (products (db w) ++ [newProductRow (nextId w) o u newProduct])%list)
      as Hproducts by (rewrite Hdb', Hdb; reflexivity).
    exists res, w'. split_and!; [done | done |].
    intros Hnodup. unfold sku_keys. rewrite Hproducts, map_app.
    apply NoDup_app. split_and!; [done | | apply NoDup_singleton].
    intros k Hk Hk'. apply list_elem_of_singleton in Hk'. by subst.
Qed.

Lemma addProduct_keeps_skus_unique_witness :
  let w := Fixture.request "clerk_bob" Fixture.store in
  (∃ e w', addProduct "1" (mkInput "Widget 2" " A-1 " None None None None) w
           = (Err e, w')
           ∧ products (db w') = products (db w))
  ∧ (∃ res w', addProduct "1" (mkInput "Widget 2" "a-1" None None None None) w
               = (Ok res, w')
               ∧ sku_keys (db w') = [(1, "A-1"); (1, "a-1")]).
Proof.
  intros w.
  split.
  - destruct (proj1 (addProduct_keeps_skus_unique w "1" "clerk_bob" 1
                       Fixture.bob Fixture.acme
                       (mkInput "Widget 2" " A-1 " None None None None)
                       ltac:(by split) ltac:(by split)
                       ltac:(by exists "writer")
                       ltac:(reflexivity) ltac:(reflexivity)))
      as (e & w' & Hrun & Hsame).
    { apply list_elem_of_here. }
    exists e, w'. split; [done |]. apply Hsame.
  - destruct (proj2 (addProduct_keeps_skus_unique w "1" "clerk_bob" 1
                       Fixture.bob Fixture.acme
                       (mkInput "Widget 2" "a-1" None None None None)
                       ltac:(by split) ltac:(by split)
                       ltac:(by exists "writer")
                       ltac:(reflexivity) ltac:(reflexivity)))
      as (res & w' & Hrun & Hproducts & _).
    { intros [E | Hin%elem_of_nil]%elem_of_cons; [discriminate E | done]. }
    exists res, w'. split; [done |]. unfold sku_keys. by rewrite Hproducts.
Defined.

(** X10: [addProduct] for an organization without a warehouse whose key is
    below 2^53 in size, so that the number made of it is the key.  For a
    permitted caller and a free SKU, when the store answers, it creates the
    warehouse "Default Warehouse" of the organization, puts the product's
    stock row in it, and the next lookup of the default warehouse returns
    that warehouse and creates none.  The warehouse is created by the
    client itself, outside the transaction: when the store fails on the
    stock row, the fifth round-trip of the transaction, the product is
    rolled back and the warehouse stays. *)
Theorem addProduct_default_warehouse w orgId clerk o u org newProduct :
  quiet w → Caller w orgId clerk o u org → Permitted w o u org writerRoles →
  Z.abs o < 2 ^ 53 →
  Js.truthy (Js.trim (in_name newProduct)) = true →
  Js.truthy (Js.trim (in_sku newProduct)) = true →
  (o, Js.trim (in_sku newProduct)) ∉ sku_keys (db w) →
  List.find (λ x, wh_org x =? o) (warehouses (db w)) = None →
  let wh := mkWarehouse (nextId w + 1) o "Default Warehouse" "Default Address" in
  (∃ res w',
     addProduct orgId newProduct w = (Ok res, w')
     ∧ r_warehouseName res = "Default Warehouse"
     ∧ warehouses (db w') = (warehouses (db w) ++ [wh])%list
     ∧ productStocks (db w')
       = (productStocks (db w)
          ++ [mkStock (nextId w + 2) (nextId w) (nextId w + 1)
                (clampZ (in_stock newProduct))])%list
     ∧ getOrCreateDefaultWarehouse o w' = (Ok wh, w'))
  ∧ (∀ e, ∃ w',
       transaction (addProduct_tx o u newProduct)
         (with_faults [None; None; None; None; Some e] w)
       = (Err e, w')
       ∧ products (db w') = products (db w)
       ∧ productStocks (db w') = productStocks (db w)
       ∧ warehouses (db w') = (warehouses (db w) ++ [wh])%list).
Proof.
  intros Hq Hcaller Hperm Ho53 Hname Hsku Hfree Hnone wh.
  pose proof (Number_exact o Ho53) as HN.
  split.
  - destruct (addProduct_run w orgId clerk o u org newProduct)
      as (res & w' & Hrun & [Hb' Hf'] & Hnm & Hdb'); try done.
    rewrite HN in Hnm, Hdb'. rewrite Hnone in Hnm, Hdb'.
    unfold defaultWarehouse in Hnm, Hdb'. rewrite HN in Hnm, Hdb'.
    simpl in Hnm, Hdb'. fold wh in Hdb'.
    destruct (bootstrapped_db o u org w) as [m Hdb].
    rewrite Hdb in Hdb'.
    assert (warehouses (db w') = (warehouses (db w) ++ [wh])%list) as Hwh
      by (by rewrite Hdb').
    exists res, w'. split_and!; [done | done | done | by rewrite Hdb' |].
    apply getOrCreateDefaultWarehouse_found; [done |].
    unfold committed. rewrite Hb'. simpl. rewrite Hwh, HN.
    rewrite find_app_None by done. simpl. by rewrite Z.eqb_refl.
  - intros e. destruct Hq as [Hb _]. eexists. split.
    + unfold transaction, addProduct_tx, getOrCreateDefaultWarehouse,
        createStock, query, exec.
      unfold bind, io, fresh, peek, apply, view, committed, open_tx, with_faults.
      simpl. rewrite HN, Hnone. simpl. reflexivity.
    + simpl. unfold committed. simpl. by rewrite ?HN.
Qed.

(** Acme without its warehouses: the first product creates the default
    warehouse; when the store fails on the stock row the action throws, no
    product is left and the warehouse is. *)
Lemma addProduct_default_warehouse_witness :
  let w := Fixture.request "clerk_bob" (set_warehouses (λ _, []) Fixture.store) in
  let gadget := mkInput "Gadget" "G-1" None (Some 4) None None in
  let depot := mkWarehouse 101 1 "Default Warehouse" "Default Address" in
  (∃ res w',
     addProduct "1" gadget w = (Ok res, w')
     ∧ r_warehouseName res = "Default Warehouse"
     ∧ warehouses (db w') = [depot]
     ∧ getOrCreateDefaultWarehouse 1 w' = (Ok depot, w'))
  ∧ let r := addProduct "1" gadget
               (Fixture.failing (replicate 14 None ++ [Some "Connection lost"]) w) in
    r.1 = Err "Connection lost"
    ∧ products (db r.2) = products (db w)
    ∧ warehouses (db r.2) = [depot].
Proof.
  intros w gadget depot. split.
  - destruct (proj1 (addProduct_default_warehouse w "1" "clerk_bob" 1
                       Fixture.bob Fixture.acme gadget
                       ltac:(by split) ltac:(by split)
                       ltac:(by exists "writer") ltac:(reflexivity)
                       ltac:(reflexivity) ltac:(reflexivity)
                       ltac:(intros [E | Hin%elem_of_nil]%elem_of_cons;
                             [discriminate E | done])
                       ltac:(reflexivity)))
      as (res & w' & Hrun & Hname & Hwh & _ & Hnext).
    exists res, w'. split_and!; [exact Hrun | exact Hname | exact Hwh | exact Hnext].
  - vm_compute. split_and!; reflexivity.
Defined.

(** *** Keys in decimal *)

Lemma parse_digits_uint d : ∀ acc,
  Js.parse_digits 10 (NilEmpty.string_of_uint d) acc = Some (uint_value d acc).
Proof. induction d; intros acc; simpl; try done; apply IHd. Qed.

Lemma uint_value_pos d : ∀ acc,
  uint_value d (Z.pos acc) = Z.pos (Pos.of_uint_acc d acc).
Proof.
  induction d; intros acc; simpl; [done | ..];
    (etrans; [| apply IHd]); f_equal; lia.
Qed.

Lemma uint_value_0 d : uint_value d 0 = Z.of_N (Pos.of_uint d).
Proof.
  induction d; cbn [uint_value Pos.of_uint]; [done | exact IHd | ..];
    apply (uint_value_pos d).
Qed.

Lemma all_digits_uint d : Js.all_digits (NilEmpty.string_of_uint d) = true.
Proof. induction d; simpl; try done. Qed.

Lemma digit_not_ws c : Js.is_digit c = true → Js.is_ws c = false.
Proof. destruct c as [[] [] [] [] [] [] [] []]; done. Qed.

Lemma trimStart_digits s : Js.all_digits s = true → Js.trimStart s = s.
Proof.
  destruct s as [|c t]; [done |]. simpl. intros [Hc _]%andb_true_iff.
  by rewrite (digit_not_ws _ Hc).
Qed.

Lemma trimEnd_digits s : Js.all_digits s = true → Js.trimEnd s = s.
Proof.
  induction s as [|c t IH]; [done |]. simpl. intros [Hc Ht]%andb_true_iff.
  rewrite (IH Ht). destruct t; [| done]. by rewrite (digit_not_ws _ Hc).
Qed.

Lemma trim_digits s : Js.all_digits s = true → Js.trim s = s.
Proof.
  intros H. unfold Js.trim. rewrite (trimStart_digits _ H).
  by apply trimEnd_digits.
Qed.

Lemma BigInt_digits s :
  Js.numeric s = true → Js.BigInt s = Js.parse_digits 10 s 0.
Proof.
  unfold Js.numeric. intros [Hs Hd]%andb_true_iff.
  unfold Js.BigInt. rewrite (trim_digits _ Hd).
  destruct s as [|c t]; [done |]. simpl in Hd.
  apply andb_true_iff in Hd as [Hc Ht].
  destruct t as [|x r].
  - destruct c as [[] [] [] [] [] [] [] []]; done.
  - simpl in Ht. apply andb_true_iff in Ht as [Hx Hr].
    destruct c as [[] [] [] [] [] [] [] []]; try done.
    destruct x as [[] [] [] [] [] [] [] []]; done.
Qed.

Lemma show_Z_pos p :
  Js.show_Z (Z.pos p) = NilEmpty.string_of_uint (Pos.to_uint p).
Proof.
  unfold Js.show_Z. simpl. unfold NilZero.string_of_uint.
  destruct (Pos.to_uint p) eqn:E; try done.
  by apply DecimalPos.Unsigned.to_uint_nonnil in E.
Qed.

Lemma truthy_uint p :
  Js.truthy (NilEmpty.string_of_uint (Pos.to_uint p)) = true.
Proof.
  destruct (Pos.to_uint p) eqn:E; try done.
  by apply DecimalPos.Unsigned.to_uint_nonnil in E.
Qed.

Lemma numeric_show_Z z : 0 ≤ z → Js.numeric (Js.show_Z z) = true.
Proof.
  destruct z as [|p|p]; [done | | lia]. intros _.
  rewrite show_Z_pos. unfold Js.numeric.
  by rewrite truthy_uint, all_digits_uint.
Qed.

Lemma parse_uint_pos p :
  Js.parse_digits 10 (NilEmpty.string_of_uint (Pos.to_uint p)) 0
  = Some (Z.pos p).
Proof.
  rewrite parse_digits_uint, uint_value_0.
  by rewrite DecimalPos.Unsigned.of_to.
Qed.

(** A key printed in decimal is read back as that key. *)
Lemma BigInt_show_Z z : Js.BigInt (Js.show_Z z) = Some z.
Proof.
  destruct z as [|p|p].
  - done.
  - rewrite BigInt_digits by (by apply numeric_show_Z).
    rewrite show_Z_pos. apply parse_uint_pos.
  - unfold Js.show_Z. simpl. unfold NilZero.string_of_uint.
    pose proof (DecimalPos.Unsigned.to_uint_nonnil p) as Hnil.
    pose proof (parse_uint_pos p) as Hparse.
    pose proof (all_digits_uint (Pos.to_uint p)) as Hd.
    pose proof (truthy_uint p) as Ht.
    assert (NilEmpty.string_of_uint (Pos.to_uint p)
            = match Pos.to_uint p with
              | Decimal.Nil => "0"
              | _ => NilEmpty.string_of_uint (Pos.to_uint p)
              end) as <- by (by destruct (Pos.to_uint p)).
    set (s := NilEmpty.string_of_uint (Pos.to_uint p)) in *.
    unfold Js.BigInt, Js.trim.
    change (Js.trimStart (String "-" s)) with (String "-" s).
    assert (Js.trimEnd (String "-" s) = String "-" s) as ->.
    { simpl. rewrite (trimEnd_digits _ Hd). by destruct s. }
    unfold Js.parse_nonempty. destruct s; [done |]. by rewrite Hparse.
Qed.

Lemma show_Z_inj z1 z2 : Js.show_Z z1 = Js.show_Z z2 → z1 = z2.
Proof.
  intros E. pose proof (BigInt_show_Z z1) as H1.
  rewrite E, BigInt_show_Z in H1. by injection H1.
Qed.

(** *** Organizations *)

Lemma createMember_tx_ok w org user role :
  faults w = [] → members (db w) !! (org, user) = None →
  createMember Tx org user role w
  = (Ok tt, with_db (set_members (insert (org, user) role)) [Create TMember] w).
Proof.
  intros Hf Hnone. unfold createMember.
  apply exec_checked_tx_ok; [done |]. by apply bool_decide_eq_true.
Qed.

Lemma createOrganization_tx_ok w name u :
  faults w = [] →
  organizations (db w) !! nextId w = None →
  members (db w) !! (nextId w, user_id u) = None →
  createOrganization_tx name u w
  = (Ok (Js.show_Z (nextId w), name),
     mkWorld
       (set_members (insert (nextId w, user_id u) "admin")
          (set_organizations (insert (nextId w) (mkOrg name (user_id u))) (db w)))
       (base w) (nextId w + 1) (session w) (clerkEmail w) (now w) (faults w)
       (trace w ++ [Create TOrganization; Create TMember])).
Proof.
  intros Hf Horg Hmem. unfold createOrganization_tx.
  unfold bind at 1, fresh at 1.
  erewrite bind_ok;
    last (apply exec_checked_tx_ok; [done | by apply bool_decide_eq_true]).
  erewrite bind_ok by (by apply createMember_tx_ok).
  erewrite bind_ok by (by apply query_ok).
  simpl. rewrite lookup_insert_eq.
  rewrite throw_if_false by done.
  unfold ret, with_db. simpl. by rewrite <- app_assoc.
Qed.

(** X11: [createOrganization] by a known user, when the store answers and
    the user has no organization of that name, compared without regard to
    case.  It returns the new key in decimal; the organization exists under
    that key with the trimmed name and the caller as its creator; the
    caller has the member row "admin"; no other organization or member row
    changes.  [getUserRole] on the key as returned then answers "admin" to
    the creator. *)
Theorem createOrganization_creates w clerk u name :
  quiet w → session w = Some clerk → Js.truthy clerk = true →
  users (db w) !! clerk = Some u →
  Js.truthy (Js.trim name) = true →
  (∀ k org, organizations (db w) !! k = Some org →
            created_by org = user_id u →
            equals_insensitive (org_name org) (Js.trim name) = false) →
  organizations (db w) !! nextId w = None →
  members (db w) !! (nextId w, user_id u) = None →
  ∃ w',
    createOrganization name w = (Ok (Js.show_Z (nextId w)), w')
    ∧ db w'
      = set_members (insert (nextId w, user_id u) "admin")
          (set_organizations
             (insert (nextId w) (mkOrg (Js.trim name) (user_id u))) (db w))
    ∧ organizations (db w') !! nextId w
      = Some (mkOrg (Js.trim name) (user_id u))
    ∧ members (db w') !! (nextId w, user_id u) = Some "admin"
    ∧ (getUserRole (Js.show_Z (nextId w)) w').1 = Ok (Some "admin").
Proof.
  intros [Hb Hf] Hs Ht Hu Hname Hfree Horg Hmem.
  set (w1 := mkWorld
       (set_members (insert (nextId w, user_id u) "admin")
          (set_organizations
             (insert (nextId w) (mkOrg (Js.trim name) (user_id u))) (db w)))
       None (nextId w + 1) (session w) (clerkEmail w) (now w) (faults w)
       (trace w ++ [Create TOrganization; Create TMember])).
  exists w1.
  assert (createOrganization name w = (Ok (Js.show_Z (nextId w)), w1)) as Hrun.
  { unfold createOrganization. rewrite auth_ok, Hs.
    rewrite throw_if_false by (simpl; by rewrite Ht).
    rewrite throw_if_false by (by rewrite Hname).
    erewrite bind_ok;
      last (apply getOrCreateUser_known; [done | unfold committed; by rewrite Hb]).
    rewrite (bind_ok _ _ _ _ _ (query_ok Prisma _ w Hf)).
    rewrite view_quiet by done.
    rewrite throw_if_false.
    2: { apply bool_decide_eq_false. intros (k & org & Hk & Hex).
         apply andb_true_iff in Hex as [Hc Heq]. apply Z.eqb_eq in Hc.
         by rewrite (Hfree k org Hk Hc) in Heq. }
    erewrite bind_ok.
    2: { eapply transaction_ok;
           [exact Hf | by apply createOrganization_tx_ok | exact Hf]. }
    done. }
  split_and!; [done | done | | |].
  - simpl. apply lookup_insert_eq.
  - simpl. apply lookup_insert_eq.
  - rewrite (getUserRole_signed_in _ clerk w1 Hs Ht). unfold try_catch.
    erewrite (getUserRole_try_creator _ clerk (nextId w) u
                (mkOrg (Js.trim name) (user_id u)) w1);
      [done | by split | apply BigInt_show_Z | done | | done].
    simpl. apply lookup_insert_eq.
Qed.

Lemma createOrganization_creates_witness :
  ∃ w',
    createOrganization "  Bolt " (Fixture.request "clerk_cat" Fixture.store)
    = (Ok "100", w')
    ∧ organizations (db w') !! 100 = Some (mkOrg "Bolt" 3)
    ∧ members (db w') !! (100, 3) = Some "admin"
    ∧ (getUserRole "100" w').1 = Ok (Some "admin").
Proof.
  destruct (createOrganization_creates
              (Fixture.request "clerk_cat" Fixture.store) "clerk_cat"
              Fixture.cat "  Bolt "
              ltac:(by split) ltac:(reflexivity) ltac:(reflexivity)
              ltac:(reflexivity) ltac:(reflexivity))
    as (w' & Hrun & _ & Horg & Hmem & Hrole);
    [| reflexivity | reflexivity |].
  - intros k org Hk Hc. simpl in Hk.
    apply lookup_insert_Some in Hk as [[_ <-] | [_ Hk]]; [discriminate Hc |].
    by rewrite lookup_empty in Hk.
  - exists w'. split_and!; [exact Hrun | exact Horg | exact Hmem | exact Hrole].
Defined.

(** X12: what [createOrganization] refuses a known user, when the store
    answers: a name that is empty or blank, and a name that one of the
    caller's own organizations has already, compared without regard to
    case.  Nothing is written in either case. *)
Theorem createOrganization_refuses w clerk u name :
  quiet w → session w = Some clerk → Js.truthy clerk = true →
  users (db w) !! clerk = Some u →
  (Js.truthy (Js.trim name) = false →
   createOrganization name w = (Err "Organization name is required", w))
  ∧ (∀ k org,
       Js.truthy (Js.trim name) = true →
       organizations (db w) !! k = Some org → created_by org = user_id u →
       equals_insensitive (org_name org) (Js.trim name) = true →
       createOrganization name w
       = (Err "You already have an organization with this name", w)).
Proof.
  intros [Hb Hf] Hs Ht Hu. split.
  - intros Hblank. unfold createOrganization. rewrite auth_ok, Hs.
    rewrite throw_if_false by (simpl; by rewrite Ht).
    by rewrite throw_if_true by (by rewrite Hblank).
  - intros k org Hname Hk Hc Heq. unfold createOrganization.
    rewrite auth_ok, Hs.
    rewrite throw_if_false by (simpl; by rewrite Ht).
    rewrite throw_if_false by (by rewrite Hname).
    erewrite bind_ok;
      last (apply getOrCreateUser_known; [done | unfold committed; by rewrite Hb]).
    rewrite (bind_ok _ _ _ _ _ (query_ok Prisma _ w Hf)).
    rewrite view_quiet by done.
    rewrite throw_if_true; [done |].
    apply bool_decide_eq_true. exists k, org. split; [done |].
    rewrite Heq, andb_true_r. by apply Z.eqb_eq.
Qed.

Lemma createOrganization_refuses_witness :
  let w := Fixture.request "clerk_ann" Fixture.store in
  createOrganization "   " w = (Err "Organization name is required", w)
  ∧ createOrganization " ACME" w
    = (Err "You already have an organization with this name", w).
Proof.
  intros w.
  destruct (createOrganization_refuses w "clerk_ann" Fixture.ann "   "
              ltac:(by split) ltac:(reflexivity) ltac:(reflexivity)
              ltac:(reflexivity)) as [Hblank _].
  destruct (createOrganization_refuses w "clerk_ann" Fixture.ann " ACME"
              ltac:(by split) ltac:(reflexivity) ltac:(reflexivity)
              ltac:(reflexivity)) as [_ Hdup].
  split.
  - apply Hblank. reflexivity.
  - apply (Hdup 1 Fixture.acme); reflexivity.
Defined.

Lemma hasPermission_admin_only role :
  hasPermission (Some role) ["admin"] = true → role = "admin".
Proof.
  unfold hasPermission.
  destruct (negb (Js.truthy role) || _ || _ || _ || _); [done |].
  destruct (String.eqb_spec role "admin") as [-> |]; [done |].
  simpl. destruct (String.eqb_spec role "admin"); done.
Qed.

(** X13: [updateOrganization] when the store answers.  For an admin it sets
    the name of the organization to the trimmed name and changes nothing
    else of it: the creator stays; the new name is not compared with the
    names of the creator's other organizations.  A member with another
    role is refused and nothing is written. *)
Theorem updateOrganization_renames w orgId clerk o u org name :
  quiet w → Caller w orgId clerk o u org →
  Js.truthy (Js.trim name) = true →
  (Permitted w o u org ["admin"] →
   ∃ w',
     updateOrganization orgId name w = (Ok tt, w')
     ∧ db w'
       = set_organizations (insert o (mkOrg (Js.trim name) (created_by org)))
           (db (bootstrapped o u org w)))
  ∧ (∀ role,
       created_by org ≠ user_id u → roleOf (db w) o u org = Some role →
       role ≠ "admin" →
       updateOrganization orgId name w
       = (Err "Only admins can update organizations", w)).
Proof.
  intros Hq Hcaller Hname.
  pose proof Hcaller as [Hs Ht Hn Ho Hu Horg].
  pose proof (numeric_trim_truthy _ Hn) as Horgid.
  split.
  - intros (role & Hrole & Hperm).
    destruct (bootstrapped_quiet o u org w Hq) as [Hb1 Hf1].
    destruct (bootstrapped_db o u org w) as [m Hdb].
    set (w1 := bootstrapped o u org w) in *.
    eexists. split.
    + unfold updateOrganization. rewrite auth_ok, Hs.
      rewrite throw_if_false by (simpl; by rewrite Ht).
      rewrite throw_if_false by (by rewrite Horgid).
      rewrite throw_if_false by (by rewrite Hname).
      apply try_catch_ok. unfold updateOrganization_try.
      rewrite (bind_ok _ _ _ _ _ (toBigInt_ok _ _ w Ho)).
      rewrite (bind_ok _ _ _ _ _
                 (requireRole_ok w orgId clerk o u org role
                    (λ role, hasPermission role ["admin"]) _ Hq Hcaller Hrole Hperm)).
      fold w1. apply exec_checked_ok; [done | done |].
      apply bool_decide_eq_true. rewrite Hdb. simpl. by eexists.
    + simpl. unfold set_organizations. f_equal. rewrite Hdb. simpl.
      apply map_eq. intros k. destruct (decide (k = o)) as [-> | Hne].
      * by rewrite lookup_alter_eq, lookup_insert_eq, Horg.
      * by rewrite lookup_alter_ne, lookup_insert_ne.
  - intros role Hc Hrole Hne. unfold updateOrganization. rewrite auth_ok, Hs.
    rewrite throw_if_false by (simpl; by rewrite Ht).
    rewrite throw_if_false by (by rewrite Horgid).
    rewrite throw_if_false by (by rewrite Hname).
    unfold try_catch, updateOrganization_try.
    rewrite (bind_ok _ _ _ _ _ (toBigInt_ok _ _ w Ho)).
    assert (hasPermission (Some role) ["admin"] = false) as Hp.
    { destruct (hasPermission (Some role) ["admin"]) eqn:Hp; [| done].
      by apply hasPermission_admin_only in Hp. }
    by rewrite (bind_err _ _ _ _ _
                  (requireRole_denied w orgId clerk o u org role
                     (λ role, hasPermission role ["admin"]) _
                     Hq Hcaller Hc Hrole Hp)).
Qed.

Lemma updateOrganization_renames_witness :
  (∃ w', updateOrganization "1" " Acme Ltd " (Fixture.request "clerk_ann" Fixture.store)
         = (Ok tt, w')
         ∧ organizations (db w') !! 1 = Some (mkOrg "Acme Ltd" 1))
  ∧ updateOrganization "1" "Bob's" (Fixture.request "clerk_bob" Fixture.store)
    = (Err "Only admins can update organizations",
       Fixture.request "clerk_bob" Fixture.store).
Proof.
  split.
  - destruct (proj1 (updateOrganization_renames
                       (Fixture.request "clerk_ann" Fixture.store) "1"
                       "clerk_ann" 1 Fixture.ann Fixture.acme " Acme Ltd "
                       ltac:(by split) ltac:(by split) ltac:(reflexivity))
                ltac:(by exists "admin"))
      as (w' & Hrun & Hdb).
    exists w'. split; [exact Hrun |]. rewrite Hdb. reflexivity.
  - apply (proj2 (updateOrganization_renames
                    (Fixture.request "clerk_bob" Fixture.store) "1"
                    "clerk_bob" 1 Fixture.bob Fixture.acme "Bob's"
                    ltac:(by split) ltac:(by split) ltac:(reflexivity))
             "writer"); [done | reflexivity | done].
Defined.

(** *** Invitations *)

Lemma all2_ok {A B} (a : M A) (b : M B) w x w1 y w2 :
  a w = (Ok x, w1) → b w1 = (Ok y, w2) → all2 a b w = (Ok (x, y), w2).
Proof. intros Ha Hb. unfold all2. by rewrite Ha, Hb. Qed.

Lemma lower_unit_idem c : lower_unit (lower_unit c) = lower_unit c.
Proof. destruct c as [[] [] [] [] [] [] [] []]; reflexivity. Qed.

Lemma toLowerCase_idem s : toLowerCase (toLowerCase s) = toLowerCase s.
Proof.
  induction s as [|c t IH]; [done |]. simpl. by rewrite lower_unit_idem, IH.
Qed.

(** The invitation that [inviteEmployee] writes at time [today]. *)
Lemma inviteEmployee_run w status token orgId clerk o u org mail role :
  quiet w → Caller w orgId clerk o u org → Permitted w o u org ["admin"] →
  Js.truthy (Js.trim mail) = true → Js.truthy (Js.trim role) = true →
  let w1 := bootstrapped o u org w in
  let lower := toLowerCase (Js.trim mail) in
  member_with_email (db w1) o lower = false →
  pending_invite (db w1) o lower (now w) = false →
  invites (db w) !! token = None →
  inviteEmployee status token orgId mail role w
  = (Ok token,
     with_db (set_invites (insert token
                (mkInvite o lower (Js.trim role) status
                   (Some (now w + 86400000)))))
       [Create TInvite] w1).
Proof.
  intros Hq Hcaller (r & Hrole & Hperm) Hmail Hr w1 lower Hmember Hpending Hfree.
  pose proof Hcaller as [Hs Ht Hn Ho Hu Horg].
  destruct (bootstrapped_quiet o u org w Hq) as [Hb1 Hf1].
  destruct (bootstrapped_db o u org w) as [m Hdb].
  unfold inviteEmployee.
  rewrite throw_if_false by (by rewrite (numeric_trim_truthy _ Hn)).
  rewrite throw_if_false by (by rewrite Hmail).
  rewrite throw_if_false by (by rewrite Hr).
  apply try_catch_ok. unfold inviteEmployee_try.
  rewrite (bind_ok _ _ _ _ _ (toBigInt_ok _ _ w Ho)).
  rewrite (bind_ok _ _ _ _ _
             (requireRole_ok w orgId clerk o u org r
                (λ role, hasPermission role ["admin"]) _ Hq Hcaller Hrole Hperm)).
  fold w1. unfold bind at 1, newDate at 1.
  erewrite bind_ok;
    last (eapply all2_ok; apply query_ok; exact Hf1).
  rewrite !view_quiet by done. cbn [fst snd].
  fold lower. rewrite Hmember.
  rewrite throw_if_false by done.
  replace (now w1) with (now w) by (symmetry; apply bootstrapped_now).
  rewrite Hpending.
  rewrite throw_if_false by done.
  unfold bind at 1, newDate at 1.
  erewrite bind_ok.
  2: { apply exec_checked_ok; [done | done |].
       apply bool_decide_eq_true. unfold w1. by rewrite Hdb. }
  by replace (now w1) with (now w) by (symmetry; apply bootstrapped_now).
Qed.

(** [acceptInvite] of a valid invitation by the invited user. *)
Lemma acceptInvite_run w token clerk v inv e :
  quiet w → session w = Some clerk → Js.truthy clerk = true →
  Js.truthy (Js.trim token) = true →
  invites (db w) !! Js.trim token = Some inv →
  inv_status inv = "pending" → expires_at inv = Some e → now w ≤ e →
  users (db w) !! clerk = Some v → inv_email inv = email v →
  members (db w) !! (inv_org inv, user_id v) = None →
  acceptInvite token w
  = (Ok (Js.show_Z (inv_org inv)),
     with_db
       (λ d, set_invites (alter (set_status "accepted") (Js.trim token))
               (set_members (insert (inv_org inv, user_id v) (inv_role inv)) d))
       [Create TMember; Update TInvite] w).
Proof.
  intros [Hb Hf] Hs Ht Htok Hinv Hst He Hnow Hv Hmail Hmem.
  unfold acceptInvite. rewrite auth_ok, Hs.
  rewrite throw_if_false by (simpl; by rewrite Ht).
  rewrite throw_if_false by (by rewrite Htok).
  apply try_catch_ok. unfold acceptInvite_try.
  rewrite (bind_ok _ _ _ _ _ (query_ok Prisma _ w Hf)).
  rewrite view_quiet by done. rewrite Hinv.
  rewrite throw_if_false by (by rewrite Hst).
  unfold bind at 1, newDate at 1.
  rewrite throw_if_false by (rewrite He; lia).
  erewrite bind_ok;
    last (apply getOrCreateUser_known; [done | unfold committed; by rewrite Hb]).
  rewrite throw_if_false by (by rewrite Hmail, String.eqb_refl).
  rewrite (bind_ok _ _ _ _ _ (query_ok Prisma _ w Hf)).
  rewrite view_quiet by done. rewrite Hmem.
  rewrite throw_if_false by done.
  erewrite transaction_ok; [| exact Hf | | ].
  2: { erewrite bind_ok by (by apply createMember_tx_ok).
       erewrite bind_ok.
       2: { apply exec_checked_tx_ok; [done |].
            apply bool_decide_eq_true. simpl. by rewrite Hinv. }
       reflexivity. }
  2: done.
  unfold close_tx, with_db. simpl. by rewrite Hb, <- app_assoc.
Qed.

Lemma acceptInvite_expired w token clerk inv :
  quiet w → session w = Some clerk → Js.truthy clerk = true →
  Js.truthy (Js.trim token) = true →
  invites (db w) !! Js.trim token = Some inv →
  inv_status inv = "pending" →
  match expires_at inv with Some e => e < now w | None => True end →
  acceptInvite token w = (Err "Invitation has expired", w).
Proof.
  intros [Hb Hf] Hs Ht Htok Hinv Hst He.
  unfold acceptInvite. rewrite auth_ok, Hs.
  rewrite throw_if_false by (simpl; by rewrite Ht).
  rewrite throw_if_false by (by rewrite Htok).
  unfold try_catch, acceptInvite_try.
  rewrite (bind_ok _ _ _ _ _ (query_ok Prisma _ w Hf)).
  rewrite view_quiet by done. rewrite Hinv.
  rewrite throw_if_false by (by rewrite Hst).
  unfold bind at 1, newDate at 1.
  rewrite throw_if_true; [done |].
  destruct (expires_at inv); [lia | done].
Qed.

Lemma acceptInvite_mismatch w token clerk v inv e :
  quiet w → session w = Some clerk → Js.truthy clerk = true →
  Js.truthy (Js.trim token) = true →
  invites (db w) !! Js.trim token = Some inv →
  inv_status inv = "pending" → expires_at inv = Some e → now w ≤ e →
  users (db w) !! clerk = Some v → inv_email inv ≠ email v →
  acceptInvite token w
  = (Err "Email mismatch - invitation not for this user", w).
Proof.
  intros [Hb Hf] Hs Ht Htok Hinv Hst He Hnow Hv Hmail.
  unfold acceptInvite. rewrite auth_ok, Hs.
  rewrite throw_if_false by (simpl; by rewrite Ht).
  rewrite throw_if_false by (by rewrite Htok).
  unfold try_catch, acceptInvite_try.
  rewrite (bind_ok _ _ _ _ _ (query_ok Prisma _ w Hf)).
  rewrite view_quiet by done. rewrite Hinv.
  rewrite throw_if_false by (by rewrite Hst).
  unfold bind at 1, newDate at 1.
  rewrite throw_if_false by (rewrite He; lia).
  erewrite bind_ok;
    last (apply getOrCreateUser_known; [done | unfold committed; by rewrite Hb]).
  rewrite throw_if_true; [done |].
  by apply negb_true_iff, String.eqb_neq.
Qed.

(** X14: the life of an invitation, when the store answers.  An admin
    invites an address that belongs to no member and has no pending, valid
    invitation: the invitation is stored under the token for the address
    trimmed and in lower case, with the role trimmed and not otherwise
    checked, valid for twenty-four hours.  A user known to the store under
    exactly that address, not yet a member, who presents the token in time
    becomes a member with that role and the invitation becomes accepted;
    after the twenty-four hours the token is refused as expired; to a user
    with another address it is refused at any time before. *)
Theorem invitation_round_trip w status token orgId clerk o u org mail role :
  quiet w → Caller w orgId clerk o u org → Permitted w o u org ["admin"] →
  Js.truthy (Js.trim mail) = true → Js.truthy (Js.trim role) = true →
  let lower := toLowerCase (Js.trim mail) in
  member_with_email (db (bootstrapped o u org w)) o lower = false →
  pending_invite (db (bootstrapped o u org w)) o lower (now w) = false →
  invites (db w) !! token = None →
  Js.truthy token = true → Js.trim token = token → status = "pending" →
  ∃ w',
    inviteEmployee status token orgId mail role w = (Ok token, w')
    ∧ db w'
      = set_invites
          (insert token (mkInvite o lower (Js.trim role) "pending"
                           (Some (now w + 86400000))))
          (db (bootstrapped o u org w))
    ∧ ∀ w2 clerk2 v,
        quiet w2 → db w2 = db w' →
        session w2 = Some clerk2 → Js.truthy clerk2 = true →
        users (db w2) !! clerk2 = Some v →
        (email v = lower → members (db w2) !! (o, user_id v) = None →
         now w2 ≤ now w + 86400000 →
         ∃ w3,
           acceptInvite token w2 = (Ok (Js.show_Z o), w3)
           ∧ members (db w3)
             = <[(o, user_id v) := Js.trim role]> (members (db w2))
           ∧ inv_status <$> invites (db w3) !! token = Some "accepted")
        ∧ (now w + 86400000 < now w2 →
           acceptInvite token w2 = (Err "Invitation has expired", w2))
        ∧ (email v ≠ lower → now w2 ≤ now w + 86400000 →
           acceptInvite token w2
           = (Err "Email mismatch - invitation not for this user", w2)).
Proof.
  intros Hq Hcaller Hperm Hmail Hrole lower Hmember Hpending Hfree
    Htok Htrim ->.
  destruct (bootstrapped_db o u org w) as [m Hdb].
  eexists. split; [by apply (inviteEmployee_run w _ _ orgId clerk o u org) |].
  split; [done |].
  intros w2 clerk2 v Hq2 Hdb2 Hs2 Ht2 Hv.
  set (inv := mkInvite o lower (Js.trim role) "pending" (Some (now w + 86400000))).
  assert (invites (db w2) !! Js.trim token = Some inv) as Hinv.
  { rewrite Htrim, Hdb2. simpl. apply lookup_insert_eq. }
  split_and!.
  - intros Hemail Hnot Hnow. eexists. split.
    + apply (acceptInvite_run w2 token clerk2 v inv (now w + 86400000));
        try done. by rewrite Htrim.
    + simpl. split; [done |]. rewrite Htrim in Hinv |- *.
      by rewrite lookup_alter_eq, Hinv.
  - intros Hlate.
    apply (acceptInvite_expired w2 token clerk2 inv); try done.
    by rewrite Htrim.
  - intros Hother Hnow.
    apply (acceptInvite_mismatch w2 token clerk2 v inv (now w + 86400000));
      first [done | by rewrite Htrim | by intros <-].
Qed.

(** Ann invites Cat, whose earlier invitation has expired; Cat accepts an
    hour later. *)
Lemma invitation_round_trip_witness :
  let w := mkWorld Fixture.store None 100 (Some "clerk_ann") None 6000 [] [] in
  ∃ w' w3,
    inviteEmployee "pending" "c0ffee" "1" " Cat@Acme.test " " writer" w
    = (Ok "c0ffee", w')
    ∧ acceptInvite "c0ffee"
        (mkWorld (db w') None 101 (Some "clerk_cat") None 3606000 [] [])
      = (Ok "1", w3)
    ∧ members (db w3) !! (1, 3) = Some "writer".
Proof.
  intros w.
  destruct (invitation_round_trip w "pending" "c0ffee" "1" "clerk_ann" 1
              Fixture.ann Fixture.acme " Cat@Acme.test " " writer"
              ltac:(by split) ltac:(by split) ltac:(by exists "admin")
              ltac:(reflexivity) ltac:(reflexivity)
              ltac:(vm_compute; reflexivity) ltac:(vm_compute; reflexivity)
              ltac:(reflexivity) ltac:(reflexivity) ltac:(reflexivity)
              ltac:(reflexivity))
    as (w' & Hrun & Hdb & Hlife).
  set (w2 := mkWorld (db w') None 101 (Some "clerk_cat") None 3606000 [] []).
  destruct (Hlife w2 "clerk_cat" Fixture.cat
              ltac:(by split) ltac:(reflexivity) ltac:(reflexivity)
              ltac:(reflexivity)) as [Haccept _].
  { unfold w2. simpl. rewrite Hdb. reflexivity. }
  destruct Haccept as (w3 & Hrun3 & Hmem & _).
  - reflexivity.
  - unfold w2. simpl. rewrite Hdb. reflexivity.
  - unfold w2. simpl. lia.
  - exists w', w3. split_and!; [exact Hrun | exact Hrun3 |].
    rewrite Hmem. apply lookup_insert_eq.
Defined.

(** X15: an invitation sent to the very address of a user is of no use to
    that user unless the address is in lower case and has no blanks around
    it: [inviteEmployee] stores the address trimmed and in lower case,
    [acceptInvite] compares it with the stored address as it is.  The
    token is refused to that user at any time, and nothing is written. *)
Theorem invitation_needs_lower_case w status token orgId clerk o u org v role :
  quiet w → Caller w orgId clerk o u org → Permitted w o u org ["admin"] →
  Js.truthy (Js.trim (email v)) = true → Js.truthy (Js.trim role) = true →
  let lower := toLowerCase (Js.trim (email v)) in
  member_with_email (db (bootstrapped o u org w)) o lower = false →
  pending_invite (db (bootstrapped o u org w)) o lower (now w) = false →
  invites (db w) !! token = None →
  Js.truthy token = true → Js.trim token = token → status = "pending" →
  lower ≠ email v →
  ∃ w',
    inviteEmployee status token orgId (email v) role w = (Ok token, w')
    ∧ db w'
      = set_invites
          (insert token (mkInvite o lower (Js.trim role) "pending"
                           (Some (now w + 86400000))))
          (db (bootstrapped o u org w))
    ∧ ∀ w2 clerk2,
        quiet w2 → db w2 = db w' →
        session w2 = Some clerk2 → Js.truthy clerk2 = true →
        users (db w2) !! clerk2 = Some v →
        acceptInvite token w2
        = (Err (if now w + 86400000 <? now w2 then "Invitation has expired"
                else "Email mismatch - invitation not for this user"), w2).
Proof.
  intros Hq Hcaller Hperm Hmail Hrole lower Hmember Hpending Hfree
    Htok Htrim -> Hcase.
  eexists. split; [by apply (inviteEmployee_run w _ _ orgId clerk o u org) |].
  split; [done |].
  intros w2 clerk2 Hq2 Hdb2 Hs2 Ht2 Hv.
  set (inv := mkInvite o lower (Js.trim role) "pending" (Some (now w + 86400000))).
  assert (invites (db w2) !! Js.trim token = Some inv) as Hinv.
  { rewrite Htrim, Hdb2. simpl. apply lookup_insert_eq. }
  destruct (Z.ltb_spec (now w + 86400000) (now w2)) as [Hlate | Hnow].
  - apply (acceptInvite_expired w2 token clerk2 inv); try done.
    by rewrite Htrim.
  - apply (acceptInvite_mismatch w2 token clerk2 v inv (now w + 86400000));
      first [done | by rewrite Htrim].
Qed.
Lemma invitation_needs_lower_case_witness :
  let dee := mkUser 4 "Dee@Acme.test" in
  let d := set_users (insert "clerk_dee" dee) Fixture.store in
  let w := mkWorld d None 100 (Some "clerk_ann") None 6000 [] [] in
  ∃ w',
    inviteEmployee "pending" "c0ffee" "1" "Dee@Acme.test" "reader" w
    = (Ok "c0ffee", w')
    ∧ invites (db w') !! "c0ffee"
      = Some (mkInvite 1 "dee@acme.test" "reader" "pending" (Some 86406000))
    ∧ ∀ t, acceptInvite "c0ffee"
             (mkWorld (db w') None 101 (Some "clerk_dee") None t [] [])
           = (Err (if 86406000 <? t then "Invitation has expired"
                   else "Email mismatch - invitation not for this user"),
              mkWorld (db w') None 101 (Some "clerk_dee") None t [] []).
Proof.
  intros dee d w.
  destruct (invitation_needs_lower_case w "pending" "c0ffee" "1" "clerk_ann" 1
              Fixture.ann Fixture.acme dee "reader"
              ltac:(by split) ltac:(by split) ltac:(by exists "admin")
              ltac:(reflexivity) ltac:(reflexivity)
              ltac:(vm_compute; reflexivity) ltac:(vm_compute; reflexivity)
              ltac:(reflexivity) ltac:(reflexivity) ltac:(reflexivity)
              ltac:(reflexivity) ltac:(discriminate))
    as (w' & Hrun & Hdb & Hlife).
  exists w'. split; [exact Hrun |]. split.
  - rewrite Hdb. apply lookup_insert_eq.
  - intros t.
    apply (Hlife (mkWorld (db w') None 101 (Some "clerk_dee") None t [] [])
             "clerk_dee" (conj eq_refl eq_refl) eq_refl eq_refl eq_refl).
    simpl. rewrite Hdb. reflexivity.
Defined.
(** What [inviteEmployee] answers when the address has a member or a
    pending invitation. *)
Lemma inviteEmployee_refused w status token orgId clerk o u org mail role :
  quiet w → Caller w orgId clerk o u org → Permitted w o u org ["admin"] →
  Js.truthy (Js.trim mail) = true → Js.truthy (Js.trim role) = true →
  let w1 := bootstrapped o u org w in
  let lower := toLowerCase (Js.trim mail) in
  let isMember := member_with_email (db w1) o lower in
  isMember || pending_invite (db w1) o lower (now w) = true →
  inviteEmployee status token orgId mail role w
  = (Err (if isMember then "User is already a member of this organization"
          else "A pending invitation already exists for this email"), w1).
Proof.
  intros Hq Hcaller (r & Hrole & Hperm) Hmail Hr w1 lower isMember Hfound.
  pose proof Hcaller as [Hs Ht Hn Ho Hu Horg].
  destruct (bootstrapped_quiet o u org w Hq) as [Hb1 Hf1].
  unfold inviteEmployee.
  rewrite throw_if_false by (by rewrite (numeric_trim_truthy _ Hn)).
  rewrite throw_if_false by (by rewrite Hmail).
  rewrite throw_if_false by (by rewrite Hr).
  unfold try_catch, inviteEmployee_try.
  rewrite (bind_ok _ _ _ _ _ (toBigInt_ok _ _ w Ho)).
  rewrite (bind_ok _ _ _ _ _
             (requireRole_ok w orgId clerk o u org r
                (λ role, hasPermission role ["admin"]) _ Hq Hcaller Hrole Hperm)).
  fold w1. unfold bind at 1, newDate at 1.
  erewrite bind_ok;
    last (eapply all2_ok; apply query_ok; exact Hf1).
  rewrite !view_quiet by done. cbn [fst snd].
  fold lower. fold isMember.
  replace (now w1) with (now w) by (symmetry; apply bootstrapped_now).
  destruct isMember.
  - by rewrite throw_if_true.
  - rewrite throw_if_false by done. simpl in Hfound. rewrite Hfound.
    by rewrite throw_if_true.
Qed.

(** X16: an address has at most one pending invitation of an organization
    at a time.  When the store answers, [inviteEmployee] by an admin is
    refused for an address that a member's user has, and for an address
    with a pending invitation that has not expired; neither writes an
    invitation.  In particular, once an invitation is written, inviting
    any spelling of the same address again is refused for twenty-four
    hours. *)
Theorem inviteEmployee_one_pending w status token orgId clerk o u org mail role :
  quiet w → Caller w orgId clerk o u org → Permitted w o u org ["admin"] →
  Js.truthy (Js.trim mail) = true → Js.truthy (Js.trim role) = true →
  let w1 := bootstrapped o u org w in
  let lower := toLowerCase (Js.trim mail) in
  (member_with_email (db w1) o lower = true →
   inviteEmployee status token orgId mail role w
   = (Err "User is already a member of this organization", w1))
  ∧ (member_with_email (db w1) o lower = false →
     pending_invite (db w1) o lower (now w) = true →
     inviteEmployee status token orgId mail role w
     = (Err "A pending invitation already exists for this email", w1))
  ∧ (member_with_email (db w1) o lower = false →
     pending_invite (db w1) o lower (now w) = false →
     invites (db w) !! token = None → status = "pending" →
     ∃ w',
       inviteEmployee status token orgId mail role w = (Ok token, w')
       ∧ ∀ w2 token2 mail2 role2,
           quiet w2 → db w2 = db w' → session w2 = session w →
           now w2 ≤ now w + 86400000 →
           Js.truthy (Js.trim mail2) = true → Js.truthy (Js.trim role2) = true →
           toLowerCase (Js.trim mail2) = lower →
           inviteEmployee status token2 orgId mail2 role2 w2
           = (Err "A pending invitation already exists for this email",
              bootstrapped o u org w2)).
Proof.
  intros Hq Hcaller Hperm Hmail Hrole w1 lower. subst w1.
  split_and!.
  - intros Hm.
    rewrite (inviteEmployee_refused w status token orgId clerk o u org mail role);
      try done; fold lower; by rewrite Hm.
  - intros Hm Hp.
    rewrite (inviteEmployee_refused w status token orgId clerk o u org mail role);
      try done; fold lower; by rewrite Hm.
  - intros Hm Hp Hfree ->.
    eexists. split; [by apply (inviteEmployee_run w _ _ orgId clerk o u org) |].
    intros w2 token2 mail2 role2 Hq2 Hdb2 Hs2 Hnow Hmail2 Hrole2 Hsame.
    destruct (bootstrapped_db o u org w) as [m Hdb].
    destruct (bootstrapped_db o u org w2) as [m2 Hdbb2].
    pose proof Hcaller as [Hs Ht Hn Ho Hu Horg].
    assert (db w2 = set_invites
              (insert token (mkInvite o lower (Js.trim role) "pending"
                               (Some (now w + 86400000))))
              (set_members (λ _, m) (db w))) as Hd2.
    { rewrite Hdb2. simpl. by rewrite Hdb. }
    assert (Caller w2 orgId clerk o u org) as Hcaller2.
    { split; try done; [congruence | by rewrite Hd2 | by rewrite Hd2]. }
    assert (members (db (bootstrapped o u org w2))
            = members (db (bootstrapped o u org w))) as Hmem2.
    { unfold bootstrapped. case_bool_decide; simpl.
      - rewrite Hd2. simpl.
        assert (m = <[(o, user_id u) := "admin"]> (members (db w))) as ->.
        { unfold bootstrapped in Hdb.
          rewrite bool_decide_eq_true_2 in Hdb by done. simpl in Hdb.
          by injection Hdb. }
        by rewrite insert_insert_eq.
      - rewrite Hd2. simpl. unfold bootstrapped in Hdb.
        rewrite bool_decide_eq_false_2 in Hdb by done.
        rewrite Hdb. done. }
    assert (Permitted w2 o u org ["admin"]) as Hperm2.
    { destruct Hperm as (r & Hr & Hpr). exists r. split; [| done].
      unfold roleOf in *. case_bool_decide; [done |].
      rewrite Hd2. simpl.
      unfold bootstrapped in Hdb.
      rewrite bool_decide_eq_false_2 in Hdb by done.
      assert (m = members (db w)) as -> by (by rewrite Hdb).
      done. }
    rewrite (inviteEmployee_refused w2 "pending" token2 orgId clerk o u org
               mail2 role2); try done.
    + rewrite Hsame.
      assert (member_with_email (db (bootstrapped o u org w2)) o lower = false)
        as ->; [| done].
      unfold member_with_email in *. rewrite Hmem2.
      assert (users (db (bootstrapped o u org w2))
              = users (db (bootstrapped o u org w))) as ->; [| exact Hm].
      rewrite Hdbb2, Hd2, Hdb. done.
    + rewrite Hsame. apply orb_true_iff. right.
      apply bool_decide_eq_true.
      exists token,
        (mkInvite o lower (Js.trim role) "pending" (Some (now w + 86400000))).
      split.
      * rewrite Hdbb2, Hd2. simpl. apply lookup_insert_eq.
      * simpl. rewrite Z.eqb_refl, String.eqb_refl. simpl.
        by apply Z.leb_le.
Qed.

(** Bob is a member; Cat has a pending invitation. *)
Lemma inviteEmployee_one_pending_witness :
  let w := Fixture.request "clerk_ann" Fixture.store in
  (inviteEmployee "pending" "c0ffee" "1" "BOB@acme.test" "reader" w).1
  = Err "User is already a member of this organization"
  ∧ (inviteEmployee "pending" "c0ffee" "1" " Cat@Acme.Test" "reader" w).1
    = Err "A pending invitation already exists for this email".
Proof.
  intros w.
  assert (quiet w) as Hq by (by split).
  assert (Caller w "1" "clerk_ann" 1 Fixture.ann Fixture.acme) as Hcaller
    by (by split).
  assert (Permitted w 1 Fixture.ann Fixture.acme ["admin"]) as Hperm
    by (by exists "admin").
  assert (member_with_email (db (bootstrapped 1 Fixture.ann Fixture.acme w)) 1
            (toLowerCase (Js.trim "BOB@acme.test")) = true) as Hbob
    by (vm_compute; reflexivity).
  assert (member_with_email (db (bootstrapped 1 Fixture.ann Fixture.acme w)) 1
            (toLowerCase (Js.trim " Cat@Acme.Test")) = false) as Hcat
    by (vm_compute; reflexivity).
  assert (pending_invite (db (bootstrapped 1 Fixture.ann Fixture.acme w)) 1
            (toLowerCase (Js.trim " Cat@Acme.Test")) (now w) = true) as Hinv
    by (vm_compute; reflexivity).
  pose proof (proj1 (inviteEmployee_one_pending w "pending" "c0ffee" "1"
                       "clerk_ann" 1 Fixture.ann Fixture.acme "BOB@acme.test"
                       "reader" Hq Hcaller Hperm eq_refl eq_refl) Hbob)
    as Hmember.
  pose proof (proj1 (proj2 (inviteEmployee_one_pending w "pending" "c0ffee" "1"
                       "clerk_ann" 1 Fixture.ann Fixture.acme " Cat@Acme.Test"
                       "reader" Hq Hcaller Hperm eq_refl eq_refl)) Hcat Hinv)
    as Hpending.
  split.
  - rewrite Hmember. reflexivity.
  - rewrite Hpending. reflexivity.
Defined.

(** *** The organizations of a user *)

Lemma filter_map_comm {A B} (P : B → bool) (g : A → B) (l : list A) :
  List.filter P (map g l) = map g (List.filter (λ x, P (g x)) l).
Proof.
  induction l as [|x l IH]; [done |]. simpl.
  destruct (P (g x)); simpl; by rewrite IH.
Qed.

Lemma filter_and {A} (a b : A → bool) (l : list A) :
  List.filter (λ x, a x && b x) l = List.filter a (List.filter b l).
Proof.
  induction l as [|x l IH]; [done |]. simpl.
  destruct (b x); simpl; rewrite ?andb_true_r, ?andb_false_r.
  - destruct (a x); by rewrite IH.
  - exact IH.
Qed.

Lemma filter_ext_bool {A} (a b : A → bool) (l : list A) :
  (∀ x, a x = b x) → List.filter a l = List.filter b l.
Proof.
  intros H. induction l as [|x l IH]; [done |]. simpl. by rewrite H, IH.
Qed.

(** [uniqueOrgs] keeps the first entry of each id. *)
Lemma uniqueOrgs_cons x t :
  uniqueOrgs (x :: t)
  = x :: List.filter (λ y, negb (String.eqb (so_id x) (so_id y))) (uniqueOrgs t).
Proof.
  unfold uniqueOrgs. rewrite imap_cons. cbn [List.filter findIndex snd fst].
  rewrite String.eqb_refl. rewrite bool_decide_eq_true_2 by done.
  cbn [map snd]. f_equal.
  rewrite (imap_ext (pair ∘ S) (λ n, prod_map S id ∘ pair n) t) by done.
  rewrite <- (fmap_imap pair (prod_map S id) t).
  change (prod_map S id <$> imap pair t) with (map (prod_map S id) (imap pair t)).
  rewrite filter_map_comm, map_map. cbn [prod_map snd fst id].
  rewrite filter_map_comm.
  rewrite <- filter_and. f_equal.
  apply filter_ext_bool. intros [i y]. unfold prod_map. cbn [fst snd id].
  destruct (String.eqb (so_id x) (so_id y)) eqn:E; cbn [negb andb].
  - by rewrite bool_decide_eq_false_2.
  - destruct (findIndex _ t) as [j|]; cbn [fmap option_fmap option_map].
    + apply bool_decide_ext. split; [by intros [= ->] | by intros [= ->]].
    + by rewrite !bool_decide_eq_false_2.
Qed.

Lemma elem_of_filter_bool {A} (P : A → bool) (l : list A) x :
  x ∈ List.filter P l ↔ x ∈ l ∧ P x = true.
Proof. rewrite !list_elem_of_In. apply filter_In. Qed.

Lemma uniqueOrgs_subset l x : x ∈ uniqueOrgs l → x ∈ l.
Proof.
  revert x. induction l as [|y t IH]; intros x; [done |].
  rewrite uniqueOrgs_cons. intros [-> | Hin]%elem_of_cons; [by left |].
  apply elem_of_filter_bool in Hin as [Hin _]. right. by apply IH.
Qed.

Lemma uniqueOrgs_NoDup l : NoDup (map so_id (uniqueOrgs l)).
Proof.
  induction l as [|x t IH]; [constructor |].
  rewrite uniqueOrgs_cons. cbn [map]. constructor.
  - intros Hin. apply list_elem_of_fmap in Hin as (y & Hid & Hy).
    apply elem_of_filter_bool in Hy as [_ Hne].
    by rewrite Hid, String.eqb_refl in Hne.
  - revert IH. generalize (uniqueOrgs t). intros l. induction l as [|y l IHl].
    + constructor.
    + cbn [map List.filter]. intros [Hy Hl]%NoDup_cons.
      destruct (negb _); [| by apply IHl]. cbn [map]. constructor.
      * intros Hin. apply Hy.
        apply list_elem_of_fmap in Hin as (z & -> & Hz).
        apply elem_of_filter_bool in Hz as [Hz _].
        by apply list_elem_of_fmap_2.
      * by apply IHl.
Qed.

(** The first entry of an id is kept. *)
Lemma uniqueOrgs_first l1 x l2 :
  (∀ y, y ∈ l1 → so_id y ≠ so_id x) → x ∈ uniqueOrgs (l1 ++ x :: l2).
Proof.
  induction l1 as [|y t IH]; intros Hfirst; cbn [app];
    rewrite uniqueOrgs_cons; [by left |].
  right. apply elem_of_filter_bool. split.
  - apply IH. intros z Hz. apply Hfirst. by right.
  - apply negb_true_iff, String.eqb_neq. apply Hfirst. by left.
Qed.

Lemma uniqueOrgs_covers l x :
  x ∈ l → ∃ y, y ∈ uniqueOrgs l ∧ so_id y = so_id x.
Proof.
  induction l as [|z t IH]; [by intros ?%elem_of_nil |].
  rewrite uniqueOrgs_cons. intros [-> | Hin]%elem_of_cons.
  - exists z. split; [by left | done].
  - destruct (IH Hin) as (y & Hy & Hid).
    destruct (String.eqb_spec (so_id z) (so_id y)) as [E | Hne].
    + exists z. split; [by left | congruence].
    + exists y. split; [| done]. right. apply elem_of_filter_bool.
      split; [done |]. by apply negb_true_iff, String.eqb_neq.
Qed.

Lemma NoDup_map_filter {A B} (g : A → B) (P : A → bool) (l : list A) :
  NoDup (map g l) → NoDup (map g (List.filter P l)).
Proof.
  induction l as [|y l IHl]; [done |].
  cbn [map List.filter]. intros [Hy Hl]%NoDup_cons.
  destruct (P y); [| by apply IHl]. cbn [map]. constructor.
  - intros Hin. apply Hy.
    apply list_elem_of_fmap in Hin as (z & -> & Hz).
    apply elem_of_filter_bool in Hz as [Hz _].
    by apply list_elem_of_fmap_2.
  - by apply IHl.
Qed.

Lemma uniqueOrgs_keeps l l' x :
  NoDup (map so_id l) → x ∈ l → x ∈ uniqueOrgs (l ++ l').
Proof.
  intros Hnd Hx. apply list_elem_of_split in Hx as (l1 & l2 & ->).
  rewrite <- app_assoc. cbn [app]. apply uniqueOrgs_first.
  intros y Hy Hid. rewrite map_app in Hnd. cbn [map] in Hnd.
  apply NoDup_app in Hnd as (_ & Hdisj & _).
  apply (Hdisj (so_id y)); [by apply list_elem_of_fmap_2 |].
  rewrite Hid. by left.
Qed.

Lemma createdOrganizations_elem d u x :
  x ∈ createdOrganizations d u ↔
  ∃ o org, organizations d !! o = Some org ∧ created_by org = user_id u
           ∧ x = mkSimpleOrg (Js.show_Z o) (org_name org) "admin".
Proof.
  unfold createdOrganizations. rewrite list_elem_of_fmap. split.
  - intros ([o org] & -> & Hin). apply elem_of_filter_bool in Hin as [Hin Hc].
    apply elem_of_map_to_list in Hin. apply Z.eqb_eq in Hc.
    by exists o, org.
  - intros (o & org & Ho & Hc & ->). exists (o, org). split; [done |].
    apply elem_of_filter_bool. split; [by apply elem_of_map_to_list |].
    by apply Z.eqb_eq.
Qed.

Lemma createdOrganizations_NoDup d u :
  NoDup (map so_id (createdOrganizations d u)).
Proof.
  unfold createdOrganizations. rewrite map_map. cbn [so_id].
  rewrite <- (map_map fst Js.show_Z).
  apply (@NoDup_fmap_2 _ _ Js.show_Z show_Z_inj).
  apply NoDup_map_filter. apply NoDup_fst_map_to_list.
Qed.

Lemma organizationMembers_elem d u memberOf x :
  organizationMembers d u = Some memberOf →
  x ∈ memberOf ↔
  ∃ o org role, organizations d !! o = Some org
                ∧ members d !! (o, user_id u) = Some role
                ∧ x = mkSimpleOrg (Js.show_Z o) (org_name org) role.
Proof.
  unfold organizationMembers. intros H. apply mapM_Some in H. split.
  - intros Hx. apply list_elem_of_lookup in Hx as [i Hi].
    destruct (Forall2_lookup_r _ _ _ _ _ H Hi) as ([[o uid] role] & Hkv & Hf).
    apply list_elem_of_lookup_2 in Hkv.
    apply elem_of_filter_bool in Hkv as [Hkv Hu]. cbn [fst snd] in Hu, Hf.
    apply elem_of_map_to_list in Hkv. apply Z.eqb_eq in Hu. subst uid.
    destruct (organizations d !! o) as [org|] eqn:Horg; [| done].
    injection Hf as <-. by exists o, org, role.
  - intros (o & org & role & Horg & Hm & ->).
    assert (((o, user_id u), role)
            ∈ List.filter (λ kv, kv.1.2 =? user_id u) (map_to_list (members d)))
      as Hkv.
    { apply elem_of_filter_bool. split; [by apply elem_of_map_to_list |].
      cbn [fst snd]. apply Z.eqb_refl. }
    apply list_elem_of_lookup in Hkv as [i Hi].
    destruct (Forall2_lookup_l _ _ _ _ _ H Hi) as (y & Hy & Hf).
    cbn [fst snd] in Hf. rewrite Horg in Hf. injection Hf as <-.
    by apply list_elem_of_lookup_2 in Hy.
Qed.

(** X17: the list of [getUserOrganizations], for a known user whose member
    rows all have their organization, when the store answers.  No id occurs
    twice in it.  Every organization the user created is listed with the
    role "admin", whatever the user's member row says; every organization
    the user is a member of is listed; and every entry is an organization
    of the user, with its name, and with the role "admin" or the role of
    the member row. *)
Theorem getUserOrganizations_lists w clerk u :
  quiet w → session w = Some clerk → Js.truthy clerk = true →
  users (db w) !! clerk = Some u →
  (∀ o role, members (db w) !! (o, user_id u) = Some role →
             is_Some (organizations (db w) !! o)) →
  ∃ orgs,
    getUserOrganizations w = (Ok orgs, w)
    ∧ NoDup (map so_id orgs)
    ∧ (∀ o org,
         organizations (db w) !! o = Some org → created_by org = user_id u →
         mkSimpleOrg (Js.show_Z o) (org_name org) "admin" ∈ orgs)
    ∧ (∀ o org role,
         organizations (db w) !! o = Some org →
         members (db w) !! (o, user_id u) = Some role →
         ∃ x, x ∈ orgs ∧ so_id x = Js.show_Z o ∧ so_name x = org_name org)
    ∧ (∀ x, x ∈ orgs →
         ∃ o org,
           organizations (db w) !! o = Some org
           ∧ so_id x = Js.show_Z o ∧ so_name x = org_name org
           ∧ ((created_by org = user_id u ∧ so_role x = "admin")
              ∨ members (db w) !! (o, user_id u) = Some (so_role x))).
Proof.
  intros [Hb Hf] Hs Ht Hu Hfk.
  assert (is_Some (organizationMembers (db w) u)) as [memberOf Hmem].
  { unfold organizationMembers. apply mapM_is_Some, list.Forall_forall.
    intros [[o uid] role] Hkv.
    apply elem_of_filter_bool in Hkv as [Hkv Hsame]. cbn [fst snd] in *.
    apply elem_of_map_to_list in Hkv. apply Z.eqb_eq in Hsame. subst uid.
    destruct (Hfk o role Hkv) as [org Horg].
    unfold compose. cbn [fst snd]. rewrite Horg. by eexists. }
  set (created := createdOrganizations (db w) u).
  assert (∀ x, x ∈ uniqueOrgs (created ++ memberOf) →
    ∃ o org,
      organizations (db w) !! o = Some org
      ∧ so_id x = Js.show_Z o ∧ so_name x = org_name org
      ∧ ((created_by org = user_id u ∧ so_role x = "admin")
         ∨ members (db w) !! (o, user_id u) = Some (so_role x))) as Hsound.
  { intros x Hx%uniqueOrgs_subset. apply elem_of_app in Hx as [Hx | Hx].
    - apply createdOrganizations_elem in Hx as (o & org & Ho & Hc & ->).
      exists o, org. split_and!; [done | done | done | by left].
    - apply (organizationMembers_elem _ _ _ _ Hmem) in Hx
        as (o & org & role & Ho & Hm & ->).
      exists o, org. split_and!; [done | done | done | by right]. }
  exists (uniqueOrgs (created ++ memberOf)). split_and!.
  - unfold getUserOrganizations. rewrite auth_ok, Hs.
    rewrite throw_if_false by (simpl; by rewrite Ht).
    rewrite (bind_ok _ _ _ _ _ (query_ok Prisma _ w Hf)).
    rewrite view_quiet by done.
    change (default "" (Some clerk)) with clerk. by rewrite Hu, Hmem.
  - apply uniqueOrgs_NoDup.
  - intros o org Ho Hc. apply uniqueOrgs_keeps.
    + apply createdOrganizations_NoDup.
    + apply createdOrganizations_elem. by exists o, org.
  - intros o org role Ho Hm.
    destruct (uniqueOrgs_covers (created ++ memberOf)
                (mkSimpleOrg (Js.show_Z o) (org_name org) role))
      as (y & Hy & Hid).
    { apply elem_of_app. right.
      apply (organizationMembers_elem _ _ _ _ Hmem). by exists o, org, role. }
    exists y. split_and!; [done | done |].
    destruct (Hsound y Hy) as (o' & org' & Ho' & Hid' & Hname & _).
    cbn [so_id] in Hid. rewrite Hid' in Hid. apply show_Z_inj in Hid.
    subst o'. congruence.
  - exact Hsound.
Qed.

(** Ann, whose member row in her own organization says "reader". *)
Lemma getUserOrganizations_lists_witness :
  let w := Fixture.request "clerk_ann"
             (set_members (insert (1, 1) "reader") Fixture.store) in
  ∃ orgs,
    getUserOrganizations w = (Ok orgs, w)
    ∧ mkSimpleOrg "1" "Acme" "admin" ∈ orgs
    ∧ NoDup (map so_id orgs)
    ∧ orgs = [mkSimpleOrg "1" "Acme" "admin"].
Proof.
  intros w.
  assert (∀ o role, members (db w) !! (o, user_id Fixture.ann) = Some role →
                    is_Some (organizations (db w) !! o)) as Hfk.
  { intros o role Hm. destruct (decide (o = 1)) as [-> | Hne]; [by eexists |].
    exfalso. simpl in Hm.
    rewrite !lookup_insert_ne in Hm by congruence.
    by rewrite lookup_empty in Hm. }
  assert ((getUserOrganizations w).1 = Ok [mkSimpleOrg "1" "Acme" "admin"])
    as Hlist by (vm_compute; reflexivity).
  destruct (getUserOrganizations_lists w "clerk_ann" Fixture.ann
              (conj eq_refl eq_refl) eq_refl eq_refl eq_refl Hfk)
    as (orgs & Hrun & Hnodup & Hcreated & _).
  exists orgs. split_and!; [exact Hrun | | exact Hnodup |].
  - apply (Hcreated 1 Fixture.acme); reflexivity.
  - rewrite Hrun in Hlist. by injection Hlist.
Defined.

(** *** The price history *)

Lemma existsb_find_some {A} (P : A → bool) (l : list A) x :
  List.find P l = Some x → existsb P l = true.
Proof.
  intros H. apply find_some in H as [Hin HP].
  apply existsb_exists. by exists x.
Qed.

Lemma open_closePrices pid t l :
  List.filter (λ r, (pp_product r =? pid) && bool_decide (valid_to r = None))
    (map (closePrices pid t) l) = [].
Proof.
  induction l as [| r l IH]; [done |]. simpl. rewrite IH.
  unfold closePrices.
  destruct ((pp_product r =? pid) && bool_decide (valid_to r = None)) eqn:Hr.
  - simpl. by rewrite andb_false_r.
  - by rewrite Hr.
Qed.

Lemma updateProductDetails_tx_priced w o pid u data price :
  faults w = [] →
  existsb (λ p, (product_id p =? pid) && (p_org p =? o)) (products (db w)) = true →
  dt_price data = Some price →
  ∃ w2,
    updateProductDetails_tx o pid u data w = (Ok tt, w2)
    ∧ faults w2 = []
    ∧ db w2
      = set_productPrices
          (λ l, (map (closePrices pid (now w)) l
                 ++ [mkPrice (nextId w) pid price (dt_actualPrice data)
                       (dt_marketPrice data) (now w) None])%list)
          (set_products (map (λ p,
             if (product_id p =? pid) && (p_org p =? o)
             then set_details data u p else p)) (db w)).
Proof.
  intros Hf Hex Hprice. eexists. unfold updateProductDetails_tx.
  rewrite (bind_ok _ _ _ _ _ (exec_checked_tx_ok _ _ _ _ w Hf Hex)).
  rewrite Hprice. unfold newDate at 1, bind at 1. simpl.
  erewrite bind_ok by (by apply exec_tx_ok).
  unfold fresh, bind at 1. unfold newDate, bind at 1. simpl.
  rewrite exec_tx_ok by done.
  split; [reflexivity |]. split; [done |].
  simpl. by destruct (db w).
Qed.

Lemma closePrices_other pid t r :
  pp_product r ≠ pid ∨ valid_to r ≠ None → closePrices pid t r = r.
Proof.
  intros H. unfold closePrices.
  destruct (Z.eqb_spec (pp_product r) pid) as [Hp | Hp]; [| done].
  case_bool_decide; [| done]. destruct H; congruence.
Qed.

(** X18: [updateProductDetails] keeps the price history, when the store
    answers.  For a permitted caller, a product of the caller's organization
    and data that hold a price and no SKU: the action succeeds; the product
    then has exactly one price row without an end date, a new one that
    holds the price as it was given, also a negative one; every row that
    was there is still there, with its key, product, prices and start date,
    the rows of this product all with an end date, the rows of other
    products and the rows already ended as they were; the stock rows are
    untouched. *)
Theorem updateProductDetails_price_history
    w orgId productId clerk o u org pid p data price :
  quiet w → Caller w orgId clerk o u org → Permitted w o u org writerRoles →
  reads productId pid →
  List.find (λ p, (product_id p =? pid) && (p_org p =? o)) (products (db w))
  = Some p →
  dt_sku data = None → dt_price data = Some price →
  ∃ w' new,
    updateProductDetails orgId productId data w = (Ok tt, w')
    ∧ List.filter
        (λ r, (pp_product r =? pid) && bool_decide (valid_to r = None))
        (productPrices (db w')) = [new]
    ∧ pp_product new = pid ∧ retail_price new = price
    ∧ actual_price new = dt_actualPrice data
    ∧ market_price new = dt_marketPrice data
    ∧ length (productPrices (db w')) = S (length (productPrices (db w)))
    ∧ (∀ r, r ∈ productPrices (db w) →
         ∃ r', r' ∈ productPrices (db w')
           ∧ price_id r' = price_id r ∧ pp_product r' = pp_product r
           ∧ retail_price r' = retail_price r
           ∧ actual_price r' = actual_price r
           ∧ market_price r' = market_price r
           ∧ valid_from r' = valid_from r
           ∧ (pp_product r = pid → valid_to r' ≠ None)
           ∧ (pp_product r ≠ pid ∨ valid_to r ≠ None → r' = r))
    ∧ productStocks (db w') = productStocks (db w).
Proof.
  intros Hq Hcaller (role & Hrole & Hperm) [Hp1 Hp2] Hfind Hsku Hprice.
  pose proof Hcaller as [Hs Hc Hn Ho Hu Horg].
  pose proof (numeric_trim_truthy _ Hn) as Horgid.
  destruct (bootstrapped_quiet o u org w Hq) as [Hb1 Hf1].
  destruct (bootstrapped_db o u org w) as [m Hdb].
  set (w1 := bootstrapped o u org w) in *.
  destruct (updateProductDetails_tx_priced (open_tx w1) o pid u data price)
    as (w2 & Hrun & Hf2 & Hdb2); [done | | done |].
  { simpl. rewrite Hdb. simpl. by apply (existsb_find_some _ _ p). }
  simpl in Hdb2. rewrite Hdb in Hdb2. simpl in Hdb2.
  assert (now w1 = now w) as Hnow by apply bootstrapped_now.
  assert (nextId w1 = nextId w) as Hid by apply bootstrapped_nextId.
  rewrite Hnow, Hid in Hdb2.
  exists (close_tx (db w2) w2),
    (mkPrice (nextId w) pid price (dt_actualPrice data) (dt_marketPrice data)
       (now w) None).
  split.
  { unfold updateProductDetails. rewrite auth_ok, Hs.
    rewrite throw_if_false by (simpl; by rewrite Hc).
    rewrite throw_if_false by (by rewrite Horgid).
    rewrite throw_if_false by (by rewrite Hp1).
    apply try_catch_ok. unfold updateProductDetails_try.
    rewrite (bind_ok _ _ _ _ _ (toBigInt_ok _ _ w Ho)).
    rewrite (bind_ok _ _ _ _ _ (toBigInt_ok _ _ w Hp2)).
    by apply (guarded_transaction_ok w orgId clerk o u org role). }
  simpl. rewrite Hdb2. simpl.
  split_and!; try done.
  - rewrite List.filter_app, open_closePrices. simpl.
    by rewrite Z.eqb_refl.
  - rewrite length_app, length_map. simpl. lia.
  - intros r Hr. exists (closePrices pid (now w) r).
    split; [| split_and!].
    + apply elem_of_app. left. apply list_elem_of_fmap. by exists r.
    + unfold closePrices. by destruct (_ && _).
    + unfold closePrices. by destruct (_ && _).
    + unfold closePrices. by destruct (_ && _).
    + unfold closePrices. by destruct (_ && _).
    + unfold closePrices. by destruct (_ && _).
    + unfold closePrices. by destruct (_ && _).
    + intros Heq. unfold closePrices. rewrite Heq, Z.eqb_refl. simpl.
      case_bool_decide as Hv; [done |]. done.
    + apply closePrices_other.
Qed.

(** Bob sets a negative price on the Widget. *)
Lemma updateProductDetails_price_history_witness :
  let w := Fixture.request "clerk_bob" Fixture.store in
  let data := mkDetails None None None None None (Some (-(5 # 2))%Q) None None in
  ∃ w' new,
    updateProductDetails "1" "10" data w = (Ok tt, w')
    ∧ List.filter
        (λ r, (pp_product r =? 10) && bool_decide (valid_to r = None))
        (productPrices (db w')) = [new]
    ∧ retail_price new = (-(5 # 2))%Q
    ∧ length (productPrices (db w')) = 2%nat.
Proof.
  intros w data.
  assert (quiet w) as Hq by (by split).
  assert (Caller w "1" "clerk_bob" 1 Fixture.bob Fixture.acme) as Hcaller
    by (by split).
  assert (Permitted w 1 Fixture.bob Fixture.acme writerRoles) as Hperm
    by (by exists "writer").
  assert (reads "10" 10) as Hreads by (by split).
  destruct (updateProductDetails_price_history w "1" "10" "clerk_bob" 1
              Fixture.bob Fixture.acme 10 _ data _
              Hq Hcaller Hperm Hreads eq_refl eq_refl eq_refl)
    as (w' & new & Hrun & Hopen & _ & Hretail & _ & _ & Hlen & _).
  exists w', new. split_and!; [exact Hrun | exact Hopen | exact Hretail | exact Hlen].
Defined.

(** *** Deleting a product *)

Lemma elem_of_filter_negb {A} (P : A → bool) (l : list A) x :
  x ∈ List.filter (λ y, negb (P y)) l ↔ x ∈ l ∧ P x = false.
Proof.
  rewrite !list_elem_of_In, filter_In. by rewrite negb_true_iff.
Qed.

(** X19: what [deleteProductDetails] deletes, when the store answers.  For
    a permitted caller: a product key that an order item refers to is
    refused, whose product it may be, before anything is deleted; for a
    product of the caller's organization that no order item and no stock
    movement refers to, the action succeeds and removes the product, all
    its price rows and all its stock rows, and nothing else of the
    inventory. *)
Theorem deleteProductDetails_removes w orgId productId clerk o u org pid :
  quiet w → Caller w orgId clerk o u org → Permitted w o u org writerRoles →
  reads productId pid →
  ((0 < count (λ i, (oi_product i =? pid)%Z) (orderItems (db w)))%nat →
   deleteProductDetails orgId productId w
   = (Err "Cannot delete product that has been ordered. Archive it instead.",
      bootstrapped o u org w))
  ∧ (count (λ i, oi_product i =? pid) (orderItems (db w)) = 0%nat →
     (∃ p, p ∈ products (db w) ∧ product_id p = pid ∧ p_org p = o) →
     (∀ m, m ∈ stockMovements (db w) → sm_product m ≠ pid) →
     ∃ w',
       deleteProductDetails orgId productId w = (Ok tt, w')
       ∧ (∀ p, p ∈ products (db w')
            ↔ p ∈ products (db w) ∧ ¬ (product_id p = pid ∧ p_org p = o))
       ∧ (∀ r, r ∈ productPrices (db w')
            ↔ r ∈ productPrices (db w) ∧ pp_product r ≠ pid)
       ∧ (∀ s, s ∈ productStocks (db w')
            ↔ s ∈ productStocks (db w) ∧ ps_product s ≠ pid)
       ∧ warehouses (db w') = warehouses (db w)
       ∧ stockMovements (db w') = stockMovements (db w)
       ∧ orderItems (db w') = orderItems (db w)).
Proof.
  intros Hq Hcaller (role & Hrole & Hperm) [Hp1 Hp2].
  pose proof Hcaller as [Hs Hc Hn Ho Hu Horg].
  pose proof (numeric_trim_truthy _ Hn) as Horgid.
  destruct (bootstrapped_quiet o u org w Hq) as [Hb1 Hf1].
  destruct (bootstrapped_db o u org w) as [m Hdb].
  set (w1 := bootstrapped o u org w) in *.
  assert (∀ denied,
    requireRole orgId (λ r, hasPermission r writerRoles) denied w = (Ok tt, w1))
    as Hrole_ok.
  { intros denied. by apply (requireRole_ok w orgId clerk o u org role). }
  assert (deleteProductDetails orgId productId w
    = try_catch
        (throw_if (Nat.ltb 0 (count (λ i, oi_product i =? pid) (orderItems (db w))))
           "Cannot delete product that has been ordered. Archive it instead." ;;
         transaction (deleteProductDetails_tx o pid) ;;
         invalidateProducts orgId) details_catch w1) as Hshell.
  { unfold deleteProductDetails. rewrite auth_ok, Hs.
    rewrite throw_if_false by (simpl; by rewrite Hc).
    rewrite throw_if_false by (by rewrite Horgid).
    rewrite throw_if_false by (by rewrite Hp1).
    unfold try_catch at 1, deleteProductDetails_try.
    rewrite (bind_ok _ _ _ _ _ (toBigInt_ok _ _ w Ho)).
    rewrite (bind_ok _ _ _ _ _ (toBigInt_ok _ _ w Hp2)).
    rewrite (bind_ok _ _ _ _ _ (Hrole_ok _)).
    rewrite (bind_ok _ _ _ _ _ (query_ok Prisma _ w1 Hf1)).
    rewrite view_quiet by done. rewrite Hdb. simpl. done. }
  rewrite Hshell. split.
  - intros Hcount. unfold try_catch.
    rewrite throw_if_true by (by apply Nat.ltb_lt). done.
  - intros Hcount (p & Hin & Hpid & Hporg) Hmov.
    set (d2 := set_products (List.filter (λ p,
                 negb ((product_id p =? pid) && (p_org p =? o))))
               (set_productStocks
                  (List.filter (λ r, negb (ps_product r =? pid)))
                  (set_productPrices
                     (List.filter (λ r, negb (pp_product r =? pid)))
                     (db w1)))).
    assert (deleteProductDetails_tx o pid (open_tx w1)
            = (Ok tt, with_db (λ _, d2)
                        [Delete TProductPrice; Delete TProductStock;
                         Delete TProduct] (open_tx w1))) as Hrun.
    { unfold deleteProductDetails_tx.
      rewrite (bind_ok _ _ _ _ _ (exec_tx_ok _ _ (open_tx w1) Hf1)).
      erewrite bind_ok by (by apply exec_tx_ok).
      rewrite exec_checked_tx_ok; [| done |].
      - unfold with_db. simpl. by rewrite <- !app_assoc.
      - simpl. rewrite Hdb. simpl. apply existsb_exists. exists p.
        apply list_elem_of_In in Hin.
        split; [done |]. apply andb_true_iff. split; by apply Z.eqb_eq. }
    eexists. split.
    { apply try_catch_ok. rewrite throw_if_false by (by rewrite Hcount).
      erewrite bind_ok by (eapply transaction_ok; [exact Hf1 | exact Hrun | exact Hf1]).
      apply io_ok. exact Hf1. }
    simpl. subst d2. rewrite Hdb. simpl. split_and!; try done.
    + intros q. rewrite elem_of_filter_negb. apply and_iff_compat_l.
      rewrite andb_false_iff, !Z.eqb_neq. split; [tauto |].
      intros Hn'. destruct (decide (product_id q = pid)); [right | left]; tauto.
    + intros r. rewrite elem_of_filter_negb. by rewrite Z.eqb_neq.
    + intros s. rewrite elem_of_filter_negb. by rewrite Z.eqb_neq.
Qed.

(** Bob deletes the Widget; once an order item refers to it he no longer
    can. *)
Lemma deleteProductDetails_removes_witness :
  let w := Fixture.request "clerk_bob" Fixture.store in
  let ordered :=
    Fixture.request "clerk_bob"
      (set_orderItems (λ _, [mkOrderItem 1 1 10]) Fixture.store) in
  (∃ w',
     deleteProductDetails "1" "10" w = (Ok tt, w')
     ∧ (∀ p, p ∈ products (db w')
          ↔ p ∈ products (db w) ∧ ¬ (product_id p = 10 ∧ p_org p = 1))
     ∧ (∀ s, s ∈ productStocks (db w')
          ↔ s ∈ productStocks (db w) ∧ ps_product s ≠ 10))
  ∧ deleteProductDetails "1" "10" ordered
    = (Err "Cannot delete product that has been ordered. Archive it instead.",
       ordered).
Proof.
  intros w ordered.
  assert (quiet w) as Hq by (by split).
  assert (Caller w "1" "clerk_bob" 1 Fixture.bob Fixture.acme) as Hcaller
    by (by split).
  assert (Permitted w 1 Fixture.bob Fixture.acme writerRoles) as Hperm
    by (by exists "writer").
  assert (quiet ordered) as Hq' by (by split).
  assert (Caller ordered "1" "clerk_bob" 1 Fixture.bob Fixture.acme) as Hcaller'
    by (by split).
  assert (Permitted ordered 1 Fixture.bob Fixture.acme writerRoles) as Hperm'
    by (by exists "writer").
  assert (reads "10" 10) as Hreads by (by split).
  assert (∃ p, p ∈ products (db w) ∧ product_id p = 10 ∧ p_org p = 1) as Hp.
  { eexists. split; [apply list_elem_of_here | by split]. }
  assert (∀ m, m ∈ stockMovements (db w) → sm_product m ≠ 10) as Hmov.
  { intros m Hm. by apply elem_of_nil in Hm. }
  split.
  - destruct (proj2 (deleteProductDetails_removes w "1" "10" "clerk_bob" 1
                       Fixture.bob Fixture.acme 10 Hq Hcaller Hperm Hreads)
                eq_refl Hp Hmov)
      as (w' & Hrun & Hprod & _ & Hstock & _).
    exists w'. split_and!; [exact Hrun | exact Hprod | exact Hstock].
  - apply (proj1 (deleteProductDetails_removes ordered "1" "10" "clerk_bob" 1
                    Fixture.bob Fixture.acme 10 Hq' Hcaller' Hperm' Hreads)).
    vm_compute. reflexivity.
Defined.

(** *** The transfer dialog *)

(** X20: the guards of the transfer dialog, whatever round-trips fail.
    [handleTransfer] never throws.  With an empty or an identical choice of
    warehouses, a quantity that is not positive, a blank reason, a listed
    stock of the source below the quantity, or no organization or product,
    it reports an error and does not call the server.  When it reports no
    error, [transferStock] was called once and returned, having (started
    outside a transaction) made all its writes; the two warehouse ids
    differ as strings, so that two ids printed from keys, as
    [getWarehouseList] hands them out, are the ids of two different
    warehouses.  Two spellings of one key, "5" and "05", are not told
    apart from two warehouses. *)
Theorem handleTransfer_guards orgId productId options f w :
  ∃ r w',
    handleTransfer orgId productId options f w = (Ok r, w')
    ∧ (fromWarehouse f = "" ∨ toWarehouse f = ""
       ∨ fromWarehouse f = toWarehouse f
       ∨ form_quantity f ≤ 0
       ∨ Js.trim (form_reason f) = ""
       ∨ (∃ o stock,
            List.find (λ o, String.eqb (wo_id o) (fromWarehouse f)) options
            = Some o
            ∧ currentStock o = Some stock ∧ stock < form_quantity f)
       ∨ orgId = "" ∨ productId = ""
       → r ≠ None ∧ w' = w)
    ∧ (r = None →
       fromWarehouse f ≠ toWarehouse f
       ∧ (∀ a b, fromWarehouse f = Js.show_Z a → toWarehouse f = Js.show_Z b →
                 a ≠ b)
       ∧ transferStock orgId productId (fromWarehouse f) (toWarehouse f)
           (form_quantity f) (form_reason f) (Some (form_notes f)) w
         = (Ok tt, w')
       ∧ (base w = None →
          transfer_written productId (fromWarehouse f) (toWarehouse f)
            (form_quantity f) (form_reason f) (Some (form_notes f))
            (db w) (db w'))).
Proof.
  unfold handleTransfer.
  destruct (negb (Js.truthy (fromWarehouse f)) || negb (Js.truthy (toWarehouse f)))
    eqn:Hsel.
  { exists (Some "Please select both source and destination warehouses"), w.
    by split_and!. }
  destruct (String.eqb (fromWarehouse f) (toWarehouse f)) eqn:Hsame.
  { exists (Some "Source and destination warehouses must be different"), w.
    by split_and!. }
  destruct ((form_quantity f =? 0) || (form_quantity f <=? 0)) eqn:Hqty.
  { exists (Some "Please enter a valid quantity"), w. by split_and!. }
  destruct (negb (Js.truthy (Js.trim (form_reason f)))) eqn:Hreason.
  { exists (Some "Please provide a reason for the transfer"), w.
    by split_and!. }
  apply orb_false_iff in Hsel as [Hfrom Hto].
  apply negb_false_iff in Hfrom, Hto, Hreason.
  apply String.eqb_neq in Hsame.
  apply orb_false_iff in Hqty as [_ Hqty]. apply Z.leb_gt in Hqty.
  set (listed := List.find (λ o, String.eqb (wo_id o) (fromWarehouse f)) options
                 ≫= currentStock).
  assert (∀ msg : string,
    (fromWarehouse f = "" ∨ toWarehouse f = ""
     ∨ fromWarehouse f = toWarehouse f
     ∨ form_quantity f ≤ 0
     ∨ Js.trim (form_reason f) = ""
     ∨ (∃ o stock,
          List.find (λ o, String.eqb (wo_id o) (fromWarehouse f)) options
          = Some o
          ∧ currentStock o = Some stock ∧ stock < form_quantity f)
     ∨ orgId = "" ∨ productId = "")
    → (∀ stock, listed = Some stock → form_quantity f ≤ stock)
    → Js.truthy orgId = true → Js.truthy productId = true → False) as Hclear.
  { intros _ [Hx | [Hx | [Hx | [Hx | [Hx | [Hx | [Hx | Hx]]]]]]] Hlisted Ho Hp.
    - by rewrite Hx in Hfrom.
    - by rewrite Hx in Hto.
    - done.
    - lia.
    - by rewrite Hx in Hreason.
    - destruct Hx as (o & stock & Hfind & Hstock & Hlt).
      specialize (Hlisted stock). unfold listed in Hlisted.
      rewrite Hfind in Hlisted. simpl in Hlisted.
      specialize (Hlisted Hstock). lia.
    - by rewrite Hx in Ho.
    - by rewrite Hx in Hp. }
  assert (∃ r w',
    (if negb (Js.truthy orgId) || negb (Js.truthy productId)
     then ret (Some "Missing organization or product information")
     else try_catch
            (transferStock orgId productId (fromWarehouse f) (toWarehouse f)
               (form_quantity f) (form_reason f) (Some (form_notes f)) ;;
             ret None)
            (λ err, ret (Some err))) w = (Ok r, w')
    ∧ (r ≠ None ∨ (Js.truthy orgId = true ∧ Js.truthy productId = true))
    ∧ (orgId = "" ∨ productId = "" → r ≠ None ∧ w' = w)
    ∧ (r = None →
       transferStock orgId productId (fromWarehouse f) (toWarehouse f)
         (form_quantity f) (form_reason f) (Some (form_notes f)) w
       = (Ok tt, w'))) as (r & w' & Hrun & Hids & Hmissing & Hnone).
  { destruct (negb (Js.truthy orgId) || negb (Js.truthy productId)) eqn:Hid.
    { exists (Some "Missing organization or product information"), w.
      split_and!; [done | by left | done | done]. }
    apply orb_false_iff in Hid as [Ho Hp]. apply negb_false_iff in Ho, Hp.
    unfold try_catch, bind, ret.
    destruct (transferStock orgId productId (fromWarehouse f) (toWarehouse f)
                (form_quantity f) (form_reason f) (Some (form_notes f)) w)
      as [[[] | e] w1] eqn:Hcall.
    - exists None, w1. split_and!; [done | by right | | done].
      intros [-> | ->]; done.
    - exists (Some e), w1. split_and!; [done | by left | | done].
      intros [-> | ->]; done. }
  assert (r = None →
    fromWarehouse f ≠ toWarehouse f
    ∧ (∀ a b, fromWarehouse f = Js.show_Z a → toWarehouse f = Js.show_Z b →
              a ≠ b)
    ∧ transferStock orgId productId (fromWarehouse f) (toWarehouse f)
        (form_quantity f) (form_reason f) (Some (form_notes f)) w
      = (Ok tt, w')
    ∧ (base w = None →
       transfer_written productId (fromWarehouse f) (toWarehouse f)
         (form_quantity f) (form_reason f) (Some (form_notes f))
         (db w) (db w'))) as Hmoved.
  { intros Hr. split_and!; [done | | by apply Hnone |].
    { intros a b Ha Hb' ->. apply Hsame. by rewrite Ha, Hb'. }
    intros Hb. pose proof (Hnone Hr) as Hcall.
    unfold transferStock in Hcall. rewrite auth_ok in Hcall.
    repeat (apply bind_Ok_inv in Hcall as ([] & w0 & H0 & Hcall);
            let Hc := fresh "Hc" in apply throw_if_Ok_inv in H0 as [Hc ->]).
    unfold try_catch in Hcall.
    destruct (transferStock_try _ _ _ _ _ _ _ _ w) as [[[] | e] w1] eqn:Htry;
      [| done].
    injection Hcall as <-.
    destruct (transferStock_try_outcomes _ _ _ _ _ _ _ _ _ _ _ Hb Hqty Htry)
      as [_ [[_ [e He]] | Hdone]]; [done | exact Hdone]. }
  fold listed. destruct listed as [stock |] eqn:Hl.
  - destruct (stock <? form_quantity f) eqn:Hlt.
    + eexists _, w. by split_and!.
    + apply Z.ltb_ge in Hlt. exists r, w'. split_and!; [done | | done].
      intros Hblocked. destruct Hids as [Hr | [Ho Hp]].
      * split; [done |]. destruct r; [| done].
        destruct Hblocked as [Hx | [Hx | [Hx | [Hx | [Hx | [Hx | Hx]]]]]];
          [by rewrite Hx in Hfrom | by rewrite Hx in Hto | done | lia
          | by rewrite Hx in Hreason | | by apply Hmissing].
        destruct Hx as (o & st & Hfind & Hstock & Hlt').
        unfold listed in Hl. rewrite Hfind in Hl. simpl in Hl.
        rewrite Hstock in Hl. injection Hl as ->. lia.
      * exfalso. apply (Hclear "" Hblocked); [| done | done].
        intros st [= <-]. done.
  - exists r, w'. split_and!; [done | | done].
    intros Hblocked. destruct Hids as [Hr | [Ho Hp]].
    + split; [done |]. 
      destruct Hblocked as [Hx | [Hx | [Hx | [Hx | [Hx | [Hx | Hx]]]]]];
        [by rewrite Hx in Hfrom | by rewrite Hx in Hto | done | lia
        | by rewrite Hx in Hreason | | by apply Hmissing].
      destruct Hx as (o & st & Hfind & Hstock & Hlt').
      unfold listed in Hl. rewrite Hfind in Hl. simpl in Hl.
      by rewrite Hstock in Hl.
    + exfalso. apply (Hclear "" Hblocked); [| done | done].
      intros st [=].
Qed.

(** Bob moves three Widgets from the Main Depot to the Annex through the
    dialog. *)
Lemma handleTransfer_guards_witness :
  let w := Fixture.request "clerk_bob" Fixture.store in
  let options := [mkOption "5" "Main Depot" (Some 5); mkOption "6" "Annex" None] in
  let f := mkForm "5" "6" 3 "rebalancing" "" in
  ∃ w',
    handleTransfer "1" "10" options f w = (Ok None, w')
    ∧ transfer_written "10" "5" "6" 3 "rebalancing" (Some "") (db w) (db w')
    ∧ productStocks (db w') = [mkStock 20 10 5 2; mkStock 100 10 6 3].
Proof.
  intros w options f.
  assert ((handleTransfer "1" "10" options f w).1 = Ok None) as Hres
    by (vm_compute; reflexivity).
  assert (productStocks (db (handleTransfer "1" "10" options f w).2)
          = [mkStock 20 10 5 2; mkStock 100 10 6 3]) as Hrows
    by (vm_compute; reflexivity).
  destruct (handleTransfer_guards "1" "10" options f w)
    as (r & w' & Hrun & _ & Hnone).
  rewrite Hrun in Hres, Hrows. simpl in Hres, Hrows. injection Hres as ->.
  destruct (Hnone eq_refl) as (_ & _ & _ & Hmoved).
  exists w'. split_and!; [exact Hrun | exact (Hmoved eq_refl) | exact Hrows].
Defined.

(** *** The list of warehouses *)

Lemma truthy_show_Z z : Js.truthy (Js.show_Z z) = true.
Proof.
  destruct z as [| p | p]; [done | |].
  - rewrite show_Z_pos. apply truthy_uint.
  - unfold Js.show_Z. simpl. by destruct (Pos.to_uint p).
Qed.

Lemma address_or_empty s : (if Js.truthy s then s else "") = s.
Proof. by destruct s. Qed.

(** X21: the list of [getWarehouseList] and the keys it hands out, when the
    store answers.  For a member with any of the four roles the list holds
    the warehouses of the caller's organization, each once per row and in
    the order of the store, and no warehouse of another organization; the
    id of an entry reads back, as the actions read it, as the key of its
    warehouse, so two entries with different ids are different
    warehouses. *)
Theorem getWarehouseList_round_trip w orgId clerk o u org :
  quiet w → Caller w orgId clerk o u org → Permitted w o u org readerRoles →
  ∃ items,
    getWarehouseList orgId w = (Ok items, bootstrapped o u org w)
    ∧ items
      = map (λ wh, mkItem (Js.show_Z (warehouse_id wh)) (wh_name wh)
                     (wh_address wh))
          (List.filter (λ wh, wh_org wh =? o) (warehouses (db w)))
    ∧ (∀ x, x ∈ items →
         ∃ wh, wh ∈ warehouses (db w) ∧ wh_org wh = o
           ∧ reads (wi_id x) (warehouse_id wh)
           ∧ wi_name x = wh_name wh)
    ∧ (∀ x y a b, x ∈ items → y ∈ items →
         reads (wi_id x) a → reads (wi_id y) b →
         wi_id x ≠ wi_id y → a ≠ b).
Proof.
  intros Hq Hcaller (role & Hrole & Hperm).
  pose proof Hcaller as [Hs Hc Hn Ho Hu Horg].
  pose proof (numeric_trim_truthy _ Hn) as Horgid.
  destruct (bootstrapped_quiet o u org w Hq) as [Hb1 Hf1].
  destruct (bootstrapped_db o u org w) as [m Hdb].
  set (w1 := bootstrapped o u org w) in *.
  set (items := map (λ wh, mkItem (Js.show_Z (warehouse_id wh)) (wh_name wh)
                             (wh_address wh))
                  (List.filter (λ wh, wh_org wh =? o) (warehouses (db w)))).
  assert (∀ x, x ∈ items →
    ∃ wh, wh ∈ warehouses (db w) ∧ wh_org wh = o
      ∧ wi_id x = Js.show_Z (warehouse_id wh) ∧ wi_name x = wh_name wh)
    as Hitems.
  { intros x Hx. apply list_elem_of_fmap in Hx as (wh & -> & Hwh).
    apply list_elem_of_In, filter_In in Hwh as [Hin Horg'].
    exists wh. split_and!; [by apply list_elem_of_In | by apply Z.eqb_eq | done..]. }
  exists items. split_and!; [| done | |].
  - unfold getWarehouseList. rewrite auth_ok, Hs.
    rewrite throw_if_false by (simpl; by rewrite Hc).
    rewrite throw_if_false by (by rewrite Horgid).
    apply try_catch_ok. unfold getWarehouseList_try.
    rewrite (bind_ok _ _ _ _ _ (toBigInt_ok _ _ w Ho)).
    rewrite (bind_ok _ _ _ _ _
               (requireRole_ok w orgId clerk o u org role
                  (λ r, hasPermission r readerRoles) _ Hq Hcaller Hrole Hperm)).
    fold w1. rewrite (bind_ok _ _ _ _ _ (query_ok Prisma _ w1 Hf1)).
    rewrite view_quiet by done. rewrite Hdb. simpl. unfold ret, items.
    do 2 f_equal. apply map_ext. intros wh. by rewrite address_or_empty.
  - intros x Hx. destruct (Hitems x Hx) as (wh & Hin & Horg' & Hid & Hname).
    exists wh. split_and!; [done.. | | done].
    rewrite Hid. split; [apply truthy_show_Z | apply BigInt_show_Z].
  - intros x y a b Hx Hy [_ Ha] [_ Hb] Hne ->.
    destruct (Hitems x Hx) as (wh & _ & _ & Hid & _).
    destruct (Hitems y Hy) as (wh' & _ & _ & Hid' & _).
    rewrite Hid, BigInt_show_Z in Ha. rewrite Hid', BigInt_show_Z in Hb.
    apply Hne. rewrite Hid, Hid'. congruence.
Qed.

(** Bob, a reader of Bolt, sees the Bolt Yard and not the depots of Acme. *)
Lemma getWarehouseList_round_trip_witness :
  let w := Fixture.request "clerk_bob"
             (set_members (insert (2, 2) "reader") Tenants.both) in
  ∃ items,
    getWarehouseList "2" w = (Ok items, w)
    ∧ items = [mkItem "7" "Bolt Yard" "9 Mill Ln"].
Proof.
  intros w.
  assert (quiet w) as Hq by (by split).
  assert (Caller w "2" "clerk_bob" 2 Fixture.bob Tenants.bolt) as Hcaller
    by (by split).
  assert (Permitted w 2 Fixture.bob Tenants.bolt readerRoles) as Hperm
    by (by exists "reader").
  destruct (getWarehouseList_round_trip w "2" "clerk_bob" 2 Fixture.bob
              Tenants.bolt Hq Hcaller Hperm) as (items & Hrun & Hitems & _).
  exists items. split; [exact Hrun | exact Hitems].
Defined.

(** *** Bulk updates *)

Lemma product_keys_missing d pid o :
  (pid, o) ∉ product_keys d →
  existsb (λ p, (product_id p =? pid) && (p_org p =? o)) (products d) = false.
Proof.
  intros Hmiss. apply not_true_is_false. intros Hex. apply Hmiss.
  apply existsb_exists in Hex as (p & Hin & Hp).
  apply andb_true_iff in Hp as [Hp1 Hp2].
  apply Z.eqb_eq in Hp1, Hp2. subst pid o.
  unfold product_keys.
  apply (list_elem_of_fmap_2 (λ p, (product_id p, p_org p))).
  by apply list_elem_of_In.
Qed.

Lemma bulkUpdate_loop_app o u l1 l2 : ∀ w rs w1 e w2,
  bulkUpdate_loop o u l1 w = (Ok rs, w1) →
  bulkUpdate_loop o u l2 w1 = (Err e, w2) →
  bulkUpdate_loop o u (l1 ++ l2) w = (Err e, w2).
Proof.
  induction l1 as [| x l1 IH]; intros w rs w1 e w2 H1 H2.
  - by injection H1 as <- <-.
  - simpl in H1 |- *.
    apply bind_Ok_inv in H1 as (r & w0 & Hitem & H1).
    apply bind_Ok_inv in H1 as (rs' & w0' & Hloop & H1).
    injection H1 as <- <-.
    rewrite (bind_ok _ _ _ _ _ Hitem).
    apply bind_err. by eapply IH.
Qed.

(** X22: [bulkUpdateProducts] keeps nothing of a batch with an item it
    cannot update, when the store answers.  For a permitted caller whose
    organization has a warehouse and a key below 2^53 in size, so that the
    number made of it is the key: when the items up to some item are
    products of the organization and that item names a key that is no
    product of the organization, the action fails on the missing record
    and the inventory is as it was before the batch, none of the earlier
    updates being kept. *)
Theorem bulkUpdateProducts_no_partial_batch
    w orgId clerk o u org good bad rest wh pid :
  quiet w → Caller w orgId clerk o u org → Permitted w o u org writerRoles →
  Z.abs o < 2 ^ 53 →
  List.find (λ x, wh_org x =? o) (warehouses (db w)) = Some wh →
  Forall (λ update, ∃ pid, Js.BigInt update.1 = Some pid
                           ∧ (pid, o) ∈ product_keys (db w)) good →
  Js.BigInt bad.1 = Some pid → (pid, o) ∉ product_keys (db w) →
  ∃ w',
    bulkUpdateProducts orgId (good ++ bad :: rest) w = (Err record_not_found, w')
    ∧ db w' = db (bootstrapped o u org w)
    ∧ same_inventory (db w) (db w').
Proof.
  intros Hq Hcaller (role & Hrole & Hperm) Ho53 Hfind Hgood Hbad Hmiss.
  pose proof Hcaller as [Hs Hc Hn Ho Hu Horg].
  destruct (bootstrapped_quiet o u org w Hq) as [Hb1 Hf1].
  destruct (bootstrapped_db o u org w) as [m Hdb].
  set (w1 := bootstrapped o u org w) in *.
  destruct (bulkUpdate_loop_first o u wh (db w1) good (open_tx w1))
    as (rs & w2 & Hrun & Hf2 & Hb2 & _ & Hkeys & _);
    [exact Hf1 | done | by rewrite Number_exact, Hdb | |].
  { simpl. unfold product_keys. rewrite Hdb. exact Hgood. }
  assert (bulkUpdate_loop o u (bad :: rest) w2 = (Err record_not_found, w2))
    as Hfail.
  { simpl. apply bind_err. unfold bulkUpdate_item.
    rewrite (bind_ok _ _ _ _ _ (toBigInt_ok _ _ w2 Hbad)).
    apply bind_err. apply exec_checked_refused; [exact Hf2 |].
    simpl. apply product_keys_missing. rewrite Hkeys. simpl.
    unfold product_keys. rewrite Hdb. exact Hmiss. }
  pose proof (bulkUpdate_loop_app _ _ _ _ _ _ _ _ _ Hrun Hfail) as Hloop.
  exists (close_tx (committed w2) w2). split; [| split].
  - unfold bulkUpdateProducts. rewrite auth_ok, Hs.
    rewrite throw_if_false by (simpl; by rewrite Hc).
    rewrite throw_if_false by (by rewrite (numeric_trim_truthy _ Hn)).
    rewrite throw_if_false
      by (apply bool_decide_eq_false; by destruct good).
    unfold try_catch, bulkUpdateProducts_try.
    rewrite (bind_ok _ _ _ _ _ (toBigInt_ok _ _ w Ho)).
    rewrite (bind_ok _ _ _ _ _
               (requireRole_ok w orgId clerk o u org role _ _ Hq Hcaller Hrole Hperm)).
    fold w1.
    erewrite bind_ok;
      last (apply getOrCreateUser_known;
            [exact Hf1 | unfold committed; rewrite Hb1; simpl; by rewrite Hdb]).
    erewrite bind_err
      by (eapply transaction_err; [exact Hf1 | exact Hloop]).
    reflexivity.
  - simpl. unfold committed. by rewrite Hb2.
  - simpl. unfold committed. rewrite Hb2. simpl. rewrite Hdb.
    by destruct (db w).
Qed.

(** Bob renames the Widget and, in the same batch, the Gear of Bolt: the
    Widget keeps its name. *)
Lemma bulkUpdateProducts_no_partial_batch_witness :
  let w := Fixture.request "clerk_bob" Tenants.both in
  let renamed := mkInput "Gadget" "A-2" None (Some 9) None None in
  ∃ w',
    bulkUpdateProducts "1" [("10", renamed); ("11", renamed)] w
    = (Err record_not_found, w')
    ∧ db w' = db w
    ∧ products (db w') = products Tenants.both.
Proof.
  intros w renamed.
  assert (quiet w) as Hq by (by split).
  assert (Caller w "1" "clerk_bob" 1 Fixture.bob Fixture.acme) as Hcaller
    by (by split).
  assert (Permitted w 1 Fixture.bob Fixture.acme writerRoles) as Hperm
    by (by exists "writer").
  assert (Forall (λ update : string * ProductInput,
            ∃ pid, Js.BigInt update.1 = Some pid
                   ∧ (pid, 1) ∈ product_keys (db w)) [("10", renamed)])
    as Hgood.
  { constructor; [| constructor].
    exists 10. split; [reflexivity | apply list_elem_of_here]. }
  assert ((11, 1) ∉ product_keys (db w)) as Hmiss.
  { intros Hin. vm_compute in Hin.
    apply elem_of_cons in Hin as [[=] | Hin].
    apply elem_of_cons in Hin as [[=] | Hin].
    by apply elem_of_nil in Hin. }
  destruct (bulkUpdateProducts_no_partial_batch w "1" "clerk_bob" 1 Fixture.bob
              Fixture.acme [("10", renamed)] ("11", renamed) []
              (mkWarehouse 5 1 "Main Depot" "1 Dock Rd") 11
              Hq Hcaller Hperm ltac:(reflexivity) eq_refl Hgood eq_refl Hmiss)
    as (w' & Hrun & Hdb & _).
  exists w'. split_and!; [exact Hrun | exact Hdb |].
  rewrite Hdb. reflexivity.
Defined.

(** *** SKUs under [updateProduct] *)

(** The product row after [updateProduct]. *)
Lemma updateProduct_tx_products w o pid u input wh b :
  faults w = [] → base w = Some b →
  List.find (λ x, wh_org x =? Js.Number o) (warehouses b) = Some wh →
  existsb (λ p, product_id p =? pid) (products (db w)) = true →
  ∃ res w2,
    updateProduct_tx o pid u input w = (Ok res, w2)
    ∧ faults w2 = []
    ∧ products (db w2)
      = map (updatedRow pid u input) (products (db w)).
Proof.
  intros Hf Hb Hfind Hex. unfold updateProduct_tx.
  erewrite bind_ok by (apply exec_checked_tx_ok; [exact Hf | exact Hex]).
  set (w1 := with_db _ _ w).
  destruct (putDefaultStock_first w1 o pid (clampZ (in_stock input)) wh b)
    as (w2 & rows & row & Hput & Hf2 & Hb2 & Hd2 & _);
    [exact Hf | exact Hb | exact Hfind |].
  rewrite (bind_ok _ _ _ _ _ Hput).
  erewrite bind_ok by (apply query_ok; exact Hf2). simpl.
  destruct (putPrice_ok w2 pid
              (λ latest, Qeq_bool (retail_price latest) (clampQ (in_price input)))
              (clampQ (in_price input)) Hf2)
    as (w3 & prices & Hprice & Hf3 & Hb3 & Hd3).
  rewrite (bind_ok _ _ _ _ _ Hprice).
  eexists _, w3. split_and!; [done | done |].
  rewrite Hd3, Hd2. reflexivity.
Qed.

Lemma NoDup_map_eq {A B} (f : A → B) (l : list A) x y :
  NoDup (map f l) → x ∈ l → y ∈ l → f x = f y → x = y.
Proof.
  induction l as [| a l IH]; [by intros _ ?%elem_of_nil |].
  simpl. intros [Ha Hl]%NoDup_cons [-> | Hx]%elem_of_cons [-> | Hy]%elem_of_cons E.
  - done.
  - exfalso. apply Ha. rewrite E. by apply (list_elem_of_fmap_2 f).
  - exfalso. apply Ha. rewrite <- E. by apply (list_elem_of_fmap_2 f).
  - by apply IH.
Qed.

Lemma sku_keys_updated pid o u input l :
  NoDup (map product_id l) →
  NoDup (map (λ p, (p_org p, p_sku p)) l) →
  (∀ q, q ∈ l → product_id q = pid → p_org q = o) →
  (∀ q, q ∈ l → p_org q = o → p_sku q = Js.trim (in_sku input) →
        product_id q = pid) →
  NoDup (map (λ p, (p_org p, p_sku p)) (map (updatedRow pid u input) l)).
Proof.
  induction l as [| q l IH]; [constructor |].
  intros Hids Hkeys Hown Hfree. simpl in *.
  apply NoDup_cons in Hids as [Hid Hids].
  apply NoDup_cons in Hkeys as [Hkey Hkeys].
  apply NoDup_cons. split.
  - intros Hin. apply list_elem_of_fmap in Hin as (r' & Heq & Hin).
    apply list_elem_of_fmap in Hin as (r & -> & Hr).
    assert (product_id r ≠ product_id q) as Hrq.
    { intros E. apply Hid. rewrite <- E.
      by apply (list_elem_of_fmap_2 product_id). }
    unfold updatedRow in Heq.
    destruct (Z.eqb_spec (product_id q) pid) as [Hq | Hq];
      destruct (Z.eqb_spec (product_id r) pid) as [Hr' | Hr'];
      simpl in Heq.
    + congruence.
    + injection Heq as Horg Hsku.
      apply Hr'. apply Hfree; [by right | | done].
      rewrite <- Horg. apply Hown; [by left | done].
    + injection Heq as Horg Hsku.
      apply Hq. apply Hfree; [by left | | done].
      rewrite Horg. apply Hown; [by right | done].
    + apply Hkey. rewrite Heq.
      by apply (list_elem_of_fmap_2 (λ p, (p_org p, p_sku p))).
  - apply IH; [done | done | |].
    + intros r Hr. apply Hown. by right.
    + intros r Hr. apply Hfree. by right.
Qed.

(** X23: SKUs stay unique within an organization under [updateProduct].
    For a permitted caller and a product of the caller's organization,
    which has a warehouse and a key below 2^53 in size, so that the number
    made of it is the key, when the store answers: a SKU (trimmed) that
    another product of the organization has is refused and nothing is
    written; otherwise the update goes through, the product row has the
    new name and SKU, and a table whose product keys and whose SKUs within
    each organization are without duplicates has no duplicate SKU
    afterwards. *)
Theorem updateProduct_keeps_skus_unique
    w orgId id clerk o u org input wh pid p :
  quiet w → Caller w orgId clerk o u org → Permitted w o u org writerRoles →
  Z.abs o < 2 ^ 53 → reads id pid →
  Js.truthy (Js.trim (in_name input)) = true →
  Js.truthy (Js.trim (in_sku input)) = true →
  List.find (λ p, (product_id p =? pid) && (p_org p =? o)) (products (db w))
  = Some p →
  List.find (λ x, wh_org x =? o) (warehouses (db w)) = Some wh →
  ((∃ q, q ∈ products (db w) ∧ p_org q = o
         ∧ p_sku q = Js.trim (in_sku input) ∧ product_id q ≠ pid) →
   updateProduct orgId id input w
   = (Err "A product with this SKU already exists in this organization",
      bootstrapped o u org w))
  ∧ ((∀ q, q ∈ products (db w) → p_org q = o →
           p_sku q = Js.trim (in_sku input) → product_id q = pid) →
     ∃ res w',
       updateProduct orgId id input w = (Ok res, w')
       ∧ products (db w') = map (updatedRow pid u input) (products (db w))
       ∧ (NoDup (map product_id (products (db w))) →
          NoDup (sku_keys (db w)) → NoDup (sku_keys (db w')))).
Proof.
  intros Hq Hcaller (role & Hrole & Hperm) Ho53 [Hid1 Hid2] Hname Hsku
    Hp Hfind.
  pose proof Hcaller as [Hs Hc Hn Ho Hu Horg].
  destruct (bootstrapped_quiet o u org w Hq) as [Hb1 Hf1].
  destruct (bootstrapped_db o u org w) as [m Hdb].
  set (w1 := bootstrapped o u org w) in *.
  destruct (find_elem _ _ _ Hp) as [Hpin [Hpid Hporg]%andb_true_iff].
  apply Z.eqb_eq in Hpid, Hporg.
  assert (updateProduct orgId id input w
    = try_catch
        (let* duplicateSku := query Prisma (λ d,
           List.find (λ p, String.eqb (p_sku p) (Js.trim (in_sku input))
                           && (p_org p =? o) && negb (product_id p =? pid))
             (products d)) in
         throw_if (bool_decide (is_Some duplicateSku))
           "A product with this SKU already exists in this organization" ;;
         throw_if (clampZ (in_stock input) <? 0)
           "Stock quantity cannot be negative" ;;
         throw_if (negb (Qle_bool 0 (clampQ (in_price input))))
           "Product price cannot be negative" ;;
         let* result := transaction (updateProduct_tx o pid u input) in
         invalidateProducts orgId ;;
         ret result)
        (product_catch "Invalid organization or product ID format") w1)
    as Hshell.
  { unfold updateProduct. rewrite auth_ok, Hs.
    rewrite throw_if_false by (simpl; by rewrite Hc).
    rewrite throw_if_false by (by rewrite (numeric_trim_truthy _ Hn)).
    rewrite throw_if_false by (by rewrite Hid1).
    rewrite throw_if_false by (by rewrite Hname).
    rewrite throw_if_false by (by rewrite Hsku).
    unfold try_catch at 1, updateProduct_try.
    rewrite (bind_ok _ _ _ _ _ (toBigInt_ok _ _ w Ho)).
    rewrite (bind_ok _ _ _ _ _
               (requireRole_ok w orgId clerk o u org role _ _ Hq Hcaller Hrole Hperm)).
    fold w1.
    rewrite (bind_ok _ _ _ _ _ (toBigInt_ok _ _ w1 Hid2)).
    erewrite bind_ok;
      last (apply getOrCreateUser_known;
            [exact Hf1 | unfold committed; rewrite Hb1; simpl; by rewrite Hdb]).
    erewrite bind_ok by (apply query_ok; exact Hf1).
    rewrite view_quiet by exact Hb1. rewrite Hdb. simpl. rewrite Hp.
    rewrite throw_if_false by done. reflexivity. }
  rewrite Hshell. clear Hshell. split.
  - intros (q & Hqin & Hqorg & Hqsku & Hqid).
    unfold try_catch.
    erewrite bind_ok by (apply query_ok; exact Hf1).
    rewrite view_quiet by exact Hb1. rewrite Hdb. simpl.
    destruct (List.find (λ p0, String.eqb _ _ && _ && _) (products (db w)))
      as [dup |] eqn:Hdup.
    + by rewrite throw_if_true.
    + exfalso. apply list_elem_of_In in Hqin.
      pose proof (find_none _ _ Hdup q Hqin) as Hnot. cbv beta in Hnot.
      rewrite Hqsku, String.eqb_refl, Hqorg, Z.eqb_refl in Hnot.
      simpl in Hnot. apply negb_false_iff, Z.eqb_eq in Hnot. done.
  - intros Hfree.
    destruct (updateProduct_tx_products (open_tx w1) o pid u input wh (db w1))
      as (res & w2 & Hrun & Hf2 & Hproducts);
      [exact Hf1 | done | by rewrite Number_exact, Hdb | |].
    { simpl. rewrite Hdb. simpl.
      apply (existsb_elem _ _ p); [done | by apply Z.eqb_eq]. }
    simpl in Hproducts. rewrite Hdb in Hproducts. simpl in Hproducts.
    exists res, (close_tx (db w2) w2). split_and!.
    + apply try_catch_ok.
      erewrite bind_ok by (apply query_ok; exact Hf1).
      rewrite view_quiet by exact Hb1. rewrite Hdb. simpl.
      destruct (List.find (λ p0, String.eqb _ _ && _ && _) (products (db w)))
      as [dup |] eqn:Hdup.
      { exfalso. apply find_elem in Hdup as [Hin Hd].
        apply andb_true_iff in Hd as [[Hd1 Hd2]%andb_true_iff Hd3].
        apply String.eqb_eq in Hd1. apply Z.eqb_eq in Hd2.
        apply negb_true_iff, Z.eqb_neq in Hd3.
        by apply Hd3, Hfree. }
      rewrite throw_if_false by done.
      rewrite throw_if_false by apply clampZ_nonneg.
      rewrite throw_if_false by (unfold clampQ; by rewrite Qmax0_nonneg).
      erewrite bind_ok
        by (eapply transaction_ok; [exact Hf1 | exact Hrun | exact Hf2]).
      unfold invalidateProducts.
      by rewrite (bind_ok _ _ _ _ _ (io_ok (close_tx (db w2) w2) Hf2)).
    + exact Hproducts.
    + intros Hids Hkeys. unfold sku_keys. simpl. rewrite Hproducts.
      apply (sku_keys_updated pid o); [done | done | | done].
      intros q Hqin Hqid.
      assert (q = p) as ->; [| done].
      apply (NoDup_map_eq product_id (products (db w))); [done.. | congruence].
Qed.

(** Bob may give the Widget the SKU of Bolt's Gear, not that of Acme's
    Nut. *)
Lemma updateProduct_keeps_skus_unique_witness :
  let d := set_products
             (append [mkProduct 12 1 "Nut" "N-1" None None "active" 1 None])
             Tenants.both in
  let w := Fixture.request "clerk_bob" d in
  updateProduct "1" "10" (mkInput "Widget" " N-1 " None None None None) w
  = (Err "A product with this SKU already exists in this organization", w)
  ∧ ∃ res w',
      updateProduct "1" "10" (mkInput "Widget" "G-7" None None None None) w
      = (Ok res, w')
      ∧ sku_keys (db w') = [(1, "G-7"); (2, "G-7"); (1, "N-1")]
      ∧ NoDup (sku_keys (db w')).
Proof.
  intros d w.
  assert (quiet w) as Hq by (by split).
  assert (Caller w "1" "clerk_bob" 1 Fixture.bob Fixture.acme) as Hcaller
    by (by split).
  assert (Permitted w 1 Fixture.bob Fixture.acme writerRoles) as Hperm
    by (by exists "writer").
  assert (reads "10" 10) as Hreads by (by split).
  assert (NoDup (map product_id (products (db w)))) as Hids
    by (apply (bool_decide_unpack _); vm_compute; reflexivity).
  assert (NoDup (sku_keys (db w))) as Hkeys
    by (apply (bool_decide_unpack _); vm_compute; reflexivity).
  split.
  - apply (proj1 (updateProduct_keeps_skus_unique w "1" "10" "clerk_bob" 1
                    Fixture.bob Fixture.acme
                    (mkInput "Widget" " N-1 " None None None None)
                    (mkWarehouse 5 1 "Main Depot" "1 Dock Rd") 10 _
                    Hq Hcaller Hperm ltac:(reflexivity) Hreads
                    eq_refl eq_refl eq_refl eq_refl)).
    exists (mkProduct 12 1 "Nut" "N-1" None None "active" 1 None).
    split_and!; [| reflexivity | reflexivity | discriminate].
    apply list_elem_of_In. vm_compute. tauto.
  - destruct (proj2 (updateProduct_keeps_skus_unique w "1" "10" "clerk_bob" 1
                       Fixture.bob Fixture.acme
                       (mkInput "Widget" "G-7" None None None None)
                       (mkWarehouse 5 1 "Main Depot" "1 Dock Rd") 10 _
                       Hq Hcaller Hperm ltac:(reflexivity) Hreads
                       eq_refl eq_refl eq_refl eq_refl))
      as (res & w' & Hrun & Hproducts & Hnodup).
    { intros q Hin Horg Hsku. apply list_elem_of_In in Hin.
      vm_compute in Hin. destruct Hin as [<- | [<- | [<- | []]]];
        [reflexivity | discriminate Horg | discriminate Hsku]. }
    exists res, w'. split_and!; [exact Hrun | | exact (Hnodup Hids Hkeys)].
    unfold sku_keys. rewrite Hproducts. reflexivity.
Defined.

(** *** Who passes the permission checks *)

Lemma keeps_session_ret {A} (a : A) : keeps_session (ret a).
Proof. by intros w r w' [= _ <-]. Qed.

Lemma keeps_session_throw {A} msg : keeps_session (@throw A msg).
Proof. by intros w r w' [= _ <-]. Qed.

Lemma keeps_session_throw_if c msg : keeps_session (throw_if c msg).
Proof. destruct c; [apply keeps_session_throw | apply keeps_session_ret]. Qed.

Lemma keeps_session_still {A} (m : M A) :
  (∀ w r w', m w = (r, w') → still w w') → keeps_session m.
Proof. intros H w r w' Hrun. by apply H in Hrun as (_ & _ & _ & -> & _). Qed.

Lemma keeps_session_io : keeps_session io.
Proof. apply keeps_session_still, io_still. Qed.

Lemma keeps_session_query {A} c (f : DB → A) : keeps_session (query c f).
Proof. apply keeps_session_still, query_still. Qed.

Lemma keeps_session_currentUserEmail : keeps_session currentUserEmail.
Proof. apply keeps_session_still, currentUserEmail_still. Qed.

Lemma keeps_session_auth : keeps_session auth.
Proof. by intros w r w' [= _ <-]. Qed.

Lemma keeps_session_fresh : keeps_session fresh.
Proof. by intros w r w' [= _ <-]. Qed.

Lemma keeps_session_toBigInt s : keeps_session (toBigInt s).
Proof. intros w r w' H. by apply toBigInt_inv in H as [-> _]. Qed.

Lemma keeps_session_bind {A B} (m : M A) (k : A → M B) :
  keeps_session m → (∀ a, keeps_session (k a)) → keeps_session (bind m k).
Proof.
  intros Hm Hk w r w' H.
  apply bind_inv in H as [(e & H & _) | (a & w1 & H1 & H2)].
  - by apply Hm in H.
  - apply Hm in H1. apply Hk in H2. congruence.
Qed.

Lemma keeps_session_try_catch {A} (m : M A) (h : string → M A) :
  keeps_session m → (∀ e, keeps_session (h e)) → keeps_session (try_catch m h).
Proof.
  intros Hm Hh w r w'. unfold try_catch.
  destruct (m w) as [[a|e] w1] eqn:Hrun; apply Hm in Hrun.
  - by intros [= _ <-].
  - intros H. apply Hh in H. congruence.
Qed.

Lemma keeps_session_exec c s f : keeps_session (exec c s f).
Proof.
  intros w r w'. unfold exec, bind, apply.
  destruct (io w) as [[[]|e] w1] eqn:Hio; intros [= _ <-];
    by apply io_still in Hio as (_ & _ & _ & -> & _).
Qed.

Lemma keeps_session_transaction {A} (body : M A) :
  keeps_session body → keeps_session (transaction body).
Proof.
  intros Hbody w r w'. unfold transaction, bind.
  destruct (io w) as [[[]|e] w0] eqn:Hio;
    apply io_still in Hio as (_ & _ & _ & Hs0 & _);
    [| by intros [= _ <-]].
  destruct (body (open_tx w0)) as [[a|e] w1] eqn:Hrun;
    apply Hbody in Hrun; simpl in Hrun.
  - destruct (io w1) as [[[]|e] w2] eqn:Hio2;
      apply io_still in Hio2 as (_ & _ & _ & Hs2 & _);
      intros [= _ <-]; simpl; congruence.
  - intros [= _ <-]. simpl. congruence.
Qed.

Ltac session_step :=
  lazymatch goal with
  | |- keeps_session (ret _) => apply keeps_session_ret
  | |- keeps_session (throw _) => apply keeps_session_throw
  | |- keeps_session (throw_if _ _) => apply keeps_session_throw_if
  | |- keeps_session io => apply keeps_session_io
  | |- keeps_session (query _ _) => apply keeps_session_query
  | |- keeps_session currentUserEmail => apply keeps_session_currentUserEmail
  | |- keeps_session auth => apply keeps_session_auth
  | |- keeps_session fresh => apply keeps_session_fresh
  | |- keeps_session (toBigInt _) => apply keeps_session_toBigInt
  | |- keeps_session (exec _ _ _) => apply keeps_session_exec
  | |- keeps_session (transaction _) => apply keeps_session_transaction
  | |- keeps_session (try_catch _ _) => apply keeps_session_try_catch
  | |- keeps_session (bind _ _) => apply keeps_session_bind
  | |- keeps_session (match ?x with _ => _ end) => destruct x
  | |- keeps_session (if ?x then _ else _) => destruct x
  | |- keeps_session _ =>
      match goal with H : ∀ _, keeps_session _ |- _ => apply H end
  | |- ∀ _, keeps_session _ => intro
  end.

Lemma getOrCreateUser_keeps_session clerk :
  keeps_session (getOrCreateUser clerk).
Proof. unfold getOrCreateUser. repeat session_step. Qed.

Lemma ensureOrganizationMember_keeps_session orgId :
  keeps_session (ensureOrganizationMember orgId).
Proof.
  unfold ensureOrganizationMember, ensureOrganizationMember_try, upsertAdmin,
    debug_read.
  pose proof getOrCreateUser_keeps_session. repeat session_step.
Qed.

(** The member rows after the membership check: as they were, or with the
    row of the creator of an organization set to "admin". *)
Lemma ensureOrganizationMember_members orgId w r w' :
  base w = None → ensureOrganizationMember orgId w = (r, w') →
  members (db w') = members (db w)
  ∨ ∃ o uid org,
      organizations (db w) !! o = Some org ∧ created_by org = uid
      ∧ members (db w') = <[(o, uid) := "admin"]> (members (db w)).
Proof.
  intros Hb H. unfold ensureOrganizationMember in H. rewrite auth_ok in H.
  apply bind_inv in H as [(e & H & ->) | ([] & w0 & H0 & H)];
    [apply throw_if_Err_inv in H as (_ & _ & ->); by left |
     apply throw_if_Ok_inv in H0 as [_ ->]].
  assert (∀ r1 w1,
    ensureOrganizationMember_try orgId (default "" (session w)) w = (r1, w1) →
    members (db w1) = members (db w)
    ∨ ∃ o uid org,
        organizations (db w) !! o = Some org ∧ created_by org = uid
        ∧ members (db w1) = <[(o, uid) := "admin"]> (members (db w)))
    as Htry.
  { clear H. intros r1 w1 H. unfold ensureOrganizationMember_try in H.
    apply bind_inv in H as [(e & H & ->) | ([] & w0 & H0 & H)];
      [apply throw_if_Err_inv in H as (_ & _ & ->); by left |
       apply throw_if_Ok_inv in H0 as [_ ->]].
    assert (∀ (r2 : Result Z) w2,
      try_catch
        (throw_if (negb (Js.numeric (Js.trim orgId)))
           ("Organization ID must be numeric. Received: "
            +:+ quoted (Js.trim orgId)) ;;
         toBigInt (Js.trim orgId))
        (λ _, throw ("Invalid organization ID format: " +:+ quoted orgId)) w
      = (r2, w2) → w2 = w) as Hid.
    { intros r2 w2. unfold try_catch, bind, throw_if, toBigInt, throw, ret.
      destruct (negb _); [by intros [= _ <-] |].
      destruct (Js.BigInt _); by intros [= _ <-]. }
    apply bind_inv in H as [(e & H & ->) | (o & w0 & H0 & H)];
      [apply Hid in H as ->; by left | apply Hid in H0 as ->].
    apply bind_inv in H as [(e & H & ->) | (u & w2 & H2 & H)].
    { apply getOrCreateUser_inv in H as (_ & [us Hd] & _); [| done].
      left. by rewrite Hd. }
    apply getOrCreateUser_inv in H2 as (Hb2 & [us Hd2] & _); [| done].
    apply bind_inv in H as [(e & H & ->) | (found & w3 & H3 & H)].
    { apply query_still in H as (Hd & _). left. by rewrite Hd, Hd2. }
    apply query_Ok_inv in H3 as [-> (Hd3 & Hb3 & _)].
    rewrite view_quiet in H by done. rewrite Hd2 in H. simpl in H.
    destruct (organizations (db w) !! o) as [org|] eqn:Horg.
    2: { apply bind_inv in H as [(e & H & ->) | ([] & w4 & H4 & H)].
         - apply query_still in H as (Hd & _). left. by rewrite Hd, Hd3, Hd2.
         - apply query_still in H4 as (Hd4 & _). injection H as <- <-.
           left. by rewrite Hd4, Hd3, Hd2. }
    assert (base w3 = None) as Hb3' by congruence.
    apply transaction_inv in H as [_ H]; [| | exact Hb3'].
    2: { unfold upsertAdmin, debug_read. case_bool_decide; auto 20 with tx_only. }
    destruct r1 as [[] | e]; [| left; by rewrite H, Hd3, Hd2].
    destruct H as (w4 & w5 & (Hd4 & _) & Hbody & ->).
    case_bool_decide as Hc.
    - unfold upsertAdmin in Hbody. apply exec_tx_inv in Hbody as [_ Hd5].
      right. exists o, (user_id u), org. split_and!; [done | done |].
      rewrite Hd5. simpl. by rewrite Hd4, Hd3, Hd2.
    - apply bind_Ok_inv in Hbody as (m & w6 & H6 & Hbody).
      apply query_still in H6 as (Hd6 & _).
      left. destruct m as [role |].
      + injection Hbody as <-. rewrite Hd6. simpl. by rewrite Hd4, Hd3, Hd2.
      + apply bind_Ok_inv in Hbody as ([] & w7 & _ & Hbody). done. }
  unfold try_catch in H.
  destruct (ensureOrganizationMember_try _ _ w) as [[a|e] w1] eqn:Hrun.
  - injection H as <- <-. by eapply Htry.
  - injection H as <- <-. by eapply Htry.
Qed.

(** Who has passed [requireRole]: the signed-in caller, known to the store,
    with a role that is permitted; the caller created the organization,
    or has that role in a member row of it. *)
Lemma requireRole_sound orgId permitted denied w w' :
  base w = None → permitted None = false →
  requireRole orgId permitted denied w = (Ok tt, w') →
  ∃ clerk o u role,
    session w = Some clerk ∧ Js.BigInt orgId = Some o
    ∧ users (db w') !! clerk = Some u
    ∧ permitted (Some role) = true
    ∧ ((∃ org, organizations (db w) !! o = Some org
               ∧ created_by org = user_id u ∧ role = "admin")
       ∨ members (db w) !! (o, user_id u) = Some role).
Proof.
  intros Hb Hnone H. unfold requireRole in H.
  apply bind_Ok_inv in H as ([] & w1 & H1 & H).
  pose proof (ensureOrganizationMember_keeps_base _ _ _ _ Hb H1) as Hb1.
  pose proof (ensureOrganizationMember_keeps_session _ _ _ _ H1) as Hs1.
  pose proof (ensureOrganizationMember_people _ _ _ _ H1) as (Horgs & _).
  pose proof (ensureOrganizationMember_members _ _ _ _ Hb H1) as Hmem.
  apply bind_Ok_inv in H as (role & w2 & H2 & H).
  apply throw_if_Ok_inv in H as [Hperm ->]. apply negb_false_iff in Hperm.
  destruct role as [role |]; [| congruence].
  unfold getUserRole in H2. rewrite auth_ok in H2.
  destruct (session w1) as [clerk|] eqn:Hs; [| done].
  destruct (Js.truthy clerk); [| done].
  unfold try_catch in H2.
  destruct (getUserRole_try orgId clerk w1) as [[r|e] w3] eqn:Htry; [| done].
  injection H2 as -> ->.
  destruct (getUserRole_try_sound _ _ _ _ _ Hb1 Htry)
    as (o & u & Ho & Hu & Hrole).
  exists clerk, o, u, role. split_and!; [congruence | done | done | done |].
  destruct Hrole as [(org & Horg & Hc & -> & _) | (Hrow & _ & _)].
  - left. exists org. by rewrite <- Horgs.
  - destruct Hmem as [Hsame | (o' & uid & org & Horg & Hc & Hins)].
    + right. by rewrite <- Hsame.
    + rewrite Hins in Hrow.
      destruct (decide ((o', uid) = (o, user_id u))) as [[= -> ->] | Hne].
      * rewrite lookup_insert_eq in Hrow. injection Hrow as <-.
        left. by exists org.
      * rewrite lookup_insert_ne in Hrow by done. by right.
Qed.

(** *** Deleting a product from the list *)

Lemma deleteProduct_catch_throws {A} e w :
  ∃ e', @deleteProduct_catch A e w = (Err e', w).
Proof.
  unfold deleteProduct_catch. destruct (is_BigInt_error e); by eexists.
Qed.

(** X24: [deleteProduct] deletes only for a permitted caller and only a
    product of the organization named in the call that no order item
    refers to, whatever round-trips fail and whatever the store's cascade
    on deleting a product is.  A call that returns was made by a signed-in
    caller known to the store, who created that organization or has a
    member row of it with the role "writer", "read-write" or "admin"; it
    has deleted such a product and returns its key.  A call that throws
    has either left the inventory as it was or deleted such a product for
    such a caller, the cache failing afterwards. *)
Theorem deleteProduct_only_own_unordered onDelete orgId id w r w' :
  base w = None →
  deleteProduct onDelete orgId id w = (r, w') →
  match r with
  | Ok key =>
      deletedProduct onDelete w orgId id (db w')
      ∧ ∃ pid, Js.BigInt id = Some pid ∧ key = Js.show_Z pid
  | Err _ =>
      same_inventory (db w) (db w')
      ∨ deletedProduct onDelete w orgId id (db w')
  end.
Proof.
  intros Hb H.
  assert (same_inventory (db w) (db w)) as Hrefl by reflexivity.
  unfold deleteProduct in H. rewrite auth_ok in H.
  repeat (apply bind_inv in H as [(e & H & ->) | ([] & w0 & H0 & H)];
          [apply throw_if_Err_inv in H as (_ & _ & ->); by left |
           let Hc := fresh "Hc" in apply throw_if_Ok_inv in H0 as [Hc ->]]).
  assert (∀ r1 w1, deleteProduct_try onDelete orgId id w = (r1, w1) →
    (same_inventory (db w) (db w1) ∧ ∃ e, r1 = Err e)
    ∨ (deletedProduct onDelete w orgId id (db w1)
       ∧ match r1 with
         | Ok key => ∃ pid, Js.BigInt id = Some pid ∧ key = Js.show_Z pid
         | Err _ => True
         end)) as Htry.
  { clear H. intros r1 w1 H. unfold deleteProduct_try in H.
    apply bind_inv in H as [(e & H & ->) | (o & w0 & H0 & H)];
      [apply toBigInt_inv in H as [-> _]; left; split; [done | by eexists] |
       apply toBigInt_inv in H0 as [-> Ho]].
    apply bind_inv in H as [(e & H & ->) | ([] & w2 & H2 & H)].
    { left. split; [by apply requireRole_people in H | by eexists]. }
    pose proof (requireRole_keeps_base _ _ _ _ _ _ Hb H2) as Hb2.
    pose proof (requireRole_sound _ _ _ _ _ Hb eq_refl H2)
      as (clerk & o' & u & role & Hs & Ho' & Hu & Hperm & Hwho).
    assert (o' = o) as -> by congruence.
    apply requireRole_people in H2.
    apply bind_inv in H as [(e & H & ->) | (pid & w0 & H0 & H)];
      [apply toBigInt_inv in H as [-> _]; left; split; [done | by eexists] |
       apply toBigInt_inv in H0 as [-> Hpid]].
    apply bind_inv in H as [(e & H & ->) | (found & w3 & H3 & H)].
    { left. apply query_still in H as (Hd & _).
      split; [by rewrite Hd | by eexists]. }
    apply query_Ok_inv in H3 as [-> (Hd3 & Hb3 & _)].
    rewrite view_quiet in H by done.
    apply bind_inv in H as [(e & H & ->) | ([] & w0 & H0 & H)];
      [apply throw_if_Err_inv in H as (_ & _ & ->); left;
       split; [by rewrite Hd3 | by eexists] |
       apply throw_if_Ok_inv in H0 as [Hfound ->]].
    apply negb_false_iff, bool_decide_eq_true in Hfound as [p Hp].
    apply bind_inv in H as [(e & H & ->) | (ordered & w4 & H4 & H)].
    { left. apply query_still in H as (Hd & _).
      split; [by rewrite Hd, Hd3 | by eexists]. }
    apply query_Ok_inv in H4 as [-> (Hd4 & Hb4 & _)].
    rewrite view_quiet in H by congruence.
    apply bind_inv in H as [(e & H & ->) | ([] & w0 & H0 & H)];
      [apply throw_if_Err_inv in H as (_ & _ & ->); left;
       split; [by rewrite Hd4, Hd3 | by eexists] |
       apply throw_if_Ok_inv in H0 as [Hfree ->]].
    apply bool_decide_eq_false in Hfree.
    assert (base w4 = None) as Hb4' by congruence.
    apply bind_inv in H as [(e & H & ->) | ([] & w5 & H5 & H)].
    { left. apply (exec_checked_prisma_inv _ _ _ _ _ _ _ Hb4') in H as [_ Hd].
      split; [by rewrite Hd, Hd4, Hd3 | by eexists]. }
    apply (exec_checked_prisma_inv _ _ _ _ _ _ _ Hb4') in H5 as [Hb5 [_ Hd5]].
    assert (deletedProduct onDelete w orgId id (db w5)) as Hdel.
    { pose proof H2 as (_ & _ & _ & Hprod & _ & _ & _ & _ & Hitems).
      rewrite Hprod in Hp.
      apply find_elem in Hp as [Hin [Hp1 Hp2]%andb_true_iff].
      apply Z.eqb_eq in Hp1, Hp2.
      exists clerk, u, role, o, pid, p, (db w2). split_and!; try done.
      - intros i Hi Hipid. apply Hfree. rewrite Hd3, Hitems.
        destruct (List.find (λ i, oi_product i =? pid) (orderItems (db w)))
          eqn:Hnone; [done |]. exfalso.
        apply list_elem_of_In in Hi.
        pose proof (find_none _ _ Hnone i Hi) as Hn. cbv beta in Hn.
        by apply Z.eqb_neq in Hn.
      - by rewrite Hd5, Hd4, Hd3. }
    unfold invalidateProducts in H.
    apply bind_inv in H as [(e & H & ->) | ([] & w6 & H6 & H)].
    { right. apply io_still in H as (Hd & _). rewrite Hd. by split. }
    apply io_still in H6 as (Hd6 & _). injection H as <- <-.
    right. rewrite Hd6. split; [done | by exists pid]. }
  unfold try_catch in H.
  destruct (deleteProduct_try onDelete orgId id w) as [[key | e] w1] eqn:Hrun.
  - injection H as <- <-.
    destruct (Htry _ _ eq_refl) as [[_ [e He]] | [Hdel Hkey]]; [done | by split].
  - destruct (@deleteProduct_catch_throws string e w1) as [e' He'].
    rewrite He' in H. injection H as <- <-.
    destruct (Htry _ _ eq_refl) as [[Hsame _] | [Hdel _]]; [by left | by right].
Qed.

(** Bob deletes the Widget, in a store that only drops the product row. *)
Lemma deleteProduct_only_own_unordered_witness :
  let onDelete pid :=
    set_products (List.filter (λ p, negb (product_id p =? pid))) in
  let w := Fixture.request "clerk_bob" Tenants.both in
  let run := deleteProduct onDelete "1" "10" w in
  run.1 = Ok "10"
  ∧ deletedProduct onDelete w "1" "10" (db run.2)
  ∧ map product_id (products (db run.2)) = [11].
Proof.
  intros onDelete w run.
  assert (run.1 = Ok "10") as Hres by (vm_compute; reflexivity).
  assert (map product_id (products (db run.2)) = [11]) as Hrows
    by (vm_compute; reflexivity).
  split_and!; [exact Hres | | exact Hrows].
  pose proof (deleteProduct_only_own_unordered onDelete "1" "10" w run.1 run.2
                eq_refl (surjective_pairing _)) as H.
  rewrite Hres in H. exact (proj1 H).
Defined.
